(** * Shutdown Stream Deck plugin: countdown timer, power gateway,
      composite renderer and shutdown controller.

    A shallow embedding of
      - core/countdown-timer.ts   (Module Timer),
      - core/system-commands.ts   (Module Power),
      - core/display-renderer.ts  (Module Renderer),
      - core/shutdown-controller.ts (Module Controller),
      - actions/shutdown-master.ts and actions/shutdown-child.ts
        (Module Actions),
    followed by the properties proved about them.

    The controller is read twice. Module Controller runs every handler
    and every timer callback to its end, each awaited call answered at
    once; it serves the properties of a single call and those that no
    pending work can disturb (the registry, the settings, the commands
    the gateway starts). Module EventLoop reads the same code with its
    [await]s: a handler stops where the code awaits a call that is not
    answered yet, other events are taken in between, and every timer the
    controller has made stays on the heap with what is pending for it.
    Module Viewing opens the images the renderer hands out and reads
    them back. *)

From Stdlib Require Import ZArith List String Ascii Bool Lia PeanoNat.
From Stdlib Require Import Floats.PrimFloat Floats.SpecFloat Floats.FloatOps.
From Stdlib Require DecimalString DecimalZ DecimalPos.
From Stdlib Require Import Permutation.
Import ListNotations.

Local Open Scope Z_scope.
Local Open Scope list_scope.

(* ================================================================== *)
(** * countdown-timer.ts *)
(* ================================================================== *)

Module Timer.

(** [type CountdownState = idle | running | cancelled]. *)
Inductive CountdownState : Set := idle | running | cancelled.

Definition is_running (s : CountdownState) : bool :=
  match s with running => true | _ => false end.

(** A [NodeJS.Timeout] handle as returned by [setTimeout]. *)
Definition Handle := nat.

(** The private fields of [class CountdownTimer]. The two numbers are
    kept as integers: the code counts in binary64, which holds every
    integer of magnitude up to 2^53 and subtracts 1 exactly there
    (below, -2^53 - 1 is -2^53 again, and above, (2^53 + 2) - 1 is 2^53),
    so a statement about durations is made within that range. The
    controller only ever makes timers of 5 to 30 seconds. *)
Record CountdownTimer : Set := mkTimer {
  durationSeconds : Z;
  state : CountdownState;
  remainingSeconds : Z;
  timeout : option Handle
}.

(** [constructor(durationSeconds)]: state idle, remaining 0, no timeout. *)
Definition create (d : Z) : CountdownTimer := mkTimer d idle 0 None.

(** The integers up to which the numbers of the code count exactly. *)
Definition exactBound : Z := 2 ^ 53.

Definition getState := state.
Definition getDurationSeconds := durationSeconds.
Definition getRemainingSeconds := remainingSeconds.

(** The timer object together with the part of the JavaScript event loop
    its methods talk to: the timeouts that are scheduled (set and neither
    fired nor cleared), and the activations of its two async methods that
    are suspended at their [await]. All activations of one method share
    [this] and the same callbacks, so a count identifies them. *)
Record Machine : Set := mkMachine {
  self : CountdownTimer;
  timers : list Handle;
  nextHandle : Handle;
  ticksAwaited : nat;     (* runTick suspended at [await onTick(...)] *)
  cancelsAwaited : nat    (* cancel suspended at [await onCancel()] *)
}.

Definition boot (d : Z) : Machine := mkMachine (create d) [] 0%nat 0%nat 0%nat.

(** The callbacks the timer invokes, in the order it invokes them. *)
Inductive Call : Set :=
| onTick (remaining : Z)
| onComplete
| onCancel.

Definition with_self (t : CountdownTimer) (m : Machine) : Machine :=
  mkMachine t (timers m) (nextHandle m) (ticksAwaited m) (cancelsAwaited m).

Definition set_state (s : CountdownState) (m : Machine) : Machine :=
  with_self (mkTimer (durationSeconds (self m)) s (remainingSeconds (self m))
                     (timeout (self m))) m.

Definition set_remaining (r : Z) (m : Machine) : Machine :=
  with_self (mkTimer (durationSeconds (self m)) (state (self m)) r
                     (timeout (self m))) m.

Definition set_timeout (h : option Handle) (m : Machine) : Machine :=
  with_self (mkTimer (durationSeconds (self m)) (state (self m))
                     (remainingSeconds (self m)) h) m.

(** [clearTimeout(h)]: the callback of [h] will not run; clearing a handle
    that already fired or was cleared does nothing. *)
Definition clearTimeout (h : Handle) (m : Machine) : Machine :=
  mkMachine (self m) (List.remove Nat.eq_dec h (timers m)) (nextHandle m)
            (ticksAwaited m) (cancelsAwaited m).

(** [setTimeout(callback, 1000)]: a fresh handle, now scheduled. *)
Definition setTimeout (m : Machine) : Handle * Machine :=
  (nextHandle m,
   mkMachine (self m) (timers m ++ [nextHandle m]) (S (nextHandle m))
             (ticksAwaited m) (cancelsAwaited m)).

(** [runTick], up to its [await onTick(this.remainingSeconds)]: the callback
    is invoked with the current remaining value and the activation is
    suspended until the callback's promise settles. *)
Definition runTick (m : Machine) : Machine * list Call :=
  (mkMachine (self m) (timers m) (nextHandle m) (S (ticksAwaited m))
             (cancelsAwaited m),
   [onTick (remainingSeconds (self m))]).

(** [scheduleTick]: [void this.runTick(onTick, onComplete)]. *)
Definition scheduleTick (m : Machine) : Machine * list Call := runTick m.

(** [start(onTick, onComplete)]. *)
Definition start (m : Machine) : bool * Machine * list Call :=
  if is_running (state (self m)) then (false, m, [])
  else
    let m1 := set_state running m in
    let m2 := set_remaining (durationSeconds (self m1)) m1 in
    let (m3, calls) := scheduleTick m2 in
    (true, m3, calls).

(** [runTick] after its [await]: the state check, completion at 0, or the
    one-second timeout. *)
Definition runTick_resume (m : Machine) : Machine * list Call :=
  let m := mkMachine (self m) (timers m) (nextHandle m)
                     (Nat.pred (ticksAwaited m)) (cancelsAwaited m) in
  if negb (is_running (state (self m))) then (m, [])
  else if remainingSeconds (self m) =? 0 then
    (set_state idle (set_timeout None m), [onComplete])
  else
    let (h, m1) := setTimeout m in
    (set_timeout (Some h) m1, []).

(** The arrow function handed to [setTimeout] in [runTick]. *)
Definition timeout_callback (m : Machine) : Machine * list Call :=
  if negb (is_running (state (self m))) then (m, [])
  else scheduleTick (set_remaining (remainingSeconds (self m) - 1) m).

(** [cancel(onCancel?)], up to its [await onCancel()]. The result is the
    value the returned promise already holds, or [None] while the
    activation is suspended at the [await]. *)
Definition cancel (withCallback : bool) (m : Machine)
  : option bool * Machine * list Call :=
  if negb (is_running (state (self m))) then (Some false, m, [])
  else
    let m1 := match timeout (self m) with
              | Some h => set_timeout None (clearTimeout h m)
              | None => m
              end in
    let m2 := set_remaining 0 (set_state cancelled m1) in
    if withCallback then
      (None,
       mkMachine (self m2) (timers m2) (nextHandle m2) (ticksAwaited m2)
                 (S (cancelsAwaited m2)),
       [onCancel])
    else (Some true, set_state idle m2, []).

(** [cancel] after its [await]: [this.state = idle; return true]. *)
Definition cancel_resume (m : Machine) : bool * Machine :=
  (true,
   set_state idle
     (mkMachine (self m) (timers m) (nextHandle m) (ticksAwaited m)
                (Nat.pred (cancelsAwaited m)))).

(** [dispose()]. *)
Definition dispose (m : Machine) : Machine :=
  let m1 := match timeout (self m) with
            | Some h => set_timeout None (clearTimeout h m)
            | None => m
            end in
  set_state idle (set_remaining 0 m1).

(** What can happen to a timer: a method is called from outside, or the
    event loop resumes a suspended activation or fires a timeout. *)
Inductive Event : Set :=
| CallStart
| CallCancel (withCallback : bool)
| CallDispose
| TickSettled          (* the promise of an awaited onTick settles *)
| CancelSettled        (* the promise of an awaited onCancel settles *)
| TimeoutFired (h : Handle).

Definition is_start (e : Event) : bool :=
  match e with CallStart => true | _ => false end.

Definition mem (h : Handle) (l : list Handle) : bool :=
  existsb (Nat.eqb h) l.

(** One event; [None] when the event loop cannot deliver it (nothing is
    suspended, the timeout is not scheduled). *)
Definition step (e : Event) (m : Machine) : option (Machine * list Call) :=
  match e with
  | CallStart => let '(_, m', c) := start m in Some (m', c)
  | CallCancel cb => let '(_, m', c) := cancel cb m in Some (m', c)
  | CallDispose => Some (dispose m, [])
  | TickSettled =>
      match ticksAwaited m with
      | O => None
      | S _ => Some (runTick_resume m)
      end
  | CancelSettled =>
      match cancelsAwaited m with
      | O => None
      | S _ => Some (snd (cancel_resume m), [])
      end
  | TimeoutFired h =>
      if mem h (timers m) then Some (timeout_callback (clearTimeout h m))
      else None
  end.

Fixpoint exec (es : list Event) (m : Machine) : option (Machine * list Call) :=
  match es with
  | [] => Some (m, [])
  | e :: es' =>
      match step e m with
      | None => None
      | Some (m1, c1) =>
          match exec es' m1 with
          | None => None
          | Some (m2, c2) => Some (m2, c1 ++ c2)
          end
      end
  end.

(** The event the loop delivers next when nobody calls into the timer:
    a settled onTick first, else the scheduled timeout. *)
Definition next_event (m : Machine) : option Event :=
  match ticksAwaited m, timers m with
  | S _, _ => Some TickSettled
  | O, h :: _ => Some (TimeoutFired h)
  | O, [] => None
  end.

(** The countdown left alone for at most [fuel] events. *)
Fixpoint run (fuel : nat) (m : Machine) : Machine * list Call :=
  match fuel with
  | O => (m, [])
  | S fuel' =>
      match next_event m with
      | None => (m, [])
      | Some e =>
          match step e m with
          | None => (m, [])
          | Some (m1, c1) =>
              let (m2, c2) := run fuel' m1 in (m2, c1 ++ c2)
          end
      end
  end.

(** [d, d-1, ..., 0] for [n = d]. *)
Fixpoint countdown (n : nat) : list Z :=
  match n with
  | O => [0]
  | S k => Z.of_nat (S k) :: countdown k
  end.

End Timer.

(* ================================================================== *)
(** * JavaScript values used by the other modules *)
(* ================================================================== *)

Module JS.

Local Open Scope string_scope.

(** A JavaScript string is kept as a [string], one character for each
    code unit; the texts the plugin handles (color codes, action names,
    the messages it renders) are ASCII. *)

(** The double quote, line feed and tab characters of the templates. *)
Definition dq : string := String (ascii_of_nat 34) EmptyString.
Definition nl : string := String (ascii_of_nat 10) EmptyString.
Definition tab : string := String (ascii_of_nat 9) EmptyString.

(** An attribute value between double quotes. *)
Definition q (s : string) : string := dq ++ s ++ dq.

(** [String(n)] for a number that holds an integer: its decimal digits,
    with a leading minus sign when negative. From 1e21 on the code
    prints an exponent instead; the numbers printed here (view boxes and
    pixel sizes of keys on the grid of [Viewing.gridBound], second
    counts) stay far below. *)
Definition showZ (z : Z) : string :=
  DecimalString.NilZero.string_of_int (Z.to_int z).

(** JavaScript numbers are binary64 floats; a number known to hold an
    integer (a grid coordinate, a pixel size, a second count) is kept as
    a [Z] and converted where it meets fractional arithmetic. *)
Definition of_Z (z : Z) : float :=
  SF2Prim (binary_normalize prec emax z 0 false).

(** [Math.max(a, b)] and [Math.min(a, b)]: NaN when either is NaN, and
    -0 is smaller than +0. *)
Definition Math_max (a b : float) : float :=
  if (is_nan a || is_nan b)%bool then nan
  else if (a <? b)%float then b
  else if (b <? a)%float then a
  else if get_sign a then b else a.

Definition Math_min (a b : float) : float :=
  if (is_nan a || is_nan b)%bool then nan
  else if (a <? b)%float then a
  else if (b <? a)%float then b
  else if get_sign a then a else b.

(** [Math.PI]. *)
Definition Math_PI : float := 0x1.921fb54442d18p+1%float.

(** [a ?? b]. *)
Definition orElse {A : Type} (a : option A) (b : A) : A :=
  match a with Some x => x | None => b end.

End JS.

(* ================================================================== *)
(** * The Stream Deck SDK objects the plugin is handed *)
(* ================================================================== *)

Module SDK.

(** A [KeyAction]: what the plugin reads of it. Its methods [setImage],
    [setTitle] and [setSettings] appear as effects naming the key's id. *)
Record KeyAction : Set := mkKey {
  id : string;
  device : option string;            (* action.device?.id *)
  coordinates : option (Z * Z)       (* { column, row }, absent for some keys *)
}.

End SDK.

(* ================================================================== *)
(** * system-commands.ts *)
(* ================================================================== *)

Module Power.

Local Open Scope string_scope.

(** [type PowerAction = shutdown | restart | sleep]. *)
Inductive PowerAction : Set := shutdown | restart | sleep.

(** The string a [PowerAction] is at run time. *)
Definition actionName (a : PowerAction) : string :=
  match a with
  | shutdown => "shutdown"
  | restart => "restart"
  | sleep => "sleep"
  end.

(** What the gateway does to the outside: a line handed to its [LogFn]
    (with the error, if any) and a process started by [execFile]. *)
Inductive Effect : Set :=
| log (message : string) (error : option string)
| execFile (command : string) (args : list string).

(** The host: [process.platform] and what becomes of a started process
    ([None]: the promise of [execFileAsync] is fulfilled; [Some e]: it is
    rejected with [e]). *)
Record Host : Set := mkHost {
  platform : string;
  execOutcome : string -> list string -> option string
}.

(** An async computation run to its end: the effects it had, and the value
    its promise is fulfilled with ([inl]) or the error it is rejected with
    ([inr]). *)
Definition Async (A : Type) : Type := (list Effect * (A + string))%type.

Definition ret {A : Type} (a : A) : Async A := ([], inl a).

Definition throw {A : Type} (e : string) : Async A := ([], inr e).

Definition emit (e : Effect) : Async unit := ([e], inl tt).

(** [await m; k]: a rejection of [m] leaves the function at once. *)
Definition bind {A B : Type} (m : Async A) (k : A -> Async B) : Async B :=
  match m with
  | (es, inl a) => let (es', r) := k a in ((es ++ es')%list, r)
  | (es, inr e) => (es, inr e)
  end.

(** [try { m } catch (error) { h error }]. *)
Definition try_catch {A : Type} (m : Async A) (h : string -> Async A)
  : Async A :=
  match m with
  | (es, inl a) => (es, inl a)
  | (es, inr e) => let (es', r) := h e in ((es ++ es')%list, r)
  end.

Notation "x <- m ;; k" := (bind m (fun x => k))
  (at level 61, m at next level, right associativity).
Notation "m ;; k" := (bind m (fun _ => k))
  (at level 61, right associativity).

(** The fields of [class SystemPower]; [logger] tells whether a [LogFn]
    was given to the constructor. *)
Record SystemPower : Set := mkPower {
  logger : bool;
  armed : bool
}.

(** [constructor(log?)]: not armed. *)
Definition create (withLog : bool) : SystemPower := mkPower withLog false.

(** [this.log?.(message, error)]. *)
Definition say (p : SystemPower) (message : string) (error : option string)
  : Async unit :=
  if logger p then emit (log message error) else ret tt.

(** [setArmed(value)]. *)
Definition setArmed (value : bool) (p : SystemPower)
  : SystemPower * Async unit :=
  let p' := mkPower (logger p) value in
  (p', say p' (if value then "power armed (live mode)"
               else "power disarmed (preview mode)") None).

Definition isArmed (p : SystemPower) : bool := armed p.

Section WithHost.

Variable host : Host.

(** [execFileAsync(command, args)]. *)
Definition execFileAsync (command : string) (args : list string)
  : Async unit :=
  match execOutcome host command args with
  | None => emit (execFile command args)
  | Some e => (emit (execFile command args)) ;; throw e
  end.

(** [runCommand(command, args, label)]. *)
Definition runCommand (p : SystemPower) (command : string)
  (args : list string) (label : string) : Async unit :=
  try_catch
    (execFileAsync command args ;;
     say p (label ++ " executed") None)
    (fun error => say p (label ++ " failed") (Some error)).

(** [perform(action)]. The [default:] arm of the switch is not reachable
    for a value of type [PowerAction]. *)
Definition perform (p : SystemPower) (action : PowerAction) : Async unit :=
  if negb (armed p) then
    say p (actionName action ++ " skipped (not armed)") None
  else if negb (String.eqb (platform host) "win32") then
    say p (actionName action ++ " skipped (non-Windows)") None
  else
    match action with
    | shutdown =>
        runCommand p "shutdown" ["/s"; "/t"; "0"] "trigger shutdown"
    | restart =>
        runCommand p "shutdown" ["/r"; "/t"; "0"] "trigger restart"
    | sleep =>
        runCommand p "rundll32.exe" ["powrprof.dll,SetSuspendState"; "0,1,0"]
                   "trigger sleep"
    end.

(** [abortScheduled()]. *)
Definition abortScheduled (p : SystemPower) : Async unit :=
  if negb (armed p) then say p "abort skipped (not armed)" None
  else if negb (String.eqb (platform host) "win32") then
    say p "abort skipped (non-Windows)" None
  else runCommand p "shutdown" ["/a"] "abort shutdown".

End WithHost.

(** The external commands among some effects. *)
Definition commands (es : list Effect) : list Effect :=
  filter (fun e => match e with execFile _ _ => true | _ => false end) es.

End Power.

(* ================================================================== *)
(** * display-renderer.ts *)
(* ================================================================== *)

Module Renderer.

Import JS SDK.
Local Open Scope string_scope.
Set Warnings "-inexact-float".

Record Tile : Set := mkTile {
  action : KeyAction;
  col : Z;
  row : Z
}.

Record Layout : Set := mkLayout {
  tileSize : Z;
  minCol : Z;
  minRow : Z;
  columns : Z;
  rows : Z;
  widthPx : Z;
  heightPx : Z
}.

Record DisplayStyle : Set := mkStyle {
  accent : string;
  text : string;
  background : string;
  grid : string;
  progressBg : string;
  progressFg : string;
  style_blink : bool            (* [blink] of DisplayStyle *)
}.

Record RenderOptions : Set := mkOptions {
  accentColor : option string;
  textColor : option string;
  backgroundColor : option string;
  gridColor : option string;
  progressColor : option string;
  progressBackground : option string;
  blink : option bool;
  multiTileLayout : option bool
}.

(** [options?.field]. *)
Definition opt {A : Type} (options : option RenderOptions)
  (field : RenderOptions -> option A) : option A :=
  match options with
  | Some o => field o
  | None => None
  end.

(** [private readonly tileSize = 200]. *)
Definition this_tileSize : Z := 200.

(** [Math.min(...xs)] and [Math.max(...xs)] over integers. On an empty
    list JavaScript yields the infinities; [buildLayout] is only called
    with at least one tile, and the model yields 0 there. *)
Definition spread_min (xs : list Z) : Z :=
  match xs with
  | [] => 0
  | x :: r => fold_left Z.min r x
  end.

Definition spread_max (xs : list Z) : Z :=
  match xs with
  | [] => 0
  | x :: r => fold_left Z.max r x
  end.

(** [buildLayout(tiles)]. *)
Definition buildLayout (tiles : list Tile) : Layout :=
  let minCol := spread_min (map col tiles) in
  let maxCol := spread_max (map col tiles) in
  let minRow := spread_min (map row tiles) in
  let maxRow := spread_max (map row tiles) in
  let columns := maxCol - minCol + 1 in
  let rows := maxRow - minRow + 1 in
  let widthPx := columns * this_tileSize in
  let heightPx := rows * this_tileSize in
  mkLayout this_tileSize minCol minRow columns rows widthPx heightPx.

(** [prepareTiles(actions)]. *)
Definition prepareTiles (actions : list KeyAction) : list Tile :=
  let tiles :=
    flat_map (fun action =>
                match coordinates action with
                | None => []
                | Some (column, row) => [mkTile action column row]
                end) actions in
  match tiles, actions with
  | [], first :: _ => [mkTile first 0 0]
  | _, _ => tiles
  end.

(** [segmentsForDigit(digit)]: segments a, b, c, d, e, f, g. *)
Definition segmentsForDigit (digit : Z) : list bool :=
  match digit with
  | 1 => [false; true; true; false; false; false; false]
  | 2 => [true; true; false; true; true; false; true]
  | 3 => [true; true; true; true; false; false; true]
  | 4 => [false; true; true; false; false; true; true]
  | 5 => [true; false; true; true; false; true; true]
  | 6 => [true; false; true; true; true; true; true]
  | 7 => [true; true; true; false; false; false; false]
  | 8 => [true; true; true; true; true; true; true]
  | 9 => [true; true; true; true; false; true; true]
  | _ => [true; true; true; true; true; true; false]   (* 0, and mapping[0] *)
  end.

(** [colorForRatio(ratio)]. *)
Definition colorForRatio (ratio : float) : string :=
  if (0.66 <? ratio)%float then "#00d37f"
  else if (0.33 <? ratio)%float then "#ffb02e"
  else "#ff3b30".

(** The replacement function of [escapeXml]. *)
Definition escapeChar (char : ascii) : string :=
  if Ascii.eqb char "<" then "&lt;"
  else if Ascii.eqb char ">" then "&gt;"
  else if Ascii.eqb char "&" then "&amp;"
  else if Ascii.eqb char (ascii_of_nat 34) then "&quot;"
  else String char EmptyString.

(** [escapeXml(value)]: every less-than, greater-than, ampersand and
    double-quote character is replaced. *)
Fixpoint escapeXml (value : string) : string :=
  match value with
  | EmptyString => EmptyString
  | String char rest => escapeChar char ++ escapeXml rest
  end.

(** [Number.parseInt(char, 10)] of a single character, with
    [Number.isNaN(digit) ? 0 : digit] applied. *)
Definition parseDigit (char : ascii) : Z :=
  let n := Z.of_nat (nat_of_ascii char) in
  if ((48 <=? n) && (n <=? 57))%Z then n - 48 else 0.

(** [buildStyle(remaining, total, options)]. *)
Definition buildStyle (remaining total : Z) (options : option RenderOptions)
  : DisplayStyle :=
  let ratio :=
    if (0 <? total)%Z
    then Math_max 0 (Math_min 1 (of_Z remaining / of_Z total))
    else 0%float in
  let accent := orElse (opt options accentColor) (colorForRatio ratio) in
  let background := orElse (opt options backgroundColor) "#050910" in
  let text := orElse (opt options textColor) "#e7f0ff" in
  let blink := orElse (opt options blink) false in
  let grid :=
    orElse (opt options gridColor)
           (if blink then "rgba(255,255,255,0.24)"
            else "rgba(255,255,255,0.12)") in
  mkStyle accent text background grid
          (orElse (opt options progressBackground) "rgba(255,255,255,0.12)")
          (orElse (opt options progressColor) (colorForRatio ratio))
          blink.

(** [buildDefs(style)]. *)
Definition buildDefs (style : DisplayStyle) : string :=
  "<defs>" ++ nl ++
  tab ++ tab ++ tab ++ "<filter id=" ++ q "digit-glow" ++ " x=" ++ q "-30%"
    ++ " y=" ++ q "-30%" ++ " width=" ++ q "160%" ++ " height=" ++ q "160%"
    ++ ">" ++ nl ++
  tab ++ tab ++ tab ++ tab ++ "<feGaussianBlur stdDeviation=" ++ q "6"
    ++ " result=" ++ q "blur" ++ " />" ++ nl ++
  tab ++ tab ++ tab ++ tab ++ "<feMerge>" ++ nl ++
  tab ++ tab ++ tab ++ tab ++ tab ++ "<feMergeNode in=" ++ q "blur" ++ " />"
    ++ nl ++
  tab ++ tab ++ tab ++ tab ++ tab ++ "<feMergeNode in=" ++ q "SourceGraphic"
    ++ " />" ++ nl ++
  tab ++ tab ++ tab ++ tab ++ "</feMerge>" ++ nl ++
  tab ++ tab ++ tab ++ "</filter>" ++ nl ++
  tab ++ tab ++ "</defs>".

(** [baseBackground(layout, style)]. *)
Definition baseBackground (layout : Layout) (style : DisplayStyle) : string :=
  let vignette :=
    if style_blink style then "rgba(255,255,255,0.06)"
    else "rgba(0,0,0,0.14)" in
  "<rect x=" ++ q "0" ++ " y=" ++ q "0"
    ++ " width=" ++ q (showZ (widthPx layout))
    ++ " height=" ++ q (showZ (heightPx layout))
    ++ " fill=" ++ q (background style) ++ " />" ++ nl ++
  tab ++ tab ++ "<rect x=" ++ q "0" ++ " y=" ++ q "0"
    ++ " width=" ++ q (showZ (widthPx layout))
    ++ " height=" ++ q (showZ (heightPx layout))
    ++ " fill=" ++ q vignette ++ " />".

(** The counter values [1, ..., bound - 1] of the two loops of
    [gridLines]. *)
Definition upTo (bound : Z) : list Z :=
  map Z.of_nat (seq 1 (Z.to_nat bound - 1)).

(** [gridLines(layout, style)]. *)
Definition gridLines (layout : Layout) (style : DisplayStyle) : string :=
  let vertical :=
    map (fun c =>
           let x := c * tileSize layout in
           "<line x1=" ++ q (showZ x) ++ " y1=" ++ q "0"
             ++ " x2=" ++ q (showZ x)
             ++ " y2=" ++ q (showZ (heightPx layout))
             ++ " stroke=" ++ q (grid style)
             ++ " stroke-width=" ++ q "4" ++ " />")
        (upTo (columns layout)) in
  let horizontal :=
    map (fun r =>
           let y := r * tileSize layout in
           "<line x1=" ++ q "0" ++ " y1=" ++ q (showZ y)
             ++ " x2=" ++ q (showZ (widthPx layout))
             ++ " y2=" ++ q (showZ y)
             ++ " stroke=" ++ q (grid style)
             ++ " stroke-width=" ++ q "4" ++ " />")
        (upTo (rows layout)) in
  String.concat "" (vertical ++ horizontal)%list.

Section WithRuntime.

(** [String(x)] for a number that need not be an integer, and the
    built-in [encodeURIComponent]. *)
Variable numberToString : float -> string.
Variable encodeURIComponent : string -> string.

Local Abbreviation num := numberToString.

(** [segmentRect(x, y, width, height, radius, fill)]. *)
Definition segmentRect (x y width height radius : float) (fill : string)
  : string :=
  "<rect x=" ++ q (num x) ++ " y=" ++ q (num y)
    ++ " width=" ++ q (num width) ++ " height=" ++ q (num height)
    ++ " rx=" ++ q (num radius) ++ " ry=" ++ q (num radius)
    ++ " fill=" ++ q fill ++ " />".

(** [flags[i]] as a condition: an index past the end is falsy. *)
Definition flag (flags : list bool) (i : nat) : bool := nth i flags false.

(** [segmentSet(flags, x, y, horizontalLength, verticalLength, thickness,
    radius, fill)]. *)
Definition segmentSet (flags : list bool)
  (x y horizontalLength verticalLength thickness radius : float)
  (fill : string) : string :=
  let push (i : nat) (s : string) : list string :=
    if flag flags i then [s] else [] in
  let segments :=
    (push 0%nat (segmentRect (x + thickness) y horizontalLength thickness
                             radius fill)
     ++ push 1%nat (segmentRect (x + thickness + horizontalLength)
                                (y + thickness) thickness verticalLength
                                radius fill)
     ++ push 2%nat (segmentRect (x + thickness + horizontalLength)
                                (y + thickness * 2 + verticalLength)
                                thickness verticalLength radius fill)
     ++ push 3%nat (segmentRect (x + thickness)
                                (y + thickness * 2 + verticalLength * 2)
                                horizontalLength thickness radius fill)
     ++ push 4%nat (segmentRect x (y + thickness * 2 + verticalLength)
                                thickness verticalLength radius fill)
     ++ push 5%nat (segmentRect x (y + thickness) thickness verticalLength
                                radius fill)
     ++ push 6%nat (segmentRect (x + thickness)
                                (y + thickness + verticalLength)
                                horizontalLength thickness radius fill)
    )%list%float in
  String.concat "" segments.

(** [renderDigit(flags, x, y, width, height, style)]. *)
Definition renderDigit (flags : list bool) (x y width height : float)
  (style : DisplayStyle) : string :=
  let thickness := (Math_min width height * 0.18)%float in
  let horizontalLength := (width - thickness * 2)%float in
  let verticalLength := ((height - thickness * 3) / 2)%float in
  let radius := (thickness * 0.35)%float in
  let coreSegments :=
    segmentSet flags x y horizontalLength verticalLength thickness radius
               (accent style) in
  "<g filter=" ++ q "url(#digit-glow)" ++ ">" ++ coreSegments ++ "</g>".

(** [progressSweep(layout, style, progress)]. *)
Definition progressSweep (layout : Layout) (style : DisplayStyle)
  (progress : float) : string :=
  let clamped := Math_max 0 (Math_min 1 progress) in
  let cx := (of_Z (widthPx layout) / 2)%float in
  let cy := (of_Z (heightPx layout) / 2)%float in
  let radius :=
    (of_Z (Z.min (widthPx layout) (heightPx layout)) / 2
     - of_Z (tileSize layout) * 0.12)%float in
  let circumference := (2 * Math_PI * radius)%float in
  let dashLength := (circumference * clamped)%float in
  let strokeWidth := Math_max 8 (of_Z (tileSize layout) * 0.05)%float in
  nl ++
  tab ++ tab ++ tab ++ "<g>" ++ nl ++
  tab ++ tab ++ tab ++ tab ++ "<circle cx=" ++ q (num cx)
    ++ " cy=" ++ q (num cy) ++ " r=" ++ q (num radius)
    ++ " fill=" ++ q "none" ++ " stroke=" ++ q (progressBg style)
    ++ " stroke-width=" ++ q (num strokeWidth) ++ " />" ++ nl ++
  tab ++ tab ++ tab ++ tab ++ "<circle cx=" ++ q (num cx)
    ++ " cy=" ++ q (num cy) ++ " r=" ++ q (num radius)
    ++ " fill=" ++ q "none" ++ " stroke=" ++ q (progressFg style)
    ++ " stroke-width=" ++ q (num strokeWidth)
    ++ " stroke-linecap=" ++ q "round"
    ++ " stroke-dasharray=" ++ q (num dashLength ++ " " ++ num circumference)
    ++ " transform=" ++ q ("rotate(-90 " ++ num cx ++ " " ++ num cy ++ ")")
    ++ " />" ++ nl ++
  tab ++ tab ++ tab ++ "</g>" ++ nl ++
  tab ++ tab.

(** [digits.entries()]. *)
Definition entries {A : Type} (l : list A) : list (nat * A) :=
  combine (seq 0 (List.length l)) l.

(** [buildCountdownGraphic(remaining, layout, style, progress)]. *)
Definition buildCountdownGraphic (remaining : Z) (layout : Layout)
  (style : DisplayStyle) (progress : float) : string :=
  let digits := list_ascii_of_string (showZ remaining) in
  let count := Z.of_nat (List.length digits) in
  let baseDigitWidth := 80 in
  let baseDigitHeight := 140 in
  let gap := 20 in
  let padding := (of_Z (tileSize layout) * 0.08)%float in
  let contentWidth := count * baseDigitWidth + Z.max 0 (count - 1) * gap in
  let contentHeight := baseDigitHeight in
  let scale :=
    Math_min
      ((of_Z (widthPx layout) - padding * 2) / of_Z contentWidth)%float
      ((of_Z (heightPx layout) - padding * 2) / of_Z contentHeight)%float in
  let digitWidth := (of_Z baseDigitWidth * scale)%float in
  let digitHeight := (of_Z baseDigitHeight * scale)%float in
  let digitGap := (of_Z gap * scale)%float in
  let totalWidth :=
    (of_Z count * digitWidth + of_Z (Z.max 0 (count - 1)) * digitGap)%float in
  let startX := ((of_Z (widthPx layout) - totalWidth) / 2)%float in
  let startY := ((of_Z (heightPx layout) - digitHeight) / 2)%float in
  let segments :=
    String.concat ""
      (map (fun '(index, char) =>
              let flags := segmentsForDigit (parseDigit char) in
              let x :=
                (startX + of_Z (Z.of_nat index) * (digitWidth + digitGap))%float in
              renderDigit flags x startY digitWidth digitHeight style)
           (entries digits)) in
  let progressRing := progressSweep layout style progress in
  progressRing ++ segments.

(** [buildMessageGraphic(message, layout, style)]. *)
Definition buildMessageGraphic (message : string) (layout : Layout)
  (style : DisplayStyle) : string :=
  let safeMessage := escapeXml message in
  let isMulti := ((1 <? columns layout) || (1 <? rows layout))%Z in
  let padding :=
    if isMulti
    then Math_max (of_Z (tileSize layout) * 0.16)%float
                  (of_Z (widthPx layout) * 0.05)%float
    else (of_Z (tileSize layout) * 0.12)%float in
  let maxFontByWidth :=
    ((of_Z (widthPx layout) - padding * 2)
     / Math_max 3 (of_Z (Z.of_nat (String.length safeMessage)) * 0.62))%float in
  let maxFontByHeight := (of_Z (heightPx layout) * 0.38)%float in
  let fontSize := Math_min maxFontByWidth maxFontByHeight in
  let leftInset :=
    if isMulti
    then Math_max (of_Z (tileSize layout) * 0.08)%float
                  (of_Z (widthPx layout) * 0.032)%float
    else 0%float in
  let centerX := (of_Z (widthPx layout) / 2 - leftInset)%float in
  let centerY := (of_Z (heightPx layout) / 2 + fontSize / 3)%float in
  if (String.length safeMessage =? 0)%nat then EmptyString
  else
    "<g filter=" ++ q "url(#digit-glow)" ++ ">" ++ nl ++
    tab ++ tab ++ tab ++ "<text x=" ++ q (num centerX)
      ++ " y=" ++ q (num centerY) ++ " fill=" ++ q (text style)
      ++ " font-family=" ++ q "Segoe UI Semibold,Segoe UI,Arial"
      ++ " font-size=" ++ q (num fontSize)
      ++ " text-anchor=" ++ q "middle"
      ++ " letter-spacing=" ++ q (num (fontSize * 0.038)%float)
      ++ " dominant-baseline=" ++ q "middle" ++ ">"
      ++ safeMessage ++ "</text>" ++ nl ++
    tab ++ tab ++ "</g>".

(** [toDataUri(svg)]. *)
Definition toDataUri (svg : string) : string :=
  "data:image/svg+xml;utf8," ++ encodeURIComponent svg.

(** The locals [fullGraphic], [viewX], [viewY] and [svg] of
    [renderAcrossTiles]. *)
Definition fullGraphic (layout : Layout) (content : string)
  (style : DisplayStyle) : string :=
  let defs := buildDefs style in
  let background := baseBackground layout style in
  let grid := gridLines layout style in
  defs ++ background ++ grid ++ content.

Definition viewX (tile : Tile) (layout : Layout) : Z :=
  (col tile - minCol layout) * tileSize layout.

Definition viewY (tile : Tile) (layout : Layout) : Z :=
  (row tile - minRow layout) * tileSize layout.

Definition svg (tile : Tile) (layout : Layout) (fullGraphic : string)
  : string :=
  "<svg xmlns=" ++ q "http://www.w3.org/2000/svg"
    ++ " viewBox=" ++ q (showZ (viewX tile layout) ++ " "
                         ++ showZ (viewY tile layout) ++ " "
                         ++ showZ (tileSize layout) ++ " "
                         ++ showZ (tileSize layout))
    ++ " width=" ++ q "200" ++ " height=" ++ q "200" ++ ">"
    ++ fullGraphic ++ "</svg>".

(** [renderAcrossTiles(tiles, layout, content, style)]: the [setImage]
    calls it makes, as (key, image) pairs in call order. *)
Definition renderAcrossTiles (tiles : list Tile) (layout : Layout)
  (content : string) (style : DisplayStyle) : list (KeyAction * string) :=
  let fullGraphic := fullGraphic layout content style in
  map (fun tile =>
         let dataUri := toDataUri (svg tile layout fullGraphic) in
         (action tile, dataUri))
      tiles.

(** The local [progress] of [renderCountdown]. *)
Definition progress (remaining totalSeconds : Z) : float :=
  if (0 <? totalSeconds)%Z
  then (1 - Math_max 0 (Math_min 1 (of_Z remaining / of_Z totalSeconds)))%float
  else 1%float.

(** [renderCountdown(remaining, totalSeconds, actions, options)]. *)
Definition renderCountdown (remaining totalSeconds : Z)
  (actions : list KeyAction) (options : option RenderOptions)
  : list (KeyAction * string) :=
  let tiles := prepareTiles actions in
  if (List.length tiles =? 0)%nat then []
  else
    let useMultiTile :=
      match opt options multiTileLayout with
      | Some true => true
      | _ => false
      end && (1 <? List.length tiles)%nat in
    let style := buildStyle remaining totalSeconds options in
    let progress := progress remaining totalSeconds in
    if useMultiTile then
      let layout := buildLayout tiles in
      let content := buildCountdownGraphic remaining layout style progress in
      renderAcrossTiles tiles layout content style
    else
      flat_map (fun tile =>
                  let layout := buildLayout [tile] in
                  let content :=
                    buildCountdownGraphic remaining layout style progress in
                  renderAcrossTiles [tile] layout content style)
               tiles.

(** [renderMessage(message, actions, options)]. *)
Definition renderMessage (message : string) (actions : list KeyAction)
  (options : option RenderOptions) : list (KeyAction * string) :=
  let tiles := prepareTiles actions in
  if (List.length tiles =? 0)%nat then []
  else
    let useMultiTile := (1 <? List.length tiles)%nat in
    let style := buildStyle 1 1 options in
    if useMultiTile then
      let layout := buildLayout tiles in
      let content := buildMessageGraphic message layout style in
      renderAcrossTiles tiles layout content style
    else
      flat_map (fun tile =>
                  let layout := buildLayout [tile] in
                  let content := buildMessageGraphic message layout style in
                  renderAcrossTiles [tile] layout content style)
               tiles.

End WithRuntime.

End Renderer.

(* ================================================================== *)
(** * shutdown-controller.ts *)
(* ================================================================== *)

Module Controller.

Import JS SDK.
Local Open Scope string_scope.

(** [type ShutdownSettings]: every field optional. [countdownSeconds] is
    any JavaScript number; [powerAction] is whatever string was stored. *)
Record ShutdownSettings : Set := mkSettings {
  raw_countdownSeconds : option float;
  raw_accentColor : option string;
  raw_multiTileLayout : option bool;
  raw_armed : option bool;
  raw_powerAction : option string
}.

Inductive Role : Set := master | child.

(** [type NormalizedSettings = Required<ShutdownSettings>]; the second
    count is an integer after [clampSeconds]. *)
Record NormalizedSettings : Set := mkNormalized {
  countdownSeconds : Z;
  accentColor : string;
  multiTileLayout : bool;
  armed : bool;
  powerAction : Power.PowerAction
}.

Definition DEFAULTS : NormalizedSettings :=
  mkNormalized 10 "#00d37f" true false Power.shutdown.

(** A normalized value read again as a [ShutdownSettings]. *)
Definition asSettings (n : NormalizedSettings) : ShutdownSettings :=
  mkSettings (Some (of_Z (countdownSeconds n)))
             (Some (accentColor n))
             (Some (multiTileLayout n))
             (Some (armed n))
             (Some (Power.actionName (powerAction n))).

(** [Number.isFinite(x)]. *)
Definition Number_isFinite (x : float) : bool := is_finite x.

(** [Math.round(x)] of a finite [x], as an integer: the floor of
    [x + 1/2], computed exactly from the mantissa and exponent of [x]; a
    zero of either sign rounds to 0. [clampSeconds] passes finite numbers
    only. *)
Definition Math_round (x : float) : Z :=
  match Prim2SF x with
  | S754_finite s m e =>
      let n := if s then Z.neg m else Z.pos m in
      if (0 <=? e)%Z then n * 2 ^ e
      else (2 * n + 2 ^ (- e)) / 2 ^ (- e + 1)
  | _ => 0
  end.

(** [clampSeconds(seconds)]. *)
Definition clampSeconds (seconds : float) : Z :=
  let safe :=
    if Number_isFinite seconds then seconds
    else of_Z (countdownSeconds DEFAULTS) in
  Z.min 30 (Z.max 5 (Math_round safe)).

Definition between (lo hi : nat) (c : ascii) : bool :=
  ((lo <=? nat_of_ascii c) && (nat_of_ascii c <=? hi))%nat.

(** One character of the class [[0-9a-fA-F]]. *)
Definition isHexDigit (c : ascii) : bool :=
  between 48 57 c || between 97 102 c || between 65 70 c.

(** [/^[0-9a-fA-F]{6}$/.test(hex)]. *)
Definition isHex6 (hex : string) : bool :=
  (String.length hex =? 6)%nat
  && forallb isHexDigit (list_ascii_of_string hex).

(** [toLowerCase()] on one character; the code applies it to a number
    sign followed by six hexadecimal digits. *)
Definition lowerChar (c : ascii) : ascii :=
  if between 65 90 c then ascii_of_nat (nat_of_ascii c + 32) else c.

Fixpoint toLowerCase (s : string) : string :=
  match s with
  | EmptyString => EmptyString
  | String c r => String (lowerChar c) (toLowerCase r)
  end.

(** [normalizeColor(color)]. *)
Definition normalizeColor (color : string) : string :=
  match color with
  | EmptyString => accentColor DEFAULTS
  | String first rest =>
      let hex := if Ascii.eqb first "#" then rest else color in
      let isValid := isHex6 hex in
      if isValid then toLowerCase ("#" ++ hex) else accentColor DEFAULTS
  end.

(** [normalizePowerAction(action)]. *)
Definition normalizePowerAction (action : option string) : Power.PowerAction :=
  match action with
  | Some a =>
      if String.eqb a "restart" then Power.restart
      else if String.eqb a "sleep" then Power.sleep
      else if String.eqb a "shutdown" then Power.shutdown
      else powerAction DEFAULTS
  | None => powerAction DEFAULTS
  end.

(** [settings?.field]. *)
Definition field {A : Type} (settings : option ShutdownSettings)
  (f : ShutdownSettings -> option A) : option A :=
  match settings with
  | Some s => f s
  | None => None
  end.

(** [normalizeSettings(settings)]. *)
Definition normalizeSettings (settings : option ShutdownSettings)
  : NormalizedSettings :=
  let accent :=
    normalizeColor (orElse (field settings raw_accentColor)
                           (accentColor DEFAULTS)) in
  let seconds :=
    clampSeconds (orElse (field settings raw_countdownSeconds)
                         (of_Z (countdownSeconds DEFAULTS))) in
  mkNormalized
    seconds
    accent
    (orElse (field settings raw_multiTileLayout) (multiTileLayout DEFAULTS))
    (orElse (field settings raw_armed) (armed DEFAULTS))
    (normalizePowerAction (field settings raw_powerAction)).

Module ActionState.
(** [type ActionState]. *)
Inductive t : Set := idle | arming | armed | running | cancelled.

Definition is_running (s : t) : bool :=
  match s with running => true | _ => false end.
End ActionState.

Record ActionContext : Set := mkContext {
  ctx_id : string;
  ctx_action : KeyAction;
  role : Role;
  deviceId : string
}.

(** A JavaScript [Map] with string keys: entries in insertion order;
    [set] on a present key keeps its place. *)
Section OrderedMap.
Context {V : Type}.

Fixpoint map_get (k : string) (m : list (string * V)) : option V :=
  match m with
  | [] => None
  | (k', v) :: r => if String.eqb k k' then Some v else map_get k r
  end.

Fixpoint map_set (k : string) (v : V) (m : list (string * V))
  : list (string * V) :=
  match m with
  | [] => [(k, v)]
  | (k', v') :: r =>
      if String.eqb k k' then (k, v) :: r else (k', v') :: map_set k v r
  end.

Fixpoint map_delete (k : string) (m : list (string * V))
  : list (string * V) :=
  match m with
  | [] => []
  | (k', v') :: r =>
      if String.eqb k k' then r else (k', v') :: map_delete k r
  end.

Definition map_values (m : list (string * V)) : list V := map snd m.
End OrderedMap.

(** The calls the controller makes on its renderer and on its gateway. *)
Inductive RenderCall : Set :=
| renderCountdown (remaining total : Z) (keys : list KeyAction)
                  (options : Renderer.RenderOptions)
| renderMessage (message : string) (keys : list KeyAction)
                (options : Renderer.RenderOptions).

Inductive PowerCall : Set :=
| setArmed (value : bool)
| perform (action : Power.PowerAction)
| abortScheduled.

(** What a handler does to its collaborators, in order. [outside] is what
    the gateway and the logger do beyond the plugin. *)
Inductive Effect : Set :=
| renderer (call : RenderCall)
| setTitle (key : string) (title : string)
| setSettings (key : string) (settings : NormalizedSettings)
| gateway (call : PowerCall)
| outside (e : Power.Effect).

(** The private fields of [class ShutdownController]. *)
Record ShutdownController : Set := mkController {
  timer : Timer.Machine;
  power : Power.SystemPower;
  activeKeys : list (string * ActionContext);
  state : ActionState.t;
  blinkToggle : bool;
  sharedSettings : NormalizedSettings;
  masterContext : option string
}.

(** The field initializers. *)
Definition create : ShutdownController :=
  mkController (Timer.boot (countdownSeconds DEFAULTS)) (Power.create true)
               [] ActionState.idle false DEFAULTS None.

(** Handlers thread the controller and append to the effects. In this
    module each handler and each timer callback is run to its end before
    the next event is taken, as if every awaited tile or gateway call
    were answered at once. The code can be suspended at each [await]
    with other events taken in between (while [perform] waits for its
    command the state is still running and the timer already idle);
    those states are those of Module EventLoop, and the statements made
    here are about a single call or hold whatever is pending. *)
Definition M (A : Type) : Type :=
  ShutdownController -> A * ShutdownController * list Effect.

Definition ret {A : Type} (a : A) : M A := fun c => (a, c, []).

Definition bind {A B : Type} (m : M A) (k : A -> M B) : M B :=
  fun c =>
    let '(a, c1, e1) := m c in
    let '(b, c2, e2) := k a c1 in
    (b, c2, (e1 ++ e2)%list).

Notation "x <- m ;; k" := (bind m (fun x => k))
  (at level 61, m at next level, right associativity).
Notation "m ;; k" := (bind m (fun _ => k))
  (at level 61, right associativity).

Definition get : M ShutdownController := fun c => (c, c, []).
Definition put (c : ShutdownController) : M unit := fun _ => (tt, c, []).
Definition emit (es : list Effect) : M unit := fun c => (tt, c, es).

Definition when (b : bool) (m : M unit) : M unit := if b then m else ret tt.

Fixpoint forEach {A : Type} (l : list A) (f : A -> M unit) : M unit :=
  match l with
  | [] => ret tt
  | x :: r => f x ;; forEach r f
  end.

Definition set_timer (t : Timer.Machine) : M unit :=
  fun c => (tt, mkController t (power c) (activeKeys c) (state c)
                             (blinkToggle c) (sharedSettings c)
                             (masterContext c), []).

Definition set_power (p : Power.SystemPower) : M unit :=
  fun c => (tt, mkController (timer c) p (activeKeys c) (state c)
                             (blinkToggle c) (sharedSettings c)
                             (masterContext c), []).

Definition set_activeKeys (k : list (string * ActionContext)) : M unit :=
  fun c => (tt, mkController (timer c) (power c) k (state c)
                             (blinkToggle c) (sharedSettings c)
                             (masterContext c), []).

Definition set_state (s : ActionState.t) : M unit :=
  fun c => (tt, mkController (timer c) (power c) (activeKeys c) s
                             (blinkToggle c) (sharedSettings c)
                             (masterContext c), []).

Definition set_blinkToggle (b : bool) : M unit :=
  fun c => (tt, mkController (timer c) (power c) (activeKeys c) (state c)
                             b (sharedSettings c) (masterContext c), []).

Definition set_sharedSettings (s : NormalizedSettings) : M unit :=
  fun c => (tt, mkController (timer c) (power c) (activeKeys c) (state c)
                             (blinkToggle c) s (masterContext c), []).

Definition set_masterContext (m : option string) : M unit :=
  fun c => (tt, mkController (timer c) (power c) (activeKeys c) (state c)
                             (blinkToggle c) (sharedSettings c) m, []).

(** [getKeyAction(action)]: [None] stands for a value that is no object
    with a [setImage] function. *)
Definition getKeyAction (action : option KeyAction) : option KeyAction :=
  action.

(** [log(message, error)]. *)
Definition log (message : string) (error : option string) : M unit :=
  emit [outside (Power.log message error)].

Section WithHost.

Variable host : Power.Host.

(** A call on [this.power]: the call, then what the gateway does outside.
    The gateway's promises are always fulfilled, so nothing is thrown
    into the handler. *)
Definition power_setArmed (value : bool) : M unit :=
  c <- get ;;
  let (p, out) := Power.setArmed value (power c) in
  set_power p ;;
  emit (gateway (setArmed value) :: map outside (fst out)).

Definition power_perform (action : Power.PowerAction) : M unit :=
  c <- get ;;
  emit (gateway (perform action)
        :: map outside (fst (Power.perform host (power c) action))).

Definition power_abortScheduled : M unit :=
  c <- get ;;
  emit (gateway abortScheduled
        :: map outside (fst (Power.abortScheduled host (power c)))).

(** [getKeysPerDevice()]. *)
Definition getKeysPerDevice (c : ShutdownController) : list (list KeyAction) :=
  let buckets :=
    fold_left (fun buckets ctx =>
                 let arr := orElse (map_get (deviceId ctx) buckets) [] in
                 map_set (deviceId ctx) (arr ++ [ctx_action ctx])%list buckets)
              (map_values (activeKeys c)) [] in
  map_values buckets.

(** [trackKey(action, role)]. *)
Definition trackKey (action : KeyAction) (r : Role) : M unit :=
  c <- get ;;
  let deviceId := orElse (device action) "unknown-device" in
  set_activeKeys
    (map_set (id action) (mkContext (id action) action r deviceId)
             (activeKeys c)).

(** [untrackKey(action)]. *)
Definition untrackKey (action : KeyAction) : M unit :=
  c <- get ;;
  set_activeKeys (map_delete (id action) (activeKeys c)).

(** [totalKeyCount()]. *)
Definition totalKeyCount (c : ShutdownController) : nat :=
  List.length (activeKeys c).

(** The options object of [renderCountdownAcrossDevices]. *)
Definition countdownOptions (settings : NormalizedSettings)
  (toggle : bool) (remaining : Z) (keys : list KeyAction)
  : Renderer.RenderOptions :=
  Renderer.mkOptions
    (Some (accentColor settings)) None None None None None
    (Some (if (remaining <=? 3)%Z then toggle else false))
    (Some (multiTileLayout settings || (1 <? List.length keys)%nat)).

(** [renderCountdownAcrossDevices(remaining, settings)]. *)
Definition renderCountdownAcrossDevices (remaining : Z)
  (settings : NormalizedSettings) : M unit :=
  c <- get ;;
  let total := Timer.getDurationSeconds (Timer.self (timer c)) in
  set_blinkToggle (negb (blinkToggle c)) ;;
  c <- get ;;
  emit (map (fun keys =>
               renderer (renderCountdown remaining total keys
                           (countdownOptions settings (blinkToggle c)
                                             remaining keys)))
            (getKeysPerDevice c)).

(** The options object of [renderMessageAcrossDevices]. *)
Definition messageOptions (settings : NormalizedSettings) (blink : bool)
  (keys : list KeyAction) : Renderer.RenderOptions :=
  Renderer.mkOptions
    (Some (accentColor settings)) None None None
    (Some (accentColor settings)) None
    (Some blink)
    (Some (multiTileLayout settings || (1 <? List.length keys)%nat)).

(** [renderMessageAcrossDevices(message, settings, blink = false)]. *)
Definition renderMessageAcrossDevices (message : string)
  (settings : NormalizedSettings) (blink : bool) : M unit :=
  c <- get ;;
  emit (map (fun keys =>
               renderer (renderMessage message keys
                           (messageOptions settings blink keys)))
            (getKeysPerDevice c)).

(** [clearTitlesAcrossDevices()]. *)
Definition clearTitlesAcrossDevices : M unit :=
  c <- get ;;
  emit (flat_map (fun keys => map (fun key => setTitle (id key) "") keys)
                 (getKeysPerDevice c)).

(** [renderByState()]. *)
Definition renderByState : M unit :=
  c <- get ;;
  if ActionState.is_running (state c) then
    renderCountdownAcrossDevices
      (Timer.getRemainingSeconds (Timer.self (timer c))) (sharedSettings c) ;;
    clearTitlesAcrossDevices
  else
    let armed := armed (sharedSettings c) in
    let message :=
      if armed then "Live mode - press to start"
      else "Preview mode - press to start" in
    renderMessageAcrossDevices message (sharedSettings c) false ;;
    clearTitlesAcrossDevices.

(** [persistMasterSettings(contextId, settings)]. *)
Definition persistMasterSettings (contextId : string)
  (settings : NormalizedSettings) : M unit :=
  c <- get ;;
  match map_get contextId (activeKeys c) with
  | Some ctx => emit [setSettings (id (ctx_action ctx)) settings]
  | None => ret tt
  end.

(** [propagateSettings()]. *)
Definition propagateSettings : M unit :=
  c <- get ;;
  let childPayload := sharedSettings c in
  emit (map (fun ctx => setSettings (id (ctx_action ctx)) childPayload)
            (filter (fun ctx => match role ctx with
                                | child => true
                                | master => false
                                end)
                    (map_values (activeKeys c)))).

(** [setMaster(contextId, settings)]. *)
Definition setMaster (contextId : string) (settings : NormalizedSettings)
  : M unit :=
  set_masterContext (Some contextId) ;;
  set_sharedSettings settings ;;
  persistMasterSettings contextId settings ;;
  propagateSettings.

(** The three closures the controller hands to its timer, each run to
    its end; Module EventLoop has them with their [await]s. *)
Definition callback (call : Timer.Call) : M unit :=
  match call with
  | Timer.onTick remaining =>
      c <- get ;;
      renderCountdownAcrossDevices remaining (sharedSettings c) ;;
      clearTitlesAcrossDevices
  | Timer.onComplete =>
      c <- get ;;
      renderCountdownAcrossDevices 0 (sharedSettings c) ;;
      clearTitlesAcrossDevices ;;
      c <- get ;;
      power_perform (powerAction (sharedSettings c)) ;;
      set_state ActionState.idle ;;
      power_setArmed false
  | Timer.onCancel =>
      power_abortScheduled
  end.

(** [this.timer.start(onTick, onComplete)]. *)
Definition timer_start : M bool :=
  c <- get ;;
  let '(started, t, calls) := Timer.start (timer c) in
  set_timer t ;;
  forEach calls callback ;;
  ret started.

(** [this.timer.cancel(async () => { await this.power.abortScheduled() })],
    up to the [await] inside [cancel]. *)
Definition timer_cancel : M (option bool) :=
  c <- get ;;
  let '(result, t, calls) := Timer.cancel true (timer c) in
  set_timer t ;;
  forEach calls callback ;;
  ret result.

(** [await this.timer.cancel(...)]: the call and, when it was suspended,
    its resumption at once; Module EventLoop has the wait for the abort
    command, during which the state is still running and the timer
    cancelled. *)
Definition await_timer_cancel : M bool :=
  result <- timer_cancel ;;
  match result with
  | Some b => ret b
  | None =>
      c <- get ;;
      let (b, t) := Timer.cancel_resume (timer c) in
      set_timer t ;;
      ret b
  end.

(** [startCountdown()]. Only the timer that [new CountdownTimer] makes is
    kept here. The code keeps the replaced timer alive as long as
    something is pending for it, and it can still be running when a
    stale continuation has set the state to idle; Module EventLoop
    keeps every timer. *)
Definition startCountdown : M unit :=
  c <- get ;;
  if (totalKeyCount c =? 0)%nat then
    log "No keys available to render the countdown." None
  else
    when (negb (ActionState.is_running (state c)))
         (set_timer (Timer.boot (countdownSeconds (sharedSettings c)))) ;;
    power_setArmed (armed (sharedSettings c)) ;;
    started <- timer_start ;;
    when started (set_state ActionState.running).

(** [cancelCountdown()]. *)
Definition cancelCountdown : M unit :=
  cancelled <- await_timer_cancel ;;
  when cancelled
    (set_state ActionState.cancelled ;;
     power_setArmed false ;;
     c <- get ;;
     renderMessageAcrossDevices "Cancelled" (sharedSettings c) true ;;
     clearTitlesAcrossDevices ;;
     set_state ActionState.idle ;;
     c <- get ;;
     renderMessageAcrossDevices "Shutdown" (sharedSettings c) false ;;
     clearTitlesAcrossDevices).

(** [register(ev, role)]. *)
Definition register (action : option KeyAction)
  (settings : option ShutdownSettings) (r : Role) : M NormalizedSettings :=
  match getKeyAction action with
  | None => c <- get ;; ret (sharedSettings c)
  | Some keyAction =>
      let settings := normalizeSettings settings in
      trackKey keyAction r ;;
      match r with
      | master => setMaster (id keyAction) settings
      | child =>
          c <- get ;;
          emit [setSettings (id keyAction) (sharedSettings c)]
      end ;;
      renderByState ;;
      c <- get ;;
      ret (sharedSettings c)
  end.

(** [unregister(ev, role)]. *)
Definition unregister (action : option KeyAction) (r : Role) : M unit :=
  match getKeyAction action with
  | None => ret tt
  | Some keyAction =>
      untrackKey keyAction ;;
      c <- get ;;
      when ((totalKeyCount c =? 0)%nat && ActionState.is_running (state c))
        (timer_cancel ;;
         set_state ActionState.idle ;;
         c <- get ;;
         renderMessageAcrossDevices "Cancelled" (sharedSettings c) false ;;
         clearTitlesAcrossDevices) ;;
      c <- get ;;
      when (match r, masterContext c with
            | master, Some m => String.eqb m (id keyAction)
            | _, _ => false
            end)
        (set_masterContext None)
  end.

(** [handleSettings(ev, role)]. *)
Definition handleSettings (action : option KeyAction)
  (settings : option ShutdownSettings) (r : Role) : M unit :=
  match getKeyAction action with
  | None => ret tt
  | Some keyAction =>
      let settings := normalizeSettings settings in
      match r with
      | master => setMaster (id keyAction) settings
      | child =>
          c <- get ;;
          emit [setSettings (id keyAction) (sharedSettings c)]
      end ;;
      renderByState
  end.

(** [handleKeyDown(ev, role)]. *)
Definition handleKeyDown (action : option KeyAction)
  (settings : option ShutdownSettings) (r : Role) : M unit :=
  match getKeyAction action with
  | None => ret tt
  | Some keyAction =>
      match r with
      | master => setMaster (id keyAction) (normalizeSettings settings)
      | child => ret tt
      end ;;
      c <- get ;;
      if ActionState.is_running (state c) then cancelCountdown
      else
        power_setArmed (armed (sharedSettings c)) ;;
        startCountdown
  end.

(** What reaches the controller: the four events the two actions forward
    with their role, and the event loop resuming its timer. *)
Inductive Event : Set :=
| willAppear (action : option KeyAction) (settings : option ShutdownSettings)
             (r : Role)
| willDisappear (action : option KeyAction) (r : Role)
| didReceiveSettings (action : option KeyAction)
                     (settings : option ShutdownSettings) (r : Role)
| keyDown (action : option KeyAction) (settings : option ShutdownSettings)
          (r : Role)
| tickSettled
| cancelSettled
| timeoutFired (h : Timer.Handle).

Definition timerEvent (e : Timer.Event) (c : ShutdownController)
  : option (ShutdownController * list Effect) :=
  match Timer.step e (timer c) with
  | None => None
  | Some (t, calls) =>
      let '(_, c', es) := (set_timer t ;; forEach calls callback) c in
      Some (c', es)
  end.

(** One event; [None] when the event loop cannot deliver it. *)
Definition step (e : Event) (c : ShutdownController)
  : option (ShutdownController * list Effect) :=
  match e with
  | willAppear a s r => let '(_, c', es) := register a s r c in Some (c', es)
  | willDisappear a r => let '(_, c', es) := unregister a r c in Some (c', es)
  | didReceiveSettings a s r =>
      let '(_, c', es) := handleSettings a s r c in Some (c', es)
  | keyDown a s r => let '(_, c', es) := handleKeyDown a s r c in Some (c', es)
  | tickSettled => timerEvent Timer.TickSettled c
  | cancelSettled => timerEvent Timer.CancelSettled c
  | timeoutFired h => timerEvent (Timer.TimeoutFired h) c
  end.

Fixpoint exec (es : list Event) (c : ShutdownController)
  : option (ShutdownController * list Effect) :=
  match es with
  | [] => Some (c, [])
  | e :: es' =>
      match step e c with
      | None => None
      | Some (c1, out1) =>
          match exec es' c1 with
          | None => None
          | Some (c2, out2) => Some (c2, (out1 ++ out2)%list)
          end
      end
  end.

End WithHost.

End Controller.

(* ================================================================== *)
(** * Notions used in the statements *)
(* ================================================================== *)

Module Notions.

Import JS SDK.

(** A timer whose [onTick(n)] was just invoked, with no timeout scheduled. *)
Definition ticking (d : Z) (n : nat) (t : option Timer.Handle)
  (h : Timer.Handle) (k : nat) : Timer.Machine :=
  Timer.mkMachine (Timer.mkTimer d Timer.running (Z.of_nat n) t) [] h 1%nat k.

(** The same timer once the one-second timeout [h] is scheduled. *)
Definition waiting (d : Z) (n : nat) (h : Timer.Handle) (k : nat)
  : Timer.Machine :=
  Timer.mkMachine (Timer.mkTimer d Timer.running (Z.of_nat n) (Some h))
                  [h] (S h) 0%nat k.

(** A text in which no markup character stands for itself: it has no
    less-than, greater-than or double-quote character, and every ampersand
    opens one of the four entities. *)
Fixpoint wellEscaped (s : string) : bool :=
  match s with
  | EmptyString => true
  | String c r =>
      (if Ascii.eqb c "&"
       then String.prefix "lt;" r || String.prefix "gt;" r
            || String.prefix "amp;" r || String.prefix "quot;" r
       else negb (Ascii.eqb c "<" || Ascii.eqb c ">"
                  || Ascii.eqb c (ascii_of_nat 34)))
      && wellEscaped r
  end.

(** Reading the four entities back. *)
Fixpoint unescapeXml (s : string) : string :=
  match s with
  | EmptyString => EmptyString
  | String c r =>
      if Ascii.eqb c "&" then
        match r with
        | String "l" (String "t" (String ";" r')) =>
            String "<" (unescapeXml r')
        | String "g" (String "t" (String ";" r')) =>
            String ">" (unescapeXml r')
        | String "a" (String "m" (String "p" (String ";" r'))) =>
            String "&" (unescapeXml r')
        | String "q" (String "u" (String "o" (String "t" (String ";" r')))) =>
            String (ascii_of_nat 34) (unescapeXml r')
        | _ => String c (unescapeXml r)
        end
      else String c (unescapeXml r)
  end.

(** The window a tile is given of the canvas: the square of side
    [tileSize] at ([viewX], [viewY]). *)
Section Windows.

(** The window of [tile] holds the canvas point (x, y). *)
Definition shows (tile : Renderer.Tile) (layout : Renderer.Layout)
  (x y : Z) : bool :=
  (Renderer.viewX tile layout <=? x)
  && (x <? Renderer.viewX tile layout + Renderer.tileSize layout)
  && (Renderer.viewY tile layout <=? y)
  && (y <? Renderer.viewY tile layout + Renderer.tileSize layout).

End Windows.

(** The render functions are read with the two built-ins they use. *)
Section Canvases.

Variable numberToString : float -> string.
Variable encodeURIComponent : string -> string.

(** The canvas of a countdown: a function of the value, the layout and
    the style. *)
Definition countdownCanvas (remaining totalSeconds : Z)
  (layout : Renderer.Layout) (style : Renderer.DisplayStyle) : string :=
  Renderer.fullGraphic layout
    (Renderer.buildCountdownGraphic numberToString remaining layout style
                                    (Renderer.progress remaining totalSeconds))
    style.

(** The canvas of a message. *)
Definition messageCanvas (message : string) (layout : Renderer.Layout)
  (style : Renderer.DisplayStyle) : string :=
  Renderer.fullGraphic layout
    (Renderer.buildMessageGraphic numberToString message layout style)
    style.

(** One key's image: the canvas seen through the key's window. *)
Definition slice (layout : Renderer.Layout) (canvas : string)
  (tile : Renderer.Tile) : KeyAction * string :=
  (Renderer.action tile,
   Renderer.toDataUri encodeURIComponent (Renderer.svg tile layout canvas)).

End Canvases.

(** The key has coordinates. *)
Definition placed (key : KeyAction) : bool :=
  match coordinates key with Some _ => true | None => false end.

(** The words of the specification on when one shared canvas is used:
    more than one tile with coordinates is present, and the multi-tile
    setting is on or the call supplies more than one tile. *)
Definition compositing (setting : bool) (keys : list KeyAction) : bool :=
  (1 <? List.length (filter placed keys))%nat
  && (setting || (1 <? List.length keys)%nat).

(** The calls of [abortScheduled] among some effects. *)
Definition abortCalls (es : list Controller.Effect) : nat :=
  List.length
    (filter (fun e => match e with
                      | Controller.gateway Controller.abortScheduled => true
                      | _ => false
                      end) es).

(** The messages handed to [renderMessage] among some effects. *)
Definition messages (es : list Controller.Effect) : list string :=
  flat_map (fun e => match e with
                     | Controller.renderer (Controller.renderMessage m _ _) =>
                         [m]
                     | _ => []
                     end) es.

(** A host, a key and a run used where a statement is tried on an
    input: Windows with commands that succeed, one master key at the
    origin of a deck, which appears and is pressed once. *)
Definition demoHost : Power.Host :=
  Power.mkHost "win32"%string (fun _ _ => None).

Definition demoKey : KeyAction :=
  mkKey "key-1"%string (Some "deck-1"%string) (Some (0, 0)).

Definition demoEvents : list Controller.Event :=
  [Controller.willAppear (Some demoKey) None Controller.master;
   Controller.keyDown (Some demoKey) None Controller.master].

Definition demoRunning : Controller.ShutdownController :=
  Eval vm_compute in
    match Controller.exec demoHost demoEvents Controller.create with
    | Some (c, _) => c
    | None => Controller.create
    end.

Definition demoOutput : list Controller.Effect :=
  Eval vm_compute in
    match Controller.exec demoHost demoEvents Controller.create with
    | Some (_, out) => out
    | None => []
    end.

End Notions.

(* ================================================================== *)
(** * actions/shutdown-master.ts and actions/shutdown-child.ts *)
(* ================================================================== *)

Module Actions.

(** The four events the Stream Deck hands to a [SingletonAction], with
    what the plugin reads of them: [ev.action] and
    [ev.payload.settings]. *)
Inductive SdkEvent : Set :=
| onWillAppear (action : option SDK.KeyAction)
               (settings : option Controller.ShutdownSettings)
| onDidReceiveSettings (action : option SDK.KeyAction)
                       (settings : option Controller.ShutdownSettings)
| onWillDisappear (action : option SDK.KeyAction)
| onKeyDown (action : option SDK.KeyAction)
            (settings : option Controller.ShutdownSettings).

(** Both classes forward each event to the controller with their role. *)
Definition forward (r : Controller.Role) (ev : SdkEvent) : Controller.Event :=
  match ev with
  | onWillAppear a s => Controller.willAppear a s r
  | onDidReceiveSettings a s => Controller.didReceiveSettings a s r
  | onWillDisappear a => Controller.willDisappear a r
  | onKeyDown a s => Controller.keyDown a s r
  end.

(** The same event with another settings payload. *)
Definition withSettings (s : option Controller.ShutdownSettings)
  (ev : SdkEvent) : SdkEvent :=
  match ev with
  | onWillAppear a _ => onWillAppear a s
  | onDidReceiveSettings a _ => onDidReceiveSettings a s
  | onWillDisappear a => onWillDisappear a
  | onKeyDown a _ => onKeyDown a s
  end.

(** [class ShutdownMasterAction] and [class ShutdownChildAction]. *)
Definition ShutdownMasterAction : SdkEvent -> Controller.Event :=
  forward Controller.master.

Definition ShutdownChildAction : SdkEvent -> Controller.Event :=
  forward Controller.child.

End Actions.

(* ================================================================== *)
(** * Further notions *)
(* ================================================================== *)

Module Observing.

Import JS SDK.

(** A running timer whose [onTick(r)] was just invoked. *)
Definition awaitingTick (d r : Z) (t : option Timer.Handle)
  (h : Timer.Handle) (k : nat) : Timer.Machine :=
  Timer.mkMachine (Timer.mkTimer d Timer.running r t) [] h 1%nat k.

(** A running timer with the timeout [h] scheduled. *)
Definition awaitingTimeout (d r : Z) (h : Timer.Handle) (k : nat)
  : Timer.Machine :=
  Timer.mkMachine (Timer.mkTimer d Timer.running r (Some h)) [h] (S h)
                  0%nat k.

(** The values handed to [onTick] among some calls. *)
Definition ticks (calls : list Timer.Call) : list Z :=
  flat_map (fun c => match c with Timer.onTick r => [r] | _ => [] end) calls.

(** The external commands started among the effects of the controller. *)
Definition execCommands (es : list Controller.Effect) : list Power.Effect :=
  flat_map (fun e => match e with
                     | Controller.outside (Power.execFile c a) =>
                         [Power.execFile c a]
                     | _ => []
                     end) es.

(** A property of the controller to be kept by every handler, with a
    property of the effects it may have that holds of no effect and of
    effects put one after the other. *)
Record Policy : Type := mkPolicy {
  holds : Controller.ShutdownController -> Prop;
  allowed : list Controller.Effect -> Prop;
  allowed_nil : allowed [];
  allowed_app : forall a b, allowed a -> allowed b -> allowed (a ++ b)
}.

(** Run from [c], the computation [m] ends in a controller for which the
    policy holds and has had allowed effects only. *)
Definition keeps_at (P : Policy) {A : Type}
  (c : Controller.ShutdownController) (m : Controller.M A) : Prop :=
  holds P (snd (fst (m c))) /\ allowed P (snd (m c)).

(** The event leaves the settings unarmed: it comes from a child, or
    from the master with settings that normalize to not armed. *)
Definition previewOnly (e : Controller.Event) : bool :=
  match e with
  | Controller.willAppear _ s Controller.master
  | Controller.didReceiveSettings _ s Controller.master
  | Controller.keyDown _ s Controller.master =>
      negb (Controller.armed (Controller.normalizeSettings s))
  | _ => true
  end.

(** The device a key is filed under. *)
Definition deviceOf (key : KeyAction) : string :=
  orElse (device key) "unknown-device"%string.

(** The registry holds every identifier once, each with the context
    [trackKey] builds for its key. *)
Definition wellTracked (c : Controller.ShutdownController) : Prop :=
  NoDup (map fst (Controller.activeKeys c)) /\
  Forall (fun entry : string * Controller.ActionContext =>
            (fst entry = id (Controller.ctx_action (snd entry))) /\
            (Controller.ctx_id (snd entry) = fst entry) /\
            (Controller.deviceId (snd entry)
             = deviceOf (Controller.ctx_action (snd entry))))
         (Controller.activeKeys c).

(** What each event does to the registry. *)
Definition registryAfter (e : Controller.Event)
  (keys : list (string * Controller.ActionContext))
  : list (string * Controller.ActionContext) :=
  match e with
  | Controller.willAppear (Some k) _ r =>
      Controller.map_set (id k) (Controller.mkContext (id k) k r (deviceOf k))
                         keys
  | Controller.willDisappear (Some k) _ => Controller.map_delete (id k) keys
  | _ => keys
  end.

(** The keys the controller tracks, in the order of the registry. *)
Definition trackedKeys (c : Controller.ShutdownController)
  : list KeyAction :=
  map Controller.ctx_action (Controller.map_values (Controller.activeKeys c)).

(** The values of the countdown frames among some effects, one for each
    call of [renderCountdown]. *)
Definition countdownValues (es : list Controller.Effect) : list Z :=
  flat_map (fun e => match e with
                     | Controller.renderer
                         (Controller.renderCountdown remaining _ _ _) =>
                         [remaining]
                     | _ => []
                     end) es.

(** The actions handed to [perform] among some effects. *)
Definition performed (es : list Controller.Effect) : list Power.PowerAction :=
  flat_map (fun e => match e with
                     | Controller.gateway (Controller.perform action) =>
                         [action]
                     | _ => []
                     end) es.

(** The command [perform] starts for an action. *)
Definition commandOf (action : Power.PowerAction) : Power.Effect :=
  match action with
  | Power.shutdown =>
      Power.execFile "shutdown" ["/s"; "/t"; "0"]%string
  | Power.restart =>
      Power.execFile "shutdown" ["/r"; "/t"; "0"]%string
  | Power.sleep =>
      Power.execFile "rundll32.exe"
                     ["powrprof.dll,SetSuspendState"; "0,1,0"]%string
  end.

(** The groups [getKeysPerDevice] makes of a registry. *)
Definition groupsOf (keys : list (string * Controller.ActionContext))
  : list (list KeyAction) :=
  Controller.getKeysPerDevice
    (Controller.mkController (Timer.boot 0) (Power.create true) keys
                             Controller.ActionState.idle false
                             Controller.DEFAULTS None).

(** The frames after the one for [n]: [n - 1, ..., 0], and 0 once more
    on completion. *)
Fixpoint framesAfter (n : nat) : list Z :=
  match n with
  | O => [0]
  | S k => Z.of_nat k :: framesAfter k
  end.

(** The master key has appeared and nothing else has happened. *)
Definition appearEvents : list Controller.Event :=
  [Controller.willAppear (Some Notions.demoKey) None Controller.master].

Definition appeared
  : Controller.ShutdownController * list Controller.Effect :=
  Eval vm_compute in
    match Controller.exec Notions.demoHost appearEvents Controller.create with
    | Some r => r
    | None => (Controller.create, [])
    end.

(** The key and the settings payload of an event that carries both. *)
Definition carries (ev : Actions.SdkEvent)
  : option (KeyAction * option Controller.ShutdownSettings) :=
  match ev with
  | Actions.onWillAppear (Some k) s
  | Actions.onDidReceiveSettings (Some k) s
  | Actions.onKeyDown (Some k) s => Some (k, s)
  | _ => None
  end.

(** A second key, beside the first, that has appeared as a child. *)
Definition childKey : KeyAction :=
  mkKey "key-2"%string (Some "deck-1"%string) (Some (1, 0)).

Definition withChild : Controller.ShutdownController :=
  Eval vm_compute in
    match Controller.step Notions.demoHost
            (Controller.willAppear (Some childKey) None Controller.child)
            Controller.create with
    | Some (c, _) => c
    | None => Controller.create
    end.

(** The event is forwarded by the master action. *)
Definition fromMaster (e : Controller.Event) : bool :=
  match e with
  | Controller.willAppear _ _ Controller.master
  | Controller.willDisappear _ Controller.master
  | Controller.didReceiveSettings _ _ Controller.master
  | Controller.keyDown _ _ Controller.master => true
  | _ => false
  end.

(** A host that is not Windows, master settings that are armed, and a
    run in which the master key appears armed, is pressed, and is pressed
    again while the countdown runs. *)
Definition macHost : Power.Host :=
  Power.mkHost "darwin"%string (fun _ _ => None).

Definition liveSettings : Controller.ShutdownSettings :=
  Controller.mkSettings (Some 5%float) None None (Some true) None.

Definition liveEvents : list Controller.Event :=
  [Controller.willAppear (Some Notions.demoKey) (Some liveSettings)
                         Controller.master;
   Controller.keyDown (Some Notions.demoKey) (Some liveSettings)
                      Controller.master;
   Controller.tickSettled;
   Controller.keyDown (Some Notions.demoKey) (Some liveSettings)
                      Controller.master].

(** A child key of its own: it appears, is pressed, the first frame
    settles, and it is pressed again. *)
Definition childEvents : list Controller.Event :=
  [Controller.willAppear (Some Notions.demoKey) (Some liveSettings)
                         Controller.child;
   Controller.keyDown (Some Notions.demoKey) (Some liveSettings)
                      Controller.child;
   Controller.tickSettled;
   Controller.keyDown (Some Notions.demoKey) None Controller.child].

Definition macOutcome
  : Controller.ShutdownController * list Controller.Effect :=
  Eval vm_compute in
    match Controller.exec macHost liveEvents Controller.create with
    | Some r => r
    | None => (Controller.create, [])
    end.

(** The key moved by [dc] columns and [dr] rows, where it has
    coordinates. *)
Definition moveKey (dc dr : Z) (key : KeyAction) : KeyAction :=
  mkKey (id key) (device key)
        (match coordinates key with
         | Some (c, r) => Some (c + dc, r + dr)
         | None => None
         end).

(** The [n] cells from [lo] on. *)
Definition cells (lo n : Z) : list Z :=
  map (fun i => lo + Z.of_nat i) (seq 0 (Z.to_nat n)).

(** Every cell of the bounding rectangle of the tiles holds a tile. *)
Definition gridFilled (tiles : list Renderer.Tile) : bool :=
  let layout := Renderer.buildLayout tiles in
  forallb
    (fun c =>
       forallb
         (fun r =>
            existsb (fun t => (Renderer.col t =? c) && (Renderer.row t =? r))
                    tiles)
         (cells (Renderer.minRow layout) (Renderer.rows layout)))
    (cells (Renderer.minCol layout) (Renderer.columns layout)).

(** The three-stop ramp in exact arithmetic: green above 66 percent of
    the total, amber above 33 percent, else red. *)
Definition ramp (remaining total : Z) : string :=
  if 66 * total <? 100 * remaining then "#00d37f"%string
  else if 33 * total <? 100 * remaining then "#ffb02e"%string
  else "#ff3b30"%string.

(** One of the four characters [escapeXml] replaces. *)
Definition isMarkup (c : ascii) : bool :=
  Ascii.eqb c "<" || Ascii.eqb c ">" || Ascii.eqb c "&"
  || Ascii.eqb c (ascii_of_nat 34).

(** A number sign followed by six hexadecimal digits, none in upper
    case. *)
Definition wellFormedColor (s : string) : bool :=
  match s with
  | String first hex =>
      Ascii.eqb first "#" && Controller.isHex6 hex
      && String.eqb (Controller.toLowerCase hex) hex
  | EmptyString => false
  end.

End Observing.

(* ================================================================== *)
(** * How a delivered image is seen *)
(* ================================================================== *)

Module Viewing.

Import JS SDK.
Local Open Scope string_scope.

(** The built-in [encodeURIComponent] on a string of code units below
    256: the unreserved characters stand for themselves, every other code
    unit is written as the percent-escapes of its UTF-8 bytes, one byte
    below 128 and two bytes from 128 on. *)
Definition unreserved (c : ascii) : bool :=
  Controller.between 65 90 c || Controller.between 97 122 c
  || Controller.between 48 57 c
  || existsb (Ascii.eqb c) (list_ascii_of_string "-_.!~*'()").

Definition hexDigit (n : nat) : ascii :=
  nth n (list_ascii_of_string "0123456789ABCDEF") "0"%char.

Definition percent (byte : nat) : string :=
  String "%" (String (hexDigit (byte / 16)) (String (hexDigit (byte mod 16))
                                                    EmptyString)).

Definition encodeUnit (c : ascii) : string :=
  let n := nat_of_ascii c in
  if unreserved c then String c EmptyString
  else if (n <? 128)%nat then percent n
  else percent (192 + n / 64) ++ percent (128 + n mod 64).

Fixpoint encodeURIComponent (s : string) : string :=
  match s with
  | EmptyString => EmptyString
  | String c r => encodeUnit c ++ encodeURIComponent r
  end.

(** The value of a hexadecimal digit. *)
Definition hexValue (c : ascii) : option nat :=
  let n := nat_of_ascii c in
  if Controller.between 48 57 c then Some (n - 48)%nat
  else if Controller.between 65 70 c then Some (n - 55)%nat
  else if Controller.between 97 102 c then Some (n - 87)%nat
  else None.

Definition byteOf (a b : ascii) : option nat :=
  match hexValue a, hexValue b with
  | Some x, Some y => Some (16 * x + y)%nat
  | _, _ => None
  end.

(** The built-in [decodeURIComponent] on the escapes of one and of two
    bytes. An escape that is malformed, on which JavaScript throws, is
    left as it stands. *)
Fixpoint decodeURIComponent (s : string) : string :=
  match s with
  | EmptyString => EmptyString
  | String c rest =>
      let asItStands := String c (decodeURIComponent rest) in
      if negb (Ascii.eqb c "%") then asItStands
      else
        match rest with
        | String a (String b r) =>
            match byteOf a b with
            | Some byte =>
                if (byte <? 128)%nat then
                  String (ascii_of_nat byte) (decodeURIComponent r)
                else
                  match r with
                  | String p (String c' (String d r')) =>
                      match byteOf c' d with
                      | Some next =>
                          if Ascii.eqb p "%" then
                            String (ascii_of_nat ((byte - 192) * 64
                                                  + (next - 128)))
                                   (decodeURIComponent r')
                          else asItStands
                      | None => asItStands
                      end
                  | _ => asItStands
                  end
            | None => asItStands
            end
        | _ => asItStands
        end
  end.

(** [s.startsWith(p) ? s.slice(p.length) : undefined]. *)
Fixpoint stripPrefix (p s : string) : option string :=
  match p, s with
  | EmptyString, _ => Some s
  | String a p', String b s' =>
      if Ascii.eqb a b then stripPrefix p' s' else None
  | String _ _, EmptyString => None
  end.

(** [s.endsWith(p) ? s.slice(0, -p.length) : undefined]. *)
Fixpoint stripSuffix (p s : string) : option string :=
  if String.eqb s p then Some EmptyString
  else
    match s with
    | EmptyString => None
    | String c r => option_map (String c) (stripSuffix p r)
    end.

(** The text before the first [sep] and the text after it. *)
Fixpoint cut (sep : ascii) (s : string) : option (string * string) :=
  match s with
  | EmptyString => None
  | String c r =>
      if Ascii.eqb c sep then Some (EmptyString, r)
      else option_map (fun '(a, b) => (String c a, b)) (cut sep r)
  end.

(** A decimal integer read back. *)
Definition parseZ (s : string) : option Z :=
  option_map Z.of_int (DecimalString.NilZero.int_of_string s).

(** What an image says: the window its viewBox names and the graphic
    inside the [svg] element. *)
Record Picture : Set := mkPicture {
  boxX : Z;
  boxY : Z;
  boxWidth : Z;
  boxHeight : Z;
  graphic : string
}.

Definition bindOption {A B : Type} (m : option A) (k : A -> option B)
  : option B :=
  match m with
  | Some a => k a
  | None => None
  end.

Notation "x <- m ;; k" := (bindOption m (fun x => k))
  (at level 61, m at next level, right associativity).
Notation "' p <- m ;; k" := (bindOption m (fun x => let 'p := x in k))
  (at level 61, p pattern, m at next level, right associativity).

(** The opening tag of an [svg] element of 200 by 200, before and after
    the value of its viewBox. *)
Definition svgOpen : string :=
  "<svg xmlns=" ++ q "http://www.w3.org/2000/svg" ++ " viewBox=" ++ dq.

Definition svgSize : string :=
  " width=" ++ q "200" ++ " height=" ++ q "200" ++ ">".

(** An [svg] document of 200 by 200 with a viewBox, read. *)
Definition readSvg (document : string) : option Picture :=
  rest <- stripPrefix svgOpen document ;;
  '(box, rest) <- cut (ascii_of_nat 34) rest ;;
  rest <- stripPrefix svgSize rest ;;
  inside <- stripSuffix "</svg>" rest ;;
  '(x, box) <- cut " " box ;;
  '(y, box) <- cut " " box ;;
  '(w, h) <- cut " " box ;;
  x <- parseZ x ;;
  y <- parseZ y ;;
  w <- parseZ w ;;
  h <- parseZ h ;;
  Some (mkPicture x y w h inside).

Section Seeing.

Variable decodeURIComponent' : string -> string.

(** The image a key was handed, read: the data URI is opened and its
    document decoded and read. *)
Definition readImage (image : string) : option Picture :=
  encoded <- stripPrefix "data:image/svg+xml;utf8," image ;;
  readSvg (decodeURIComponent' encoded).

Variable Colour : Type.

(** [paint g x y] is the colour of the graphic [g] at the point (x, y)
    of its own coordinates. *)
Variable paint : string -> Z -> Z -> Colour.

(** What a key shows at the point (i, j) of its face, measured in the
    200 by 200 units of the image: an image whose viewBox is 200 by 200
    is shown at scale one, so the point is (boxX + i, boxY + j) of the
    graphic. *)
Definition keyShows (image : string) (i j : Z) : option Colour :=
  picture <- readImage image ;;
  if ((boxWidth picture =? 200) && (boxHeight picture =? 200)
      && (0 <=? i) && (i <? 200) && (0 <=? j) && (j <? 200))%Z
  then Some (paint (graphic picture) (boxX picture + i) (boxY picture + j))
  else None.

(** The keys that were handed an image, where they sit on the deck. *)
Definition located (delivered : list (KeyAction * string))
  : list (Z * Z * string) :=
  flat_map (fun '(key, image) =>
              match coordinates key with
              | Some (column, row) => [(column, row, image)]
              | None => []
              end) delivered.

(** What the deck shows at the point (x, y), measured in the same units
    from the top left corner of the leftmost column and topmost row that
    hold a key: the point lies on the key at column [left + x / 200] and
    row [top + y / 200], at (x mod 200, y mod 200) of its face; where no
    key sits nothing is shown. *)
Definition deckShows (delivered : list (KeyAction * string)) (x y : Z)
  : option Colour :=
  let keys := located delivered in
  let left := Renderer.spread_min (map (fun k => fst (fst k)) keys) in
  let top := Renderer.spread_min (map (fun k => snd (fst k)) keys) in
  match find (fun k => ((fst (fst k) =? left + x / 200)
                        && (snd (fst k) =? top + y / 200))%Z) keys with
  | Some (_, _, image) => keyShows image (x mod 200) (y mod 200)
  | None => None
  end.

End Seeing.

(** The coordinates on which the integers of the model are the numbers of
    the code: binary64 holds every integer up to 2^53 and computes sums,
    differences and products exactly while they stay below it. With
    columns and rows of magnitude at most 2^40, every number a layout
    computes, up to the pixel sizes (max - min + 1) * 200, stays below
    2^53. *)
Definition gridBound : Z := 2 ^ 40.

Definition onGrid (column row : Z) : bool :=
  ((Z.abs column <=? gridBound) && (Z.abs row <=? gridBound))%Z.

Definition keyOnGrid (key : KeyAction) : bool :=
  match coordinates key with
  | Some (column, row) => onGrid column row
  | None => true
  end.

Definition tileOnGrid (tile : Renderer.Tile) : bool :=
  onGrid (Renderer.col tile) (Renderer.row tile).

(** The text holds no [sep]: [cut] takes it off whole. *)
Fixpoint lacks (sep : ascii) (s : string) : Prop :=
  match s with
  | EmptyString => True
  | String c r => c <> sep /\ lacks sep r
  end.

(** The picture a tile of a layout is to show of a canvas. *)
Definition window (layout : Renderer.Layout) (canvas : string)
  (tile : Renderer.Tile) : KeyAction * option Picture :=
  (Renderer.action tile,
   Some (mkPicture ((Renderer.col tile - Renderer.minCol layout) * 200)
                   ((Renderer.row tile - Renderer.minRow layout) * 200)
                   200 200 canvas)).

(** The images of a render, read. *)
Definition read (decode : string -> string)
  (delivered : list (KeyAction * string)) : list (KeyAction * option Picture) :=
  map (fun '(key, image) => (key, readImage decode image)) delivered.

End Viewing.

(* ================================================================== *)
(** * The controller, its timers and its gateway on the event loop *)
(* ================================================================== *)

(** [Module Controller] runs every handler and every timer callback to
    its end. Here the same functions are read with their [await]s: a
    function that awaits a promise that is still pending is suspended,
    other events are taken, and the function goes on when the event loop
    comes back to it. Every [CountdownTimer] the controller has made is
    kept, since what is pending for a replaced timer still runs. *)
Module EventLoop.

Import JS SDK.
Local Open Scope string_scope.

Local Abbreviation NormalizedSettings := Controller.NormalizedSettings.
Local Abbreviation ActionContext := Controller.ActionContext.
Local Abbreviation Effect := Controller.Effect.
Local Abbreviation Role := Controller.Role.

(** A reference to a [CountdownTimer] object: its place among the timers
    made so far. *)
Definition Ref := nat.

(** What an [await] hands to the function that waited. *)
Inductive Value : Set :=
| undefined
| boolean (b : bool).

(** What a suspended activation waits for: the promises of the [setImage]
    or [setTitle] calls of a render, the promise of [execFileAsync], or a
    timeout set with [setTimeout]. *)
Inductive Wait : Set :=
| tiles
| process
| timeout (h : Timer.Handle).

(** The places where a function is suspended with code left to run: the
    function and the call it awaits. [timeout_callback] is the arrow
    function handed to [setTimeout] in [runTick]. An [await] that ends its
    function has no place here. *)
Inductive Frame : Set :=
(* countdown-timer.ts *)
| runTick_onTick (t : Ref)
| cancel_onCancel (t : Ref)
| timeout_callback (t : Ref)
(* system-commands.ts *)
| runCommand_execFile (command : string) (args : list string) (label : string)
(* shutdown-controller.ts: the closures given to [start] *)
| onTick_render
| onComplete_render
| onComplete_clearTitles
| onComplete_perform
(* shutdown-controller.ts: cancelCountdown and renderByState *)
| cancelCountdown_cancel
| cancelCountdown_cancelled
| cancelCountdown_clearTitles
| cancelCountdown_shutdown
| renderByState_render.

(** A suspended activation: what it waits for and the functions waiting,
    the innermost first. *)
Record Task : Set := mkTask {
  waits : Wait;
  stack : list Frame
}.

(** The private fields of [class ShutdownController], with [timer] a
    reference, the timers made so far, and the event loop: the suspended
    activations and the timeouts that are set, in the order they were
    suspended or set. *)
Record Plugin : Set := mkPlugin {
  timer : Ref;
  power : Power.SystemPower;
  activeKeys : list (string * ActionContext);
  state : Controller.ActionState.t;
  blinkToggle : bool;
  sharedSettings : NormalizedSettings;
  masterContext : option string;
  timers : list Timer.CountdownTimer;
  pool : list Task;
  nextHandle : Timer.Handle
}.

(** The field initializers. *)
Definition create : Plugin :=
  mkPlugin 0%nat (Power.create true) [] Controller.ActionState.idle false
           Controller.DEFAULTS None
           [Timer.create (Controller.countdownSeconds Controller.DEFAULTS)]
           [] 0%nat.

(** A call either returns or is suspended at an [await]. *)
Inductive Result (A : Type) : Type :=
| returned (a : A)
| suspended (w : Wait) (frames : list Frame).

Arguments returned {A} a.
Arguments suspended {A} w frames.

Definition M (A : Type) : Type := Plugin -> Result A * Plugin * list Effect.

Definition ret {A : Type} (a : A) : M A := fun c => (returned a, c, []).

(** Sequencing of code that runs without interruption. *)
Definition bind {A B : Type} (m : M A) (k : A -> M B) : M B :=
  fun c =>
    match m c with
    | (returned a, c1, e1) =>
        let '(r, c2, e2) := k a c1 in (r, c2, (e1 ++ e2)%list)
    | (suspended w frames, c1, e1) => (suspended w frames, c1, e1)
    end.

Notation "x <- m ;; k" := (bind m (fun x => k))
  (at level 61, m at next level, right associativity).
Notation "m ;; k" := (bind m (fun _ => k))
  (at level 61, right associativity).

Definition get : M Plugin := fun c => (returned c, c, []).
Definition emit (es : list Effect) : M unit := fun c => (returned tt, c, es).
Definition when (b : bool) (m : M unit) : M unit := if b then m else ret tt.

(** A promise that is pending: the caller is suspended. *)
Definition pending {A : Type} (w : Wait) : M A :=
  fun c => (suspended w [], c, []).

(** [const v = await m; k v], with [frame] the place of this [await]:
    when [m] returns, the function goes on at once; when [m] is
    suspended, so is the function, at [frame]. *)
Definition await (m : M Value) (frame : Frame) (k : Value -> M Value)
  : M Value :=
  fun c =>
    match m c with
    | (returned v, c1, e1) =>
        let '(r, c2, e2) := k v c1 in (r, c2, (e1 ++ e2)%list)
    | (suspended w frames, c1, e1) =>
        (suspended w (frames ++ [frame])%list, c1, e1)
    end.

Definition set_timer (t : Ref) : M unit :=
  fun c => (returned tt,
            mkPlugin t (power c) (activeKeys c) (state c) (blinkToggle c)
                     (sharedSettings c) (masterContext c) (timers c)
                     (pool c) (nextHandle c), []).

Definition set_power (p : Power.SystemPower) : M unit :=
  fun c => (returned tt,
            mkPlugin (timer c) p (activeKeys c) (state c) (blinkToggle c)
                     (sharedSettings c) (masterContext c) (timers c)
                     (pool c) (nextHandle c), []).

Definition set_activeKeys (k : list (string * ActionContext)) : M unit :=
  fun c => (returned tt,
            mkPlugin (timer c) (power c) k (state c) (blinkToggle c)
                     (sharedSettings c) (masterContext c) (timers c)
                     (pool c) (nextHandle c), []).

Definition set_state (s : Controller.ActionState.t) : M unit :=
  fun c => (returned tt,
            mkPlugin (timer c) (power c) (activeKeys c) s (blinkToggle c)
                     (sharedSettings c) (masterContext c) (timers c)
                     (pool c) (nextHandle c), []).

Definition set_blinkToggle (b : bool) : M unit :=
  fun c => (returned tt,
            mkPlugin (timer c) (power c) (activeKeys c) (state c) b
                     (sharedSettings c) (masterContext c) (timers c)
                     (pool c) (nextHandle c), []).

Definition set_sharedSettings (s : NormalizedSettings) : M unit :=
  fun c => (returned tt,
            mkPlugin (timer c) (power c) (activeKeys c) (state c)
                     (blinkToggle c) s (masterContext c) (timers c)
                     (pool c) (nextHandle c), []).

Definition set_masterContext (m : option string) : M unit :=
  fun c => (returned tt,
            mkPlugin (timer c) (power c) (activeKeys c) (state c)
                     (blinkToggle c) (sharedSettings c) m (timers c)
                     (pool c) (nextHandle c), []).

Definition set_timers (ts : list Timer.CountdownTimer) : M unit :=
  fun c => (returned tt,
            mkPlugin (timer c) (power c) (activeKeys c) (state c)
                     (blinkToggle c) (sharedSettings c) (masterContext c) ts
                     (pool c) (nextHandle c), []).

Definition with_pool (p : list Task) (c : Plugin) : Plugin :=
  mkPlugin (timer c) (power c) (activeKeys c) (state c) (blinkToggle c)
           (sharedSettings c) (masterContext c) (timers c) p (nextHandle c).

(** A suspended activation is kept for the event loop; one that has
    nothing left to run is not. *)
Definition keep (w : Wait) (frames : list Frame) (c : Plugin) : Plugin :=
  match frames with
  | [] => c
  | _ :: _ => with_pool (pool c ++ [mkTask w frames])%list c
  end.

(** [void m]: the caller goes on whether or not [m] is suspended. *)
Definition fork {A : Type} (m : M A) : M unit :=
  fun c =>
    match m c with
    | (returned _, c1, e1) => (returned tt, c1, e1)
    | (suspended w frames, c1, e1) => (returned tt, keep w frames c1, e1)
    end.

(** The timer object behind a reference. *)
Definition timerAt (t : Ref) (c : Plugin) : Timer.CountdownTimer :=
  nth t (timers c) (Timer.create 0).

Fixpoint update {A : Type} (i : nat) (x : A) (l : list A) : list A :=
  match l, i with
  | [], _ => []
  | _ :: r, O => x :: r
  | y :: r, S j => y :: update j x r
  end.

Definition set_timerAt (t : Ref) (tm : Timer.CountdownTimer) : M unit :=
  c <- get ;; set_timers (update t tm (timers c)).

(** [new CountdownTimer(durationSeconds)]. *)
Definition new_CountdownTimer (durationSeconds : Z) : M Ref :=
  c <- get ;;
  set_timers (timers c ++ [Timer.create durationSeconds])%list ;;
  ret (List.length (timers c)).

(** Assignments to the fields of the timer [t]. *)
Definition timer_set_state (t : Ref) (s : Timer.CountdownState) : M unit :=
  c <- get ;;
  let tm := timerAt t c in
  set_timerAt t (Timer.mkTimer (Timer.durationSeconds tm) s
                               (Timer.remainingSeconds tm) (Timer.timeout tm)).

Definition timer_set_remaining (t : Ref) (r : Z) : M unit :=
  c <- get ;;
  let tm := timerAt t c in
  set_timerAt t (Timer.mkTimer (Timer.durationSeconds tm) (Timer.state tm) r
                               (Timer.timeout tm)).

Definition timer_set_timeout (t : Ref) (h : option Timer.Handle) : M unit :=
  c <- get ;;
  let tm := timerAt t c in
  set_timerAt t (Timer.mkTimer (Timer.durationSeconds tm) (Timer.state tm)
                               (Timer.remainingSeconds tm) h).

Definition waitsFor (h : Timer.Handle) (task : Task) : bool :=
  match waits task with
  | timeout h' => Nat.eqb h h'
  | _ => false
  end.

(** [clearTimeout(h)]. *)
Definition clearTimeout (h : Timer.Handle) : M unit :=
  fun c => (returned tt,
            with_pool (filter (fun task => negb (waitsFor h task)) (pool c)) c,
            []).

(** [setTimeout(callback, 1000)] in [runTick] of the timer [t]. *)
Definition setTimeout (t : Ref) : M Timer.Handle :=
  fun c =>
    (returned (nextHandle c),
     mkPlugin (timer c) (power c) (activeKeys c) (state c) (blinkToggle c)
              (sharedSettings c) (masterContext c) (timers c)
              (pool c ++ [mkTask (timeout (nextHandle c)) [timeout_callback t]])
              (S (nextHandle c)),
     []).

(** [log(message, error)] of the controller. *)
Definition log (message : string) (error : option string) : M unit :=
  emit [Controller.outside (Power.log message error)].

(** [getKeysPerDevice()]: the loop over [this.activeKeys.values()]. *)
Definition keysPerDevice (keys : list (string * ActionContext))
  : list (list KeyAction) :=
  let buckets :=
    fold_left (fun buckets ctx =>
                 let arr :=
                   orElse (Controller.map_get (Controller.deviceId ctx) buckets)
                          [] in
                 Controller.map_set (Controller.deviceId ctx)
                                    (arr ++ [Controller.ctx_action ctx])%list
                                    buckets)
              (Controller.map_values keys) [] in
  Controller.map_values buckets.

Definition getKeysPerDevice (c : Plugin) : list (list KeyAction) :=
  keysPerDevice (activeKeys c).

(** [trackKey(action, role)]. *)
Definition trackKey (action : KeyAction) (r : Role) : M unit :=
  c <- get ;;
  let deviceId := orElse (device action) "unknown-device" in
  set_activeKeys
    (Controller.map_set (id action)
                        (Controller.mkContext (id action) action r deviceId)
                        (activeKeys c)).

(** [untrackKey(action)]. *)
Definition untrackKey (action : KeyAction) : M unit :=
  c <- get ;;
  set_activeKeys (Controller.map_delete (id action) (activeKeys c)).

(** [totalKeyCount()]. *)
Definition totalKeyCount (c : Plugin) : nat := List.length (activeKeys c).

(** [await Promise.all(promises)] for the promises of SDK calls on the
    keys of [groups]: with no key there is no promise and the function
    goes on; with a key it waits until the calls have been answered. *)
Definition allSettled (groups : list (list KeyAction)) : M Value :=
  match groups with
  | [] => ret undefined
  | _ :: _ => pending tiles
  end.

(** [renderCountdownAcrossDevices(remaining, settings)]. *)
Definition renderCountdownAcrossDevices (remaining : Z)
  (settings : NormalizedSettings) : M Value :=
  c <- get ;;
  let total := Timer.getDurationSeconds (timerAt (timer c) c) in
  set_blinkToggle (negb (blinkToggle c)) ;;
  c <- get ;;
  emit (map (fun keys =>
               Controller.renderer
                 (Controller.renderCountdown remaining total keys
                    (Controller.countdownOptions settings (blinkToggle c)
                                                 remaining keys)))
            (getKeysPerDevice c)) ;;
  allSettled (getKeysPerDevice c).

(** [renderMessageAcrossDevices(message, settings, blink = false)]. *)
Definition renderMessageAcrossDevices (message : string)
  (settings : NormalizedSettings) (blink : bool) : M Value :=
  c <- get ;;
  emit (map (fun keys =>
               Controller.renderer
                 (Controller.renderMessage message keys
                    (Controller.messageOptions settings blink keys)))
            (getKeysPerDevice c)) ;;
  allSettled (getKeysPerDevice c).

(** [clearTitlesAcrossDevices()]. *)
Definition clearTitlesAcrossDevices : M Value :=
  c <- get ;;
  emit (flat_map (fun keys =>
                    map (fun key => Controller.setTitle (id key) "") keys)
                 (getKeysPerDevice c)) ;;
  allSettled (getKeysPerDevice c).

(** [renderByState()]. *)
Definition renderByState : M Value :=
  c <- get ;;
  if Controller.ActionState.is_running (state c) then
    await (renderCountdownAcrossDevices
             (Timer.getRemainingSeconds (timerAt (timer c) c))
             (sharedSettings c))
          renderByState_render
          (fun _ => clearTitlesAcrossDevices)
  else
    let armed := Controller.armed (sharedSettings c) in
    let message :=
      if armed then "Live mode - press to start"
      else "Preview mode - press to start" in
    await (renderMessageAcrossDevices message (sharedSettings c) false)
          renderByState_render
          (fun _ => clearTitlesAcrossDevices).

(** [persistMasterSettings(contextId, settings)]; nothing follows its
    [await]. *)
Definition persistMasterSettings (contextId : string)
  (settings : NormalizedSettings) : M unit :=
  c <- get ;;
  match Controller.map_get contextId (activeKeys c) with
  | Some ctx =>
      emit [Controller.setSettings (id (Controller.ctx_action ctx)) settings]
  | None => ret tt
  end.

(** [propagateSettings()]; nothing follows its [await]. *)
Definition propagateSettings : M unit :=
  c <- get ;;
  let childPayload := sharedSettings c in
  emit (map (fun ctx =>
               Controller.setSettings (id (Controller.ctx_action ctx))
                                      childPayload)
            (filter (fun ctx => match Controller.role ctx with
                                | Controller.child => true
                                | Controller.master => false
                                end)
                    (Controller.map_values (activeKeys c)))).

(** [setMaster(contextId, settings)]. *)
Definition setMaster (contextId : string) (settings : NormalizedSettings)
  : M unit :=
  set_masterContext (Some contextId) ;;
  set_sharedSettings settings ;;
  fork (persistMasterSettings contextId settings) ;;
  fork propagateSettings.

Section WithHost.

Variable host : Power.Host.

(** [this.log?.(message, error)] of the gateway. *)
Definition say (message : string) (error : option string) : M unit :=
  c <- get ;;
  emit (map Controller.outside (fst (Power.say (power c) message error))).

(** [setArmed(value)] on [this.power]. *)
Definition power_setArmed (value : bool) : M unit :=
  c <- get ;;
  let (p, out) := Power.setArmed value (power c) in
  set_power p ;;
  emit (Controller.gateway (Controller.setArmed value)
        :: map Controller.outside (fst out)).

(** [execFileAsync(command, args)]: the process is started and its
    promise is pending until the process has ended. *)
Definition execFileAsync (command : string) (args : list string) : M Value :=
  emit [Controller.outside (Power.execFile command args)] ;;
  pending process.

(** [runCommand] after its [await]: the process has ended, well or with
    an error. *)
Definition runCommand_execFile_then (command : string) (args : list string)
  (label : string) : M Value :=
  match Power.execOutcome host command args with
  | None => say (label ++ " executed") None
  | Some error => say (label ++ " failed") (Some error)
  end ;;
  ret undefined.

(** [runCommand(command, args, label)]. *)
Definition runCommand (command : string) (args : list string)
  (label : string) : M Value :=
  await (execFileAsync command args)
        (runCommand_execFile command args label)
        (fun _ => runCommand_execFile_then command args label).

(** [perform(action)] on [this.power]. *)
Definition perform (action : Power.PowerAction) : M Value :=
  emit [Controller.gateway (Controller.perform action)] ;;
  c <- get ;;
  if negb (Power.armed (power c)) then
    say (Power.actionName action ++ " skipped (not armed)") None ;;
    ret undefined
  else if negb (String.eqb (Power.platform host) "win32") then
    say (Power.actionName action ++ " skipped (non-Windows)") None ;;
    ret undefined
  else
    match action with
    | Power.shutdown =>
        runCommand "shutdown" ["/s"; "/t"; "0"] "trigger shutdown"
    | Power.restart =>
        runCommand "shutdown" ["/r"; "/t"; "0"] "trigger restart"
    | Power.sleep =>
        runCommand "rundll32.exe" ["powrprof.dll,SetSuspendState"; "0,1,0"]
                   "trigger sleep"
    end.

(** [abortScheduled()] on [this.power]. *)
Definition abortScheduled : M Value :=
  emit [Controller.gateway Controller.abortScheduled] ;;
  c <- get ;;
  if negb (Power.armed (power c)) then
    say "abort skipped (not armed)" None ;; ret undefined
  else if negb (String.eqb (Power.platform host) "win32") then
    say "abort skipped (non-Windows)" None ;; ret undefined
  else runCommand "shutdown" ["/a"] "abort shutdown".

(** The closures the controller hands to its timer. The fields of
    [this] are read when a closure runs. *)

(** [async (remaining) => { await render; await clearTitles }]. *)
Definition onTick (remaining : Z) : M Value :=
  c <- get ;;
  await (renderCountdownAcrossDevices remaining (sharedSettings c))
        onTick_render
        (fun _ => clearTitlesAcrossDevices).

(** [async () => { await render 0; await clearTitles; await perform;
    this.state = idle; this.power.setArmed(false) }], from its end. *)
Definition onComplete_perform_then : M Value :=
  set_state Controller.ActionState.idle ;;
  power_setArmed false ;;
  ret undefined.

Definition onComplete_clearTitles_then : M Value :=
  c <- get ;;
  await (perform (Controller.powerAction (sharedSettings c)))
        onComplete_perform
        (fun _ => onComplete_perform_then).

Definition onComplete_render_then : M Value :=
  await clearTitlesAcrossDevices
        onComplete_clearTitles
        (fun _ => onComplete_clearTitles_then).

Definition onComplete : M Value :=
  c <- get ;;
  await (renderCountdownAcrossDevices 0 (sharedSettings c))
        onComplete_render
        (fun _ => onComplete_render_then).

(** [async () => { await this.power.abortScheduled() }]. *)
Definition onCancel : M Value := abortScheduled.

(** The methods of the timer [t], with the closures above for
    callbacks: [startCountdown] is the only caller of [start], and both
    callers of [cancel] pass the same closure. *)

(** [runTick] after [await onTick(this.remainingSeconds)]. *)
Definition runTick_onTick_then (t : Ref) : M Value :=
  c <- get ;;
  if negb (Timer.is_running (Timer.state (timerAt t c))) then ret undefined
  else if (Timer.remainingSeconds (timerAt t c) =? 0)%Z then
    timer_set_timeout t None ;;
    timer_set_state t Timer.idle ;;
    onComplete
  else
    h <- setTimeout t ;;
    timer_set_timeout t (Some h) ;;
    ret undefined.

(** [runTick(onTick, onComplete)]. *)
Definition runTick (t : Ref) : M Value :=
  c <- get ;;
  await (onTick (Timer.remainingSeconds (timerAt t c)))
        (runTick_onTick t)
        (fun _ => runTick_onTick_then t).

(** [scheduleTick]: [void this.runTick(onTick, onComplete)]. *)
Definition scheduleTick (t : Ref) : M unit := fork (runTick t).

(** [start(onTick, onComplete)]. *)
Definition start (t : Ref) : M bool :=
  c <- get ;;
  if Timer.is_running (Timer.state (timerAt t c)) then ret false
  else
    timer_set_state t Timer.running ;;
    c <- get ;;
    timer_set_remaining t (Timer.durationSeconds (timerAt t c)) ;;
    scheduleTick t ;;
    ret true.

(** The arrow function handed to [setTimeout] in [runTick]. *)
Definition timeout_callback_run (t : Ref) : M Value :=
  c <- get ;;
  if negb (Timer.is_running (Timer.state (timerAt t c))) then ret undefined
  else
    timer_set_remaining t (Timer.remainingSeconds (timerAt t c) - 1) ;;
    scheduleTick t ;;
    ret undefined.

(** [cancel] after [await onCancel()]. *)
Definition cancel_onCancel_then (t : Ref) : M Value :=
  timer_set_state t Timer.idle ;;
  ret (boolean true).

(** [cancel(onCancel)]. *)
Definition cancel (t : Ref) : M Value :=
  c <- get ;;
  if negb (Timer.is_running (Timer.state (timerAt t c))) then
    ret (boolean false)
  else
    match Timer.timeout (timerAt t c) with
    | Some h => clearTimeout h ;; timer_set_timeout t None
    | None => ret tt
    end ;;
    timer_set_state t Timer.cancelled ;;
    timer_set_remaining t 0 ;;
    await onCancel (cancel_onCancel t) (fun _ => cancel_onCancel_then t).

(** [startCountdown()]. *)
Definition startCountdown : M Value :=
  c <- get ;;
  if (totalKeyCount c =? 0)%nat then
    log "No keys available to render the countdown." None ;;
    ret undefined
  else
    when (negb (Controller.ActionState.is_running (state c)))
         (t <- new_CountdownTimer
                 (Controller.countdownSeconds (sharedSettings c)) ;;
          set_timer t) ;;
    c <- get ;;
    power_setArmed (Controller.armed (sharedSettings c)) ;;
    c <- get ;;
    started <- start (timer c) ;;
    when started (set_state Controller.ActionState.running) ;;
    ret undefined.

(** [cancelCountdown()], from its end. *)
Definition cancelCountdown_shutdown_then : M Value :=
  clearTitlesAcrossDevices.

Definition cancelCountdown_clearTitles_then : M Value :=
  set_state Controller.ActionState.idle ;;
  c <- get ;;
  await (renderMessageAcrossDevices "Shutdown" (sharedSettings c) false)
        cancelCountdown_shutdown
        (fun _ => cancelCountdown_shutdown_then).

Definition cancelCountdown_cancelled_then : M Value :=
  await clearTitlesAcrossDevices
        cancelCountdown_clearTitles
        (fun _ => cancelCountdown_clearTitles_then).

Definition cancelCountdown_cancel_then (cancelled : Value) : M Value :=
  match cancelled with
  | boolean true =>
      set_state Controller.ActionState.cancelled ;;
      power_setArmed false ;;
      c <- get ;;
      await (renderMessageAcrossDevices "Cancelled" (sharedSettings c) true)
            cancelCountdown_cancelled
            (fun _ => cancelCountdown_cancelled_then)
  | _ => ret undefined
  end.

Definition cancelCountdown : M Value :=
  c <- get ;;
  await (cancel (timer c)) cancelCountdown_cancel cancelCountdown_cancel_then.

(** [register(ev, role)]. *)
Definition register (action : option KeyAction)
  (settings : option Controller.ShutdownSettings) (r : Role)
  : M NormalizedSettings :=
  match Controller.getKeyAction action with
  | None => c <- get ;; ret (sharedSettings c)
  | Some keyAction =>
      let settings := Controller.normalizeSettings settings in
      trackKey keyAction r ;;
      match r with
      | Controller.master => setMaster (id keyAction) settings
      | Controller.child =>
          c <- get ;;
          emit [Controller.setSettings (id keyAction) (sharedSettings c)]
      end ;;
      fork renderByState ;;
      c <- get ;;
      ret (sharedSettings c)
  end.

(** [unregister(ev, role)]. *)
Definition unregister (action : option KeyAction) (r : Role) : M unit :=
  match Controller.getKeyAction action with
  | None => ret tt
  | Some keyAction =>
      untrackKey keyAction ;;
      c <- get ;;
      when ((totalKeyCount c =? 0)%nat
            && Controller.ActionState.is_running (state c))
        (fork (cancel (timer c)) ;;
         set_state Controller.ActionState.idle ;;
         c <- get ;;
         fork (renderMessageAcrossDevices "Cancelled" (sharedSettings c)
                                          false) ;;
         fork clearTitlesAcrossDevices) ;;
      c <- get ;;
      when (match r, masterContext c with
            | Controller.master, Some m => String.eqb m (id keyAction)
            | _, _ => false
            end)
        (set_masterContext None)
  end.

(** [handleSettings(ev, role)]. *)
Definition handleSettings (action : option KeyAction)
  (settings : option Controller.ShutdownSettings) (r : Role) : M unit :=
  match Controller.getKeyAction action with
  | None => ret tt
  | Some keyAction =>
      let settings := Controller.normalizeSettings settings in
      match r with
      | Controller.master => setMaster (id keyAction) settings
      | Controller.child =>
          c <- get ;;
          emit [Controller.setSettings (id keyAction) (sharedSettings c)]
      end ;;
      fork renderByState
  end.

(** [handleKeyDown(ev, role)]. *)
Definition handleKeyDown (action : option KeyAction)
  (settings : option Controller.ShutdownSettings) (r : Role) : M Value :=
  match Controller.getKeyAction action with
  | None => ret undefined
  | Some keyAction =>
      match r with
      | Controller.master =>
          setMaster (id keyAction) (Controller.normalizeSettings settings)
      | Controller.child => ret tt
      end ;;
      c <- get ;;
      if Controller.ActionState.is_running (state c) then cancelCountdown
      else
        power_setArmed (Controller.armed (sharedSettings c)) ;;
        startCountdown
  end.

(** Where a suspended function goes on: each place of [Frame] with the
    code that follows its [await]. *)
Definition resume (frame : Frame) (v : Value) : M Value :=
  match frame with
  | runTick_onTick t => runTick_onTick_then t
  | cancel_onCancel t => cancel_onCancel_then t
  | timeout_callback t => timeout_callback_run t
  | runCommand_execFile command args label =>
      runCommand_execFile_then command args label
  | onTick_render => clearTitlesAcrossDevices
  | onComplete_render => onComplete_render_then
  | onComplete_clearTitles => onComplete_clearTitles_then
  | onComplete_perform => onComplete_perform_then
  | cancelCountdown_cancel => cancelCountdown_cancel_then v
  | cancelCountdown_cancelled => cancelCountdown_cancelled_then
  | cancelCountdown_clearTitles => cancelCountdown_clearTitles_then
  | cancelCountdown_shutdown => cancelCountdown_shutdown_then
  | renderByState_render => clearTitlesAcrossDevices
  end.

(** The functions of a suspended activation go on from the innermost:
    each hands its result to the one that awaits it, until one of them
    is suspended again. *)
Fixpoint resumeStack (frames : list Frame) (v : Value) : M Value :=
  match frames with
  | [] => ret v
  | frame :: rest =>
      fun c =>
        match resume frame v c with
        | (returned v', c1, e1) =>
            let '(r, c2, e2) := resumeStack rest v' c1 in
            (r, c2, (e1 ++ e2)%list)
        | (suspended w inner, c1, e1) =>
            (suspended w (inner ++ rest)%list, c1, e1)
        end
  end.

(** What reaches the plugin: the four events the two actions forward
    with their role, and the event loop coming back to the [i]-th of the
    pending activations and timeouts: its calls have been answered, its
    process has ended, or its timeout fires. *)
Inductive Event : Set :=
| willAppear (action : option KeyAction)
             (settings : option Controller.ShutdownSettings) (r : Role)
| willDisappear (action : option KeyAction) (r : Role)
| didReceiveSettings (action : option KeyAction)
                     (settings : option Controller.ShutdownSettings) (r : Role)
| keyDown (action : option KeyAction)
          (settings : option Controller.ShutdownSettings) (r : Role)
| wakes (i : nat).

Fixpoint removeAt {A : Type} (i : nat) (l : list A) : list A :=
  match l, i with
  | [], _ => []
  | _ :: r, O => r
  | x :: r, S j => x :: removeAt j r
  end.

(** A call from the SDK or from the event loop, run until it returns or
    is suspended. *)
Definition run {A : Type} (m : M A) (c : Plugin) : Plugin * list Effect :=
  match m c with
  | (returned _, c1, e1) => (c1, e1)
  | (suspended w frames, c1, e1) => (keep w frames c1, e1)
  end.

(** One event; [None] when the event loop has no such activation. *)
Definition step (e : Event) (c : Plugin) : option (Plugin * list Effect) :=
  match e with
  | willAppear a s r => Some (run (register a s r) c)
  | willDisappear a r => Some (run (unregister a r) c)
  | didReceiveSettings a s r => Some (run (handleSettings a s r) c)
  | keyDown a s r => Some (run (handleKeyDown a s r) c)
  | wakes i =>
      match nth_error (pool c) i with
      | None => None
      | Some task =>
          Some (run (resumeStack (stack task) undefined)
                    (with_pool (removeAt i (pool c)) c))
      end
  end.

Fixpoint exec (es : list Event) (c : Plugin)
  : option (Plugin * list Effect) :=
  match es with
  | [] => Some (c, [])
  | e :: es' =>
      match step e c with
      | None => None
      | Some (c1, out1) =>
          match exec es' c1 with
          | None => None
          | Some (c2, out2) => Some (c2, (out1 ++ out2)%list)
          end
      end
  end.

End WithHost.

End EventLoop.

(* ================================================================== *)
(** * Notions used in the statements about the event loop *)
(* ================================================================== *)

Module Awaiting.

Import JS SDK.

(** What a key press does before anything else: the master takes the
    settings of the press. *)
Definition takeSettings (key : KeyAction)
  (settings : option Controller.ShutdownSettings) (r : Controller.Role)
  (c : EventLoop.Plugin) : EventLoop.Plugin * list Controller.Effect :=
  EventLoop.run
    (match r with
     | Controller.master =>
         EventLoop.setMaster (id key) (Controller.normalizeSettings settings)
     | Controller.child => EventLoop.ret tt
     end) c.

(** The pending work without the timeout of the timer [t]. *)
Definition cleared (t : EventLoop.Ref) (c : EventLoop.Plugin)
  : list EventLoop.Task :=
  match Timer.timeout (EventLoop.timerAt t c) with
  | Some h =>
      filter (fun task => negb (EventLoop.waitsFor h task)) (EventLoop.pool c)
  | None => EventLoop.pool c
  end.

(** The gateway starts a command: it is armed and the platform is
    win32. *)
Definition commandStarts (host : Power.Host) (c : EventLoop.Plugin) : bool :=
  Power.armed (EventLoop.power c)
  && String.eqb (Power.platform host) "win32".

(** The call of [renderMessage] for each device. *)
Definition messageCalls (message : string) (blink : bool)
  (c : EventLoop.Plugin) : list Controller.Effect :=
  map (fun keys =>
         Controller.renderer
           (Controller.renderMessage message keys
              (Controller.messageOptions (EventLoop.sharedSettings c) blink
                                         keys)))
      (EventLoop.getKeysPerDevice c).

(** The call of [setTitle] with the empty title for each key. *)
Definition titleCalls (c : EventLoop.Plugin) : list Controller.Effect :=
  flat_map (fun keys =>
              map (fun key => Controller.setTitle (id key) EmptyString) keys)
           (EventLoop.getKeysPerDevice c).

(** [setArmed(value)] and what the gateway logs. *)
Definition armCalls (value : bool) (c : EventLoop.Plugin)
  : list Controller.Effect :=
  Controller.gateway (Controller.setArmed value)
  :: map Controller.outside
         (fst (snd (Power.setArmed value (EventLoop.power c)))).

Definition disarmCalls (c : EventLoop.Plugin) : list Controller.Effect :=
  armCalls false c.

(** The plugin with another action state. *)
Definition with_state (s : Controller.ActionState.t) (c : EventLoop.Plugin)
  : EventLoop.Plugin :=
  EventLoop.mkPlugin
    (EventLoop.timer c) (EventLoop.power c) (EventLoop.activeKeys c) s
    (EventLoop.blinkToggle c) (EventLoop.sharedSettings c)
    (EventLoop.masterContext c) (EventLoop.timers c) (EventLoop.pool c)
    (EventLoop.nextHandle c).

(** The activation of [handleKeyDown] that waits for the command of
    [abortScheduled]: [runCommand] inside [cancel] inside
    [cancelCountdown]. *)
Definition abortAwaited (t : EventLoop.Ref) : EventLoop.Task :=
  EventLoop.mkTask EventLoop.process
    [EventLoop.runCommand_execFile "shutdown" ["/a"%string] "abort shutdown";
     EventLoop.cancel_onCancel t;
     EventLoop.cancelCountdown_cancel].

(** What the gateway logs when a command has ended. *)
Definition commandLogged (host : Power.Host) (command : string)
  (args : list string) (label : string) (c : EventLoop.Plugin)
  : list Controller.Effect :=
  map Controller.outside
      (fst (match Power.execOutcome host command args with
            | None => Power.say (EventLoop.power c)
                                (label ++ " executed") None
            | Some error => Power.say (EventLoop.power c)
                                      (label ++ " failed") (Some error)
            end)).

(** The plugin during a countdown of its own: [tm] is the timer made
    last, after the timers [earlier], and [task] is what is pending for
    it, after the work [others] that was pending before the countdown. *)
Definition counting (earlier : list Timer.CountdownTimer)
  (others : list EventLoop.Task) (tm : Timer.CountdownTimer)
  (task : list EventLoop.Task) (p : Power.SystemPower)
  (keys : list (string * Controller.ActionContext))
  (st : Controller.ActionState.t) (b : bool)
  (sh : Controller.NormalizedSettings) (mc : option string)
  (nh : Timer.Handle) : EventLoop.Plugin :=
  EventLoop.mkPlugin (List.length earlier) p keys st b sh mc
                     (earlier ++ [tm]) (others ++ task) nh.

(** The activation of [onComplete] that waits for the command of
    [perform]. *)
Definition performAwaited (action : Power.PowerAction) : EventLoop.Task :=
  match Observing.commandOf action with
  | Power.execFile command args =>
      EventLoop.mkTask EventLoop.process
        [EventLoop.runCommand_execFile
           command args
           (String.append "trigger " (Power.actionName action));
         EventLoop.onComplete_perform]
  | Power.log _ _ => EventLoop.mkTask EventLoop.process []
  end.

(** What the gateway logs when the command of [perform] has ended. *)
Definition performLogged (host : Power.Host) (action : Power.PowerAction)
  (c : EventLoop.Plugin) : list Controller.Effect :=
  match Observing.commandOf action with
  | Power.execFile command args =>
      commandLogged host command args
                    (String.append "trigger " (Power.actionName action)) c
  | Power.log _ _ => []
  end.

(** The call of [renderCountdown] for each device. *)
Definition frameCalls (remaining total : Z)
  (sh : Controller.NormalizedSettings) (toggle : bool)
  (keys : list (string * Controller.ActionContext))
  : list Controller.Effect :=
  map (fun group =>
         Controller.renderer
           (Controller.renderCountdown remaining total group
              (Controller.countdownOptions sh toggle remaining group)))
      (EventLoop.keysPerDevice keys).

(** The events of a countdown of [n] seconds left to itself after the
    press, with [i] the place of its pending work: three for each second
    (the frame is shown, the titles are cleared, the timeout fires), two
    for the frame of 0, two for the frame of completion, and one more
    when a command was started. *)
Definition countdownWakes (i n : nat) (command : bool)
  : list EventLoop.Event :=
  repeat (EventLoop.wakes i) (3 * n + 4 + (if command then 1 else 0)).

(** Runs used where a statement is tried on an input, on [demoHost]
    with [demoKey]: the key appears as the master with the live settings
    of 5 seconds, its first picture is shown ([demoAppeared]), and it is
    pressed. [demoCounting] is the plugin once the first frame is shown and the
    timer waits for its timeout; [demoCompleting] is the plugin once the
    countdown
    has reached 0 and the command of the power action runs. *)
Definition pressed : list EventLoop.Event :=
  [EventLoop.willAppear (Some Notions.demoKey) (Some Observing.liveSettings)
                        Controller.master;
   EventLoop.wakes 0;
   EventLoop.keyDown (Some Notions.demoKey) (Some Observing.liveSettings)
                     Controller.master].

Definition reached (events : list EventLoop.Event) : EventLoop.Plugin :=
  match EventLoop.exec Notions.demoHost events EventLoop.create with
  | Some (c, _) => c
  | None => EventLoop.create
  end.

Definition demoAppeared : EventLoop.Plugin :=
  Eval vm_compute in
    reached
      [EventLoop.willAppear (Some Notions.demoKey)
                            (Some Observing.liveSettings) Controller.master;
       EventLoop.wakes 0].

Definition demoCounting : EventLoop.Plugin :=
  Eval vm_compute in
    reached (pressed ++ repeat (EventLoop.wakes 0) 2).

Definition demoCompleting : EventLoop.Plugin :=
  Eval vm_compute in
    reached (pressed ++ repeat (EventLoop.wakes 0) 19).


(** The seconds the plugin works with are those the settings allow: the
    seconds of the shared settings and the duration of every timer made
    so far lie within 5 and 30, and [this.timer] is one of the timers. *)
Definition inRange (c : EventLoop.Plugin) : Prop :=
  5 <= Controller.countdownSeconds (EventLoop.sharedSettings c) <= 30 /\
  Forall (fun tm => 5 <= Timer.durationSeconds tm <= 30)
         (EventLoop.timers c) /\
  (EventLoop.timer c < List.length (EventLoop.timers c))%nat.

(** A countdown frame with a total the settings allow. *)
Definition totalFits (e : Controller.Effect) : Prop :=
  match e with
  | Controller.renderer (Controller.renderCountdown _ total _ _) =>
      5 <= total <= 30
  | _ => True
  end.

(** Run from [c], the code [m] leaves the seconds in range, whether it
    returns or is suspended, and renders no frame with another total. *)
Definition keepsRange {A : Type} (m : EventLoop.M A) (c : EventLoop.Plugin)
  : Prop :=
  inRange (snd (fst (m c))) /\ Forall totalFits (snd (m c)).

(** What a run of the countdown shows: the values of its frames, the
    actions performed and the commands started. *)
Definition told (out : list Controller.Effect)
  : list Z * list Power.PowerAction * list Power.Effect :=
  (Observing.countdownValues out, Observing.performed out,
   Observing.execCommands out).

End Awaiting.

(* ================================================================== *)
(** * Properties of the countdown timer *)
(* ================================================================== *)

Section TimerFacts.

Import Timer Notions.

Lemma countdown_length (n : nat) : List.length (countdown n) = S n.
Proof. induction n as [|n IH]; simpl; [reflexivity | now rewrite IH]. Qed.

Lemma countdown_nth (n i : nat) :
  (i <= n)%nat -> nth i (countdown n) 0 = Z.of_nat n - Z.of_nat i.
Proof.
  revert i; induction n as [|n IH]; intros i Hi.
  - assert (i = 0%nat) by lia; subst; reflexivity.
  - destruct i as [|i].
    + cbn [countdown nth]. lia.
    + cbn [countdown nth]. rewrite IH by lia. lia.
Qed.

Lemma resume_at_zero (d : Z) (t : option Handle) (h : Handle) (k : nat) :
  step TickSettled (ticking d 0 t h k)
  = Some (mkMachine (mkTimer d idle 0 None) [] h 0%nat k, [onComplete]).
Proof. reflexivity. Qed.

Lemma resume_above_zero (d : Z) (n : nat) (t : option Handle) (h : Handle)
  (k : nat) :
  step TickSettled (ticking d (S n) t h k) = Some (waiting d (S n) h k, []).
Proof.
  unfold step, ticking, runTick_resume; cbn -[Z.of_nat].
  replace (Z.of_nat (S n) =? 0) with false
    by (symmetry; apply Z.eqb_neq; lia).
  reflexivity.
Qed.

Lemma timeout_fires (d : Z) (n : nat) (h : Handle) (k : nat) :
  step (TimeoutFired h) (waiting d (S n) h k)
  = Some (ticking d n (Some h) (S h) k, [onTick (Z.of_nat n)]).
Proof.
  unfold step, waiting, mem; cbn -[Z.of_nat Nat.eq_dec].
  rewrite Nat.eqb_refl; cbn -[Z.of_nat Nat.eq_dec].
  unfold clearTimeout, timeout_callback, ticking; cbn -[Z.of_nat Nat.eq_dec].
  destruct (Nat.eq_dec h h) as [_|ne]; [|contradiction].
  unfold scheduleTick, runTick, set_remaining; cbn -[Z.of_nat].
  replace (Z.of_nat (S n) - 1) with (Z.of_nat n) by lia.
  reflexivity.
Qed.

Lemma run_step (fuel : nat) (m m1 : Machine) (e : Event) (c1 : list Call) :
  next_event m = Some e ->
  step e m = Some (m1, c1) ->
  run (S fuel) m = (fst (run fuel m1), c1 ++ snd (run fuel m1)).
Proof.
  intros Hnext Hstep. cbn [run]. rewrite Hnext, Hstep.
  destruct (run fuel m1); reflexivity.
Qed.

(** From [onTick(n)] the loop left alone delivers [n-1, ..., 0] and the
    completion, and then has nothing more to deliver. *)
Lemma run_from_tick (d : Z) (n : nat) :
  forall t h k fuel, (2 * n + 1 <= fuel)%nat ->
    run fuel (ticking d n t h k)
    = (mkMachine (mkTimer d idle 0 None) [] (h + n)%nat 0%nat k,
       map onTick (tl (countdown n)) ++ [onComplete]).
Proof.
  induction n as [|n IH]; intros t h k fuel Hfuel.
  - destruct fuel as [|fuel]; [lia|].
    rewrite (run_step fuel (ticking d 0 t h k) _ TickSettled _ eq_refl
               (resume_at_zero d t h k)).
    rewrite Nat.add_0_r. destruct fuel; reflexivity.
  - destruct fuel as [|[|fuel]]; try lia.
    rewrite (run_step _ (ticking d (S n) t h k) _ TickSettled _ eq_refl
               (resume_above_zero d n t h k)).
    rewrite (run_step _ (waiting d (S n) h k) _ (TimeoutFired h) _ eq_refl
               (timeout_fires d n h k)).
    rewrite IH by lia.
    replace (S h + n)%nat with (h + S n)%nat by lia.
    destruct n; reflexivity.
Qed.

Lemma not_running_is_running (s : CountdownState) :
  s <> running -> is_running s = false.
Proof. destruct s; intros H; try reflexivity; now contradiction H. Qed.

(** Nothing but [start] makes a timer running, and a timer that is not
    running invokes no callback. *)
Lemma step_not_running (e : Event) (m m' : Machine) (calls : list Call) :
  is_running (state (self m)) = false ->
  is_start e = false ->
  step e m = Some (m', calls) ->
  is_running (state (self m')) = false /\ calls = [].
Proof.
  intros Hs He Hstep.
  destruct e; cbn in He; try discriminate; cbn in Hstep.
  - unfold cancel in Hstep. rewrite Hs in Hstep. cbn in Hstep.
    inversion Hstep; subst; auto.
  - inversion Hstep; subst. split; [|reflexivity].
    unfold dispose. destruct (timeout (self m)); reflexivity.
  - destruct (ticksAwaited m) eqn:E; [discriminate|].
    unfold runTick_resume in Hstep. cbn in Hstep. rewrite Hs in Hstep.
    cbn in Hstep. inversion Hstep; subst; cbn; auto.
  - destruct (cancelsAwaited m); [discriminate|].
    inversion Hstep; subst; cbn; auto.
  - destruct (mem h (timers m)); [|discriminate].
    unfold timeout_callback in Hstep. cbn in Hstep. rewrite Hs in Hstep.
    cbn in Hstep. inversion Hstep; subst; cbn; auto.
Qed.

Lemma exec_not_running (es : list Event) :
  forall m m' calls,
    is_running (state (self m)) = false ->
    forallb (fun e => negb (is_start e)) es = true ->
    exec es m = Some (m', calls) ->
    is_running (state (self m')) = false /\ calls = [].
Proof.
  induction es as [|e es IH]; intros m m' calls Hs Hes Hexec.
  - cbn in Hexec. inversion Hexec; subst; auto.
  - cbn in Hes. apply andb_true_iff in Hes as [He Hes].
    apply negb_true_iff in He.
    cbn in Hexec.
    destruct (step e m) as [[m1 c1]|] eqn:E1; [|discriminate].
    destruct (exec es m1) as [[m2 c2]|] eqn:E2; [|discriminate].
    inversion Hexec; subst.
    destruct (step_not_running _ _ _ _ Hs He E1) as [Hs1 ->].
    destruct (IH _ _ _ Hs1 Hes E2) as [Hs2 ->].
    auto.
Qed.

Lemma In_remove_same (h : Handle) (l : list Handle) :
  ~ In h (List.remove Nat.eq_dec h l).
Proof. apply remove_In. Qed.

End TimerFacts.

(** C1. For every duration d between 5 and 30, [start] on a new timer
    returns true and, the countdown being left alone, [onTick] is invoked
    exactly d+1 times, with d, d-1, ..., 0 in this order, and then
    [onComplete] once; after that the timer is idle and nothing more is
    pending. *)
Theorem countdown_runs_to_completion (d : Z) (Hd : 5 <= d <= 30) :
  let '(started, m, first) := Timer.start (Timer.boot d) in
  started = true /\
  List.length (Timer.countdown (Z.to_nat d)) = S (Z.to_nat d) /\
  (forall i, (i <= Z.to_nat d)%nat ->
     nth i (Timer.countdown (Z.to_nat d)) 0 = d - Z.of_nat i) /\
  forall fuel, (2 * Z.to_nat d + 1 <= fuel)%nat ->
    let (m', rest) := Timer.run fuel m in
    first ++ rest
      = map Timer.onTick (Timer.countdown (Z.to_nat d)) ++ [Timer.onComplete]
    /\ Timer.state (Timer.self m') = Timer.idle
    /\ Timer.next_event m' = None.
Proof.
  cbn. split; [reflexivity|].
  split; [apply countdown_length|].
  split.
  - intros i Hi. rewrite countdown_nth by exact Hi. lia.
  - intros fuel Hfuel.
    pose proof (run_from_tick d (Z.to_nat d) None 0%nat 0%nat fuel Hfuel) as R.
    unfold Notions.ticking in R. rewrite Z2Nat.id in R by lia.
    rewrite R. cbn.
    split; [|split; reflexivity].
    destruct (Z.to_nat d) eqn:E; [lia|].
    cbn. do 2 f_equal. lia.
Qed.

Lemma countdown_runs_to_completion_witness :
  5 <= 5 <= 30 /\
  let '(started, m, first) := Timer.start (Timer.boot 5) in
  started = true /\
  List.length (Timer.countdown (Z.to_nat 5)) = S (Z.to_nat 5) /\
  (forall i, (i <= Z.to_nat 5)%nat ->
     nth i (Timer.countdown (Z.to_nat 5)) 0 = 5 - Z.of_nat i) /\
  forall fuel, (2 * Z.to_nat 5 + 1 <= fuel)%nat ->
    let (m', rest) := Timer.run fuel m in
    first ++ rest
      = map Timer.onTick (Timer.countdown (Z.to_nat 5)) ++ [Timer.onComplete]
    /\ Timer.state (Timer.self m') = Timer.idle
    /\ Timer.next_event m' = None.
Proof.
  split; [lia|].
  apply (countdown_runs_to_completion 5); lia.
Defined.

(** C7. [start] on a timer that is running returns false and leaves the
    timer as it is: [remaining] is not reset, no callback is invoked, and
    nothing is added to what is pending, so the ticks in flight are
    neither restarted nor duplicated. *)
Theorem start_while_running_is_refused (m : Timer.Machine)
  (H : Timer.state (Timer.self m) = Timer.running) :
  Timer.start m = (false, m, []) /\
  forall fuel, Timer.run fuel (snd (fst (Timer.start m))) = Timer.run fuel m.
Proof.
  unfold Timer.start. rewrite H. cbn. split; reflexivity.
Qed.

Lemma start_while_running_is_refused_witness :
  let m := snd (fst (Timer.start (Timer.boot 7))) in
  Timer.state (Timer.self m) = Timer.running /\
  Timer.remainingSeconds (Timer.self m) = 7 /\
  Timer.start m = (false, m, []) /\
  forall fuel, Timer.run fuel (snd (fst (Timer.start m))) = Timer.run fuel m.
Proof.
  split; [reflexivity|]. split; [reflexivity|].
  apply (start_while_running_is_refused
           (snd (fst (Timer.start (Timer.boot 7))))).
  reflexivity.
Defined.

(** C6. [cancel] on a timer that is not running resolves to false, invokes
    no callback and changes nothing. On a running timer it clears the
    pending timeout, sets the state to cancelled and [remaining] to 0,
    invokes the callback once if one is given, then sets the state to idle
    and resolves to true; and whatever happens afterwards short of a new
    [start], no callback is invoked again, so no further tick is seen. *)
Theorem cancel_contract (withCallback : bool) (m : Timer.Machine) :
  (Timer.state (Timer.self m) <> Timer.running ->
     Timer.cancel withCallback m = (Some false, m, [])) /\
  (Timer.state (Timer.self m) = Timer.running ->
     exists result m1 calls,
       Timer.cancel withCallback m = (result, m1, calls) /\
       (forall h, Timer.timeout (Timer.self m) = Some h ->
                  ~ In h (Timer.timers m1)) /\
       Timer.timeout (Timer.self m1) = None /\
       Timer.remainingSeconds (Timer.self m1) = 0 /\
       calls = (if withCallback then [Timer.onCancel] else []) /\
       (if withCallback
        then result = None /\
             Timer.state (Timer.self m1) = Timer.cancelled /\
             Timer.cancelsAwaited m1 = S (Timer.cancelsAwaited m) /\
             fst (Timer.cancel_resume m1) = true /\
             Timer.state (Timer.self (snd (Timer.cancel_resume m1)))
               = Timer.idle /\
             Timer.remainingSeconds (Timer.self (snd (Timer.cancel_resume m1)))
               = 0
        else result = Some true /\
             Timer.state (Timer.self m1) = Timer.idle) /\
       (forall es m' calls',
          forallb (fun e => negb (Timer.is_start e)) es = true ->
          Timer.exec es m1 = Some (m', calls') ->
          calls' = [] /\ Timer.state (Timer.self m') <> Timer.running)).
Proof.
  split.
  - intros H. unfold Timer.cancel.
    rewrite (not_running_is_running _ H). reflexivity.
  - intros H. unfold Timer.cancel. rewrite H. cbn [Timer.is_running negb].
    set (m0 := match Timer.timeout (Timer.self m) with
               | Some h => Timer.set_timeout None (Timer.clearTimeout h m)
               | None => m
               end).
    assert (Hcleared : forall h, Timer.timeout (Timer.self m) = Some h ->
                                 ~ In h (Timer.timers m0)).
    { intros h Hh. subst m0. rewrite Hh. cbn. apply In_remove_same. }
    assert (Hnone : Timer.timeout (Timer.self m0) = None).
    { subst m0. destruct (Timer.timeout (Timer.self m)) eqn:E;
        [reflexivity | exact E]. }
    assert (Hcount : Timer.cancelsAwaited m0 = Timer.cancelsAwaited m).
    { subst m0. destruct (Timer.timeout (Timer.self m)); reflexivity. }
    assert (Hlater : forall m1,
              Timer.is_running (Timer.state (Timer.self m1)) = false ->
              forall es m' calls',
                forallb (fun e => negb (Timer.is_start e)) es = true ->
                Timer.exec es m1 = Some (m', calls') ->
                calls' = [] /\ Timer.state (Timer.self m') <> Timer.running).
    { intros m1 Hs es m' calls' Hes Hexec.
      destruct (exec_not_running es _ _ _ Hs Hes Hexec) as [Hs' ->].
      split; [reflexivity|]. intros E. rewrite E in Hs'. discriminate. }
    destruct withCallback.
    + eexists _, _, _. split; [reflexivity|]. cbn.
      split; [exact Hcleared|]. split; [exact Hnone|].
      split; [reflexivity|]. split; [reflexivity|]. split.
      * rewrite Hcount. repeat split.
      * apply Hlater. reflexivity.
    + eexists _, _, _. split; [reflexivity|]. cbn.
      split; [exact Hcleared|]. split; [exact Hnone|].
      split; [reflexivity|]. split; [reflexivity|]. split.
      * split; reflexivity.
      * apply Hlater. reflexivity.
Qed.

(* ================================================================== *)
(** * Properties of the power gateway *)
(* ================================================================== *)

(** The gateway's async methods are always fulfilled. *)
Lemma runCommand_fulfilled (host : Power.Host) (p : Power.SystemPower)
  (command : string) (args : list string) (label : string) :
  snd (Power.runCommand host p command args label) = inl tt.
Proof.
  unfold Power.runCommand, Power.execFileAsync, Power.say.
  destruct (Power.execOutcome host command args), (Power.logger p);
    reflexivity.
Qed.

Lemma runCommand_effects (host : Power.Host) (p : Power.SystemPower)
  (command : string) (args : list string) (label : string) :
  fst (Power.runCommand host p command args label)
  = Power.execFile command args
    :: (if Power.logger p
        then [match Power.execOutcome host command args with
              | None => Power.log (label ++ " executed")%string None
              | Some e => Power.log (label ++ " failed")%string (Some e)
              end]
        else []).
Proof.
  unfold Power.runCommand, Power.execFileAsync, Power.say.
  destruct (Power.execOutcome host command args), (Power.logger p);
    reflexivity.
Qed.

Lemma abortScheduled_fulfilled (host : Power.Host) (p : Power.SystemPower) :
  snd (Power.abortScheduled host p) = inl tt.
Proof.
  unfold Power.abortScheduled, Power.say.
  destruct (Power.armed p); cbn; [|destruct (Power.logger p); reflexivity].
  destruct (String.eqb (Power.platform host) "win32"); cbn.
  - apply runCommand_fulfilled.
  - destruct (Power.logger p); reflexivity.
Qed.

(** C8. [perform] starts no external command when the gateway is not armed or
    the platform is not win32, and only logs the skip; otherwise it starts
    the one command that belongs to the action and logs whether it ran or
    failed; and in every case the returned promise is fulfilled, a failure
    of the command never reaches the caller. *)
Theorem perform_contract (host : Power.Host) (p : Power.SystemPower)
  (action : Power.PowerAction) :
  snd (Power.perform host p action) = inl tt /\
  (Power.armed p = false ->
     Power.commands (fst (Power.perform host p action)) = [] /\
     fst (Power.perform host p action)
     = if Power.logger p
       then [Power.log (Power.actionName action ++ " skipped (not armed)")%string
                       None]
       else []) /\
  (Power.armed p = true -> Power.platform host <> "win32"%string ->
     Power.commands (fst (Power.perform host p action)) = [] /\
     fst (Power.perform host p action)
     = if Power.logger p
       then [Power.log (Power.actionName action ++ " skipped (non-Windows)")%string
                       None]
       else []) /\
  (Power.armed p = true -> Power.platform host = "win32"%string ->
     let '(command, args, label) :=
       match action with
       | Power.shutdown =>
           ("shutdown", ["/s"; "/t"; "0"], "trigger shutdown")%string
       | Power.restart =>
           ("shutdown", ["/r"; "/t"; "0"], "trigger restart")%string
       | Power.sleep =>
           ("rundll32.exe", ["powrprof.dll,SetSuspendState"; "0,1,0"],
            "trigger sleep")%string
       end in
     Power.commands (fst (Power.perform host p action))
     = [Power.execFile command args] /\
     fst (Power.perform host p action)
     = Power.execFile command args
       :: (if Power.logger p
           then [match Power.execOutcome host command args with
                 | None => Power.log (label ++ " executed")%string None
                 | Some e => Power.log (label ++ " failed")%string (Some e)
                 end]
           else [])).
Proof.
  split; [|split; [|split]].
  - unfold Power.perform, Power.say.
    destruct (Power.armed p); cbn; [|destruct (Power.logger p); reflexivity].
    destruct (String.eqb (Power.platform host) "win32"); cbn.
    + destruct action; apply runCommand_fulfilled.
    + destruct (Power.logger p); reflexivity.
  - intros Ha. unfold Power.perform, Power.say. rewrite Ha. cbn.
    destruct (Power.logger p); split; reflexivity.
  - intros Ha Hp. unfold Power.perform, Power.say. rewrite Ha. cbn.
    apply String.eqb_neq in Hp. rewrite Hp. cbn.
    destruct (Power.logger p); split; reflexivity.
  - intros Ha Hp. unfold Power.perform. rewrite Ha, Hp. cbn.
    destruct action; rewrite runCommand_effects;
      (split; [|reflexivity]);
      destruct (Power.logger p); cbn;
      try destruct (Power.execOutcome host _ _); reflexivity.
Qed.

(* ================================================================== *)
(** * Properties of settings normalization *)
(* ================================================================== *)

Section SettingsFacts.

Import JS Controller.

Lemma clampSeconds_range (x : float) : 5 <= clampSeconds x <= 30.
Proof. unfold clampSeconds. lia. Qed.

(** The seconds 5 to 30, read back as numbers, clamp to themselves. *)
Lemma clampSeconds_fixed_table :
  forallb (fun n => clampSeconds (of_Z n) =? n)
          (map Z.of_nat (seq 5 26)) = true.
Proof. vm_compute. reflexivity. Qed.

Lemma clampSeconds_fixed (n : Z) :
  5 <= n <= 30 -> clampSeconds (of_Z n) = n.
Proof.
  intros Hn.
  pose proof clampSeconds_fixed_table as T.
  rewrite forallb_forall in T.
  apply Z.eqb_eq, T.
  apply in_map_iff. exists (Z.to_nat n). split; [lia|].
  apply in_seq. lia.
Qed.

Lemma clampSeconds_idempotent (x : float) :
  clampSeconds (of_Z (clampSeconds x)) = clampSeconds x.
Proof. apply clampSeconds_fixed, clampSeconds_range. Qed.

Lemma lowerChar_idempotent (c : ascii) : lowerChar (lowerChar c) = lowerChar c.
Proof. destruct c as [[] [] [] [] [] [] [] []]; vm_compute; reflexivity. Qed.

Lemma lowerChar_hex (c : ascii) :
  isHexDigit c = true -> isHexDigit (lowerChar c) = true.
Proof.
  destruct c as [[] [] [] [] [] [] [] []]; vm_compute; intros H;
    first [reflexivity | discriminate H].
Qed.

Lemma toLowerCase_idempotent (s : string) :
  toLowerCase (toLowerCase s) = toLowerCase s.
Proof.
  induction s as [|c s IH]; cbn; [reflexivity|].
  now rewrite lowerChar_idempotent, IH.
Qed.

Lemma toLowerCase_length (s : string) :
  String.length (toLowerCase s) = String.length s.
Proof. induction s as [|c s IH]; cbn; [reflexivity | now rewrite IH]. Qed.

Lemma toLowerCase_hex (s : string) :
  forallb isHexDigit (list_ascii_of_string s) = true ->
  forallb isHexDigit (list_ascii_of_string (toLowerCase s)) = true.
Proof.
  induction s as [|c s IH]; cbn; [reflexivity|].
  intros H. apply andb_true_iff in H as [Hc Hs].
  now rewrite (lowerChar_hex c Hc), IH.
Qed.

Lemma isHex6_toLowerCase (hex : string) :
  isHex6 hex = true -> isHex6 (toLowerCase hex) = true.
Proof.
  unfold isHex6. intros H. apply andb_true_iff in H as [Hl Hd].
  now rewrite toLowerCase_length, Hl, toLowerCase_hex.
Qed.

(** A valid color in its normal form is kept as it is. *)
Lemma normalizeColor_normal (hex : string) :
  isHex6 hex = true ->
  normalizeColor (toLowerCase (String "#" hex)) = toLowerCase (String "#" hex).
Proof.
  intros H. cbn [toLowerCase].
  change (lowerChar "#") with "#"%char.
  unfold normalizeColor.
  change (Ascii.eqb "#" "#") with true. cbn iota.
  rewrite (isHex6_toLowerCase hex H).
  cbn [String.append toLowerCase].
  change (lowerChar "#") with "#"%char.
  now rewrite toLowerCase_idempotent.
Qed.

Lemma normalizeColor_default :
  normalizeColor (accentColor DEFAULTS) = accentColor DEFAULTS.
Proof. vm_compute. reflexivity. Qed.

Lemma normalizeColor_idempotent (color : string) :
  normalizeColor (normalizeColor color) = normalizeColor color.
Proof.
  unfold normalizeColor at 2 3.
  destruct color as [|first rest]; [apply normalizeColor_default|].
  destruct (isHex6 (if Ascii.eqb first "#" then rest else String first rest))
    eqn:E; [|apply normalizeColor_default].
  apply normalizeColor_normal, E.
Qed.

Lemma normalizePowerAction_name (a : Power.PowerAction) :
  normalizePowerAction (Some (Power.actionName a)) = a.
Proof. destruct a; reflexivity. Qed.

End SettingsFacts.

(** C5. Normalizing a normalized settings value gives the same value;
    the accent color ZZZZZZ normalizes to the default #00d37f, 1 second to
    5 and 999 seconds to 30. *)
Theorem normalizeSettings_idempotent (s : option Controller.ShutdownSettings) :
  Controller.normalizeSettings
    (Some (Controller.asSettings (Controller.normalizeSettings s)))
  = Controller.normalizeSettings s
  /\ (forall seconds layout armed action,
        Controller.accentColor
          (Controller.normalizeSettings
             (Some (Controller.mkSettings seconds (Some "ZZZZZZ"%string)
                                          layout armed action)))
        = "#00d37f"%string)
  /\ (forall color layout armed action,
        Controller.countdownSeconds
          (Controller.normalizeSettings
             (Some (Controller.mkSettings (Some 1%float) color
                                          layout armed action)))
        = 5)
  /\ (forall color layout armed action,
        Controller.countdownSeconds
          (Controller.normalizeSettings
             (Some (Controller.mkSettings (Some 999%float) color
                                          layout armed action)))
        = 30).
Proof.
  split; [|split; [|split]].
  - unfold Controller.normalizeSettings, Controller.asSettings.
    cbn [Controller.field JS.orElse Controller.raw_accentColor
         Controller.raw_countdownSeconds Controller.raw_multiTileLayout
         Controller.raw_armed Controller.raw_powerAction
         Controller.countdownSeconds Controller.accentColor
         Controller.multiTileLayout Controller.armed Controller.powerAction].
    now rewrite normalizeColor_idempotent, clampSeconds_idempotent,
      normalizePowerAction_name.
  - intros. reflexivity.
  - intros. vm_compute. reflexivity.
  - intros. vm_compute. reflexivity.
Qed.

(* ================================================================== *)
(** * Properties of the renderer *)
(* ================================================================== *)

Section EscapeFacts.

Import JS Renderer Notions.
Local Open Scope string_scope.

Lemma append_assoc (a b c : string) : (a ++ b) ++ c = a ++ (b ++ c).
Proof. induction a as [|x a IH]; cbn; [reflexivity | now rewrite IH]. Qed.

Lemma append_length (a b : string) :
  String.length (a ++ b) = (String.length a + String.length b)%nat.
Proof. induction a as [|x a IH]; cbn; [reflexivity | now rewrite IH]. Qed.

(** What [escapeChar] does to each character. *)
Lemma escapeChar_cases (c : ascii) :
  (c = "<"%char /\ escapeChar c = "&lt;") \/
  (c = ">"%char /\ escapeChar c = "&gt;") \/
  (c = "&"%char /\ escapeChar c = "&amp;") \/
  (c = ascii_of_nat 34 /\ escapeChar c = "&quot;") \/
  (Ascii.eqb c "<" = false /\ Ascii.eqb c ">" = false /\
   Ascii.eqb c "&" = false /\ Ascii.eqb c (ascii_of_nat 34) = false /\
   escapeChar c = String c EmptyString).
Proof.
  unfold escapeChar.
  destruct (Ascii.eqb_spec c "<"); [subst; auto|].
  destruct (Ascii.eqb_spec c ">"); [subst; auto|].
  destruct (Ascii.eqb_spec c "&"); [subst; auto 6|].
  destruct (Ascii.eqb_spec c (ascii_of_nat 34)); [subst; auto 6|].
  do 4 right. auto 6.
Qed.

Lemma prefix_empty (s : string) : String.prefix EmptyString s = true.
Proof. destruct s; reflexivity. Qed.

Lemma escapeXml_wellEscaped (s : string) : wellEscaped (escapeXml s) = true.
Proof.
  induction s as [|c s IH]; [reflexivity|].
  cbn [escapeXml].
  destruct (escapeChar_cases c)
    as [[-> ->]|[[-> ->]|[[-> ->]|[[-> ->]|(H1 & H2 & H3 & H4 & ->)]]]];
    try (cbn; rewrite prefix_empty; exact IH).
  cbn [String.append wellEscaped]. now rewrite H1, H2, H3, H4, IH.
Qed.

Lemma unescapeXml_escapeXml (s : string) : unescapeXml (escapeXml s) = s.
Proof.
  induction s as [|c s IH]; [reflexivity|].
  cbn [escapeXml].
  destruct (escapeChar_cases c)
    as [[-> ->]|[[-> ->]|[[-> ->]|[[-> ->]|(H1 & H2 & H3 & H4 & ->)]]]];
    try (cbn; now rewrite IH).
  cbn [String.append unescapeXml]. now rewrite H3, IH.
Qed.

Lemma escapeXml_empty (s : string) :
  (String.length (escapeXml s) =? 0)%nat = true <-> s = EmptyString.
Proof.
  split; [|intros ->; reflexivity].
  destruct s as [|c s]; [reflexivity|].
  cbn [escapeXml]. rewrite append_length.
  destruct (escapeChar_cases c)
    as [[-> ->]|[[-> ->]|[[-> ->]|[[-> ->]|(_ & _ & _ & _ & ->)]]]];
    cbn; discriminate.
Qed.

End EscapeFacts.

Section RendererFacts.

Import JS SDK Renderer Notions.
Local Open Scope string_scope.

Variable numberToString : float -> string.
Variable encodeURIComponent : string -> string.

(** Finding a text in a chain of appended pieces. *)
Lemma split_here (s c : string) : s ++ c = EmptyString ++ (s ++ c).
Proof. reflexivity. Qed.

Lemma split_later (a r pre s c : string) :
  r = pre ++ (s ++ c) -> a ++ r = (a ++ pre) ++ (s ++ c).
Proof. intros ->. symmetry. apply append_assoc. Qed.

(** The message enters its graphic as [escapeXml message] and, through
    the font size, as the length of that text; nothing else of it does. *)
Lemma buildMessageGraphic_shape (layout : Layout) (style : DisplayStyle) :
  exists (opening : nat -> string) (closing : string),
    forall message,
      (message = EmptyString ->
       buildMessageGraphic numberToString message layout style = EmptyString)
      /\ (message <> EmptyString ->
          buildMessageGraphic numberToString message layout style
          = opening (String.length (escapeXml message))
            ++ escapeXml message ++ closing).
Proof.
  eexists (fun n : nat => _), _. intros message. split.
  - intros ->. reflexivity.
  - intros Hne. unfold buildMessageGraphic.
    destruct (String.length (escapeXml message) =? 0)%nat eqn:E.
    + apply escapeXml_empty in E. contradiction.
    + clear E.
      generalize (String.length (escapeXml message)) as n.
      generalize (escapeXml message) as safe. intros safe n.
      cbv beta zeta.
      repeat first [apply split_here | apply split_later].
Qed.

(** Every image [renderMessage] delivers is the data URI of the document
    around the message graphic. *)
Lemma renderMessage_images (message : string) (actions : list KeyAction)
  (options : option RenderOptions) (key : KeyAction) (image : string) :
  In (key, image)
     (renderMessage numberToString encodeURIComponent message actions options)
  ->
  exists tile layout,
    image
    = toDataUri encodeURIComponent
        (svg tile layout
           (fullGraphic layout
              (buildMessageGraphic numberToString message layout
                                   (buildStyle 1 1 options))
              (buildStyle 1 1 options))).
Proof.
  unfold renderMessage.
  destruct (List.length (prepareTiles actions) =? 0)%nat; [intros []|].
  destruct (1 <? List.length (prepareTiles actions))%nat.
  - unfold renderAcrossTiles. intros H.
    apply in_map_iff in H as (tile & E & _). inversion E; subst.
    exists tile, (buildLayout (prepareTiles actions)). reflexivity.
  - intros H. apply in_flat_map in H as (tile & _ & H).
    cbn in H. destruct H as [E|[]]. inversion E; subst.
    exists tile, (buildLayout [tile]). reflexivity.
Qed.

End RendererFacts.

(** C10. In the text [escapeXml] returns, every less-than, greater-than,
    ampersand and double-quote character of the message has become its
    XML entity: no such character is left standing for itself, and the
    entities read back give the message. That text, and its length, are
    all of the message that the message graphic holds, and the graphic is
    what every image delivered by [renderMessage] is built around. *)
Theorem message_markup_is_escaped
  (numberToString : float -> string) (encodeURIComponent : string -> string) :
  (forall message,
     Notions.wellEscaped (Renderer.escapeXml message) = true /\
     Notions.unescapeXml (Renderer.escapeXml message) = message) /\
  (forall layout style,
     exists (opening : nat -> string) (closing : string),
       forall message,
         (message = EmptyString ->
          Renderer.buildMessageGraphic numberToString message layout style
          = EmptyString)
         /\ (message <> EmptyString ->
             Renderer.buildMessageGraphic numberToString message layout style
             = (opening (String.length (Renderer.escapeXml message))
                ++ Renderer.escapeXml message ++ closing)%string)) /\
  (forall message actions options key image,
     In (key, image)
        (Renderer.renderMessage numberToString encodeURIComponent
                                message actions options) ->
     exists tile layout,
       image
       = Renderer.toDataUri encodeURIComponent
           (Renderer.svg tile layout
              (Renderer.fullGraphic layout
                 (Renderer.buildMessageGraphic
                    numberToString message layout
                    (Renderer.buildStyle 1 1 options))
                 (Renderer.buildStyle 1 1 options)))).
Proof.
  split; [|split].
  - intros message. split.
    + apply escapeXml_wellEscaped.
    + apply unescapeXml_escapeXml.
  - apply buildMessageGraphic_shape.
  - apply renderMessage_images.
Qed.

Section LayoutFacts.

Import JS SDK Renderer Notions.

Lemma fold_min_le (xs : list Z) :
  forall x, fold_left Z.min xs x <= x /\
            forall y, In y xs -> fold_left Z.min xs x <= y.
Proof.
  induction xs as [|a xs IH]; intros x; cbn.
  - split; [lia | intros y []].
  - destruct (IH (Z.min x a)) as [H1 H2]. split; [lia|].
    intros y [->|Hy]; [lia | now apply H2].
Qed.

Lemma fold_max_ge (xs : list Z) :
  forall x, x <= fold_left Z.max xs x /\
            forall y, In y xs -> y <= fold_left Z.max xs x.
Proof.
  induction xs as [|a xs IH]; intros x; cbn.
  - split; [lia | intros y []].
  - destruct (IH (Z.max x a)) as [H1 H2]. split; [lia|].
    intros y [->|Hy]; [lia | now apply H2].
Qed.

Lemma spread_min_le (xs : list Z) (y : Z) : In y xs -> spread_min xs <= y.
Proof.
  destruct xs as [|x xs]; [intros []|].
  cbn [spread_min]. destruct (fold_min_le xs x) as [H1 H2].
  intros [<-|Hy]; [exact H1 | now apply H2].
Qed.

Lemma spread_max_ge (xs : list Z) (y : Z) : In y xs -> y <= spread_max xs.
Proof.
  destruct xs as [|x xs]; [intros []|].
  cbn [spread_max]. destruct (fold_max_ge xs x) as [H1 H2].
  intros [<-|Hy]; [exact H1 | now apply H2].
Qed.

(** The window of every tile of a layout lies on its canvas, at the
    offset its column and row name. *)
Lemma window_on_canvas (tiles : list Tile) (tile : Tile) :
  In tile tiles ->
  let layout := buildLayout tiles in
  tileSize layout = 200 /\
  viewX tile layout = (col tile - minCol layout) * 200 /\
  viewY tile layout = (row tile - minRow layout) * 200 /\
  0 <= viewX tile layout /\ viewX tile layout + 200 <= widthPx layout /\
  0 <= viewY tile layout /\ viewY tile layout + 200 <= heightPx layout.
Proof.
  intros Hin.
  pose proof (spread_min_le (map col tiles) (col tile) (in_map col _ _ Hin)).
  pose proof (spread_max_ge (map col tiles) (col tile) (in_map col _ _ Hin)).
  pose proof (spread_min_le (map row tiles) (row tile) (in_map row _ _ Hin)).
  pose proof (spread_max_ge (map row tiles) (row tile) (in_map row _ _ Hin)).
  unfold viewX, viewY, buildLayout, this_tileSize. cbn.
  repeat split; lia.
Qed.

(** A tile on its own has a layout of one column and one row. *)
Lemma single_tile_layout (tile : Tile) :
  buildLayout [tile] = mkLayout 200 (col tile) (row tile) 1 1 200 200.
Proof.
  unfold buildLayout, this_tileSize. cbn. f_equal; lia.
Qed.

(** Two tiles side by side. *)
Lemma pair_layout (a1 a2 : KeyAction) (c r : Z) :
  buildLayout [mkTile a1 c r; mkTile a2 (c + 1) r]
  = mkLayout 200 c r 2 1 400 200.
Proof.
  unfold buildLayout, this_tileSize. cbn. f_equal; lia.
Qed.

Lemma prepareTiles_length (keys : list KeyAction) :
  (1 <? List.length (prepareTiles keys))%nat
  = (1 <? List.length (filter placed keys))%nat.
Proof.
  unfold prepareTiles.
  assert (E : List.length
                (flat_map (fun action =>
                             match coordinates action with
                             | None => []
                             | Some (column, row) => [mkTile action column row]
                             end) keys)
              = List.length (filter placed keys)).
  { induction keys as [|k keys IH]; [reflexivity|].
    cbn [flat_map filter]. unfold placed at 1.
    destruct (coordinates k) as [[column row]|]; cbn; now rewrite IH. }
  destruct (flat_map _ keys) as [|t ts] eqn:F.
  - cbn in E. rewrite <- E. destruct keys; reflexivity.
  - now rewrite <- E.
Qed.

Lemma filter_length_le {A : Type} (f : A -> bool) (l : list A) :
  (List.length (filter f l) <= List.length l)%nat.
Proof.
  induction l as [|x l IH]; cbn; [lia|]. destruct (f x); cbn; lia.
Qed.

(** With the options the controller passes, both render methods choose
    the shared canvas exactly when [compositing] says so. *)
Lemma compositing_as_coded (setting : bool) (keys : list KeyAction) :
  (setting || (1 <? List.length keys)%nat)
  && (1 <? List.length (prepareTiles keys))%nat
  = compositing setting keys
  /\ (1 <? List.length (prepareTiles keys))%nat = compositing setting keys.
Proof.
  unfold compositing. rewrite prepareTiles_length.
  pose proof (filter_length_le placed keys) as Hle.
  destruct (1 <? List.length (filter placed keys))%nat eqn:E.
  - apply Nat.ltb_lt in E.
    assert ((1 <? List.length keys)%nat = true) as ->
      by (apply Nat.ltb_lt; lia).
    now rewrite orb_true_r.
  - now rewrite andb_false_r.
Qed.

End LayoutFacts.

Section SlicingFacts.

Import JS SDK Renderer Notions.

Variable numberToString : float -> string.
Variable encodeURIComponent : string -> string.

Lemma renderCountdown_shared (remaining totalSeconds : Z)
  (actions : list KeyAction) (options : option RenderOptions) :
  opt options multiTileLayout = Some true ->
  (1 < List.length (prepareTiles actions))%nat ->
  renderCountdown numberToString encodeURIComponent remaining totalSeconds
                  actions options
  = map (slice encodeURIComponent (buildLayout (prepareTiles actions))
               (countdownCanvas numberToString remaining totalSeconds
                  (buildLayout (prepareTiles actions))
                  (buildStyle remaining totalSeconds options)))
        (prepareTiles actions).
Proof.
  intros Hopt Hlen. unfold renderCountdown. rewrite Hopt.
  destruct (List.length (prepareTiles actions) =? 0)%nat eqn:E0;
    [apply Nat.eqb_eq in E0; lia|].
  apply Nat.ltb_lt in Hlen. rewrite Hlen. reflexivity.
Qed.

Lemma renderMessage_shared (message : string) (actions : list KeyAction)
  (options : option RenderOptions) :
  (1 < List.length (prepareTiles actions))%nat ->
  renderMessage numberToString encodeURIComponent message actions options
  = map (slice encodeURIComponent (buildLayout (prepareTiles actions))
               (messageCanvas numberToString message (buildLayout (prepareTiles actions))
                              (buildStyle 1 1 options)))
        (prepareTiles actions).
Proof.
  intros Hlen. unfold renderMessage.
  destruct (List.length (prepareTiles actions) =? 0)%nat eqn:E0;
    [apply Nat.eqb_eq in E0; lia|].
  apply Nat.ltb_lt in Hlen. rewrite Hlen. reflexivity.
Qed.

Lemma prepareTiles_pair (k1 k2 : KeyAction) (c r : Z) :
  coordinates k1 = Some (c, r) ->
  coordinates k2 = Some (c + 1, r) ->
  prepareTiles [k1; k2] = [mkTile k1 c r; mkTile k2 (c + 1) r].
Proof. intros H1 H2. unfold prepareTiles. cbn. now rewrite H1, H2. Qed.

End SlicingFacts.

Section ReadingFacts.

Import JS SDK Renderer Notions Viewing.
Local Open Scope string_scope.

Lemma app_assoc_s (a b c : string) : (a ++ b) ++ c = a ++ (b ++ c).
Proof. induction a as [|x a IH]; cbn; [reflexivity | now rewrite IH]. Qed.

Lemma decode_unit (c : ascii) (s : string) :
  Viewing.decodeURIComponent (encodeUnit c ++ s)
  = String c (Viewing.decodeURIComponent s).
Proof.
  destruct c as [[] [] [] [] [] [] [] []]; reflexivity.
Qed.

(** Decoding undoes encoding. *)
Lemma decode_encode (s : string) :
  Viewing.decodeURIComponent (Viewing.encodeURIComponent s) = s.
Proof.
  induction s as [|c s IH]; [reflexivity|].
  cbn [Viewing.encodeURIComponent]. rewrite decode_unit. now rewrite IH.
Qed.

Lemma stripPrefix_app (p s : string) : stripPrefix p (p ++ s) = Some s.
Proof.
  induction p as [|a p IH]; [reflexivity|].
  cbn. now rewrite Ascii.eqb_refl.
Qed.

Lemma length_app_s (a b : string) :
  String.length (a ++ b) = (String.length a + String.length b)%nat.
Proof. induction a as [|x a IH]; cbn; [reflexivity | now rewrite IH]. Qed.

Lemma stripSuffix_app (p s : string) : stripSuffix p (s ++ p) = Some s.
Proof.
  induction s as [|c s IH].
  - cbn [String.append].
    destruct p as [|a p]; [reflexivity|].
    unfold stripSuffix. now rewrite String.eqb_refl.
  - cbn [String.append].
    change (stripSuffix p (String c (s ++ p)))
      with (if String.eqb (String c (s ++ p)) p then Some EmptyString
            else option_map (String c) (stripSuffix p (s ++ p))).
    destruct (String.eqb (String c (s ++ p)) p) eqn:E.
    + apply String.eqb_eq in E.
      apply (f_equal String.length) in E. cbn in E.
      rewrite length_app_s in E. lia.
    + now rewrite IH.
Qed.

Lemma cut_app (sep : ascii) (a b : string) :
  lacks sep a -> cut sep (a ++ String sep b) = Some (a, b).
Proof.
  induction a as [|c a IH]; cbn.
  - now rewrite Ascii.eqb_refl.
  - intros [Hc Ha]. apply Ascii.eqb_neq in Hc. rewrite Hc.
    now rewrite (IH Ha).
Qed.

Lemma uint_lacks (sep : ascii) (d : Decimal.uint) :
  sep = " "%char \/ sep = ascii_of_nat 34 ->
  lacks sep (DecimalString.NilEmpty.string_of_uint d).
Proof.
  intros Hs. induction d; cbn; try exact I;
    (split; [destruct Hs as [-> | ->]; discriminate | assumption]).
Qed.

Lemma showZ_lacks (sep : ascii) (z : Z) :
  sep = " "%char \/ sep = ascii_of_nat 34 -> lacks sep (showZ z).
Proof.
  intros Hs. unfold showZ, DecimalString.NilZero.string_of_int,
    DecimalString.NilZero.string_of_uint.
  assert (Hz : lacks sep "0")
    by (cbn; split; [destruct Hs as [-> | ->]; discriminate | exact I]).
  destruct (Z.to_int z) as [d|d].
  - destruct d; try exact Hz; apply uint_lacks; exact Hs.
  - cbn. split; [destruct Hs as [-> | ->]; discriminate|].
    destruct d; try exact Hz; apply uint_lacks; exact Hs.
Qed.

Lemma parse_show (z : Z) : parseZ (showZ z) = Some z.
Proof.
  unfold parseZ, showZ.
  rewrite DecimalString.NilZero.isi.
  - cbn. f_equal. apply DecimalZ.of_to.
  - destruct z; cbn; try discriminate.
    + intros E. injection E as E. revert E. apply DecimalPos.Unsigned.to_uint_nonnil.
  - destruct z; cbn; try discriminate.
    intros E. injection E as E. revert E. apply DecimalPos.Unsigned.to_uint_nonnil.
Qed.

Lemma lacks_app (sep : ascii) (a b : string) :
  lacks sep a -> lacks sep b -> lacks sep (a ++ b).
Proof.
  induction a as [|c a IH]; cbn; [auto|]. intros [H1 H2] Hb. auto.
Qed.

(** The document of a tile reads as the window the code computed and the
    graphic it was given. *)
Lemma readSvg_svg (tile : Tile) (layout : Layout) (g : string) :
  readSvg (svg tile layout g)
  = Some (mkPicture (viewX tile layout) (viewY tile layout)
                    (tileSize layout) (tileSize layout) g).
Proof.
  unfold readSvg, svg, q.
  set (sx := showZ (viewX tile layout)).
  set (sy := showZ (viewY tile layout)).
  set (st := showZ (tileSize layout)).
  assert (Lx : lacks " " sx) by (apply showZ_lacks; now left).
  assert (Ly : lacks " " sy) by (apply showZ_lacks; now left).
  assert (Lt : lacks " " st) by (apply showZ_lacks; now left).
  assert (Qx : lacks (ascii_of_nat 34) sx) by (apply showZ_lacks; now right).
  assert (Qy : lacks (ascii_of_nat 34) sy) by (apply showZ_lacks; now right).
  assert (Qt : lacks (ascii_of_nat 34) st) by (apply showZ_lacks; now right).
  assert (Shape :
    "<svg xmlns=" ++ (dq ++ "http://www.w3.org/2000/svg" ++ dq)
      ++ " viewBox=" ++ (dq ++ (sx ++ " " ++ sy ++ " " ++ st ++ " " ++ st) ++ dq)
      ++ " width=" ++ (dq ++ "200" ++ dq) ++ " height=" ++ (dq ++ "200" ++ dq)
      ++ ">" ++ g ++ "</svg>"
    = svgOpen ++ ((sx ++ " " ++ sy ++ " " ++ st ++ " " ++ st)
                    ++ String (ascii_of_nat 34) (svgSize ++ (g ++ "</svg>")))).
  { rewrite !app_assoc_s. reflexivity. }
  rewrite Shape. clear Shape.
  rewrite stripPrefix_app. cbn [bindOption].
  rewrite cut_app.
  2:{ repeat first [ assumption | exact I | apply lacks_app
                     | cbn [lacks]; split; [discriminate|] ]. }
  cbn [bindOption]. rewrite stripPrefix_app. cbn [bindOption].
  rewrite stripSuffix_app. cbn [bindOption].
  change (sx ++ " " ++ sy ++ " " ++ st ++ " " ++ st)
    with (sx ++ String " " (sy ++ String " " (st ++ String " " st))).
  rewrite (cut_app " " sx _ Lx). cbn [bindOption].
  rewrite (cut_app " " sy _ Ly). cbn [bindOption].
  rewrite (cut_app " " st _ Lt). cbn [bindOption].
  unfold sx, sy, st. rewrite !parse_show. reflexivity.
Qed.

Variable numberToString : float -> string.
Variable encode decode : string -> string.
Hypothesis Hdecode : forall s, decode (encode s) = s.

Lemma readImage_slice (tile : Tile) (layout : Layout) (canvas : string) :
  tileSize layout = 200 ->
  readImage decode (snd (slice encode layout canvas tile))
  = snd (window layout canvas tile).
Proof.
  intros Ets. unfold slice, window, readImage, toDataUri. cbn [snd].
  rewrite stripPrefix_app. cbn [bindOption].
  rewrite Hdecode, readSvg_svg. unfold viewX, viewY. now rewrite Ets.
Qed.

Lemma read_slices (tiles : list Tile) (layout : Layout) (canvas : string) :
  tileSize layout = 200 ->
  read decode (map (slice encode layout canvas) tiles)
  = map (window layout canvas) tiles.
Proof.
  intros Ets. unfold read. rewrite map_map.
  apply map_ext. intros tile.
  pose proof (readImage_slice tile layout canvas Ets) as R.
  unfold slice in *. cbn [snd] in R. now rewrite R.
Qed.

(** When more than one tile is prepared, every tile sits where its key
    says. *)
Lemma tiles_located (actions : list KeyAction) :
  (1 < List.length (prepareTiles actions))%nat ->
  Forall (fun t => coordinates (action t) = Some (col t, row t))
         (prepareTiles actions).
Proof.
  unfold prepareTiles.
  set (F := flat_map _ actions).
  assert (HF : Forall (fun t => coordinates (action t) = Some (col t, row t)) F).
  { apply Forall_forall. intros t Ht. apply in_flat_map in Ht as (k & _ & Hk).
    destruct (coordinates k) as [[c r]|] eqn:E; [|destruct Hk].
    destruct Hk as [<-|[]]. exact E. }
  destruct F as [|t F']; [|intros _; exact HF].
  destruct actions; cbn; lia.
Qed.

Lemma located_slices (tiles : list Tile) (layout : Layout) (canvas : string) :
  Forall (fun t => coordinates (action t) = Some (col t, row t)) tiles ->
  located (map (slice encode layout canvas) tiles)
  = map (fun t => (col t, row t, snd (slice encode layout canvas t))) tiles.
Proof.
  induction 1 as [|t tiles Ht _ IH]; [reflexivity|].
  cbn [map located flat_map]. unfold slice at 1. cbn [fst snd].
  rewrite Ht. cbn [List.app]. f_equal. exact IH.
Qed.

(** What the deck shows of the slices of a canvas. *)
Lemma deckShows_slices (Colour : Type) (paint : string -> Z -> Z -> Colour)
  (tiles : list Tile) (canvas : string) (x y : Z) :
  Forall (fun t => coordinates (action t) = Some (col t, row t)) tiles ->
  deckShows decode Colour paint
            (map (slice encode (buildLayout tiles) canvas) tiles) x y
  = if existsb (fun t =>
                  ((col t =? minCol (buildLayout tiles) + x / 200)
                   && (row t =? minRow (buildLayout tiles) + y / 200))%Z)
               tiles
    then Some (paint canvas x y) else None.
Proof.
  intros Hloc. unfold deckShows. rewrite (located_slices _ _ _ Hloc).
  rewrite !map_map. cbn [fst snd].
  change (spread_min (map (fun t => col t) tiles))
    with (minCol (buildLayout tiles)).
  change (spread_min (map (fun t => row t) tiles))
    with (minRow (buildLayout tiles)).
  set (L := buildLayout tiles).
  assert (Ets : tileSize L = 200) by reflexivity.
  clearbody L. clear Hloc.
  induction tiles as [|t tiles IH]; [reflexivity|].
  cbn [map find existsb fst snd].
  destruct ((col t =? minCol L + x / 200)%Z && (row t =? minRow L + y / 200)%Z)
    eqn:E; [|exact IH].
  cbn [orb]. unfold keyShows.
  rewrite (readImage_slice t L canvas Ets). unfold window.
  cbn [snd bindOption boxWidth boxHeight boxX boxY graphic].
  apply andb_true_iff in E as [Ec Er].
  apply Z.eqb_eq in Ec, Er.
  pose proof (Z.div_mod x 200 ltac:(lia)) as Dx.
  pose proof (Z.mod_pos_bound x 200 ltac:(lia)) as Bx.
  pose proof (Z.div_mod y 200 ltac:(lia)) as Dy.
  pose proof (Z.mod_pos_bound y 200 ltac:(lia)) as By.
  replace (0 <=? x mod 200)%Z with true by (symmetry; apply Z.leb_le; lia).
  replace (x mod 200 <? 200)%Z with true by (symmetry; apply Z.ltb_lt; lia).
  replace (0 <=? y mod 200)%Z with true by (symmetry; apply Z.leb_le; lia).
  replace (y mod 200 <? 200)%Z with true by (symmetry; apply Z.ltb_lt; lia).
  cbn. do 2 f_equal; lia.
Qed.

End ReadingFacts.

(** C2. In a multi-tile render the renderer builds one canvas, a function
    of the value, the layout and the style, and the image handed to each
    tile, opened and read, is that canvas with a viewBox of 200 by 200 at
    ((col - minCol) * 200, (row - minRow) * 200), a window that lies on
    the canvas. For two keys side by side and 9 remaining seconds the
    canvas is 400 by 200, the two images read as its windows at 0 and at
    200, and the deck shows, on the two keys together, every point of the
    canvas as a single drawing of the canvas has it. Columns and rows are
    taken within [gridBound], where the numbers of the code are exact. *)
Theorem slicing_is_lossless
  (numberToString : float -> string)
  (encodeURIComponent decodeURIComponent : string -> string)
  (Hdecode : forall s, decodeURIComponent (encodeURIComponent s) = s) :
  (forall remaining totalSeconds actions options,
     Renderer.opt options Renderer.multiTileLayout = Some true ->
     (1 < List.length (Renderer.prepareTiles actions))%nat ->
     forallb Viewing.keyOnGrid actions = true ->
     let tiles := Renderer.prepareTiles actions in
     let layout := Renderer.buildLayout tiles in
     let canvas :=
       Notions.countdownCanvas numberToString remaining totalSeconds layout
         (Renderer.buildStyle remaining totalSeconds options) in
     let delivered :=
       Renderer.renderCountdown numberToString encodeURIComponent
                                remaining totalSeconds actions options in
     delivered = map (Notions.slice encodeURIComponent layout canvas) tiles /\
     Viewing.read decodeURIComponent delivered
     = map (Viewing.window layout canvas) tiles) /\
  (forall message actions options,
     (1 < List.length (Renderer.prepareTiles actions))%nat ->
     forallb Viewing.keyOnGrid actions = true ->
     let tiles := Renderer.prepareTiles actions in
     let layout := Renderer.buildLayout tiles in
     let canvas :=
       Notions.messageCanvas numberToString message layout
                             (Renderer.buildStyle 1 1 options) in
     let delivered :=
       Renderer.renderMessage numberToString encodeURIComponent
                              message actions options in
     delivered = map (Notions.slice encodeURIComponent layout canvas) tiles /\
     Viewing.read decodeURIComponent delivered
     = map (Viewing.window layout canvas) tiles) /\
  (forall tiles tile,
     forallb Viewing.tileOnGrid tiles = true ->
     In tile tiles ->
     let layout := Renderer.buildLayout tiles in
     Renderer.tileSize layout = 200 /\
     Renderer.viewX tile layout
     = (Renderer.col tile - Renderer.minCol layout) * 200 /\
     Renderer.viewY tile layout
     = (Renderer.row tile - Renderer.minRow layout) * 200 /\
     0 <= Renderer.viewX tile layout /\
     Renderer.viewX tile layout + 200 <= Renderer.widthPx layout /\
     0 <= Renderer.viewY tile layout /\
     Renderer.viewY tile layout + 200 <= Renderer.heightPx layout) /\
  (forall k1 k2 c r totalSeconds options,
     SDK.coordinates k1 = Some (c, r) ->
     SDK.coordinates k2 = Some (c + 1, r) ->
     Viewing.onGrid c r = true ->
     Viewing.onGrid (c + 1) r = true ->
     Renderer.opt options Renderer.multiTileLayout = Some true ->
     let tiles := Renderer.prepareTiles [k1; k2] in
     let layout := Renderer.buildLayout tiles in
     let canvas :=
       Notions.countdownCanvas numberToString 9 totalSeconds layout
                       (Renderer.buildStyle 9 totalSeconds options) in
     let delivered :=
       Renderer.renderCountdown numberToString encodeURIComponent
                                9 totalSeconds [k1; k2] options in
     Renderer.widthPx layout = 400 /\ Renderer.heightPx layout = 200 /\
     Viewing.read decodeURIComponent delivered
     = [(k1, Some (Viewing.mkPicture 0 0 200 200 canvas));
        (k2, Some (Viewing.mkPicture 200 0 200 200 canvas))] /\
     forall (Colour : Type) (paint : string -> Z -> Z -> Colour) x y,
       0 <= x < 400 -> 0 <= y < 200 ->
       Viewing.deckShows decodeURIComponent Colour paint delivered x y
       = Some (paint canvas x y)).
Proof.
  split; [|split; [|split]].
  - intros remaining totalSeconds actions options Hopt Hlen _
           tiles layout canvas delivered.
    assert (E : delivered
                = map (Notions.slice encodeURIComponent layout canvas) tiles)
      by (apply renderCountdown_shared; assumption).
    split; [exact E|]. rewrite E.
    apply read_slices; [exact Hdecode | reflexivity].
  - intros message actions options Hlen _ tiles layout canvas delivered.
    assert (E : delivered
                = map (Notions.slice encodeURIComponent layout canvas) tiles)
      by (apply renderMessage_shared; assumption).
    split; [exact E|]. rewrite E.
    apply read_slices; [exact Hdecode | reflexivity].
  - intros tiles tile _. apply window_on_canvas.
  - intros k1 k2 c r totalSeconds options H1 H2 _ _ Hopt
           tiles layout canvas delivered.
    assert (Et : tiles = [Renderer.mkTile k1 c r; Renderer.mkTile k2 (c + 1) r])
      by (apply prepareTiles_pair; assumption).
    assert (El : layout = Renderer.mkLayout 200 c r 2 1 400 200)
      by (unfold layout; rewrite Et; apply pair_layout).
    assert (E : delivered
                = map (Notions.slice encodeURIComponent layout canvas) tiles).
    { apply renderCountdown_shared; [exact Hopt|].
      fold tiles. rewrite Et. cbn. lia. }
    split; [now rewrite El|]. split; [now rewrite El|].
    split.
    { rewrite E, (read_slices encodeURIComponent decodeURIComponent Hdecode)
        by reflexivity.
      rewrite Et. unfold Viewing.window. cbn [map Renderer.action
        Renderer.col Renderer.row]. rewrite El. cbn [Renderer.minCol
        Renderer.minRow].
      repeat f_equal; lia. }
    intros Colour paint x y Hx Hy. rewrite E. unfold layout.
    rewrite (deckShows_slices encodeURIComponent decodeURIComponent Hdecode).
    2:{ fold tiles. rewrite Et.
        repeat constructor; cbn [Renderer.action Renderer.col Renderer.row];
          assumption. }
    fold tiles. fold layout. rewrite Et, El.
    cbn [existsb Renderer.col Renderer.row Renderer.minCol Renderer.minRow].
    assert (Dx : x / 200 = 0 \/ x / 200 = 1).
    { pose proof (Z.div_mod x 200 ltac:(lia)).
      pose proof (Z.mod_pos_bound x 200 ltac:(lia)). lia. }
    assert (Dy : y / 200 = 0).
    { apply Z.div_small. lia. }
    rewrite Dy. destruct Dx as [-> | ->].
    + replace (c =? c + 0) with true by (symmetry; apply Z.eqb_eq; lia).
      replace (r =? r + 0) with true by (symmetry; apply Z.eqb_eq; lia).
      reflexivity.
    + replace (c + 1 =? c + 1) with true by (symmetry; apply Z.eqb_eq; lia).
      replace (r =? r + 0) with true by (symmetry; apply Z.eqb_eq; lia).
      cbn. now rewrite orb_true_r.
Qed.

(** C2 on an input: with the [encodeURIComponent] and
    [decodeURIComponent] of [Viewing], two keys at columns 3 and 4 of
    row 1 show the point (250, 10) of the canvas on the second key. *)
Lemma slicing_is_lossless_witness :
  (forall s, Viewing.decodeURIComponent (Viewing.encodeURIComponent s) = s) /\
  let k1 := SDK.mkKey "left"%string (Some "deck"%string) (Some (3, 1)) in
  let k2 := SDK.mkKey "right"%string (Some "deck"%string) (Some (4, 1)) in
  let options :=
    Some (Renderer.mkOptions None None None None None None None (Some true)) in
  let canvas :=
    Notions.countdownCanvas (fun _ => EmptyString) 9 10
      (Renderer.buildLayout (Renderer.prepareTiles [k1; k2]))
      (Renderer.buildStyle 9 10 options) in
  Viewing.deckShows Viewing.decodeURIComponent (string * Z * Z)
    (fun g x y => (g, x, y))
    (Renderer.renderCountdown (fun _ => EmptyString)
       Viewing.encodeURIComponent 9 10 [k1; k2] options) 250 10
  = Some (canvas, 250, 10).
Proof.
  split; [exact decode_encode|]. cbv zeta.
  pose proof (slicing_is_lossless (fun _ => EmptyString)
                Viewing.encodeURIComponent Viewing.decodeURIComponent
                decode_encode) as (_ & _ & _ & H).
  specialize (H (SDK.mkKey "left"%string (Some "deck"%string) (Some (3, 1)))
                (SDK.mkKey "right"%string (Some "deck"%string) (Some (4, 1)))
                3 1 10
                (Some (Renderer.mkOptions None None None None None None None
                                          (Some true)))
                eq_refl eq_refl eq_refl eq_refl eq_refl).
  cbv zeta in H. destruct H as (_ & _ & _ & H).
  apply (H (string * Z * Z)%type (fun g x y => (g, x, y)) 250 10); lia.
Defined.


Section CompositingFacts.

Import JS SDK Renderer Notions.

Variable numberToString : float -> string.
Variable encodeURIComponent : string -> string.

Lemma renderCountdown_decided (setting : bool) (remaining totalSeconds : Z)
  (keys : list KeyAction) (options : RenderOptions) :
  multiTileLayout options = Some (setting || (1 <? List.length keys)%nat) ->
  renderCountdown numberToString encodeURIComponent remaining totalSeconds
                  keys (Some options)
  = if compositing setting keys
    then map (slice encodeURIComponent (buildLayout (prepareTiles keys))
                (countdownCanvas numberToString remaining totalSeconds
                   (buildLayout (prepareTiles keys))
                   (buildStyle remaining totalSeconds (Some options))))
             (prepareTiles keys)
    else flat_map
           (fun tile =>
              [slice encodeURIComponent
                 (buildLayout [tile])
                 (countdownCanvas numberToString remaining totalSeconds
                    (buildLayout [tile])
                    (buildStyle remaining totalSeconds (Some options)))
                 tile])
           (prepareTiles keys).
Proof.
  intros Hopt. unfold renderCountdown. cbn [opt]. rewrite Hopt.
  destruct (compositing_as_coded setting keys) as [E _].
  replace (match Some (setting || (1 <? List.length keys)%nat) with
           | Some true => true
           | _ => false
           end) with (setting || (1 <? List.length keys)%nat)
    by (destruct (setting || (1 <? List.length keys)%nat); reflexivity).
  rewrite E.
  destruct (List.length (prepareTiles keys) =? 0)%nat eqn:E0.
  - apply Nat.eqb_eq in E0.
    destruct (prepareTiles keys); [|discriminate E0].
    destruct (compositing setting keys); reflexivity.
  - reflexivity.
Qed.

Lemma renderMessage_decided (setting : bool) (message : string)
  (keys : list KeyAction) (options : RenderOptions) :
  renderMessage numberToString encodeURIComponent message keys (Some options)
  = if compositing setting keys
    then map (slice encodeURIComponent (buildLayout (prepareTiles keys))
                (messageCanvas numberToString message
                   (buildLayout (prepareTiles keys))
                   (buildStyle 1 1 (Some options))))
             (prepareTiles keys)
    else flat_map
           (fun tile =>
              [slice encodeURIComponent
                 (buildLayout [tile])
                 (messageCanvas numberToString message (buildLayout [tile])
                    (buildStyle 1 1 (Some options)))
                 tile])
           (prepareTiles keys).
Proof.
  unfold renderMessage.
  destruct (compositing_as_coded setting keys) as [_ E]. rewrite E.
  destruct (List.length (prepareTiles keys) =? 0)%nat eqn:E0.
  - apply Nat.eqb_eq in E0.
    destruct (prepareTiles keys); [|discriminate E0].
    destruct (compositing setting keys); reflexivity.
  - reflexivity.
Qed.

End CompositingFacts.

(** C4. The controller renders each device with the options
    multiTileLayout = setting or more than one key. With these options a
    countdown and a message are drawn on one shared canvas exactly when
    more than one key with coordinates is present and (the setting is on
    or the call supplies more than one key); otherwise every tile is drawn
    on its own, with a layout of one column and one row. *)
Theorem compositing_decision
  (numberToString : float -> string) (encodeURIComponent : string -> string) :
  (forall c remaining settings,
     snd (Controller.renderCountdownAcrossDevices remaining settings c)
     = map (fun keys =>
              Controller.renderer
                (Controller.renderCountdown
                   remaining
                   (Timer.durationSeconds (Timer.self (Controller.timer c)))
                   keys
                   (Controller.countdownOptions
                      settings (negb (Controller.blinkToggle c))
                      remaining keys)))
           (Controller.getKeysPerDevice c)) /\
  (forall c message settings blink,
     snd (Controller.renderMessageAcrossDevices message settings blink c)
     = map (fun keys =>
              Controller.renderer
                (Controller.renderMessage
                   message keys
                   (Controller.messageOptions settings blink keys)))
           (Controller.getKeysPerDevice c)) /\
  (forall settings toggle remaining totalSeconds keys,
     let options := Controller.countdownOptions settings toggle remaining keys in
     let style := Renderer.buildStyle remaining totalSeconds (Some options) in
     Renderer.renderCountdown numberToString encodeURIComponent
                              remaining totalSeconds keys (Some options)
     = if Notions.compositing (Controller.multiTileLayout settings) keys
       then map (Notions.slice encodeURIComponent
                   (Renderer.buildLayout (Renderer.prepareTiles keys))
                   (Notions.countdownCanvas numberToString remaining totalSeconds
                      (Renderer.buildLayout (Renderer.prepareTiles keys))
                      style))
                (Renderer.prepareTiles keys)
       else flat_map
              (fun tile =>
                 [Notions.slice encodeURIComponent (Renderer.buildLayout [tile])
                    (Notions.countdownCanvas numberToString remaining totalSeconds
                       (Renderer.buildLayout [tile]) style)
                    tile])
              (Renderer.prepareTiles keys)) /\
  (forall settings blink message keys,
     let options := Controller.messageOptions settings blink keys in
     let style := Renderer.buildStyle 1 1 (Some options) in
     Renderer.renderMessage numberToString encodeURIComponent
                            message keys (Some options)
     = if Notions.compositing (Controller.multiTileLayout settings) keys
       then map (Notions.slice encodeURIComponent
                   (Renderer.buildLayout (Renderer.prepareTiles keys))
                   (Notions.messageCanvas numberToString message
                      (Renderer.buildLayout (Renderer.prepareTiles keys))
                      style))
                (Renderer.prepareTiles keys)
       else flat_map
              (fun tile =>
                 [Notions.slice encodeURIComponent (Renderer.buildLayout [tile])
                    (Notions.messageCanvas numberToString message
                       (Renderer.buildLayout [tile]) style)
                    tile])
              (Renderer.prepareTiles keys)) /\
  (forall tile,
     Renderer.buildLayout [tile]
     = Renderer.mkLayout 200 (Renderer.col tile) (Renderer.row tile)
                         1 1 200 200).
Proof.
  split; [|split; [|split; [|split]]].
  - intros c remaining settings. reflexivity.
  - intros c message settings blink. reflexivity.
  - intros settings toggle remaining totalSeconds keys options style.
    apply renderCountdown_decided. reflexivity.
  - intros settings blink message keys options style.
    apply renderMessage_decided.
  - apply single_tile_layout.
Qed.

(* ================================================================== *)
(** * Properties of the controller *)
(* ================================================================== *)

(** Unfolds the handlers down to the fields of the controller and of its
    timer. *)
Ltac unfold_controller :=
  cbv beta iota zeta delta
    [Controller.step Controller.timerEvent Controller.register
     Controller.unregister Controller.handleSettings Controller.handleKeyDown
     Controller.startCountdown Controller.cancelCountdown
     Controller.await_timer_cancel Controller.timer_cancel
     Controller.timer_start Controller.callback Controller.setMaster
     Controller.propagateSettings Controller.persistMasterSettings
     Controller.renderByState Controller.clearTitlesAcrossDevices
     Controller.renderMessageAcrossDevices
     Controller.renderCountdownAcrossDevices Controller.trackKey
     Controller.untrackKey Controller.power_setArmed Controller.power_perform
     Controller.power_abortScheduled Controller.log Controller.getKeyAction
     Controller.set_timer Controller.set_power Controller.set_activeKeys
     Controller.set_state Controller.set_blinkToggle
     Controller.set_sharedSettings Controller.set_masterContext
     Controller.bind Controller.ret Controller.get Controller.put
     Controller.emit Controller.when Controller.forEach
     Controller.timer Controller.power Controller.activeKeys Controller.state
     Controller.blinkToggle Controller.sharedSettings Controller.masterContext
     Controller.totalKeyCount Controller.ActionState.is_running
     Power.setArmed fst snd negb andb Nat.eqb Datatypes.length
     Timer.step Timer.start Timer.cancel Timer.cancel_resume Timer.dispose
     Timer.runTick_resume Timer.timeout_callback Timer.scheduleTick
     Timer.runTick Timer.set_state Timer.set_remaining Timer.set_timeout
     Timer.with_self Timer.setTimeout Timer.clearTimeout Timer.is_running
     Timer.self Timer.state Timer.timers Timer.nextHandle Timer.ticksAwaited
     Timer.cancelsAwaited Timer.durationSeconds Timer.remainingSeconds
     Timer.timeout Timer.getRemainingSeconds Timer.getDurationSeconds
     Timer.boot Timer.create].

Lemma demo_reached :
  Controller.exec Notions.demoHost Notions.demoEvents Controller.create
  = Some (Notions.demoRunning, Notions.demoOutput).
Proof. vm_compute. reflexivity. Qed.

(** Unfolds the functions of [EventLoop] down to the fields of the
    plugin. *)
Ltac unfold_loop :=
  cbv beta iota zeta delta
    [EventLoop.step EventLoop.run EventLoop.keep EventLoop.fork
     EventLoop.register EventLoop.unregister EventLoop.handleSettings
     EventLoop.handleKeyDown EventLoop.startCountdown
     EventLoop.cancelCountdown EventLoop.cancelCountdown_cancel_then
     EventLoop.cancelCountdown_cancelled_then
     EventLoop.cancelCountdown_clearTitles_then
     EventLoop.cancelCountdown_shutdown_then
     EventLoop.cancel EventLoop.cancel_onCancel_then EventLoop.start
     EventLoop.scheduleTick EventLoop.runTick EventLoop.runTick_onTick_then
     EventLoop.timeout_callback_run EventLoop.onTick EventLoop.onComplete
     EventLoop.onComplete_render_then EventLoop.onComplete_clearTitles_then
     EventLoop.onComplete_perform_then EventLoop.onCancel
     EventLoop.abortScheduled EventLoop.perform EventLoop.runCommand
     EventLoop.runCommand_execFile_then EventLoop.execFileAsync
     EventLoop.power_setArmed EventLoop.say EventLoop.setMaster
     EventLoop.propagateSettings EventLoop.persistMasterSettings
     EventLoop.renderByState EventLoop.clearTitlesAcrossDevices
     EventLoop.renderMessageAcrossDevices
     EventLoop.renderCountdownAcrossDevices EventLoop.allSettled
     EventLoop.trackKey EventLoop.untrackKey EventLoop.totalKeyCount
     EventLoop.getKeysPerDevice EventLoop.log
     EventLoop.setTimeout EventLoop.clearTimeout
     EventLoop.timer_set_state EventLoop.timer_set_remaining
     EventLoop.timer_set_timeout EventLoop.new_CountdownTimer
     EventLoop.set_timerAt EventLoop.timerAt
     EventLoop.set_timer EventLoop.set_power EventLoop.set_activeKeys
     EventLoop.set_state EventLoop.set_blinkToggle
     EventLoop.set_sharedSettings EventLoop.set_masterContext
     EventLoop.set_timers EventLoop.with_pool
     EventLoop.bind EventLoop.ret EventLoop.get EventLoop.emit
     EventLoop.when EventLoop.await EventLoop.pending
     EventLoop.resume EventLoop.resumeStack
     EventLoop.timer EventLoop.power EventLoop.activeKeys EventLoop.state
     EventLoop.blinkToggle EventLoop.sharedSettings EventLoop.masterContext
     EventLoop.timers EventLoop.pool EventLoop.nextHandle
     EventLoop.stack EventLoop.waits
     Controller.getKeyAction Controller.ActionState.is_running
     Power.setArmed Power.say Power.emit Power.ret Power.armed Power.logger
     fst snd negb andb
     Timer.is_running Timer.state Timer.durationSeconds
     Timer.remainingSeconds Timer.timeout Timer.getRemainingSeconds
     Timer.getDurationSeconds Timer.create].

(** The same, leaving the methods of the timers folded. *)
Ltac unfold_handlers :=
  cbv beta iota zeta delta
    [EventLoop.step EventLoop.run EventLoop.keep EventLoop.fork
     EventLoop.register EventLoop.unregister EventLoop.handleSettings
     EventLoop.handleKeyDown EventLoop.startCountdown
     EventLoop.cancelCountdown EventLoop.cancelCountdown_cancel_then
     EventLoop.cancelCountdown_cancelled_then
     EventLoop.cancelCountdown_clearTitles_then
     EventLoop.cancelCountdown_shutdown_then
     EventLoop.onTick EventLoop.onComplete
     EventLoop.onComplete_render_then EventLoop.onComplete_clearTitles_then
     EventLoop.onComplete_perform_then EventLoop.onCancel
     EventLoop.abortScheduled EventLoop.perform EventLoop.runCommand
     EventLoop.runCommand_execFile_then EventLoop.execFileAsync
     EventLoop.power_setArmed EventLoop.say EventLoop.setMaster
     EventLoop.propagateSettings EventLoop.persistMasterSettings
     EventLoop.renderByState EventLoop.clearTitlesAcrossDevices
     EventLoop.renderMessageAcrossDevices
     EventLoop.renderCountdownAcrossDevices EventLoop.allSettled
     EventLoop.trackKey EventLoop.untrackKey EventLoop.totalKeyCount
     EventLoop.getKeysPerDevice EventLoop.log
     EventLoop.new_CountdownTimer EventLoop.timerAt
     EventLoop.set_timer EventLoop.set_power EventLoop.set_activeKeys
     EventLoop.set_state EventLoop.set_blinkToggle
     EventLoop.set_sharedSettings EventLoop.set_masterContext
     EventLoop.set_timers EventLoop.with_pool
     EventLoop.bind EventLoop.ret EventLoop.get EventLoop.emit
     EventLoop.when EventLoop.await EventLoop.pending
     EventLoop.resume EventLoop.resumeStack
     EventLoop.timer EventLoop.power EventLoop.activeKeys EventLoop.state
     EventLoop.blinkToggle EventLoop.sharedSettings EventLoop.masterContext
     EventLoop.timers EventLoop.pool EventLoop.nextHandle
     EventLoop.stack EventLoop.waits
     Controller.getKeyAction Controller.ActionState.is_running
     Power.setArmed Power.say Power.emit Power.ret Power.armed Power.logger
     fst snd negb andb
     Timer.is_running Timer.state Timer.durationSeconds
     Timer.remainingSeconds Timer.timeout Timer.getRemainingSeconds
     Timer.getDurationSeconds Timer.create].

(** Unfolding, with the lists of frames and effects put together. *)
Ltac run_handlers :=
  repeat (progress (unfold_handlers; cbn [app Datatypes.length Nat.eqb])).
Ltac run_loop :=
  repeat (progress (unfold_loop; cbn [app Datatypes.length Nat.eqb])).

Section LoopLists.

Import JS SDK EventLoop.

Lemma nth_update {A : Type} (l : list A) :
  forall i x d, (i < List.length l)%nat -> nth i (update i x l) d = x.
Proof.
  induction l as [|y l IH]; intros i x d Hi; [cbn in Hi; lia|].
  destruct i as [|i]; [reflexivity|]. cbn. apply IH. cbn in Hi. lia.
Qed.

Lemma update_length {A : Type} (l : list A) :
  forall i x, List.length (update i x l) = List.length l.
Proof.
  induction l as [|y l IH]; intros i x; [destruct i; reflexivity|].
  destruct i; cbn; [reflexivity | now rewrite IH].
Qed.

(** A running timer is behind a reference that is in use. *)
Lemma running_in_use (t : Ref) (tms : list Timer.CountdownTimer) :
  Timer.is_running (Timer.state (nth t tms (Timer.create 0))) = true ->
  (t < List.length tms)%nat.
Proof.
  intros H. destruct (Nat.lt_ge_cases t (List.length tms)) as [|Hge]; [assumption|].
  rewrite nth_overflow in H by exact Hge. discriminate H.
Qed.

Lemma fold_buckets_nonempty (l : list Controller.ActionContext) :
  forall acc : list (string * list KeyAction),
    acc <> [] ->
    fold_left (fun buckets ctx =>
                 let arr :=
                   orElse (Controller.map_get (Controller.deviceId ctx) buckets)
                          [] in
                 Controller.map_set (Controller.deviceId ctx)
                                    (arr ++ [Controller.ctx_action ctx])%list
                                    buckets) l acc <> [].
Proof.
  induction l as [|x l IH]; intros acc Hacc; [exact Hacc|].
  cbn [fold_left]. apply IH.
  destruct acc as [|[k v] acc]; [congruence|].
  cbn. destruct (String.eqb _ k); discriminate.
Qed.

(** With a key tracked there is a device to render to. *)
Lemma keysPerDevice_nonempty (keys : list (string * Controller.ActionContext)) :
  keys <> [] -> keysPerDevice keys <> [].
Proof.
  intros Hk. destruct keys as [|[k ctx] keys]; [congruence|].
  unfold keysPerDevice, Controller.map_values. cbn [map fold_left snd].
  intros E. apply map_eq_nil in E. revert E.
  apply fold_buckets_nonempty. cbn. discriminate.
Qed.

Lemma keysPerDevice_nil : keysPerDevice [] = [].
Proof. reflexivity. Qed.

Lemma update_update {A : Type} (l : list A) :
  forall i x y, update i x (update i y l) = update i x l.
Proof.
  induction l as [|z l IH]; intros i x y; [destruct i; reflexivity|].
  destruct i; cbn; [reflexivity | now rewrite IH].
Qed.

Lemma abortCalls_outside (l : list Power.Effect) :
  Notions.abortCalls (map Controller.outside l) = 0%nat.
Proof. induction l as [|x l IH]; [reflexivity | exact IH]. Qed.

Lemma messages_outside (l : list Power.Effect) :
  Notions.messages (map Controller.outside l) = [].
Proof. induction l as [|x l IH]; [reflexivity | exact IH]. Qed.

Lemma abort_once (l : list Power.Effect) :
  Notions.abortCalls
    (Controller.gateway Controller.abortScheduled :: map Controller.outside l)
  = 1%nat.
Proof.
  change (S (Notions.abortCalls (map Controller.outside l)) = 1%nat).
  now rewrite abortCalls_outside.
Qed.

Lemma gateway_no_message (call : Controller.PowerCall)
  (l : list Power.Effect) :
  Notions.messages (Controller.gateway call :: map Controller.outside l) = [].
Proof. exact (messages_outside l). Qed.

End LoopLists.

(** Splits on whether a key is tracked, that is on whether there is a
    device to render to. *)
Ltac devices keys Hkeys :=
  let G := fresh "G" in
  destruct (EventLoop.keysPerDevice keys) as [|? ?] eqn:G;
  [ exfalso; revert G; apply keysPerDevice_nonempty; exact Hkeys | ].

Section LoopFacts.

Import JS SDK EventLoop.

Variable host : Power.Host.

(** [cancel] on a timer that is running. *)
Lemma cancel_running (t tr : Ref) (p : Power.SystemPower)
  (keys : list (string * Controller.ActionContext))
  (st : Controller.ActionState.t) (b : bool)
  (sh : Controller.NormalizedSettings) (mc : option string)
  (tms : list Timer.CountdownTimer) (pl : list Task) (nh : Timer.Handle)
  (d rem : Z) (to : option Timer.Handle) :
  nth t tms (Timer.create 0) = Timer.mkTimer d Timer.running rem to ->
  cancel host t (mkPlugin tr p keys st b sh mc tms pl nh)
  = let pl' :=
      match to with
      | Some h => filter (fun task => negb (waitsFor h task)) pl
      | None => pl
      end in
    if Power.armed p && String.eqb (Power.platform host) "win32"
    then
      (suspended process
         [runCommand_execFile "shutdown" ["/a"%string] "abort shutdown";
          cancel_onCancel t],
       mkPlugin tr p keys st b sh mc
                (update t (Timer.mkTimer d Timer.cancelled 0 None) tms) pl' nh,
       [Controller.gateway Controller.abortScheduled;
        Controller.outside (Power.execFile "shutdown" ["/a"%string])])
    else
      (returned (boolean true),
       mkPlugin tr p keys st b sh mc
                (update t (Timer.mkTimer d Timer.idle 0 None) tms) pl' nh,
       Controller.gateway Controller.abortScheduled
       :: map Controller.outside (fst (Power.abortScheduled host p))).
Proof.
  intros Et.
  assert (Hin : (t < List.length tms)%nat).
  { apply running_in_use. now rewrite Et. }
  cbv [Timer.create] in Et.
  destruct p as [lg ar].
  destruct ar, (String.eqb (Power.platform host) "win32") eqn:Ew, to as [h|].
  all: run_loop.
  all: repeat first
         [ rewrite Et
         | rewrite nth_update
             by first [exact Hin | rewrite update_length; exact Hin]
         | rewrite update_update
         | rewrite Ew
         | progress run_loop ].
  all: unfold Power.abortScheduled; cbn [Power.armed negb];
    rewrite ?Ew; cbn.
  all: try reflexivity.
  all: destruct lg; reflexivity.
Qed.

(** [cancel] on a timer that is not running. *)
Lemma cancel_not_running (t : Ref) (c : Plugin) :
  Timer.is_running (Timer.state (timerAt t c)) = false ->
  cancel host t c = (returned (boolean false), c, []).
Proof.
  intros H. unfold cancel, bind, get, ret. now rewrite H.
Qed.

(** A key press while the state is running and the timer is not. *)
Lemma press_timer_stopped (c : Plugin) (key : KeyAction)
  (settings : option Controller.ShutdownSettings) (r : Controller.Role) :
  state c = Controller.ActionState.running ->
  Timer.is_running (Timer.state (timerAt (timer c) c)) = false ->
  step host (keyDown (Some key) settings r) c
  = Some (Awaiting.takeSettings key settings r c).
Proof.
  intros Hs Ht.
  destruct c as [t p keys st b sh mc tms pl nh].
  cbn [state] in Hs. subst st.
  unfold timerAt in Ht. cbn [timer timers] in Ht.
  unfold Awaiting.takeSettings.
  destruct (Controller.map_get (id key) keys) eqn:Eg.
  all: destruct r; run_handlers; rewrite ?Eg; run_handlers.
  all: rewrite cancel_not_running
    by (unfold timerAt; cbn [timer timers]; exact Ht).
  all: run_handlers; rewrite ?app_nil_r; reflexivity.
Qed.

Lemma nth_update_same {A : Type} (l : list A) :
  forall i (f : A -> A) d,
    f d = d -> nth i (update i (f (nth i l d)) l) d = f (nth i l d).
Proof.
  induction l as [|y l IH]; intros i f d Hd.
  - destruct i; cbn; now rewrite Hd.
  - destruct i as [|i]; [reflexivity|]. cbn. now apply IH.
Qed.

(** A key press while the state and the timer are running. *)
Lemma press_cancels (c : Plugin) (key : KeyAction)
  (settings : option Controller.ShutdownSettings) (r : Controller.Role) :
  state c = Controller.ActionState.running ->
  Timer.is_running (Timer.state (timerAt (timer c) c)) = true ->
  activeKeys c <> [] ->
  let t := timer c in
  let d := Timer.durationSeconds (timerAt t c) in
  let '(c0, e0) := Awaiting.takeSettings key settings r c in
  match step host (keyDown (Some key) settings r) c with
  | None => False
  | Some (c', effects) =>
      activeKeys c' = activeKeys c
      /\ sharedSettings c' = sharedSettings c0
      /\ if Awaiting.commandStarts host c
         then
           effects
           = (e0 ++ [Controller.gateway Controller.abortScheduled;
                     Controller.outside
                       (Power.execFile "shutdown" ["/a"%string])])%list
           /\ state c' = Controller.ActionState.running
           /\ power c' = power c
           /\ timerAt t c' = Timer.mkTimer d Timer.cancelled 0 None
           /\ pool c' = (Awaiting.cleared t c ++ [Awaiting.abortAwaited t])%list
         else
           effects
           = (e0 ++ Controller.gateway Controller.abortScheduled
                 :: map Controller.outside
                        (fst (Power.abortScheduled host (power c)))
                 ++ Awaiting.disarmCalls c
                 ++ Awaiting.messageCalls "Cancelled" true c0)%list
           /\ state c' = Controller.ActionState.cancelled
           /\ Power.armed (power c') = false
           /\ timerAt t c' = Timer.mkTimer d Timer.idle 0 None
           /\ pool c'
              = (Awaiting.cleared t c
                   ++ [mkTask tiles [cancelCountdown_cancelled]])%list
  end.
Proof.
  intros Hs Ht Hkeys.
  destruct c as [t p keys st b sh mc tms pl nh].
  cbn [state] in Hs. subst st. cbn [activeKeys] in Hkeys.
  unfold timerAt in Ht. cbn [timer timers] in Ht.
  unfold Awaiting.takeSettings, Awaiting.commandStarts, Awaiting.cleared,
    Awaiting.abortAwaited, Awaiting.disarmCalls, Awaiting.armCalls,
    Awaiting.messageCalls.
  cbn [timer power pool].
  unfold timerAt at 1 2. cbn [timers].
  destruct (nth t tms (Timer.create 0)) as [d ts rem to] eqn:Et.
  cbn [Timer.state] in Ht. destruct ts; try discriminate Ht.
  assert (Hin : (t < List.length tms)%nat)
    by (apply running_in_use; now rewrite Et).
  devices keys Hkeys.
  destruct (Controller.map_get (id key) keys) eqn:Eg.
  all: destruct r; run_handlers; rewrite ?Eg; run_handlers.
  all: rewrite (cancel_running t _ _ _ _ _ _ _ _ _ _ _ _ _ Et).
  all: cbv zeta; destruct p as [lg ar]; cbn [Power.armed];
    destruct ar, (String.eqb (Power.platform host) "win32") eqn:Ew;
    cbn [andb]; run_handlers; rewrite ?G; run_handlers.
  all: cbv [Timer.create] in Et; rewrite ?Et.
  all: repeat (rewrite nth_update by exact Hin).
  all: rewrite ?app_nil_r, <- ?app_assoc; cbn [app].
  all: repeat split; try reflexivity.
Qed.

(** The command of [abortScheduled] has ended: [cancel] and
    [cancelCountdown] go on. *)
Lemma abort_ended (c : Plugin) (i : nat) (t : Ref) :
  nth_error (pool c) i = Some (Awaiting.abortAwaited t) ->
  activeKeys c <> [] ->
  match step host (wakes i) c with
  | None => False
  | Some (c', effects) =>
      effects
      = (Awaiting.commandLogged host "shutdown" ["/a"%string]
                                "abort shutdown" c
           ++ Awaiting.disarmCalls c
           ++ Awaiting.messageCalls "Cancelled" true c)%list
      /\ state c' = Controller.ActionState.cancelled
      /\ Power.armed (power c') = false
      /\ timerAt t c'
         = Timer.mkTimer (Timer.durationSeconds (timerAt t c)) Timer.idle
                         (Timer.remainingSeconds (timerAt t c))
                         (Timer.timeout (timerAt t c))
      /\ activeKeys c' = activeKeys c
      /\ sharedSettings c' = sharedSettings c
      /\ pool c'
         = (removeAt i (pool c)
              ++ [mkTask tiles [cancelCountdown_cancelled]])%list
  end.
Proof.
  intros Hi Hkeys.
  destruct c as [tr p keys st b sh mc tms pl nh].
  cbn [pool] in Hi. cbn [activeKeys] in Hkeys.
  unfold step. cbn [pool]. rewrite Hi.
  unfold Awaiting.abortAwaited, Awaiting.commandLogged, Awaiting.disarmCalls,
    Awaiting.armCalls, Awaiting.messageCalls.
  devices keys Hkeys.
  run_loop. rewrite ?G.
  destruct (Power.execOutcome host "shutdown" ["/a"%string]);
    destruct p as [lg ar]; run_loop; rewrite ?G; run_loop.
  all: rewrite ?app_nil_r, <- ?app_assoc; cbn [app].
  all: repeat split; try reflexivity.
  all: try (destruct lg; reflexivity).
  all: apply (nth_update_same tms t
                (fun tm => Timer.mkTimer (Timer.durationSeconds tm) Timer.idle
                             (Timer.remainingSeconds tm) (Timer.timeout tm)));
    reflexivity.
Qed.

(** The Cancelled message has been shown: the titles are cleared. *)
Lemma cancelled_settled (c : Plugin) (i : nat) :
  nth_error (pool c) i = Some (mkTask tiles [cancelCountdown_cancelled]) ->
  activeKeys c <> [] ->
  step host (wakes i) c
  = Some (with_pool (removeAt i (pool c)
                       ++ [mkTask tiles [cancelCountdown_clearTitles]])%list c,
          Awaiting.titleCalls c).
Proof.
  intros Hi Hkeys.
  destruct c as [tr p keys st b sh mc tms pl nh].
  cbn [pool] in Hi. cbn [activeKeys] in Hkeys.
  unfold step. cbn [pool]. rewrite Hi. unfold Awaiting.titleCalls.
  devices keys Hkeys.
  run_loop. rewrite ?G. run_loop.
  rewrite ?app_nil_r. reflexivity.
Qed.

(** The titles are cleared: the state becomes idle and the Shutdown
    message is rendered. *)
Lemma titles_settled (c : Plugin) (i : nat) :
  nth_error (pool c) i = Some (mkTask tiles [cancelCountdown_clearTitles]) ->
  activeKeys c <> [] ->
  step host (wakes i) c
  = Some (with_pool (removeAt i (pool c)
                       ++ [mkTask tiles [cancelCountdown_shutdown]])%list
                    (Awaiting.with_state Controller.ActionState.idle c),
          Awaiting.messageCalls "Shutdown" false c).
Proof.
  intros Hi Hkeys.
  destruct c as [tr p keys st b sh mc tms pl nh].
  cbn [pool] in Hi. cbn [activeKeys] in Hkeys.
  unfold step. cbn [pool]. rewrite Hi.
  unfold Awaiting.messageCalls, Awaiting.with_state.
  devices keys Hkeys.
  run_loop. rewrite ?G. run_loop.
  rewrite ?app_nil_r. reflexivity.
Qed.

(** The Shutdown message has been shown: the titles are cleared, and
    nothing of the press is left. *)
Lemma shutdown_settled (c : Plugin) (i : nat) :
  nth_error (pool c) i = Some (mkTask tiles [cancelCountdown_shutdown]) ->
  step host (wakes i) c
  = Some (with_pool (removeAt i (pool c)) c, Awaiting.titleCalls c).
Proof.
  intros Hi.
  destruct c as [tr p keys st b sh mc tms pl nh].
  cbn [pool] in Hi.
  unfold step. cbn [pool]. rewrite Hi. unfold Awaiting.titleCalls.
  run_loop.
  destruct (keysPerDevice keys) eqn:G; run_loop; rewrite ?app_nil_r;
    reflexivity.
Qed.

End LoopFacts.

(** C9, as the code has it. Whatever is pending: when [unregister]
    removes the last tracked key while the state is running, the state
    becomes idle and the Cancelled message is rendered to the devices
    left, which are none. [cancel] is called on the timer; when the timer
    is still running, its timeout is cleared, it is cancelled with 0
    remaining and [abortScheduled] is called on the gateway exactly once,
    and the timer is idle once that call has returned, at once when the
    gateway starts no command and else when the command has ended; when
    the timer is not running any more, [cancel] does nothing and no abort
    is issued. When a key remains or the state is not running, nothing is
    emitted and state, timers, gateway and pending work stay as they
    are. *)
Theorem last_key_unregister_cancels (host : Power.Host)
  (c : EventLoop.Plugin) (key : SDK.KeyAction) (r : Controller.Role) :
  let t := EventLoop.timer c in
  let old := EventLoop.timerAt t c in
  let '(c', effects) :=
    EventLoop.run (EventLoop.unregister host (Some key) r) c in
  EventLoop.activeKeys c'
  = Controller.map_delete (SDK.id key) (EventLoop.activeKeys c) /\
  if (List.length (EventLoop.activeKeys c') =? 0)%nat
     && Controller.ActionState.is_running (EventLoop.state c)
  then
    EventLoop.state c' = Controller.ActionState.idle
    /\ Notions.messages effects = []
    /\ EventLoop.power c' = EventLoop.power c
    /\ if Timer.is_running (Timer.state old)
       then
         Notions.abortCalls effects = 1%nat
         /\ effects
            = Controller.gateway Controller.abortScheduled
              :: (if Awaiting.commandStarts host c
                  then [Controller.outside
                          (Power.execFile "shutdown" ["/a"%string])]
                  else map Controller.outside
                           (fst (Power.abortScheduled host (EventLoop.power c))))
         /\ EventLoop.timerAt t c'
            = Timer.mkTimer (Timer.durationSeconds old)
                            (if Awaiting.commandStarts host c
                             then Timer.cancelled else Timer.idle)
                            0 None
         /\ EventLoop.pool c'
            = Awaiting.cleared t c
              ++ (if Awaiting.commandStarts host c
                  then [EventLoop.mkTask EventLoop.process
                          [EventLoop.runCommand_execFile
                             "shutdown" ["/a"%string] "abort shutdown";
                           EventLoop.cancel_onCancel t]]
                  else [])
       else
         effects = []
         /\ EventLoop.timers c' = EventLoop.timers c
         /\ EventLoop.pool c' = EventLoop.pool c
  else
    effects = []
    /\ EventLoop.state c' = EventLoop.state c
    /\ EventLoop.timers c' = EventLoop.timers c
    /\ EventLoop.power c' = EventLoop.power c
    /\ EventLoop.pool c' = EventLoop.pool c.
Proof.
  destruct c as [t p keys st b sh mc tms pl nh].
  unfold Awaiting.commandStarts, Awaiting.cleared.
  cbn [EventLoop.timer EventLoop.power EventLoop.pool EventLoop.state
       EventLoop.activeKeys EventLoop.timers].
  unfold EventLoop.timerAt at 1 2. cbn [EventLoop.timers].
  destruct (nth t tms (Timer.create 0)) as [d ts rem to] eqn:Et.
  destruct (Controller.map_delete (SDK.id key) keys) eqn:Ed.
  all: destruct st.
  all: destruct mc as [m|]; try destruct (String.eqb m (SDK.id key)) eqn:Em.
  all: destruct r.
  all: run_handlers; try rewrite Ed; run_handlers.
  all: try (try rewrite Em; repeat split; reflexivity).
  all: destruct ts.
  all: try (rewrite cancel_not_running
              by (unfold EventLoop.timerAt; cbn [EventLoop.timers];
                  now rewrite Et)).
  all: try rewrite (cancel_running host t _ _ _ _ _ _ _ _ _ _ _ _ _ Et).
  all: cbv zeta; destruct p as [lg ar]; cbn [Power.armed];
    destruct ar, (String.eqb (Power.platform host) "win32") eqn:Ew;
    cbn [andb]; run_handlers; rewrite ?keysPerDevice_nil; run_handlers;
    try rewrite Em; run_handlers.
  all: cbv [Timer.create] in Et; rewrite ?Et.
  all: try (assert (Hin : (t < List.length tms)%nat)
              by (apply running_in_use; cbv [Timer.create]; now rewrite Et);
            repeat (rewrite nth_update by exact Hin)).
  all: rewrite ?app_nil_r.
  all: repeat split;
    first [ reflexivity | apply abort_once | apply gateway_no_message ].
Qed.

Lemma last_key_unregister_cancels_witness :
  EventLoop.state Awaiting.demoCounting = Controller.ActionState.running /\
  Timer.state (EventLoop.timerAt (EventLoop.timer Awaiting.demoCounting)
                                 Awaiting.demoCounting)
  = Timer.running /\
  let result :=
    EventLoop.run
      (EventLoop.unregister Notions.demoHost (Some Notions.demoKey)
                            Controller.master) Awaiting.demoCounting in
  EventLoop.activeKeys (fst result) = [] /\
  EventLoop.state (fst result) = Controller.ActionState.idle /\
  Notions.abortCalls (snd result) = 1%nat.
Proof.
  split; [reflexivity|]. split; [reflexivity|].
  pose proof (last_key_unregister_cancels Notions.demoHost
                Awaiting.demoCounting Notions.demoKey Controller.master) as H.
  vm_compute in H. destruct H as (Hkeys & Hstate & _ & _ & Hcalls & _).
  vm_compute. exact (conj Hkeys (conj Hstate Hcalls)).
Defined.

Lemma completing_reached :
  option_map fst
    (EventLoop.exec Notions.demoHost
       (Awaiting.pressed ++ repeat (EventLoop.wakes 0) 19) EventLoop.create)
  = Some Awaiting.demoCompleting.
Proof. vm_compute. reflexivity. Qed.

(** C9, as stated, fails: on Windows the master key appears with live
    settings of 5 seconds and is pressed, and the countdown runs to 0;
    while the command of the power action runs the state is still
    running and the key is the only one tracked; it disappears, and
    [abortScheduled] is not called. *)
Lemma last_key_unregister_no_abort_counterexample :
  option_map fst
    (EventLoop.exec Notions.demoHost
       (Awaiting.pressed ++ repeat (EventLoop.wakes 0) 19) EventLoop.create)
  = Some Awaiting.demoCompleting /\
  EventLoop.state Awaiting.demoCompleting = Controller.ActionState.running /\
  map fst (EventLoop.activeKeys Awaiting.demoCompleting)
  = [SDK.id Notions.demoKey] /\
  let '(c', effects) :=
    EventLoop.run
      (EventLoop.unregister Notions.demoHost (Some Notions.demoKey)
                            Controller.master) Awaiting.demoCompleting in
  EventLoop.activeKeys c' = [] /\
  EventLoop.state c' = Controller.ActionState.idle /\
  Notions.abortCalls effects = 0%nat /\
  Notions.abortCalls effects <> 1%nat.
Proof.
  split; [exact completing_reached|].
  vm_compute. repeat split; try reflexivity. discriminate.
Qed.

(** C3, as the code has it. A key press while the state is running calls
    [cancel] on the timer with a callback that calls [abortScheduled].
    With a key on the deck:
    - when the timer is not running any more, [cancel] resolves to false
      and the press does no more than take the settings of a master;
    - when the timer is running, its timeout is cleared, it is cancelled
      with 0 remaining and [abortScheduled] is called; when the gateway
      starts the abort command, the press waits for it with the state
      still running, and goes on when the command has ended;
    - then the timer is idle, the state is cancelled, the gateway is
      disarmed and the message Cancelled is rendered with the blink flag
      on every device;
    - when that is shown the titles are cleared; when they are cleared
      the state becomes idle and the message Shutdown is rendered; when
      that is shown the titles are cleared again and nothing of the press
      is left.
    Each step holds whatever else has happened while the press waited. *)
Theorem press_while_running_cancels (host : Power.Host) :
  (forall c key settings r,
     EventLoop.state c = Controller.ActionState.running ->
     Timer.is_running
       (Timer.state (EventLoop.timerAt (EventLoop.timer c) c)) = false ->
     EventLoop.step host (EventLoop.keyDown (Some key) settings r) c
     = Some (Awaiting.takeSettings key settings r c)) /\
  (forall c key settings r,
     EventLoop.state c = Controller.ActionState.running ->
     Timer.is_running
       (Timer.state (EventLoop.timerAt (EventLoop.timer c) c)) = true ->
     EventLoop.activeKeys c <> [] ->
     let t := EventLoop.timer c in
     let d := Timer.durationSeconds (EventLoop.timerAt t c) in
     let '(c0, e0) := Awaiting.takeSettings key settings r c in
     match EventLoop.step host (EventLoop.keyDown (Some key) settings r) c with
     | None => False
     | Some (c', effects) =>
         EventLoop.activeKeys c' = EventLoop.activeKeys c
         /\ EventLoop.sharedSettings c' = EventLoop.sharedSettings c0
         /\ if Awaiting.commandStarts host c
            then
              effects
              = e0 ++ [Controller.gateway Controller.abortScheduled;
                       Controller.outside
                         (Power.execFile "shutdown" ["/a"%string])]
              /\ EventLoop.state c' = Controller.ActionState.running
              /\ EventLoop.power c' = EventLoop.power c
              /\ EventLoop.timerAt t c'
                 = Timer.mkTimer d Timer.cancelled 0 None
              /\ EventLoop.pool c'
                 = Awaiting.cleared t c ++ [Awaiting.abortAwaited t]
            else
              effects
              = e0 ++ Controller.gateway Controller.abortScheduled
                   :: map Controller.outside
                          (fst (Power.abortScheduled host (EventLoop.power c)))
                   ++ Awaiting.disarmCalls c
                   ++ Awaiting.messageCalls "Cancelled" true c0
              /\ EventLoop.state c' = Controller.ActionState.cancelled
              /\ Power.armed (EventLoop.power c') = false
              /\ EventLoop.timerAt t c' = Timer.mkTimer d Timer.idle 0 None
              /\ EventLoop.pool c'
                 = Awaiting.cleared t c
                   ++ [EventLoop.mkTask EventLoop.tiles
                         [EventLoop.cancelCountdown_cancelled]]
     end) /\
  (forall c i t,
     nth_error (EventLoop.pool c) i = Some (Awaiting.abortAwaited t) ->
     EventLoop.activeKeys c <> [] ->
     match EventLoop.step host (EventLoop.wakes i) c with
     | None => False
     | Some (c', effects) =>
         effects
         = Awaiting.commandLogged host "shutdown" ["/a"%string]
                                  "abort shutdown" c
           ++ Awaiting.disarmCalls c
           ++ Awaiting.messageCalls "Cancelled" true c
         /\ EventLoop.state c' = Controller.ActionState.cancelled
         /\ Power.armed (EventLoop.power c') = false
         /\ EventLoop.timerAt t c'
            = Timer.mkTimer
                (Timer.durationSeconds (EventLoop.timerAt t c)) Timer.idle
                (Timer.remainingSeconds (EventLoop.timerAt t c))
                (Timer.timeout (EventLoop.timerAt t c))
         /\ EventLoop.activeKeys c' = EventLoop.activeKeys c
         /\ EventLoop.sharedSettings c' = EventLoop.sharedSettings c
         /\ EventLoop.pool c'
            = EventLoop.removeAt i (EventLoop.pool c)
              ++ [EventLoop.mkTask EventLoop.tiles
                    [EventLoop.cancelCountdown_cancelled]]
     end) /\
  (forall c i,
     nth_error (EventLoop.pool c) i
     = Some (EventLoop.mkTask EventLoop.tiles
               [EventLoop.cancelCountdown_cancelled]) ->
     EventLoop.activeKeys c <> [] ->
     EventLoop.step host (EventLoop.wakes i) c
     = Some (EventLoop.with_pool
               (EventLoop.removeAt i (EventLoop.pool c)
                  ++ [EventLoop.mkTask EventLoop.tiles
                        [EventLoop.cancelCountdown_clearTitles]]) c,
             Awaiting.titleCalls c)) /\
  (forall c i,
     nth_error (EventLoop.pool c) i
     = Some (EventLoop.mkTask EventLoop.tiles
               [EventLoop.cancelCountdown_clearTitles]) ->
     EventLoop.activeKeys c <> [] ->
     EventLoop.step host (EventLoop.wakes i) c
     = Some (EventLoop.with_pool
               (EventLoop.removeAt i (EventLoop.pool c)
                  ++ [EventLoop.mkTask EventLoop.tiles
                        [EventLoop.cancelCountdown_shutdown]])
               (Awaiting.with_state Controller.ActionState.idle c),
             Awaiting.messageCalls "Shutdown" false c)) /\
  (forall c i,
     nth_error (EventLoop.pool c) i
     = Some (EventLoop.mkTask EventLoop.tiles
               [EventLoop.cancelCountdown_shutdown]) ->
     EventLoop.step host (EventLoop.wakes i) c
     = Some (EventLoop.with_pool (EventLoop.removeAt i (EventLoop.pool c)) c,
             Awaiting.titleCalls c)).
Proof.
  split; [exact (press_timer_stopped host)|].
  split; [exact (press_cancels host)|].
  split; [exact (abort_ended host)|].
  split; [exact (cancelled_settled host)|].
  split; [exact (titles_settled host)|].
  exact (shutdown_settled host).
Qed.

(** C3 on an input: [demoKey] is pressed on Windows while its live
    countdown of 5 seconds waits for its first timeout. The abort command
    is started and the press waits for it; when the command has ended the
    state is cancelled and the gateway disarmed. *)
Lemma press_while_running_cancels_witness :
  EventLoop.state Awaiting.demoCounting = Controller.ActionState.running /\
  EventLoop.activeKeys Awaiting.demoCounting <> [] /\
  match EventLoop.step Notions.demoHost
          (EventLoop.keyDown (Some Notions.demoKey)
                             (Some Observing.liveSettings) Controller.master)
          Awaiting.demoCounting with
  | None => False
  | Some (c', effects) =>
      Notions.abortCalls effects = 1%nat
      /\ EventLoop.state c' = Controller.ActionState.running
      /\ EventLoop.timerAt 1%nat c' = Timer.mkTimer 5 Timer.cancelled 0 None
      /\ EventLoop.pool c' = [Awaiting.abortAwaited 1%nat]
      /\ match EventLoop.step Notions.demoHost (EventLoop.wakes 0) c' with
         | None => False
         | Some (c'', effects') =>
             Notions.messages effects' = ["Cancelled"%string]
             /\ EventLoop.state c'' = Controller.ActionState.cancelled
             /\ Power.armed (EventLoop.power c'') = false
         end
  end.
Proof.
  split; [reflexivity|]. split; [discriminate|].
  pose proof (press_while_running_cancels Notions.demoHost)
    as (_ & Hpress & Hended & _).
  specialize (Hpress Awaiting.demoCounting Notions.demoKey
                     (Some Observing.liveSettings) Controller.master
                     eq_refl eq_refl ltac:(discriminate)).
  cbv zeta in Hpress.
  destruct (Awaiting.takeSettings Notions.demoKey
              (Some Observing.liveSettings) Controller.master
              Awaiting.demoCounting) as [c0 e0] eqn:E0.
  destruct (EventLoop.step Notions.demoHost
              (EventLoop.keyDown (Some Notions.demoKey)
                 (Some Observing.liveSettings) Controller.master)
              Awaiting.demoCounting) as [[c' effects]|] eqn:E1; [|exact Hpress].
  change (Awaiting.commandStarts Notions.demoHost Awaiting.demoCounting)
    with true in Hpress.
  destruct Hpress as (Hkeys & _ & Heff & Hstate & _ & Htimer & Hpool).
  assert (Ee : e0 = [Controller.setSettings "key-1"
                       (EventLoop.sharedSettings Awaiting.demoCounting)])
    by (vm_compute in E0; now inversion E0).
  split; [rewrite Heff, Ee; reflexivity|].
  split; [exact Hstate|]. split; [exact Htimer|].
  split; [rewrite Hpool; reflexivity|].
  assert (Hi : nth_error (EventLoop.pool c') 0
               = Some (Awaiting.abortAwaited 1%nat))
    by (rewrite Hpool; reflexivity).
  assert (Hk : EventLoop.activeKeys c' <> [])
    by (rewrite Hkeys; discriminate).
  specialize (Hended c' 0%nat 1%nat Hi Hk).
  destruct (EventLoop.step Notions.demoHost (EventLoop.wakes 0) c')
    as [[c'' effects']|]; [|exact Hended].
  destruct Hended as (Heff' & Hst' & Harm' & _ & _ & Hsh' & _).
  split; [|split; assumption].
  rewrite Heff'.
  vm_compute in E1. inversion E1; subst c'. reflexivity.
Defined.

(** C3, as stated, fails: [demoKey] is pressed while its countdown runs
    with settings that are not armed, and every render of the press is
    let settle; the messages rendered are Cancelled and then Shutdown,
    the state is idle and nothing is pending, and neither resting
    message of [renderByState] was rendered. *)
Lemma press_while_running_resting_message_counterexample :
  let running :=
    Awaiting.reached
      [EventLoop.willAppear (Some Notions.demoKey) None Controller.master;
       EventLoop.wakes 0;
       EventLoop.keyDown (Some Notions.demoKey) None Controller.master] in
  EventLoop.state running = Controller.ActionState.running /\
  Controller.armed (EventLoop.sharedSettings running) = false /\
  match EventLoop.exec Notions.demoHost
          [EventLoop.keyDown (Some Notions.demoKey) None Controller.master;
           EventLoop.wakes 1; EventLoop.wakes 1; EventLoop.wakes 1]
          running with
  | None => False
  | Some (c', effects) =>
      Notions.messages effects = ["Cancelled"; "Shutdown"]%string /\
      EventLoop.state c' = Controller.ActionState.idle /\
      ~ In "Preview mode - press to start"%string (Notions.messages effects) /\
      ~ In "Live mode - press to start"%string (Notions.messages effects)
  end.
Proof.
  vm_compute.
  repeat split; try reflexivity; intros [H|[H|[]]]; discriminate H.
Qed.

(* ================================================================== *)
(** * The definitions on small inputs *)
(* ================================================================== *)

Example countdown_from_five :
  snd (Timer.run 11 (snd (fst (Timer.start (Timer.boot 5)))))
  = [Timer.onTick 4; Timer.onTick 3; Timer.onTick 2; Timer.onTick 1;
     Timer.onTick 0; Timer.onComplete].
Proof. reflexivity. Qed.

Example cancel_between_ticks :
  Timer.exec [Timer.CallStart; Timer.TickSettled; Timer.CallCancel true;
              Timer.CancelSettled; Timer.CallCancel true]
             (Timer.boot 5)
  = Some (Timer.mkMachine (Timer.mkTimer 5 Timer.idle 0 None) [] 1%nat
                          0%nat 0%nat,
          [Timer.onTick 5; Timer.onCancel]).
Proof. reflexivity. Qed.

Example cleared_timeout_cannot_fire :
  Timer.exec [Timer.CallStart; Timer.TickSettled; Timer.CallCancel false;
              Timer.TimeoutFired 0%nat]
             (Timer.boot 5)
  = None.
Proof. reflexivity. Qed.

Example clampSeconds_samples :
  Controller.clampSeconds 7.5%float = 8 /\
  Controller.clampSeconds (-3)%float = 5 /\
  Controller.clampSeconds nan = 10 /\
  Controller.clampSeconds infinity = 10 /\
  Controller.clampSeconds 0x1p+1000%float = 30.
Proof. vm_compute. repeat split. Qed.

Example normalizeColor_samples :
  Controller.normalizeColor "#AbCdEf" = "#abcdef"%string /\
  Controller.normalizeColor "AbCdEf" = "#abcdef"%string /\
  Controller.normalizeColor "#12345" = "#00d37f"%string /\
  Controller.normalizeColor EmptyString = "#00d37f"%string.
Proof. vm_compute. repeat split. Qed.

Example escapeXml_sample :
  Renderer.escapeXml "a<b>&c" = "a&lt;b&gt;&amp;c"%string.
Proof. reflexivity. Qed.

Example perform_when_not_armed :
  Power.perform Notions.demoHost (Power.create true) Power.restart
  = ([Power.log "restart skipped (not armed)" None], inl tt).
Proof. reflexivity. Qed.

Example perform_when_command_fails :
  Power.perform (Power.mkHost "win32" (fun _ _ => Some "EPERM"%string))
                (Power.mkPower true true) Power.sleep
  = ([Power.execFile "rundll32.exe"
                     ["powrprof.dll,SetSuspendState"; "0,1,0"]%string;
      Power.log "trigger sleep failed" (Some "EPERM"%string)],
     inl tt).
Proof. reflexivity. Qed.

Example keys_grouped_by_device :
  Controller.getKeysPerDevice Notions.demoRunning = [[Notions.demoKey]].
Proof. reflexivity. Qed.

(* ================================================================== *)
(** * Further properties of the countdown timer *)
(* ================================================================== *)

Section MoreTimerFacts.

Import Timer Observing.

Lemma negative_tick_settled (d r : Z) (t : option Handle) (h : Handle)
  (k : nat) :
  r < 0 ->
  step TickSettled (awaitingTick d r t h k) = Some (awaitingTimeout d r h k, []).
Proof.
  intros Hr. unfold step, awaitingTick, runTick_resume; cbn.
  replace (r =? 0) with false by (symmetry; apply Z.eqb_neq; lia).
  reflexivity.
Qed.

Lemma any_timeout_fired (d r : Z) (h : Handle) (k : nat) :
  step (TimeoutFired h) (awaitingTimeout d r h k)
  = Some (awaitingTick d (r - 1) (Some h) (S h) k, [onTick (r - 1)]).
Proof.
  unfold step, awaitingTimeout, mem; cbn -[Nat.eq_dec].
  rewrite Nat.eqb_refl; cbn -[Nat.eq_dec].
  unfold clearTimeout, timeout_callback; cbn -[Nat.eq_dec].
  destruct (Nat.eq_dec h h) as [_|ne]; [|contradiction].
  reflexivity.
Qed.

(** Below zero the loop only goes further down. *)
Lemma run_below_zero (d : Z) (fuel : nat) :
  forall r t h k,
    r < 0 ->
    (let (m', calls) := run fuel (awaitingTick d r t h k) in
     ~ In onComplete calls /\ state (self m') = running /\
     Forall (fun x => x < r) (ticks calls)) /\
    (let (m', calls) := run fuel (awaitingTimeout d r h k) in
     ~ In onComplete calls /\ state (self m') = running /\
     Forall (fun x => x < r) (ticks calls)).
Proof.
  induction fuel as [|fuel IH]; intros r t h k Hr.
  - cbn. repeat split; auto.
  - split.
    + rewrite (run_step fuel (awaitingTick d r t h k) _ TickSettled _ eq_refl
                 (negative_tick_settled d r t h k Hr)).
      destruct (IH r t h k Hr) as [_ H].
      destruct (run fuel (awaitingTimeout d r h k)) as [m' calls].
      exact H.
    + rewrite (run_step fuel (awaitingTimeout d r h k) _ (TimeoutFired h) _
                 eq_refl (any_timeout_fired d r h k)).
      assert (Hr' : r - 1 < 0) by lia.
      destruct (IH (r - 1) (Some h) (S h) k Hr') as [H _].
      destruct (run fuel (awaitingTick d (r - 1) (Some h) (S h) k))
        as [m' calls].
      destruct H as (Hc & Hs & Ht). cbn [fst snd].
      split; [|split].
      * intros [E|Hin]; [discriminate E | exact (Hc Hin)].
      * exact Hs.
      * cbn. constructor; [lia|].
        eapply Forall_impl; [|exact Ht]. cbn. intros; lia.
Qed.

End MoreTimerFacts.

(** X1. For every duration d from 0, 0 included, up to 2^53, where the
    numbers of the code count exactly, [start] on a new timer followed by
    the loop left alone invokes [onTick] with d, ..., 0 and then
    [onComplete]; exactly d timeouts were scheduled on the way and none
    is left, and with a duration of 0 none is ever scheduled. *)
Theorem any_duration_from_zero_completes (d : Z)
  (Hd : 0 <= d <= Timer.exactBound) :
  let '(started, m, first) := Timer.start (Timer.boot d) in
  started = true /\
  forall fuel, (2 * Z.to_nat d + 1 <= fuel)%nat ->
    Timer.run fuel m
    = (Timer.mkMachine (Timer.mkTimer d Timer.idle 0 None) []
                       (Z.to_nat d) 0%nat 0%nat,
       map Timer.onTick (tl (Timer.countdown (Z.to_nat d)))
       ++ [Timer.onComplete])
    /\ first = [Timer.onTick d]
    /\ first ++ snd (Timer.run fuel m)
       = map Timer.onTick (Timer.countdown (Z.to_nat d)) ++ [Timer.onComplete].
Proof.
  cbn. split; [reflexivity|]. intros fuel Hfuel.
  pose proof (run_from_tick d (Z.to_nat d) None 0%nat 0%nat fuel Hfuel) as R.
  unfold Notions.ticking in R. rewrite Z2Nat.id in R by lia.
  rewrite R. cbn. split; [reflexivity|]. split; [reflexivity|].
  destruct (Z.to_nat d) eqn:E; cbn.
  - do 2 f_equal. lia.
  - do 2 f_equal. lia.
Qed.

Lemma any_duration_from_zero_completes_witness :
  0 <= 0 <= Timer.exactBound /\
  Timer.run 1 (snd (fst (Timer.start (Timer.boot 0))))
  = (Timer.mkMachine (Timer.mkTimer 0 Timer.idle 0 None) [] 0%nat 0%nat 0%nat,
     [Timer.onComplete]).
Proof.
  assert (Hd : 0 <= 0 <= Timer.exactBound)
    by (split; [apply Z.le_refl | discriminate]).
  split; [exact Hd|].
  pose proof (any_duration_from_zero_completes 0 Hd) as H.
  hnf in H. destruct H as [_ H].
  destruct (H 1%nat (Nat.le_refl 1)) as [H1 _]. exact H1.
Defined.

(** X2. With a negative whole duration the countdown does not complete:
    as long as the loop is left alone and the count stays above -2^53,
    where the numbers of the code count exactly, [onComplete] is not
    invoked, the timer stays running, and every further tick is below
    the duration. *)
Theorem negative_duration_never_completes (d : Z) (Hd : d < 0) (fuel : nat)
  (Hfuel : - Timer.exactBound <= d - Z.of_nat fuel) :
  let '(started, m, first) := Timer.start (Timer.boot d) in
  started = true /\ first = [Timer.onTick d] /\
  let (m', rest) := Timer.run fuel m in
  ~ In Timer.onComplete rest /\
  Timer.state (Timer.self m') = Timer.running /\
  Forall (fun x => x < d) (Observing.ticks rest).
Proof.
  cbn. split; [reflexivity|]. split; [reflexivity|].
  destruct (run_below_zero d fuel d None 0%nat 0%nat Hd) as [H _].
  exact H.
Qed.

Lemma negative_duration_never_completes_witness :
  -1 < 0 /\ - Timer.exactBound <= -1 - Z.of_nat 6 /\
  Observing.ticks
    (snd (Timer.run 6 (snd (fst (Timer.start (Timer.boot (-1)))))))
  = [-2; -3; -4] /\
  ~ In Timer.onComplete
       (snd (Timer.run 6 (snd (fst (Timer.start (Timer.boot (-1))))))).
Proof.
  assert (Hfuel : - Timer.exactBound <= -1 - Z.of_nat 6)
    by (vm_compute; discriminate).
  split; [lia|]. split; [exact Hfuel|]. split; [reflexivity|].
  pose proof (negative_duration_never_completes (-1) eq_refl 6 Hfuel) as H.
  vm_compute in H. destruct H as (_ & _ & Hn & _ & _).
  vm_compute. exact Hn.
Defined.

(** X3. [dispose] invokes no callback, clears the pending timeout and
    leaves the timer idle with 0 remaining; whatever is still suspended
    or arrives afterwards, short of a new [start], invokes no callback. *)
Theorem dispose_silences (m : Timer.Machine) :
  Timer.state (Timer.self (Timer.dispose m)) = Timer.idle /\
  Timer.remainingSeconds (Timer.self (Timer.dispose m)) = 0 /\
  (forall h, Timer.timeout (Timer.self m) = Some h ->
             ~ In h (Timer.timers (Timer.dispose m)) /\
             Timer.timeout (Timer.self (Timer.dispose m)) = None) /\
  Timer.ticksAwaited (Timer.dispose m) = Timer.ticksAwaited m /\
  forall es m' calls,
    forallb (fun e => negb (Timer.is_start e)) es = true ->
    Timer.exec es (Timer.dispose m) = Some (m', calls) ->
    calls = [] /\ Timer.state (Timer.self m') <> Timer.running.
Proof.
  assert (Hs : Timer.state (Timer.self (Timer.dispose m)) = Timer.idle)
    by (unfold Timer.dispose; destruct (Timer.timeout (Timer.self m));
        reflexivity).
  split; [exact Hs|].
  split; [unfold Timer.dispose; destruct (Timer.timeout (Timer.self m));
          reflexivity|].
  split.
  { intros h Hh. unfold Timer.dispose. rewrite Hh. cbn.
    split; [apply In_remove_same | reflexivity]. }
  split; [unfold Timer.dispose; destruct (Timer.timeout (Timer.self m));
          reflexivity|].
  intros es m' calls Hes Hexec.
  assert (Hr : Timer.is_running (Timer.state (Timer.self (Timer.dispose m)))
               = false) by (rewrite Hs; reflexivity).
  destruct (exec_not_running es _ _ _ Hr Hes Hexec) as [Hs' ->].
  split; [reflexivity|]. intros E. rewrite E in Hs'. discriminate.
Qed.

(* ================================================================== *)
(** * Further properties of the power gateway *)
(* ================================================================== *)

(** X4. [abortScheduled] starts no command when the gateway is not armed
    or the platform is not win32 and only logs the skip; otherwise it
    starts [shutdown /a] and logs whether that ran or failed; its promise
    is fulfilled in every case. *)
Theorem abortScheduled_contract (host : Power.Host) (p : Power.SystemPower) :
  snd (Power.abortScheduled host p) = inl tt /\
  (Power.armed p = false ->
     fst (Power.abortScheduled host p)
     = if Power.logger p
       then [Power.log "abort skipped (not armed)" None]
       else []) /\
  (Power.armed p = true -> Power.platform host <> "win32"%string ->
     fst (Power.abortScheduled host p)
     = if Power.logger p
       then [Power.log "abort skipped (non-Windows)" None]
       else []) /\
  (Power.armed p = true -> Power.platform host = "win32"%string ->
     fst (Power.abortScheduled host p)
     = Power.execFile "shutdown" ["/a"%string]
       :: (if Power.logger p
           then [match Power.execOutcome host "shutdown" ["/a"%string] with
                 | None => Power.log "abort shutdown executed" None
                 | Some e => Power.log "abort shutdown failed" (Some e)
                 end]
           else [])).
Proof.
  split; [apply abortScheduled_fulfilled|].
  split; [|split].
  - intros Ha. unfold Power.abortScheduled, Power.say. rewrite Ha. cbn.
    destruct (Power.logger p); reflexivity.
  - intros Ha Hp. unfold Power.abortScheduled, Power.say. rewrite Ha. cbn.
    apply String.eqb_neq in Hp. rewrite Hp. cbn.
    destruct (Power.logger p); reflexivity.
  - intros Ha Hp. unfold Power.abortScheduled. rewrite Ha, Hp. cbn.
    apply runCommand_effects.
Qed.

Section GatewayFacts.

Variable host : Power.Host.

Lemma say_commands (p : Power.SystemPower) (m : string) (e : option string) :
  Power.commands (fst (Power.say p m e)) = [].
Proof. unfold Power.say. destruct (Power.logger p); reflexivity. Qed.

(** Nothing is started unless the gateway is armed and the platform is
    win32. *)
Lemma perform_commands_gated (p : Power.SystemPower) (a : Power.PowerAction) :
  Power.armed p = false \/ Power.platform host <> "win32"%string ->
  Power.commands (fst (Power.perform host p a)) = [].
Proof.
  intros H. unfold Power.perform.
  destruct (Power.armed p); cbn; [|apply say_commands].
  destruct H as [H|H]; [discriminate|].
  apply String.eqb_neq in H. rewrite H. cbn. apply say_commands.
Qed.

Lemma abortScheduled_commands_gated (p : Power.SystemPower) :
  Power.armed p = false \/ Power.platform host <> "win32"%string ->
  Power.commands (fst (Power.abortScheduled host p)) = [].
Proof.
  intros H. unfold Power.abortScheduled.
  destruct (Power.armed p); cbn; [|apply say_commands].
  destruct H as [H|H]; [discriminate|].
  apply String.eqb_neq in H. rewrite H. cbn. apply say_commands.
Qed.

End GatewayFacts.

(* ================================================================== *)
(** * Handlers that keep a policy *)
(* ================================================================== *)

Section Keeping.

Import Controller Observing.

Variable P : Policy.

Lemma at_ret {A : Type} (c : ShutdownController) (a : A) :
  holds P c -> keeps_at P c (ret a).
Proof. intros H. split; [exact H | apply allowed_nil]. Qed.

Lemma at_bind {A B : Type} (c : ShutdownController) (m : M A)
  (k : A -> M B) :
  keeps_at P c m ->
  (forall a c1, holds P c1 -> keeps_at P c1 (k a)) ->
  keeps_at P c (bind m k).
Proof.
  unfold keeps_at, bind. destruct (m c) as [[a c1] e1]. cbn.
  intros [H1 H2] Hk. specialize (Hk a c1 H1).
  destruct (k a c1) as [[b c2] e2]. cbn in *.
  split; [apply Hk | apply allowed_app; [exact H2 | apply Hk]].
Qed.

Lemma at_get_bind {B : Type} (c : ShutdownController)
  (k : ShutdownController -> M B) :
  keeps_at P c (k c) -> keeps_at P c (bind get k).
Proof.
  unfold keeps_at, bind, get. destruct (k c c) as [[b c2] e2]. cbn. auto.
Qed.

Lemma at_emit (c : ShutdownController) (es : list Effect) :
  holds P c -> allowed P es -> keeps_at P c (emit es).
Proof. intros H1 H2. split; assumption. Qed.

Lemma at_forEach {A : Type} (l : list A) (f : A -> M unit) :
  forall c, holds P c ->
    (forall x c1, holds P c1 -> keeps_at P c1 (f x)) ->
    keeps_at P c (forEach l f).
Proof.
  induction l as [|x l IH]; intros c Hc Hf; cbn [forEach].
  - now apply at_ret.
  - apply at_bind; [now apply Hf|]. intros _ c1 Hc1. now apply IH.
Qed.

End Keeping.

(** What a step made of a handler gives is what the handler gives. *)
Lemma handler_result {A : Type} (m : Controller.M A)
  (c c' : Controller.ShutdownController) (out : list Controller.Effect) :
  (let '(_, c1, es) := m c in Some (c1, es)) = Some (c', out) ->
  c' = snd (fst (m c)) /\ out = snd (m c).
Proof.
  destruct (m c) as [[u c1] es]. cbn. intros H. inversion H. auto.
Qed.

(** Opens the handlers into their steps. *)
Ltac open_handlers :=
  cbv beta iota zeta delta
    [Controller.register Controller.unregister Controller.handleSettings
     Controller.handleKeyDown Controller.startCountdown
     Controller.cancelCountdown Controller.await_timer_cancel
     Controller.timer_cancel Controller.timer_start Controller.callback
     Controller.setMaster Controller.propagateSettings
     Controller.persistMasterSettings Controller.renderByState
     Controller.clearTitlesAcrossDevices
     Controller.renderMessageAcrossDevices
     Controller.renderCountdownAcrossDevices Controller.trackKey
     Controller.untrackKey Controller.power_setArmed
     Controller.power_perform Controller.power_abortScheduled
     Controller.log Controller.getKeyAction Controller.when
     Power.setArmed].

(** Walks through the steps of a handler; [setter] closes a step that
    writes a field, [effect] shows that emitted effects are allowed. *)
Ltac walk setter effect :=
  repeat lazymatch goal with
    | |- Observing.keeps_at _ _ (Controller.bind Controller.get _) =>
        apply at_get_bind; cbv beta
    | |- Observing.keeps_at _ _ (Controller.bind _ _) =>
        apply at_bind; [|intros ? ? ?]
    | |- Observing.keeps_at _ _ (Controller.ret _) =>
        apply at_ret; assumption
    | |- Observing.keeps_at _ _ (Controller.forEach _ _) =>
        apply at_forEach; [assumption | intros ? ? ?]
    | |- Observing.keeps_at _ _ (Controller.emit _) =>
        apply at_emit; [assumption | effect]
    | |- Observing.keeps_at _ _ (if ?b then _ else _) =>
        let E := fresh "E" in destruct b eqn:E
    | |- Observing.keeps_at _ _ (match ?x with _ => _ end) =>
        let E := fresh "E" in destruct x eqn:E
    | |- Observing.keeps_at _ _ _ => setter
    end.

Section QuietFacts.

Import Controller Observing.

Lemma execCommands_app (a b : list Effect) :
  execCommands (a ++ b) = execCommands a ++ execCommands b.
Proof. apply flat_map_app. Qed.

Lemma execCommands_outside (l : list Power.Effect) :
  execCommands (map outside l) = Power.commands l.
Proof.
  induction l as [|x l IH]; [reflexivity|].
  change (map outside (x :: l)) with ([outside x] ++ map outside l).
  rewrite execCommands_app, IH. destruct x; reflexivity.
Qed.

Lemma execCommands_map {A : Type} (f : A -> Effect) (l : list A) :
  (forall x, execCommands [f x] = []) -> execCommands (map f l) = [].
Proof.
  intros H. induction l as [|x l IH]; [reflexivity|].
  change (map f (x :: l)) with ([f x] ++ map f l).
  now rewrite execCommands_app, H, IH.
Qed.

Lemma execCommands_flat_map {A : Type} (f : A -> list Effect) (l : list A) :
  (forall x, execCommands (f x) = []) -> execCommands (flat_map f l) = [].
Proof.
  intros H. induction l as [|x l IH]; [reflexivity|].
  cbn [flat_map]. now rewrite execCommands_app, H, IH.
Qed.

End QuietFacts.

(** Effects that start no command. *)
Definition quietly : Observing.Policy :=
  Observing.mkPolicy
    (fun _ => True)
    (fun es => Observing.execCommands es = [])
    eq_refl
    (fun a b Ha Hb =>
       eq_trans (execCommands_app a b)
                (eq_trans (f_equal2 (@app _) Ha Hb) eq_refl)).

(** Closes a goal that some effects start no command. *)
Ltac quiet_effects :=
  cbn [Observing.allowed quietly];
  repeat first
    [ reflexivity
    | apply execCommands_map; intros ?
    | apply execCommands_flat_map; intros ? ].

Section OffWindows.

Import Controller Observing.

Variable host : Power.Host.
Hypothesis not_windows : Power.platform host <> "win32"%string.

Lemma power_effects_quiet (call : PowerCall) (l : list Power.Effect) :
  Power.commands l = [] ->
  execCommands (gateway call :: map outside l) = [].
Proof. intros H. cbn. now rewrite execCommands_outside. Qed.

Ltac quiet_setter :=
  split; [exact I | apply (allowed_nil quietly)].

Ltac quiet_leaf :=
  first
    [ apply power_effects_quiet;
      first [ apply perform_commands_gated; right; exact not_windows
            | apply abortScheduled_commands_gated; right; exact not_windows
            | apply say_commands ]
    | quiet_effects ].

Lemma handlers_quiet (e : Event) (c c' : ShutdownController)
  (out : list Effect) :
  step host e c = Some (c', out) -> execCommands out = [].
Proof.
  assert (Hc : holds quietly c) by exact I.
  destruct e as [a s r|a r|a s r|a s r| | |h]; cbn [step].
  1: assert (K : keeps_at quietly c (register a s r)).
  3: assert (K : keeps_at quietly c (unregister host a r)).
  5: assert (K : keeps_at quietly c (handleSettings a s r)).
  7: assert (K : keeps_at quietly c (handleKeyDown host a s r)).
  1, 3, 5, 7: open_handlers; walk quiet_setter quiet_leaf.
  1-4: intros H; apply handler_result in H; destruct H as [_ ->];
    exact (proj2 K).
  all: unfold timerEvent;
    match goal with
    | |- context [Timer.step ?e ?t] =>
        destruct (Timer.step e t) as [[t1 calls]|]; [|discriminate]
    end;
    assert (K : keeps_at quietly c
                  (bind (set_timer t1)
                        (fun _ => forEach calls (callback host))))
      by (open_handlers; walk quiet_setter quiet_leaf);
    intros H; apply handler_result in H; destruct H as [_ ->];
    exact (proj2 K).
Qed.

End OffWindows.

(** X5. On a host whose platform is not win32 no external command is ever
    started: whatever events reach the controller, in whatever state, the
    effects of the run hold no [execFile]. *)
Theorem no_command_off_windows (host : Power.Host)
  (events : list Controller.Event) (c c' : Controller.ShutdownController)
  (out : list Controller.Effect)
  (Hhost : Power.platform host <> "win32"%string)
  (Hrun : Controller.exec host events c = Some (c', out)) :
  Observing.execCommands out = [].
Proof.
  revert c c' out Hrun.
  induction events as [|e events IH]; intros c c' out Hrun; cbn in Hrun.
  - inversion Hrun; reflexivity.
  - destruct (Controller.step host e c) as [[c1 o1]|] eqn:E1; [|discriminate].
    destruct (Controller.exec host events c1) as [[c2 o2]|] eqn:E2;
      [|discriminate].
    inversion Hrun; subst.
    rewrite execCommands_app.
    rewrite (handlers_quiet host Hhost _ _ _ _ E1), (IH _ _ _ E2).
    reflexivity.
Qed.

Lemma mac_run :
  Controller.exec Observing.macHost Observing.liveEvents Controller.create
  = Some Observing.macOutcome.
Proof. vm_compute. reflexivity. Qed.

Lemma no_command_off_windows_witness :
  Power.platform Observing.macHost <> "win32"%string /\
  Controller.exec Observing.macHost Observing.liveEvents Controller.create
  = Some Observing.macOutcome /\
  Notions.abortCalls (snd Observing.macOutcome) = 1%nat /\
  Observing.execCommands (snd Observing.macOutcome) = [].
Proof.
  assert (Hhost : Power.platform Observing.macHost <> "win32"%string)
    by (cbn; discriminate).
  split; [exact Hhost|]. split; [exact mac_run|]. split; [reflexivity|].
  exact (no_command_off_windows
           Observing.macHost Observing.liveEvents Controller.create
           (fst Observing.macOutcome) (snd Observing.macOutcome)
           Hhost mac_run).
Defined.

(** Neither the gateway nor the shared settings are armed, and no
    command is started. *)
Definition inPreview : Observing.Policy :=
  Observing.mkPolicy
    (fun c => Power.armed (Controller.power c) = false /\
              Controller.armed (Controller.sharedSettings c) = false)
    (fun es => Observing.execCommands es = [])
    eq_refl
    (fun a b Ha Hb =>
       eq_trans (execCommands_app a b)
                (eq_trans (f_equal2 (@app _) Ha Hb) eq_refl)).

Section Preview.

Import Controller Observing.

Variable host : Power.Host.

Ltac preview_facts :=
  repeat match goal with
         | H : holds inPreview _ |- _ => cbn in H; destruct H
         end.

Ltac preview_setter :=
  split; [preview_facts; cbn; split; congruence
         | apply (allowed_nil inPreview)].

Ltac preview_leaf :=
  cbn [allowed inPreview];
  first
    [ apply power_effects_quiet;
      first [ apply perform_commands_gated; left; preview_facts; assumption
            | apply abortScheduled_commands_gated; left; preview_facts;
              assumption
            | apply say_commands ]
    | repeat first
        [ reflexivity
        | apply execCommands_map; intros ?
        | apply execCommands_flat_map; intros ? ] ].

Lemma handlers_stay_in_preview (e : Event) (c c' : ShutdownController)
  (out : list Effect) :
  holds inPreview c -> previewOnly e = true ->
  step host e c = Some (c', out) ->
  holds inPreview c' /\ execCommands out = [].
Proof.
  intros Hc He.
  destruct e as [a s r|a r|a s r|a s r| | |h]; cbn [step].
  1: assert (K : keeps_at inPreview c (register a s r)).
  3: assert (K : keeps_at inPreview c (unregister host a r)).
  5: assert (K : keeps_at inPreview c (handleSettings a s r)).
  7: assert (K : keeps_at inPreview c (handleKeyDown host a s r)).
  1, 3, 5, 7: try (destruct r; cbn in He; try apply negb_true_iff in He);
    open_handlers; walk preview_setter preview_leaf.
  1-4: intros H; apply handler_result in H; destruct H as [-> ->];
    exact K.
  all: unfold timerEvent;
    match goal with
    | |- context [Timer.step ?e ?t] =>
        destruct (Timer.step e t) as [[t1 calls]|]; [|discriminate]
    end;
    assert (K : keeps_at inPreview c
                  (bind (set_timer t1)
                        (fun _ => forEach calls (callback host))))
      by (open_handlers; walk preview_setter preview_leaf);
    intros H; apply handler_result in H; destruct H as [-> ->];
    exact K.
Qed.

End Preview.

(** X6. Preview mode never touches the system: from a controller whose
    gateway and shared settings are not armed, as long as every settings
    payload of the master normalizes to not armed, no run of events
    starts an external command, and the gateway stays disarmed. *)
Theorem preview_starts_no_command (host : Power.Host)
  (events : list Controller.Event) (c c' : Controller.ShutdownController)
  (out : list Controller.Effect)
  (Hgate : Power.armed (Controller.power c) = false)
  (Hshared : Controller.armed (Controller.sharedSettings c) = false)
  (Hevents : forallb Observing.previewOnly events = true)
  (Hrun : Controller.exec host events c = Some (c', out)) :
  Observing.execCommands out = [] /\
  Power.armed (Controller.power c') = false /\
  Controller.armed (Controller.sharedSettings c') = false.
Proof.
  assert (Hc : Observing.holds inPreview c) by (split; assumption).
  clear Hgate Hshared. revert c c' out Hc Hrun.
  induction events as [|e events IH]; intros c c' out Hc Hrun; cbn in Hrun.
  - inversion Hrun; subst. destruct Hc. auto.
  - cbn in Hevents. apply andb_true_iff in Hevents as [He Hes].
    destruct (Controller.step host e c) as [[c1 o1]|] eqn:E1; [|discriminate].
    destruct (Controller.exec host events c1) as [[c2 o2]|] eqn:E2;
      [|discriminate].
    inversion Hrun; subst.
    destruct (handlers_stay_in_preview host _ _ _ _ Hc He E1) as [Hc1 Ho1].
    destruct (IH Hes _ _ _ Hc1 E2) as (Ho2 & Hrest).
    split; [|exact Hrest].
    now rewrite execCommands_app, Ho1, Ho2.
Qed.

Lemma preview_starts_no_command_witness :
  Power.armed (Controller.power Controller.create) = false /\
  Controller.armed (Controller.sharedSettings Controller.create) = false /\
  forallb Observing.previewOnly Notions.demoEvents = true /\
  Controller.exec Notions.demoHost Notions.demoEvents Controller.create
  = Some (Notions.demoRunning, Notions.demoOutput) /\
  Observing.execCommands Notions.demoOutput = [].
Proof.
  split; [reflexivity|]. split; [reflexivity|].
  assert (He : forallb Observing.previewOnly Notions.demoEvents = true)
    by (vm_compute; reflexivity).
  split; [exact He|]. split; [exact demo_reached|].
  exact (proj1 (preview_starts_no_command
                  Notions.demoHost Notions.demoEvents Controller.create
                  Notions.demoRunning Notions.demoOutput
                  eq_refl eq_refl He demo_reached)).
Defined.

(* ================================================================== *)
(** * Further properties of the renderer *)
(* ================================================================== *)

Section DeliveryFacts.

Import JS SDK Renderer Notions Observing.

Variable numberToString : float -> string.
Variable encodeURIComponent : string -> string.

Lemma renderAcrossTiles_keys (tiles : list Tile) (layout : Layout)
  (content : string) (style : DisplayStyle) :
  map fst (renderAcrossTiles encodeURIComponent tiles layout content style)
  = map action tiles.
Proof. unfold renderAcrossTiles. rewrite map_map. reflexivity. Qed.

Lemma each_alone_keys (tiles : list Tile)
  (draw : Tile -> Layout -> string) (style : DisplayStyle) :
  map fst
      (flat_map (fun tile =>
                   renderAcrossTiles encodeURIComponent [tile]
                     (buildLayout [tile]) (draw tile (buildLayout [tile]))
                     style) tiles)
  = map action tiles.
Proof.
  induction tiles as [|t tiles IH]; [reflexivity|].
  cbn [flat_map]. rewrite map_app, IH. reflexivity.
Qed.

Lemma placed_tiles (actions : list KeyAction) :
  map action
      (flat_map (fun a => match coordinates a with
                          | None => []
                          | Some (column, row) => [mkTile a column row]
                          end) actions)
  = filter placed actions.
Proof.
  induction actions as [|a actions IH]; [reflexivity|].
  cbn [flat_map filter]. unfold placed at 1.
  destruct (coordinates a) as [[column row]|]; cbn; now rewrite IH.
Qed.

Lemma prepareTiles_keys (actions : list KeyAction) :
  map action (prepareTiles actions)
  = if existsb placed actions then filter placed actions
    else firstn 1 actions.
Proof.
  unfold prepareTiles.
  pose proof (placed_tiles actions) as E.
  destruct (flat_map _ actions) as [|t ts] eqn:F.
  - cbn in E.
    assert (Hn : existsb placed actions = false).
    { destruct (existsb placed actions) eqn:X; [|reflexivity].
      apply existsb_exists in X as (k & Hk & Hp).
      assert (In k (filter placed actions)) by (apply filter_In; auto).
      rewrite <- E in H. destruct H. }
    rewrite Hn. destruct actions; reflexivity.
  - rewrite E.
    assert (Hy : existsb placed actions = true).
    { apply existsb_exists. exists (action t).
      assert (In (action t) (filter placed actions))
        by (rewrite <- E; left; reflexivity).
      apply filter_In in H. exact H. }
    now rewrite Hy.
Qed.

Lemma renderCountdown_keys (remaining totalSeconds : Z)
  (actions : list KeyAction) (options : option RenderOptions) :
  map fst (renderCountdown numberToString encodeURIComponent remaining
                           totalSeconds actions options)
  = map action (prepareTiles actions).
Proof.
  unfold renderCountdown.
  destruct (List.length (prepareTiles actions) =? 0)%nat eqn:E0.
  - apply Nat.eqb_eq in E0. destruct (prepareTiles actions);
      [reflexivity | discriminate].
  - destruct (_ && _).
    + apply renderAcrossTiles_keys.
    + apply (each_alone_keys (prepareTiles actions)
               (fun tile layout =>
                  buildCountdownGraphic numberToString remaining layout
                    (buildStyle remaining totalSeconds options)
                    (progress remaining totalSeconds))).
Qed.

Lemma renderMessage_keys (message : string) (actions : list KeyAction)
  (options : option RenderOptions) :
  map fst (renderMessage numberToString encodeURIComponent message actions
                         options)
  = map action (prepareTiles actions).
Proof.
  unfold renderMessage.
  destruct (List.length (prepareTiles actions) =? 0)%nat eqn:E0.
  - apply Nat.eqb_eq in E0. destruct (prepareTiles actions);
      [reflexivity | discriminate].
  - destruct (1 <? _)%nat.
    + apply renderAcrossTiles_keys.
    + apply (each_alone_keys (prepareTiles actions)
               (fun tile layout =>
                  buildMessageGraphic numberToString message layout
                    (buildStyle 1 1 options))).
Qed.

End DeliveryFacts.

(** X7. A render hands out exactly one image per tile, in the order of
    the keys, whichever way it draws: to every key that has coordinates
    or, when none has, to the first key only; with no key at all nothing
    is delivered. *)
Theorem render_delivers_one_image_per_tile
  (numberToString : float -> string) (encodeURIComponent : string -> string)
  (actions : list SDK.KeyAction) (options : option Renderer.RenderOptions) :
  let receivers :=
    if existsb Notions.placed actions then filter Notions.placed actions
    else firstn 1 actions in
  (forall remaining totalSeconds,
     map fst (Renderer.renderCountdown numberToString encodeURIComponent
                remaining totalSeconds actions options) = receivers) /\
  (forall message,
     map fst (Renderer.renderMessage numberToString encodeURIComponent
                message actions options) = receivers) /\
  (receivers = [] <-> actions = []).
Proof.
  cbv zeta. rewrite <- prepareTiles_keys.
  split; [|split].
  - intros. apply renderCountdown_keys.
  - intros. apply renderMessage_keys.
  - rewrite prepareTiles_keys. split.
    + destruct actions as [|a actions]; [reflexivity|].
      destruct (existsb Notions.placed (a :: actions)) eqn:X.
      * intros E. apply existsb_exists in X as (k & Hk & Hp).
        assert (In k (filter Notions.placed (a :: actions)))
          by (apply filter_In; auto).
        rewrite E in H. destruct H.
      * cbn. discriminate.
    + intros ->. reflexivity.
Qed.

Section ShiftFacts.

Import JS SDK Renderer Notions Observing.

Variable numberToString : float -> string.
Variable encodeURIComponent : string -> string.

(** [t'] lies [dc] columns and [dr] rows from [t]. *)
Let shiftedBy (dc dr : Z) (t t' : Tile) : Prop :=
  col t' = col t + dc /\ row t' = row t + dr.

Lemma fold_min_shift (d : Z) (r : list Z) (x : Z) :
  fold_left Z.min (map (fun v => v + d) r) (x + d)
  = fold_left Z.min r x + d.
Proof.
  revert x. induction r as [|a r IH]; intros x; [reflexivity|].
  cbn [map fold_left]. rewrite Z.add_min_distr_r. apply IH.
Qed.

Lemma fold_max_shift (d : Z) (r : list Z) (x : Z) :
  fold_left Z.max (map (fun v => v + d) r) (x + d)
  = fold_left Z.max r x + d.
Proof.
  revert x. induction r as [|a r IH]; intros x; [reflexivity|].
  cbn [map fold_left]. rewrite Z.add_max_distr_r. apply IH.
Qed.

Lemma shifted_cols (dc dr : Z) (tiles tiles' : list Tile) :
  Forall2 (shiftedBy dc dr) tiles tiles' ->
  map col tiles' = map (fun v => v + dc) (map col tiles) /\
  map row tiles' = map (fun v => v + dr) (map row tiles).
Proof.
  induction 1 as [|t t' ts ts' [Hc Hr] _ [IHc IHr]]; [now split|].
  cbn [map]. now rewrite Hc, Hr, IHc, IHr.
Qed.

Lemma shifted_layout (dc dr : Z) (tiles tiles' : list Tile) :
  Forall2 (shiftedBy dc dr) tiles tiles' ->
  tiles <> [] ->
  buildLayout tiles'
  = mkLayout 200 (minCol (buildLayout tiles) + dc)
             (minRow (buildLayout tiles) + dr)
             (columns (buildLayout tiles)) (rows (buildLayout tiles))
             (widthPx (buildLayout tiles)) (heightPx (buildLayout tiles)).
Proof.
  intros F Hne. destruct (shifted_cols dc dr tiles tiles' F) as [Ec Er].
  unfold buildLayout, this_tileSize. rewrite Ec, Er.
  destruct tiles as [|t ts]; [congruence|].
  cbn [map spread_min spread_max minCol minRow columns rows widthPx heightPx].
  rewrite !fold_min_shift, !fold_max_shift.
  f_equal; lia.
Qed.

(** A drawing that reads the size of the canvas and not its place on the
    deck. *)
Let placeFree (draw : Layout -> string) : Prop :=
  forall ts c r c' r' cols rws w h,
    draw (mkLayout ts c' r' cols rws w h) = draw (mkLayout ts c r cols rws w h).

Lemma shared_shift (dc dr : Z) (tiles tiles' : list Tile)
  (draw : Layout -> string) (style : DisplayStyle) :
  Forall2 (shiftedBy dc dr) tiles tiles' ->
  tiles <> [] ->
  placeFree draw ->
  map snd (renderAcrossTiles encodeURIComponent tiles' (buildLayout tiles')
             (draw (buildLayout tiles')) style)
  = map snd (renderAcrossTiles encodeURIComponent tiles (buildLayout tiles)
               (draw (buildLayout tiles)) style).
Proof.
  intros F Hne Hdraw.
  rewrite (shifted_layout dc dr tiles tiles' F Hne).
  assert (Ets : tileSize (buildLayout tiles) = 200) by reflexivity.
  destruct (buildLayout tiles) as [ts c r cols rws w h].
  cbn [tileSize minCol minRow columns rows widthPx heightPx] in *.
  subst ts.
  rewrite (Hdraw 200 c r (c + dc) (r + dr)).
  set (content := draw _).
  unfold renderAcrossTiles. rewrite !map_map. cbn [snd].
  change (fullGraphic (mkLayout 200 (c + dc) (r + dr) cols rws w h) content
                      style)
    with (fullGraphic (mkLayout 200 c r cols rws w h) content style).
  set (g := fullGraphic _ content style).
  clear Hne. induction F as [|t t' ts ts' [Hc Hr] _ IH]; [reflexivity|].
  cbn [map]. rewrite IH. f_equal. f_equal.
  unfold svg, viewX, viewY.
  cbn [minCol minRow tileSize]. rewrite Hc, Hr.
  replace (col t + dc - (c + dc)) with (col t - c) by lia.
  replace (row t + dr - (r + dr)) with (row t - r) by lia.
  reflexivity.
Qed.

Lemma alone_shift (dc dr : Z) (tiles tiles' : list Tile)
  (draw : Layout -> string) (style : DisplayStyle) :
  Forall2 (shiftedBy dc dr) tiles tiles' ->
  placeFree draw ->
  map snd
      (flat_map (fun tile =>
                   renderAcrossTiles encodeURIComponent [tile]
                     (buildLayout [tile]) (draw (buildLayout [tile])) style)
                tiles')
  = map snd
      (flat_map (fun tile =>
                   renderAcrossTiles encodeURIComponent [tile]
                     (buildLayout [tile]) (draw (buildLayout [tile])) style)
                tiles).
Proof.
  intros F Hdraw.
  induction F as [|t t' ts ts' Ht _ IH]; [reflexivity|].
  cbn [flat_map]. rewrite !map_app, IH. f_equal.
  apply (shared_shift dc dr [t] [t']); [|discriminate|exact Hdraw].
  constructor; [exact Ht | constructor].
Qed.

Lemma prepareTiles_moved (dc dr : Z) (actions : list KeyAction) :
  exists dc' dr',
    Forall2 (shiftedBy dc' dr') (prepareTiles actions)
            (prepareTiles (map (moveKey dc dr) actions)).
Proof.
  set (f := fun a : KeyAction =>
              match coordinates a with
              | None => []
              | Some (column, row) => [mkTile a column row]
              end).
  assert (F : Forall2 (shiftedBy dc dr) (flat_map f actions)
                      (flat_map f (map (moveKey dc dr) actions))).
  { induction actions as [|a actions IH]; [constructor|].
    cbn [map flat_map]. unfold f at 1 3. unfold moveKey at 1.
    cbn [coordinates].
    destruct (coordinates a) as [[c r]|]; [|exact IH].
    cbn [app]. constructor; [split; reflexivity | exact IH]. }
  unfold prepareTiles. fold f.
  destruct (flat_map f actions) as [|t ts] eqn:E.
  - inversion F as [E'|]. 
    destruct actions as [|first rest]; cbn [map].
    + exists 0, 0. constructor.
    + exists 0, 0. constructor; [split; cbn; lia | constructor].
  - inversion F as [|t0 t' ts0 ts' Ht Hts E1 E2]. subst.
    exists dc, dr. constructor; assumption.
Qed.

Lemma countdown_placeFree (remaining : Z) (style : DisplayStyle)
  (progress : float) :
  placeFree (fun layout =>
               buildCountdownGraphic numberToString remaining layout style
                                     progress).
Proof. intros ts c r c' r' cols rws w h. reflexivity. Qed.

Lemma message_placeFree (message : string) (style : DisplayStyle) :
  placeFree (fun layout =>
               buildMessageGraphic numberToString message layout style).
Proof. intros ts c r c' r' cols rws w h. reflexivity. Qed.

Lemma renderCountdown_moved (dc dr remaining totalSeconds : Z)
  (actions : list KeyAction) (options : option RenderOptions) :
  map snd (renderCountdown numberToString encodeURIComponent remaining
             totalSeconds (map (moveKey dc dr) actions) options)
  = map snd (renderCountdown numberToString encodeURIComponent remaining
               totalSeconds actions options).
Proof.
  destruct (prepareTiles_moved dc dr actions) as (dc' & dr' & F).
  unfold renderCountdown.
  revert F.
  generalize (prepareTiles (map (moveKey dc dr) actions)).
  generalize (prepareTiles actions).
  intros tiles tiles' F.
  rewrite <- (Forall2_length F).
  destruct (List.length tiles =? 0)%nat eqn:E0; [reflexivity|].
  assert (Hne : tiles <> [])
    by (intros ->; discriminate).
  destruct (_ && _).
  - apply (shared_shift dc' dr' tiles tiles'
             (fun layout =>
                buildCountdownGraphic numberToString remaining layout
                  (buildStyle remaining totalSeconds options)
                  (progress remaining totalSeconds)));
      [exact F | exact Hne | apply countdown_placeFree].
  - apply (alone_shift dc' dr' tiles tiles'
             (fun layout =>
                buildCountdownGraphic numberToString remaining layout
                  (buildStyle remaining totalSeconds options)
                  (progress remaining totalSeconds)));
      [exact F | apply countdown_placeFree].
Qed.

Lemma renderMessage_moved (dc dr : Z) (message : string)
  (actions : list KeyAction) (options : option RenderOptions) :
  map snd (renderMessage numberToString encodeURIComponent message
             (map (moveKey dc dr) actions) options)
  = map snd (renderMessage numberToString encodeURIComponent message
               actions options).
Proof.
  destruct (prepareTiles_moved dc dr actions) as (dc' & dr' & F).
  unfold renderMessage.
  revert F.
  generalize (prepareTiles (map (moveKey dc dr) actions)).
  generalize (prepareTiles actions).
  intros tiles tiles' F.
  rewrite <- (Forall2_length F).
  destruct (List.length tiles =? 0)%nat eqn:E0; [reflexivity|].
  assert (Hne : tiles <> [])
    by (intros ->; discriminate).
  destruct (1 <? _)%nat.
  - apply (shared_shift dc' dr' tiles tiles'
             (fun layout =>
                buildMessageGraphic numberToString message layout
                  (buildStyle 1 1 options)));
      [exact F | exact Hne | apply message_placeFree].
  - apply (alone_shift dc' dr' tiles tiles'
             (fun layout =>
                buildMessageGraphic numberToString message layout
                  (buildStyle 1 1 options)));
      [exact F | apply message_placeFree].
Qed.

End ShiftFacts.

(** X8. The images do not depend on where the keys sit on the deck: when
    every key with coordinates is moved by the same number of columns and
    rows, a countdown and a message render to the same images in the same
    order. *)
Theorem images_ignore_position
  (numberToString : float -> string) (encodeURIComponent : string -> string)
  (dc dr : Z) (actions : list SDK.KeyAction)
  (options : option Renderer.RenderOptions) :
  (forall remaining totalSeconds,
     map snd (Renderer.renderCountdown numberToString encodeURIComponent
                remaining totalSeconds
                (map (Observing.moveKey dc dr) actions) options)
     = map snd (Renderer.renderCountdown numberToString encodeURIComponent
                  remaining totalSeconds actions options)) /\
  (forall message,
     map snd (Renderer.renderMessage numberToString encodeURIComponent
                message (map (Observing.moveKey dc dr) actions) options)
     = map snd (Renderer.renderMessage numberToString encodeURIComponent
                  message actions options)).
Proof.
  split; intros.
  - apply renderCountdown_moved.
  - apply renderMessage_moved.
Qed.

Section WindowFacts.

Import JS SDK Renderer Notions Observing.

Lemma fold_min_attained (r : list Z) (x : Z) :
  fold_left Z.min r x = x \/ In (fold_left Z.min r x) r.
Proof.
  revert x. induction r as [|a r IH]; intros x; [now left|].
  cbn [fold_left]. destruct (IH (Z.min x a)) as [E|I].
  - rewrite E. destruct (Z.min_spec x a) as [[_ ->]|[_ ->]];
      [now left | right; now left].
  - right. now right.
Qed.

Lemma fold_max_attained (r : list Z) (x : Z) :
  fold_left Z.max r x = x \/ In (fold_left Z.max r x) r.
Proof.
  revert x. induction r as [|a r IH]; intros x; [now left|].
  cbn [fold_left]. destruct (IH (Z.max x a)) as [E|I].
  - rewrite E. destruct (Z.max_spec x a) as [[_ ->]|[_ ->]];
      [right; now left | now left].
  - right. now right.
Qed.

Lemma spread_min_attained (xs : list Z) :
  xs <> [] -> In (spread_min xs) xs.
Proof.
  destruct xs as [|x r]; [congruence|]. intros _. cbn [spread_min].
  destruct (fold_min_attained r x) as [->|I]; [now left | now right].
Qed.

Lemma spread_max_attained (xs : list Z) :
  xs <> [] -> In (spread_max xs) xs.
Proof.
  destruct xs as [|x r]; [congruence|]. intros _. cbn [spread_max].
  destruct (fold_max_attained r x) as [->|I]; [now left | now right].
Qed.

Lemma attained_by_tile (f : Tile -> Z) (pick : list Z -> Z)
  (tiles : list Tile) :
  In (pick (map f tiles)) (map f tiles) ->
  exists t, In t tiles /\ f t = pick (map f tiles).
Proof.
  intros I. apply in_map_iff in I as (t & E & I). now exists t.
Qed.

Lemma In_cells (lo n v : Z) : lo <= v < lo + n -> In v (cells lo n).
Proof.
  intros H. unfold cells. apply in_map_iff.
  exists (Z.to_nat (v - lo)). split; [lia|].
  apply in_seq. lia.
Qed.

End WindowFacts.

(** X9. The canvas is the tight bounding box of the tiles, for tiles on
    the grid of [gridBound], where the numbers of the code are exact:
    some tile has its window at the left edge, some at the right edge,
    some at the top and some at the bottom; and two tiles whose windows
    share a canvas point sit at the same column and row, so tiles at
    different cells never show the same point. *)
Theorem layout_is_tight (tiles : list Renderer.Tile)
  (Htiles : tiles <> [])
  (Hgrid : forallb Viewing.tileOnGrid tiles = true) :
  let layout := Renderer.buildLayout tiles in
  (exists t, In t tiles /\ Renderer.viewX t layout = 0) /\
  (exists t, In t tiles /\
             Renderer.viewX t layout + 200 = Renderer.widthPx layout) /\
  (exists t, In t tiles /\ Renderer.viewY t layout = 0) /\
  (exists t, In t tiles /\
             Renderer.viewY t layout + 200 = Renderer.heightPx layout) /\
  (forall t1 t2 x y,
     Notions.shows t1 layout x y = true ->
     Notions.shows t2 layout x y = true ->
     Renderer.col t1 = Renderer.col t2 /\ Renderer.row t1 = Renderer.row t2).
Proof.
  assert (Hc : map Renderer.col tiles <> [])
    by (destruct tiles; [congruence | discriminate]).
  assert (Hr : map Renderer.row tiles <> [])
    by (destruct tiles; [congruence | discriminate]).
  destruct (attained_by_tile Renderer.col Renderer.spread_min tiles
              (spread_min_attained _ Hc)) as (tl & Il & El).
  destruct (attained_by_tile Renderer.col Renderer.spread_max tiles
              (spread_max_attained _ Hc)) as (tr & Ir & Er).
  destruct (attained_by_tile Renderer.row Renderer.spread_min tiles
              (spread_min_attained _ Hr)) as (tt & It & Et).
  destruct (attained_by_tile Renderer.row Renderer.spread_max tiles
              (spread_max_attained _ Hr)) as (tb & Ib & Eb).
  cbv zeta.
  unfold Renderer.viewX, Renderer.viewY, Renderer.buildLayout,
    Renderer.this_tileSize.
  cbn [Renderer.minCol Renderer.minRow Renderer.tileSize Renderer.widthPx
       Renderer.heightPx].
  split; [exists tl; split; [exact Il | lia]|].
  split; [exists tr; split; [exact Ir | lia]|].
  split; [exists tt; split; [exact It | lia]|].
  split; [exists tb; split; [exact Ib | lia]|].
  intros t1 t2 x y S1 S2.
  unfold Notions.shows, Renderer.viewX, Renderer.viewY in S1, S2.
  cbn [Renderer.minCol Renderer.minRow Renderer.tileSize] in S1, S2.
  rewrite !andb_true_iff, !Z.leb_le, !Z.ltb_lt in S1, S2. lia.
Qed.

Lemma layout_is_tight_witness :
  let tiles := [Renderer.mkTile Notions.demoKey 3 1;
                Renderer.mkTile Notions.demoKey 4 2] in
  tiles <> [] /\ forallb Viewing.tileOnGrid tiles = true /\
  exists t, In t tiles /\
            Renderer.viewX t (Renderer.buildLayout tiles) + 200
            = Renderer.widthPx (Renderer.buildLayout tiles).
Proof.
  cbv zeta. split; [discriminate|]. split; [reflexivity|].
  exact (proj1 (proj2 (layout_is_tight
                         [Renderer.mkTile Notions.demoKey 3 1;
                          Renderer.mkTile Notions.demoKey 4 2]
                         ltac:(discriminate) eq_refl))).
Defined.

(** X10. What the deck shows after a multi-tile render, for any keys on
    the grid: a point is shown exactly when the cell it lies in holds a
    key that has coordinates, and it is then shown as the canvas has it;
    the points of an empty cell of the bounding box are shown on no
    key. *)
Theorem keys_show_their_cells
  (numberToString : float -> string)
  (encodeURIComponent decodeURIComponent : string -> string)
  (Hdecode : forall s, decodeURIComponent (encodeURIComponent s) = s)
  (Colour : Type) (paint : string -> Z -> Z -> Colour)
  (actions : list SDK.KeyAction) (options : option Renderer.RenderOptions)
  (Hgrid : forallb Viewing.keyOnGrid actions = true)
  (Hmany : (1 < List.length (Renderer.prepareTiles actions))%nat)
  (x y : Z) :
  let tiles := Renderer.prepareTiles actions in
  let layout := Renderer.buildLayout tiles in
  let held :=
    existsb (fun t =>
               (Renderer.col t =? Renderer.minCol layout + x / 200)
               && (Renderer.row t =? Renderer.minRow layout + y / 200))
            tiles in
  (forall remaining totalSeconds,
     Renderer.opt options Renderer.multiTileLayout = Some true ->
     Viewing.deckShows decodeURIComponent Colour paint
       (Renderer.renderCountdown numberToString encodeURIComponent
                                 remaining totalSeconds actions options) x y
     = if held
       then Some (paint (Notions.countdownCanvas numberToString remaining
                           totalSeconds layout
                           (Renderer.buildStyle remaining totalSeconds options))
                        x y)
       else None) /\
  (forall message,
     Viewing.deckShows decodeURIComponent Colour paint
       (Renderer.renderMessage numberToString encodeURIComponent
                               message actions options) x y
     = if held
       then Some (paint (Notions.messageCanvas numberToString message layout
                           (Renderer.buildStyle 1 1 options)) x y)
       else None).
Proof.
  cbv zeta. split.
  - intros remaining totalSeconds Hopt.
    rewrite (renderCountdown_shared numberToString encodeURIComponent
               remaining totalSeconds actions options Hopt Hmany).
    apply (deckShows_slices encodeURIComponent decodeURIComponent Hdecode).
    now apply tiles_located.
  - intros message.
    rewrite (renderMessage_shared numberToString encodeURIComponent
               message actions options Hmany).
    apply (deckShows_slices encodeURIComponent decodeURIComponent Hdecode).
    now apply tiles_located.
Qed.

Lemma keys_show_their_cells_witness :
  let k1 := SDK.mkKey "a"%string (Some "deck"%string) (Some (3, 1)) in
  let k2 := SDK.mkKey "b"%string (Some "deck"%string) (Some (5, 1)) in
  (forall s, Viewing.decodeURIComponent (Viewing.encodeURIComponent s) = s) /\
  forallb Viewing.keyOnGrid [k1; k2] = true /\
  (1 < List.length (Renderer.prepareTiles [k1; k2]))%nat /\
  Viewing.deckShows Viewing.decodeURIComponent Z (fun _ x y => 1000 * x + y)
    (Renderer.renderMessage (fun _ => EmptyString) Viewing.encodeURIComponent
                            "Cancelled"%string [k1; k2] None) 450 7
  = Some 450007 /\
  Viewing.deckShows Viewing.decodeURIComponent Z (fun _ x y => 1000 * x + y)
    (Renderer.renderMessage (fun _ => EmptyString) Viewing.encodeURIComponent
                            "Cancelled"%string [k1; k2] None) 250 7
  = None.
Proof.
  cbv zeta.
  split; [exact decode_encode|]. split; [reflexivity|].
  split; [cbn; lia|].
  split.
  - exact (proj2 (keys_show_their_cells (fun _ => EmptyString)
                    Viewing.encodeURIComponent Viewing.decodeURIComponent
                    decode_encode Z (fun _ x y => 1000 * x + y)
                    [SDK.mkKey "a"%string (Some "deck"%string) (Some (3, 1));
                     SDK.mkKey "b"%string (Some "deck"%string) (Some (5, 1))]
                    None eq_refl ltac:(cbn; lia) 450 7) "Cancelled"%string).
  - exact (proj2 (keys_show_their_cells (fun _ => EmptyString)
                    Viewing.encodeURIComponent Viewing.decodeURIComponent
                    decode_encode Z (fun _ x y => 1000 * x + y)
                    [SDK.mkKey "a"%string (Some "deck"%string) (Some (3, 1));
                     SDK.mkKey "b"%string (Some "deck"%string) (Some (5, 1))]
                    None eq_refl ltac:(cbn; lia) 250 7) "Cancelled"%string).
Defined.


(** X11. Keys that fill a whole rectangle of the deck show, after a
    multi-tile render, every point of the canvas as the canvas has it:
    slicing loses nothing, whatever the number of columns and rows. *)
Theorem filled_grid_is_lossless
  (numberToString : float -> string)
  (encodeURIComponent decodeURIComponent : string -> string)
  (Hdecode : forall s, decodeURIComponent (encodeURIComponent s) = s)
  (Colour : Type) (paint : string -> Z -> Z -> Colour)
  (actions : list SDK.KeyAction) (options : option Renderer.RenderOptions)
  (Hgrid : forallb Viewing.keyOnGrid actions = true)
  (Hmany : (1 < List.length (Renderer.prepareTiles actions))%nat)
  (Hfilled : Observing.gridFilled (Renderer.prepareTiles actions) = true)
  (x y : Z)
  (Hx : 0 <= x < Renderer.widthPx
                   (Renderer.buildLayout (Renderer.prepareTiles actions)))
  (Hy : 0 <= y < Renderer.heightPx
                   (Renderer.buildLayout (Renderer.prepareTiles actions))) :
  let layout := Renderer.buildLayout (Renderer.prepareTiles actions) in
  (forall remaining totalSeconds,
     Renderer.opt options Renderer.multiTileLayout = Some true ->
     Viewing.deckShows decodeURIComponent Colour paint
       (Renderer.renderCountdown numberToString encodeURIComponent
                                 remaining totalSeconds actions options) x y
     = Some (paint (Notions.countdownCanvas numberToString remaining
                      totalSeconds layout
                      (Renderer.buildStyle remaining totalSeconds options))
                   x y)) /\
  (forall message,
     Viewing.deckShows decodeURIComponent Colour paint
       (Renderer.renderMessage numberToString encodeURIComponent
                               message actions options) x y
     = Some (paint (Notions.messageCanvas numberToString message layout
                      (Renderer.buildStyle 1 1 options)) x y)).
Proof.
  cbv zeta.
  set (tiles := Renderer.prepareTiles actions) in *.
  set (L := Renderer.buildLayout tiles) in *.
  assert (Held : existsb
                   (fun t =>
                      (Renderer.col t =? Renderer.minCol L + x / 200)
                      && (Renderer.row t =? Renderer.minRow L + y / 200))
                   tiles = true).
  { unfold Observing.gridFilled in Hfilled. cbv zeta in Hfilled.
    fold L in Hfilled.
    assert (Ew : Renderer.widthPx L = Renderer.columns L * 200) by reflexivity.
    assert (Eh : Renderer.heightPx L = Renderer.rows L * 200) by reflexivity.
    pose proof (Z.div_mod x 200 ltac:(lia)) as Dx.
    pose proof (Z.mod_pos_bound x 200 ltac:(lia)) as Bx.
    pose proof (Z.div_mod y 200 ltac:(lia)) as Dy.
    pose proof (Z.mod_pos_bound y 200 ltac:(lia)) as By.
    assert (Ic : In (Renderer.minCol L + x / 200)
                    (Observing.cells (Renderer.minCol L) (Renderer.columns L)))
      by (apply In_cells; lia).
    assert (Ir : In (Renderer.minRow L + y / 200)
                    (Observing.cells (Renderer.minRow L) (Renderer.rows L)))
      by (apply In_cells; lia).
    rewrite forallb_forall in Hfilled.
    specialize (Hfilled _ Ic).
    rewrite forallb_forall in Hfilled.
    exact (Hfilled _ Ir). }
  split.
  - intros remaining totalSeconds Hopt.
    rewrite (renderCountdown_shared numberToString encodeURIComponent
               remaining totalSeconds actions options Hopt Hmany).
    fold tiles. fold L. unfold L at 1.
    rewrite (deckShows_slices encodeURIComponent decodeURIComponent Hdecode)
      by now apply tiles_located.
    fold L. now rewrite Held.
  - intros message.
    rewrite (renderMessage_shared numberToString encodeURIComponent
               message actions options Hmany).
    fold tiles. fold L. unfold L at 1.
    rewrite (deckShows_slices encodeURIComponent decodeURIComponent Hdecode)
      by now apply tiles_located.
    fold L. now rewrite Held.
Qed.

Lemma filled_grid_is_lossless_witness :
  let keys :=
    [SDK.mkKey "a"%string (Some "deck"%string) (Some (1, 0));
     SDK.mkKey "b"%string (Some "deck"%string) (Some (2, 1));
     SDK.mkKey "c"%string (Some "deck"%string) (Some (2, 0));
     SDK.mkKey "d"%string (Some "deck"%string) (Some (1, 1))] in
  (forall s, Viewing.decodeURIComponent (Viewing.encodeURIComponent s) = s) /\
  forallb Viewing.keyOnGrid keys = true /\
  Observing.gridFilled (Renderer.prepareTiles keys) = true /\
  Viewing.deckShows Viewing.decodeURIComponent Z (fun _ x y => 1000 * x + y)
    (Renderer.renderMessage (fun _ => EmptyString) Viewing.encodeURIComponent
                            "Shutdown"%string keys None) 399 200
  = Some 399200.
Proof.
  cbv zeta.
  split; [exact decode_encode|]. split; [reflexivity|].
  split; [reflexivity|].
  refine (proj2 (filled_grid_is_lossless (fun _ => EmptyString)
                   Viewing.encodeURIComponent Viewing.decodeURIComponent
                   decode_encode Z (fun _ x y => 1000 * x + y)
                   [SDK.mkKey "a"%string (Some "deck"%string) (Some (1, 0));
                    SDK.mkKey "b"%string (Some "deck"%string) (Some (2, 1));
                    SDK.mkKey "c"%string (Some "deck"%string) (Some (2, 0));
                    SDK.mkKey "d"%string (Some "deck"%string) (Some (1, 1))]
                   None eq_refl _ eq_refl 399 200 _ _) "Shutdown"%string).
  - cbn; lia.
  - vm_compute; split; [discriminate | reflexivity].
  - vm_compute; split; [discriminate | reflexivity].
Defined.

Section RampFacts.

Import JS Renderer Observing.

(** Every duration from 5 to 30 and every value from 0 to the duration,
    computed. *)
Lemma ramp_table :
  forallb
    (fun total =>
       forallb (fun remaining =>
                  String.eqb (accent (buildStyle remaining total None))
                             (ramp remaining total))
               (map Z.of_nat (seq 0 (S (Z.to_nat total)))))
    (map Z.of_nat (seq 5 26))
  = true.
Proof. vm_compute. reflexivity. Qed.

Lemma ramp_in_range (remaining total : Z) :
  5 <= total <= 30 -> 0 <= remaining <= total ->
  accent (buildStyle remaining total None) = ramp remaining total.
Proof.
  intros Ht Hr. pose proof ramp_table as T.
  rewrite forallb_forall in T.
  assert (It : In total (map Z.of_nat (seq 5 26))).
  { apply in_map_iff. exists (Z.to_nat total). split; [lia|].
    apply in_seq. lia. }
  specialize (T _ It). rewrite forallb_forall in T.
  apply String.eqb_eq, T.
  apply in_map_iff. exists (Z.to_nat remaining). split; [lia|].
  apply in_seq. lia.
Qed.

End RampFacts.

(** X12. The colour of the progress ring during a countdown, for every
    duration the settings allow and every value from the duration down
    to 0: green while more than 66 percent of the time is left, amber
    while more than 33 percent is left, red from then on, whatever accent
    the user chose; the same ramp is the accent of a render without
    options. The comparison of the floating-point ratio agrees with the
    exact one on this range. *)
Theorem ring_colour_follows_ramp (remaining total : Z)
  (Htotal : 5 <= total <= 30) (Hremaining : 0 <= remaining <= total) :
  (forall settings toggle keys,
     Renderer.progressFg
       (Renderer.buildStyle remaining total
          (Some (Controller.countdownOptions settings toggle remaining keys)))
     = Observing.ramp remaining total) /\
  Renderer.accent (Renderer.buildStyle remaining total None)
  = Observing.ramp remaining total.
Proof.
  split; [intros settings toggle keys|];
    apply (ramp_in_range remaining total Htotal Hremaining).
Qed.

Lemma ring_colour_follows_ramp_witness :
  5 <= 10 <= 30 /\ 0 <= 3 <= 10 /\
  Renderer.accent (Renderer.buildStyle 3 10 None) = "#ff3b30"%string.
Proof.
  split; [lia|]. split; [lia|].
  exact (proj2 (ring_colour_follows_ramp 3 10 ltac:(lia) ltac:(lia))).
Defined.

Section MoreEscapeFacts.

Import JS Renderer Observing.
Local Open Scope string_scope.

Lemma escapeXml_app (a b : string) :
  escapeXml (a ++ b) = escapeXml a ++ escapeXml b.
Proof.
  induction a as [|c a IH]; [reflexivity|].
  cbn [String.append escapeXml]. now rewrite IH, append_assoc.
Qed.

Lemma escapeChar_plain (c : ascii) :
  isMarkup c = false -> escapeChar c = String c EmptyString.
Proof.
  unfold isMarkup, escapeChar. intros H.
  apply orb_false_iff in H as [H H4].
  apply orb_false_iff in H as [H H3].
  apply orb_false_iff in H as [H1 H2].
  now rewrite H1, H2, H3, H4.
Qed.

Lemma escapeXml_plain (s : string) :
  existsb isMarkup (list_ascii_of_string s) = false -> escapeXml s = s.
Proof.
  induction s as [|c s IH]; [reflexivity|].
  cbn [list_ascii_of_string existsb escapeXml]. intros H.
  apply orb_false_iff in H as [Hc Hs].
  now rewrite (escapeChar_plain c Hc), (IH Hs).
Qed.

Lemma escapeChar_length (c : ascii) : (1 <= String.length (escapeChar c))%nat.
Proof.
  unfold escapeChar.
  repeat match goal with |- context [if ?b then _ else _] => destruct b end;
    cbn; lia.
Qed.

Lemma escapeXml_grows (s : string) :
  (String.length s <= String.length (escapeXml s))%nat.
Proof.
  induction s as [|c s IH]; [reflexivity|].
  cbn [escapeXml String.length]. rewrite append_length.
  pose proof (escapeChar_length c). lia.
Qed.

Lemma escapeXml_changes_markup (s : string) :
  existsb isMarkup (list_ascii_of_string s) = true ->
  (String.length s < String.length (escapeXml s))%nat.
Proof.
  induction s as [|c s IH]; [discriminate|].
  cbn [list_ascii_of_string existsb escapeXml String.length].
  rewrite append_length. intros H.
  destruct (isMarkup c) eqn:Ec.
  - pose proof (escapeXml_grows s).
    assert (2 <= String.length (escapeChar c))%nat; [|lia].
    unfold isMarkup in Ec. unfold escapeChar.
    destruct (Ascii.eqb c "<"); [cbn; lia|].
    destruct (Ascii.eqb c ">"); [cbn; lia|].
    destruct (Ascii.eqb c "&"); [cbn; lia|].
    destruct (Ascii.eqb c (ascii_of_nat 34)); [cbn; lia|discriminate].
  - cbn [orb] in H. specialize (IH H).
    pose proof (escapeChar_length c). lia.
Qed.

End MoreEscapeFacts.

(** X13. Escaping works character by character: the escape of a
    concatenation is the concatenation of the escapes; a text without
    any of the four characters is returned as it is; and a text that
    holds one of them comes back strictly longer, so it is never passed
    through. *)
Theorem escapeXml_by_character :
  (forall a b,
     Renderer.escapeXml (a ++ b)
     = (Renderer.escapeXml a ++ Renderer.escapeXml b)%string) /\
  (forall s,
     existsb Observing.isMarkup (list_ascii_of_string s) = false ->
     Renderer.escapeXml s = s) /\
  (forall s,
     existsb Observing.isMarkup (list_ascii_of_string s) = true ->
     (String.length s < String.length (Renderer.escapeXml s))%nat).
Proof.
  split; [exact escapeXml_app|].
  split; [exact escapeXml_plain | exact escapeXml_changes_markup].
Qed.

Section MoreSettingsFacts.

Import JS Controller Observing.
Local Open Scope string_scope.

Lemma hex_is_not_hash (c : ascii) :
  isHexDigit c = true -> Ascii.eqb c "#" = false.
Proof.
  destruct (Ascii.eqb_spec c "#") as [->|]; [discriminate | reflexivity].
Qed.

Lemma normalizeColor_bare (hex : string) :
  isHex6 hex = true ->
  normalizeColor hex = String "#" (toLowerCase hex).
Proof.
  intros H. unfold normalizeColor.
  destruct hex as [|first rest]; [discriminate|].
  assert (Hf : Ascii.eqb first "#" = false).
  { apply hex_is_not_hash. unfold isHex6 in H.
    apply andb_true_iff in H as [_ H]. cbn in H.
    now apply andb_true_iff in H as [H _]. }
  rewrite Hf, H. reflexivity.
Qed.

Lemma normalizeColor_hashed (hex : string) :
  isHex6 hex = true ->
  normalizeColor (String "#" hex) = String "#" (toLowerCase hex).
Proof.
  intros H. unfold normalizeColor.
  change (Ascii.eqb "#" "#") with true. cbn iota. rewrite H. reflexivity.
Qed.

Lemma normalizeColor_wellFormed (color : string) :
  wellFormedColor (normalizeColor color) = true.
Proof.
  unfold normalizeColor.
  destruct color as [|first rest]; [reflexivity|].
  destruct (isHex6 _) eqn:E; [|reflexivity].
  cbn [String.append toLowerCase wellFormedColor].
  change (lowerChar "#") with "#"%char.
  change (Ascii.eqb "#" "#") with true.
  now rewrite (isHex6_toLowerCase _ E), toLowerCase_idempotent, String.eqb_refl.
Qed.

Lemma clampSeconds_not_finite (x : float) :
  Number_isFinite x = false -> clampSeconds x = 10.
Proof. intros H. unfold clampSeconds. rewrite H. vm_compute. reflexivity. Qed.

End MoreSettingsFacts.

(** X14. Whatever is stored, the settings the controller works with are
    valid: the seconds lie between 5 and 30 and the accent colour is a
    number sign followed by six hexadecimal digits in lower case. Six
    hexadecimal digits are accepted with or without the number sign and
    in either case, and keep their value; seconds that are missing or not
    a finite number give the default 10, not a bound. *)
Theorem normalized_settings_are_valid :
  (forall s,
     5 <= Controller.countdownSeconds (Controller.normalizeSettings s) <= 30
     /\ Observing.wellFormedColor
          (Controller.accentColor (Controller.normalizeSettings s)) = true) /\
  (forall hex,
     Controller.isHex6 hex = true ->
     Controller.normalizeColor hex
     = String "#" (Controller.toLowerCase hex) /\
     Controller.normalizeColor (String "#" hex)
     = String "#" (Controller.toLowerCase hex)) /\
  (forall seconds color layout armed action,
     match seconds with
     | Some x => Controller.Number_isFinite x = false
     | None => True
     end ->
     Controller.countdownSeconds
       (Controller.normalizeSettings
          (Some (Controller.mkSettings seconds color layout armed action)))
     = 10) /\
  Controller.normalizeSettings None = Controller.DEFAULTS.
Proof.
  split; [|split; [|split]].
  - intros s. split.
    + apply clampSeconds_range.
    + apply normalizeColor_wellFormed.
  - intros hex H. split;
      [apply normalizeColor_bare | apply normalizeColor_hashed]; exact H.
  - intros [x|] color layout armed action H.
    + apply (clampSeconds_not_finite x H).
    + vm_compute. reflexivity.
  - vm_compute. reflexivity.
Qed.

(* ================================================================== *)
(** * Further properties of the controller *)
(* ================================================================== *)

(** The shared settings and the master stay what they are. *)
Definition settingsKept (settings : Controller.NormalizedSettings)
  (master : option string) : Observing.Policy :=
  Observing.mkPolicy
    (fun c => Controller.sharedSettings c = settings /\
              Controller.masterContext c = master)
    (fun _ => True)
    I
    (fun _ _ _ _ => I).

Ltac kept_setter :=
  split; [repeat match goal with
                 | H : Observing.holds (settingsKept _ _) _ |- _ =>
                     cbn in H; destruct H
                 end; cbn; split; congruence
         | exact I].

Ltac kept_leaf := exact I.

Section ChildFacts.

Import Controller Observing.

Variable host : Power.Host.

Lemma others_keep_settings (e : Event) (c c' : ShutdownController)
  (out : list Effect) :
  fromMaster e = false ->
  step host e c = Some (c', out) ->
  sharedSettings c' = sharedSettings c /\ masterContext c' = masterContext c.
Proof.
  intros He.
  remember (sharedSettings c) as shared eqn:Es.
  remember (masterContext c) as mc eqn:Em.
  assert (Hc : holds (settingsKept shared mc) c)
    by (split; symmetry; assumption).
  destruct e as [a s r|a r|a s r|a s r| | |h]; cbn [step].
  1: assert (K : keeps_at (settingsKept shared mc) c (register a s r)).
  3: assert (K : keeps_at (settingsKept shared mc) c (unregister host a r)).
  5: assert (K : keeps_at (settingsKept shared mc) c (handleSettings a s r)).
  7: assert (K : keeps_at (settingsKept shared mc) c (handleKeyDown host a s r)).
  1, 3, 5, 7: destruct r; [discriminate He|];
    open_handlers; walk kept_setter kept_leaf.
  1-4: intros H; apply handler_result in H; destruct H as [-> ->];
    exact (proj1 K).
  all: unfold timerEvent;
    match goal with
    | |- context [Timer.step ?e ?t] =>
        destruct (Timer.step e t) as [[t1 calls]|]; [|discriminate]
    end;
    assert (K : keeps_at (settingsKept shared mc) c
                  (bind (set_timer t1)
                        (fun _ => forEach calls (callback host))))
      by (open_handlers; walk kept_setter kept_leaf);
    intros H; apply handler_result in H; destruct H as [-> ->];
    exact (proj1 K).
Qed.

Lemma child_payload_ignored (ev : Actions.SdkEvent)
  (s : option ShutdownSettings) (c : ShutdownController) :
  step host (Actions.ShutdownChildAction (Actions.withSettings s ev)) c
  = step host (Actions.ShutdownChildAction ev) c.
Proof. destruct ev as [[k|] s'|[k|] s'|[k|]|[k|] s']; reflexivity. Qed.

End ChildFacts.

(** X15. Child keys and the timer never touch the shared settings: over
    any run of events none of which is forwarded by the master action,
    the shared settings and the master stay what they were; and what a
    child event does is the same for every settings payload it carries,
    so a child's own stored settings are ignored. *)
Theorem children_change_no_settings (host : Power.Host)
  (events : list Controller.Event) (c c' : Controller.ShutdownController)
  (out : list Controller.Effect)
  (Hevents : forallb (fun e => negb (Observing.fromMaster e)) events = true)
  (Hrun : Controller.exec host events c = Some (c', out)) :
  Controller.sharedSettings c' = Controller.sharedSettings c /\
  Controller.masterContext c' = Controller.masterContext c /\
  (forall ev s,
     Controller.step host
       (Actions.ShutdownChildAction (Actions.withSettings s ev)) c'
     = Controller.step host (Actions.ShutdownChildAction ev) c').
Proof.
  split; [|split; [|intros ev s; apply child_payload_ignored]].
  all: revert c c' out Hevents Hrun;
    induction events as [|e events IH]; intros c c' out Hevents Hrun;
    cbn in Hrun, Hevents;
    [inversion Hrun; reflexivity|];
    apply andb_true_iff in Hevents as [He Hes];
    apply negb_true_iff in He;
    destruct (Controller.step host e c) as [[c1 o1]|] eqn:E1; [|discriminate];
    destruct (Controller.exec host events c1) as [[c2 o2]|] eqn:E2;
      [|discriminate];
    inversion Hrun; subst;
    destruct (others_keep_settings host e c c1 o1 He E1) as [K1 K2];
    rewrite (IH c1 c' o2 Hes E2); assumption.
Qed.

Lemma children_change_no_settings_witness :
  exists c' out,
    Controller.exec Notions.demoHost Observing.childEvents Controller.create
    = Some (c', out) /\
    Controller.sharedSettings c' = Controller.DEFAULTS /\
    Controller.masterContext c' = None /\
    Notions.abortCalls out = 1%nat.
Proof.
  destruct (Controller.exec Notions.demoHost Observing.childEvents
              Controller.create) as [[c' out]|] eqn:E;
    [|vm_compute in E; discriminate E].
  exists c', out. split; [reflexivity|].
  destruct (children_change_no_settings Notions.demoHost
              Observing.childEvents Controller.create c' out eq_refl E)
    as (H1 & H2 & _).
  split; [exact H1|]. split; [exact H2|].
  vm_compute in E. inversion E. reflexivity.
Defined.

Section MapFacts.

Import JS SDK Controller.

Context {V : Type}.

Lemma map_set_keys (k : string) (v : V) (m : list (string * V)) (x : string) :
  In x (map fst (map_set k v m)) -> x = k \/ In x (map fst m).
Proof.
  induction m as [|[k' v'] m IH]; cbn.
  - intros [<-|[]]. now left.
  - destruct (String.eqb_spec k k') as [->|N]; cbn.
    + intros [<-|H]; [now left | right; now right].
    + intros [<-|H]; [right; now left|].
      destruct (IH H) as [->|I]; [now left | right; now right].
Qed.

Lemma map_set_NoDup (k : string) (v : V) (m : list (string * V)) :
  NoDup (map fst m) -> NoDup (map fst (map_set k v m)).
Proof.
  induction m as [|[k' v'] m IH]; cbn; intros H.
  - constructor; [intros [] | constructor].
  - inversion H as [|? ? Hn Hm]; subst.
    destruct (String.eqb_spec k k') as [->|N]; cbn.
    + now constructor.
    + constructor; [|now apply IH].
      intros I. apply map_set_keys in I as [E|I]; [congruence | contradiction].
Qed.

Lemma map_set_Forall (Q : string * V -> Prop) (k : string) (v : V)
  (m : list (string * V)) :
  Q (k, v) -> Forall Q m -> Forall Q (map_set k v m).
Proof.
  intros Hq. induction 1 as [|[k' v'] m H Hm IH]; cbn.
  - now constructor.
  - destruct (String.eqb k k'); constructor; assumption.
Qed.

Lemma map_delete_keys (k : string) (m : list (string * V)) (x : string) :
  In x (map fst (map_delete k m)) -> In x (map fst m).
Proof.
  induction m as [|[k' v'] m IH]; cbn; [auto|].
  destruct (String.eqb k k'); cbn; [now right|].
  intros [<-|H]; [now left | right; now apply IH].
Qed.

Lemma map_delete_NoDup (k : string) (m : list (string * V)) :
  NoDup (map fst m) -> NoDup (map fst (map_delete k m)).
Proof.
  induction m as [|[k' v'] m IH]; cbn; intros H; [exact H|].
  inversion H as [|? ? Hn Hm]; subst.
  destruct (String.eqb k k'); cbn; [exact Hm|].
  constructor; [|now apply IH].
  intros I. now apply map_delete_keys in I.
Qed.

Lemma map_delete_Forall (Q : string * V -> Prop) (k : string)
  (m : list (string * V)) :
  Forall Q m -> Forall Q (map_delete k m).
Proof.
  induction 1 as [|[k' v'] m H Hm IH]; cbn; [constructor|].
  destruct (String.eqb k k'); [assumption | now constructor].
Qed.

Lemma map_get_absent (k : string) (m : list (string * V)) :
  ~ In k (map fst m) -> map_get k m = None.
Proof.
  induction m as [|[k' v'] m IH]; cbn; [reflexivity|].
  intros H. destruct (String.eqb_spec k k') as [->|N].
  - exfalso. apply H. now left.
  - apply IH. intros I. apply H. now right.
Qed.

Lemma map_get_set_same (k : string) (v : V) (m : list (string * V)) :
  map_get k (map_set k v m) = Some v.
Proof.
  induction m as [|[k' v'] m IH]; cbn.
  - now rewrite String.eqb_refl.
  - destruct (String.eqb k k') eqn:E; cbn.
    + now rewrite String.eqb_refl.
    + now rewrite E.
Qed.

Lemma map_get_set_other (k k0 : string) (v : V) (m : list (string * V)) :
  k0 <> k -> map_get k0 (map_set k v m) = map_get k0 m.
Proof.
  intros N. induction m as [|[k' v'] m IH]; cbn.
  - now rewrite (proj2 (String.eqb_neq k0 k) N).
  - destruct (String.eqb_spec k k') as [->|N']; cbn.
    + now rewrite (proj2 (String.eqb_neq k0 k') N).
    + now rewrite IH.
Qed.

Lemma map_get_delete_same (k : string) (m : list (string * V)) :
  NoDup (map fst m) -> map_get k (map_delete k m) = None.
Proof.
  induction m as [|[k' v'] m IH]; cbn; intros H; [reflexivity|].
  inversion H as [|? ? Hn Hm]; subst.
  destruct (String.eqb_spec k k') as [->|N]; cbn.
  - now apply map_get_absent.
  - rewrite (proj2 (String.eqb_neq k k') N). now apply IH.
Qed.

Lemma map_get_delete_other (k k0 : string) (m : list (string * V)) :
  k0 <> k -> map_get k0 (map_delete k m) = map_get k0 m.
Proof.
  intros N. induction m as [|[k' v'] m IH]; cbn; [reflexivity|].
  destruct (String.eqb_spec k k') as [->|N']; cbn.
  - now rewrite (proj2 (String.eqb_neq k0 k') N).
  - now rewrite IH.
Qed.

Lemma map_set_length (k : string) (v : V) (m : list (string * V)) :
  List.length (map_set k v m)
  = match map_get k m with
    | Some _ => List.length m
    | None => S (List.length m)
    end.
Proof.
  induction m as [|[k' v'] m IH]; cbn; [reflexivity|].
  destruct (String.eqb k k'); cbn; [reflexivity|].
  rewrite IH. now destruct (map_get k m).
Qed.

End MapFacts.

(** The registry is [keys]. *)
Definition keysKept (keys : list (string * Controller.ActionContext))
  : Observing.Policy :=
  Observing.mkPolicy
    (fun c => Controller.activeKeys c = keys)
    (fun _ => True)
    I
    (fun _ _ _ _ => I).

Ltac keys_setter :=
  split; [repeat match goal with
                 | H : Observing.holds (keysKept _) _ |- _ => cbn in H
                 end; cbn; first [reflexivity | assumption | congruence]
         | exact I].

Ltac keys_leaf := exact I.

Section RegistryFacts.

Import JS SDK Controller Observing.

Variable host : Power.Host.

Lemma step_registry (e : Event) (c c' : ShutdownController)
  (out : list Effect) :
  step host e c = Some (c', out) ->
  activeKeys c' = registryAfter e (activeKeys c).
Proof.
  assert (Hc : holds (keysKept (activeKeys c)) c) by reflexivity.
  destruct e as [a s r|a r|a s r|a s r| | |h]; cbn [step].
  - assert (K : keeps_at (keysKept (registryAfter (willAppear a s r)
                                      (activeKeys c)))
                         c (register a s r))
      by (destruct a as [k|]; cbn [registryAfter];
          open_handlers; walk keys_setter keys_leaf).
    intros H; apply handler_result in H; destruct H as [-> ->];
      exact (proj1 K).
  - assert (K : keeps_at (keysKept (registryAfter (willDisappear a r)
                                      (activeKeys c)))
                         c (unregister host a r))
      by (destruct a as [k|]; cbn [registryAfter];
          open_handlers; walk keys_setter keys_leaf).
    intros H; apply handler_result in H; destruct H as [-> ->];
      exact (proj1 K).
  - assert (K : keeps_at (keysKept (activeKeys c)) c (handleSettings a s r))
      by (open_handlers; walk keys_setter keys_leaf).
    intros H; apply handler_result in H; destruct H as [-> ->];
      exact (proj1 K).
  - assert (K : keeps_at (keysKept (activeKeys c)) c
                         (handleKeyDown host a s r))
      by (open_handlers; walk keys_setter keys_leaf).
    intros H; apply handler_result in H; destruct H as [-> ->];
      exact (proj1 K).
  - unfold timerEvent.
    destruct (Timer.step _ _) as [[t1 calls]|]; [|discriminate].
    assert (K : keeps_at (keysKept (activeKeys c)) c
                  (bind (set_timer t1)
                        (fun _ => forEach calls (callback host))))
      by (open_handlers; walk keys_setter keys_leaf).
    intros H; apply handler_result in H; destruct H as [-> ->];
      exact (proj1 K).
  - unfold timerEvent.
    destruct (Timer.step _ _) as [[t1 calls]|]; [|discriminate].
    assert (K : keeps_at (keysKept (activeKeys c)) c
                  (bind (set_timer t1)
                        (fun _ => forEach calls (callback host))))
      by (open_handlers; walk keys_setter keys_leaf).
    intros H; apply handler_result in H; destruct H as [-> ->];
      exact (proj1 K).
  - unfold timerEvent.
    destruct (Timer.step _ _) as [[t1 calls]|]; [|discriminate].
    assert (K : keeps_at (keysKept (activeKeys c)) c
                  (bind (set_timer t1)
                        (fun _ => forEach calls (callback host))))
      by (open_handlers; walk keys_setter keys_leaf).
    intros H; apply handler_result in H; destruct H as [-> ->];
      exact (proj1 K).
Qed.

Lemma step_wellTracked (e : Event) (c c' : ShutdownController)
  (out : list Effect) :
  wellTracked c -> step host e c = Some (c', out) -> wellTracked c'.
Proof.
  intros [Hn Hf] H. apply step_registry in H.
  unfold wellTracked. rewrite H.
  destruct e as [[k|] s r|[k|] r|a s r|a s r| | |h]; cbn [registryAfter];
    try (split; assumption).
  - split; [now apply map_set_NoDup|].
    apply map_set_Forall; [cbn; auto | exact Hf].
  - split; [now apply map_delete_NoDup | now apply map_delete_Forall].
Qed.

Lemma exec_wellTracked (es : list Event) :
  forall c c' out,
    wellTracked c -> exec host es c = Some (c', out) -> wellTracked c'.
Proof.
  induction es as [|e es IH]; intros c c' out Hc H; cbn in H.
  - inversion H; subst; exact Hc.
  - destruct (step host e c) as [[c1 o1]|] eqn:E1; [|discriminate].
    destruct (exec host es c1) as [[c2 o2]|] eqn:E2; [|discriminate].
    inversion H; subst.
    eapply IH; [|exact E2]. eapply step_wellTracked; eauto.
Qed.

Lemma create_wellTracked : wellTracked create.
Proof. split; constructor. Qed.

End RegistryFacts.

(** X16. The registry follows the keys. In any state the controller can
    reach, every identifier is tracked once, under the context built for
    its key. A key that appears is tracked from then on with the role it
    appeared with, replacing what was tracked under its identifier; a key
    that disappears is tracked no more; no other key is touched by either,
    and no other event changes the registry. *)
Theorem registry_follows_keys (host : Power.Host)
  (events : list Controller.Event) (c : Controller.ShutdownController)
  (out : list Controller.Effect)
  (Hreach : Controller.exec host events Controller.create = Some (c, out)) :
  Observing.wellTracked c /\
  (forall e c' o,
     Controller.step host e c = Some (c', o) ->
     match e with
     | Controller.willAppear (Some k) _ r =>
         Controller.map_get (SDK.id k) (Controller.activeKeys c')
         = Some (Controller.mkContext (SDK.id k) k r (Observing.deviceOf k)) /\
         (forall other,
            other <> SDK.id k ->
            Controller.map_get other (Controller.activeKeys c')
            = Controller.map_get other (Controller.activeKeys c)) /\
         Controller.totalKeyCount c'
         = match Controller.map_get (SDK.id k) (Controller.activeKeys c) with
           | Some _ => Controller.totalKeyCount c
           | None => S (Controller.totalKeyCount c)
           end
     | Controller.willDisappear (Some k) _ =>
         Controller.map_get (SDK.id k) (Controller.activeKeys c') = None /\
         (forall other,
            other <> SDK.id k ->
            Controller.map_get other (Controller.activeKeys c')
            = Controller.map_get other (Controller.activeKeys c))
     | _ => Controller.activeKeys c' = Controller.activeKeys c
     end).
Proof.
  pose proof (exec_wellTracked host events _ _ _ create_wellTracked Hreach)
    as Hw.
  split; [exact Hw|].
  intros e c' o H. apply step_registry in H.
  destruct Hw as [Hn _].
  destruct e as [[k|] s r|[k|] r|a s r|a s r| | |h];
    cbn [Observing.registryAfter] in H; try exact H.
  - unfold Controller.totalKeyCount. rewrite H.
    split; [apply map_get_set_same|].
    split; [intros other N; now apply map_get_set_other|].
    apply map_set_length.
  - rewrite H.
    split; [now apply map_get_delete_same|].
    intros other N; now apply map_get_delete_other.
Qed.

Lemma registry_follows_keys_witness :
  exists c out,
    Controller.exec Notions.demoHost Notions.demoEvents Controller.create
    = Some (c, out) /\
    Observing.wellTracked c /\
    Controller.totalKeyCount c = 1%nat.
Proof.
  destruct (Controller.exec Notions.demoHost Notions.demoEvents
              Controller.create) as [[c out]|] eqn:E;
    [|vm_compute in E; discriminate E].
  exists c, out. split; [reflexivity|].
  split;
    [exact (proj1 (registry_follows_keys Notions.demoHost Notions.demoEvents
                     c out E))|].
  vm_compute in E. inversion E. reflexivity.
Defined.

Section GroupingFacts.

Import JS SDK Controller Observing.

(** One round of the loop of [getKeysPerDevice]. *)
Let file (buckets : list (string * list KeyAction)) (ctx : ActionContext)
  : list (string * list KeyAction) :=
  map_set (deviceId ctx)
          (orElse (map_get (deviceId ctx) buckets) [] ++ [ctx_action ctx])
          buckets.

Lemma map_get_In {V : Type} (k : string) (v : V) (m : list (string * V)) :
  map_get k m = Some v -> In (k, v) m.
Proof.
  induction m as [|[k' v'] m IH]; cbn; [discriminate|].
  destruct (String.eqb_spec k k') as [->|N].
  - intros H. inversion H. now left.
  - intros H. right. now apply IH.
Qed.

Lemma NoDup_keys_functional {V : Type} (k : string) (v1 v2 : V)
  (m : list (string * V)) :
  NoDup (map fst m) -> In (k, v1) m -> In (k, v2) m -> v1 = v2.
Proof.
  induction m as [|[k' v'] m IH]; cbn; [intros _ []|].
  intros H I1 I2. inversion H as [|? ? Hn Hm]; subst.
  destruct I1 as [E1|I1], I2 as [E2|I2].
  - congruence.
  - inversion E1; subst. exfalso. apply Hn.
    apply in_map_iff. now exists (k, v2).
  - inversion E2; subst. exfalso. apply Hn.
    apply in_map_iff. now exists (k, v1).
  - now apply IH.
Qed.

Lemma file_contents (k : string) (a : KeyAction)
  (buckets : list (string * list KeyAction)) :
  Permutation
    (List.concat (map snd (map_set k (orElse (map_get k buckets) [] ++ [a])
                              buckets)))
    (List.concat (map snd buckets) ++ [a]).
Proof.
  induction buckets as [|[k' v'] buckets IH]; cbn; [reflexivity|].
  destruct (String.eqb k k'); cbn.
  - rewrite <- !app_assoc. apply Permutation_app_head.
    apply Permutation_app_comm.
  - rewrite <- app_assoc. apply Permutation_app_head. exact IH.
Qed.

Lemma filed_contents (l : list ActionContext) :
  forall buckets,
    Permutation (List.concat (map snd (fold_left file l buckets)))
                (List.concat (map snd buckets) ++ map ctx_action l).
Proof.
  induction l as [|ctx l IH]; intros buckets; cbn [fold_left map].
  - now rewrite app_nil_r.
  - rewrite IH. unfold file at 1. rewrite file_contents.
    rewrite <- app_assoc. reflexivity.
Qed.

(** What holds of every bucket: it is not empty and holds keys of its
    device only. *)
Let sorted (entry : string * list KeyAction) : Prop :=
  snd entry <> [] /\ Forall (fun a => deviceOf a = fst entry) (snd entry).

Lemma file_sorted (ctx : ActionContext)
  (buckets : list (string * list KeyAction)) :
  deviceId ctx = deviceOf (ctx_action ctx) ->
  Forall sorted buckets -> Forall sorted (file buckets ctx).
Proof.
  intros Hd Hb. unfold file. apply map_set_Forall; [|exact Hb].
  split; cbn.
  - intros E. apply app_eq_nil in E as [_ E]. discriminate E.
  - apply Forall_app. split; [|constructor; [now rewrite Hd | constructor]].
    destruct (map_get (deviceId ctx) buckets) as [arr|] eqn:G; cbn;
      [|constructor].
    apply map_get_In in G. rewrite Forall_forall in Hb.
    exact (proj2 (Hb _ G)).
Qed.

Lemma filed_sorted (l : list ActionContext) :
  forall buckets,
    Forall (fun ctx => deviceId ctx = deviceOf (ctx_action ctx)) l ->
    Forall sorted buckets -> NoDup (map fst buckets) ->
    Forall sorted (fold_left file l buckets) /\
    NoDup (map fst (fold_left file l buckets)).
Proof.
  induction l as [|ctx l IH]; intros buckets Hl Hb Hn; cbn [fold_left].
  - now split.
  - inversion Hl as [|? ? Hd Hl']; subst.
    apply IH; [exact Hl' | now apply file_sorted |].
    unfold file. now apply map_set_NoDup.
Qed.

Lemma groups_are_buckets (c : ShutdownController) :
  getKeysPerDevice c
  = map snd (fold_left file (map_values (activeKeys c)) []).
Proof. reflexivity. Qed.

Lemma grouping_is_a_partition (c : ShutdownController) :
  wellTracked c ->
  Permutation (List.concat (getKeysPerDevice c)) (trackedKeys c) /\
  Forall (fun g => g <> []) (getKeysPerDevice c) /\
  (forall g1 g2 k1 k2,
     In g1 (getKeysPerDevice c) -> In g2 (getKeysPerDevice c) ->
     In k1 g1 -> In k2 g2 ->
     (deviceOf k1 = deviceOf k2 <-> g1 = g2)).
Proof.
  intros [_ Hf]. rewrite groups_are_buckets.
  assert (Hl : Forall (fun ctx => deviceId ctx = deviceOf (ctx_action ctx))
                      (map_values (activeKeys c))).
  { unfold map_values. apply Forall_map.
    eapply Forall_impl; [|exact Hf]. cbn. intros e (_ & _ & H). exact H. }
  destruct (filed_sorted (map_values (activeKeys c)) [] Hl
              (Forall_nil _) (NoDup_nil _)) as [Hs Hn].
  split; [|split].
  - rewrite filed_contents. reflexivity.
  - apply Forall_map. eapply Forall_impl; [|exact Hs].
    intros e [H _]. exact H.
  - intros g1 g2 k1 k2 I1 I2 J1 J2.
    apply in_map_iff in I1 as ([d1 g1'] & E1 & I1).
    apply in_map_iff in I2 as ([d2 g2'] & E2 & I2).
    cbn in E1, E2. subst g1' g2'.
    rewrite Forall_forall in Hs.
    destruct (Hs _ I1) as [_ T1], (Hs _ I2) as [_ T2]. cbn in T1, T2.
    rewrite Forall_forall in T1, T2.
    split.
    + intros E. rewrite (T1 _ J1), (T2 _ J2) in E. subst d2.
      exact (NoDup_keys_functional d1 g1 g2 _ Hn I1 I2).
    + intros <-. now rewrite (T1 _ J1), (T1 _ J2).
Qed.

End GroupingFacts.

(** X17. The groups the controller renders to are the tracked keys
    sorted by device. In any state the controller can reach, the groups
    of [getKeysPerDevice] hold every tracked key exactly once, no group
    is empty, and two keys lie in the same group exactly when they are on
    the same device, keys without a device counting as one device. *)
Theorem keys_are_grouped_by_device (host : Power.Host)
  (events : list Controller.Event) (c : Controller.ShutdownController)
  (out : list Controller.Effect)
  (Hreach : Controller.exec host events Controller.create = Some (c, out)) :
  Permutation (List.concat (Controller.getKeysPerDevice c))
              (Observing.trackedKeys c) /\
  Forall (fun g => g <> []) (Controller.getKeysPerDevice c) /\
  (forall g1 g2 k1 k2,
     In g1 (Controller.getKeysPerDevice c) ->
     In g2 (Controller.getKeysPerDevice c) ->
     In k1 g1 -> In k2 g2 ->
     (Observing.deviceOf k1 = Observing.deviceOf k2 <-> g1 = g2)).
Proof.
  apply grouping_is_a_partition.
  exact (exec_wellTracked host events _ _ _ create_wellTracked Hreach).
Qed.

Lemma keys_are_grouped_by_device_witness :
  exists c out,
    Controller.exec Notions.demoHost Notions.demoEvents Controller.create
    = Some (c, out) /\
    Permutation (List.concat (Controller.getKeysPerDevice c))
                (Observing.trackedKeys c).
Proof.
  destruct (Controller.exec Notions.demoHost Notions.demoEvents
              Controller.create) as [[c out]|] eqn:E;
    [|vm_compute in E; discriminate E].
  exists c, out. split; [reflexivity|].
  exact (proj1 (keys_are_grouped_by_device Notions.demoHost
                  Notions.demoEvents c out E)).
Defined.

Section Observed.

Import JS SDK Controller Observing.

Lemma countdownValues_app (a b : list Effect) :
  countdownValues (a ++ b) = countdownValues a ++ countdownValues b.
Proof. apply flat_map_app. Qed.

Lemma performed_app (a b : list Effect) :
  performed (a ++ b) = performed a ++ performed b.
Proof. apply flat_map_app. Qed.

Lemma countdownValues_map {A : Type} (f : A -> Effect) (l : list A) :
  (forall x, countdownValues [f x] = []) -> countdownValues (map f l) = [].
Proof.
  intros H. induction l as [|x l IH]; [reflexivity|].
  change (map f (x :: l)) with ([f x] ++ map f l).
  now rewrite countdownValues_app, H, IH.
Qed.

Lemma performed_map {A : Type} (f : A -> Effect) (l : list A) :
  (forall x, performed [f x] = []) -> performed (map f l) = [].
Proof.
  intros H. induction l as [|x l IH]; [reflexivity|].
  change (map f (x :: l)) with ([f x] ++ map f l).
  now rewrite performed_app, H, IH.
Qed.

Lemma countdownValues_flat_map {A : Type} (f : A -> list Effect)
  (l : list A) :
  (forall x, countdownValues (f x) = []) ->
  countdownValues (flat_map f l) = [].
Proof.
  intros H. induction l as [|x l IH]; [reflexivity|].
  cbn [flat_map]. now rewrite countdownValues_app, H, IH.
Qed.

Lemma performed_flat_map {A : Type} (f : A -> list Effect) (l : list A) :
  (forall x, performed (f x) = []) -> performed (flat_map f l) = [].
Proof.
  intros H. induction l as [|x l IH]; [reflexivity|].
  cbn [flat_map]. now rewrite performed_app, H, IH.
Qed.

Lemma countdownValues_cons (e : Effect) (l : list Effect) :
  countdownValues (e :: l) = countdownValues [e] ++ countdownValues l.
Proof. apply (countdownValues_app [e] l). Qed.

Lemma countdownValues_renders (r total : Z)
  (o : list KeyAction -> Renderer.RenderOptions)
  (groups : list (list KeyAction)) :
  countdownValues
    (map (fun keys => renderer (renderCountdown r total keys (o keys)))
         groups)
  = repeat r (List.length groups).
Proof.
  induction groups as [|g groups IH]; [reflexivity|].
  cbn [map List.length repeat]. rewrite countdownValues_cons, IH.
  reflexivity.
Qed.

Lemma groups_of (c : ShutdownController) :
  getKeysPerDevice c = groupsOf (activeKeys c).
Proof. destruct c. reflexivity. Qed.

Lemma framesAfter_countdown (n : nat) :
  Z.of_nat n :: framesAfter n = Timer.countdown n ++ [0].
Proof.
  induction n as [|n IH]; [reflexivity|].
  cbn [framesAfter Timer.countdown app]. now rewrite IH.
Qed.

End Observed.

Section CountdownFacts.

Import JS SDK EventLoop.

Variable host : Power.Host.

Lemma nth_error_last {A : Type} (l : list A) (x : A) (r : list A) :
  nth_error (l ++ x :: r) (List.length l) = Some x.
Proof. induction l as [|y l IH]; [reflexivity | exact IH]. Qed.

Lemma removeAt_last {A : Type} (l : list A) (x : A) (r : list A) :
  removeAt (List.length l) (l ++ x :: r) = l ++ r.
Proof. induction l as [|y l IH]; [reflexivity | cbn; now rewrite IH]. Qed.

Lemma nth_last {A : Type} (l : list A) (x d : A) :
  nth (List.length l) (l ++ [x]) d = x.
Proof. induction l as [|y l IH]; [reflexivity | exact IH]. Qed.

Lemma update_last {A : Type} (l : list A) (x y : A) :
  update (List.length l) y (l ++ [x]) = l ++ [y].
Proof. induction l as [|z l IH]; [reflexivity | cbn; now rewrite IH]. Qed.

(** Rewrites what a step finds at the place of the newest timer and of
    its pending work. *)
Ltac newest :=
  repeat first
    [ rewrite nth_error_last
    | rewrite removeAt_last
    | rewrite nth_last
    | rewrite update_last
    | rewrite app_nil_r
    | progress run_loop ].

(** The frame is shown: the titles are cleared. *)
Lemma frame_shown (earlier : list Timer.CountdownTimer) (others : list Task)
  (tm : Timer.CountdownTimer) (p : Power.SystemPower)
  (keys : list (string * Controller.ActionContext))
  (st : Controller.ActionState.t) (b : bool)
  (sh : Controller.NormalizedSettings) (mc : option string)
  (nh : Timer.Handle) :
  keys <> [] ->
  let t := List.length earlier in
  step host (wakes (List.length others))
       (Awaiting.counting earlier others tm
          [mkTask tiles [onTick_render; runTick_onTick t]]
          p keys st b sh mc nh)
  = Some (Awaiting.counting earlier others tm
            [mkTask tiles [runTick_onTick t]] p keys st b sh mc nh,
          Awaiting.titleCalls
            (Awaiting.counting earlier others tm [] p keys st b sh mc nh)).
Proof.
  intros Hkeys t. subst t. unfold Awaiting.counting, Awaiting.titleCalls, step.
  cbn [pool]. rewrite nth_error_last.
  devices keys Hkeys.
  newest. rewrite G. newest. reflexivity.
Qed.

(** The titles are cleared with seconds left: the timeout of one second
    is set. *)
Lemma titles_cleared (earlier : list Timer.CountdownTimer)
  (others : list Task) (d r : Z) (to : option Timer.Handle)
  (p : Power.SystemPower) (keys : list (string * Controller.ActionContext))
  (st : Controller.ActionState.t) (b : bool)
  (sh : Controller.NormalizedSettings) (mc : option string)
  (nh : Timer.Handle) :
  r <> 0 ->
  let t := List.length earlier in
  step host (wakes (List.length others))
       (Awaiting.counting earlier others (Timer.mkTimer d Timer.running r to)
          [mkTask tiles [runTick_onTick t]] p keys st b sh mc nh)
  = Some (Awaiting.counting earlier others
            (Timer.mkTimer d Timer.running r (Some nh))
            [mkTask (timeout nh) [timeout_callback t]]
            p keys st b sh mc (S nh),
          []).
Proof.
  intros Hr t. subst t. unfold Awaiting.counting, step.
  cbn [pool]. rewrite nth_error_last.
  newest. rewrite (proj2 (Z.eqb_neq r 0) Hr). newest. reflexivity.
Qed.

(** The timeout fires: a second less, and the next frame is rendered. *)
Lemma second_passed (earlier : list Timer.CountdownTimer)
  (others : list Task) (d r : Z) (to : option Timer.Handle) (h : Timer.Handle)
  (p : Power.SystemPower) (keys : list (string * Controller.ActionContext))
  (st : Controller.ActionState.t) (b : bool)
  (sh : Controller.NormalizedSettings) (mc : option string)
  (nh : Timer.Handle) :
  keys <> [] ->
  let t := List.length earlier in
  step host (wakes (List.length others))
       (Awaiting.counting earlier others (Timer.mkTimer d Timer.running r to)
          [mkTask (timeout h) [timeout_callback t]] p keys st b sh mc nh)
  = Some (Awaiting.counting earlier others
            (Timer.mkTimer d Timer.running (r - 1) to)
            [mkTask tiles [onTick_render; runTick_onTick t]]
            p keys st (negb b) sh mc nh,
          Awaiting.frameCalls (r - 1) d sh (negb b) keys).
Proof.
  intros Hkeys t. subst t. unfold Awaiting.counting, Awaiting.frameCalls, step.
  cbn [pool]. rewrite nth_error_last.
  devices keys Hkeys.
  newest. rewrite ?G. newest. reflexivity.
Qed.

(** The titles are cleared with no second left: the timer is idle and
    the frame of completion is rendered. *)
Lemma titles_cleared_at_zero (earlier : list Timer.CountdownTimer)
  (others : list Task) (d : Z) (to : option Timer.Handle)
  (p : Power.SystemPower) (keys : list (string * Controller.ActionContext))
  (st : Controller.ActionState.t) (b : bool)
  (sh : Controller.NormalizedSettings) (mc : option string)
  (nh : Timer.Handle) :
  keys <> [] ->
  let t := List.length earlier in
  step host (wakes (List.length others))
       (Awaiting.counting earlier others (Timer.mkTimer d Timer.running 0 to)
          [mkTask tiles [runTick_onTick t]] p keys st b sh mc nh)
  = Some (Awaiting.counting earlier others (Timer.mkTimer d Timer.idle 0 None)
            [mkTask tiles [onComplete_render]] p keys st (negb b) sh mc nh,
          Awaiting.frameCalls 0 d sh (negb b) keys).
Proof.
  intros Hkeys t. subst t. unfold Awaiting.counting, Awaiting.frameCalls, step.
  cbn [pool]. rewrite nth_error_last.
  devices keys Hkeys.
  newest. change (0 =? 0) with true. newest. rewrite ?G. newest.
  reflexivity.
Qed.

(** The frame of completion is shown: the titles are cleared. *)
Lemma completion_shown (earlier : list Timer.CountdownTimer)
  (others : list Task) (tm : Timer.CountdownTimer)
  (p : Power.SystemPower) (keys : list (string * Controller.ActionContext))
  (st : Controller.ActionState.t) (b : bool)
  (sh : Controller.NormalizedSettings) (mc : option string)
  (nh : Timer.Handle) :
  keys <> [] ->
  step host (wakes (List.length others))
       (Awaiting.counting earlier others tm
          [mkTask tiles [onComplete_render]] p keys st b sh mc nh)
  = Some (Awaiting.counting earlier others tm
            [mkTask tiles [onComplete_clearTitles]] p keys st b sh mc nh,
          Awaiting.titleCalls
            (Awaiting.counting earlier others tm [] p keys st b sh mc nh)).
Proof.
  intros Hkeys. unfold Awaiting.counting, Awaiting.titleCalls, step.
  cbn [pool]. rewrite nth_error_last.
  devices keys Hkeys.
  newest. rewrite ?G. newest. reflexivity.
Qed.

(** The titles are cleared after completion: the action is performed.
    When the gateway starts a command, [onComplete] waits for it; when
    it does not, the state becomes idle and the gateway is disarmed. *)
Lemma completion_cleared (earlier : list Timer.CountdownTimer)
  (others : list Task) (tm : Timer.CountdownTimer)
  (p : Power.SystemPower) (keys : list (string * Controller.ActionContext))
  (st : Controller.ActionState.t) (b : bool)
  (sh : Controller.NormalizedSettings) (mc : option string)
  (nh : Timer.Handle) :
  let c := Awaiting.counting earlier others tm [] p keys st b sh mc nh in
  step host (wakes (List.length others))
       (Awaiting.counting earlier others tm
          [mkTask tiles [onComplete_clearTitles]] p keys st b sh mc nh)
  = if Awaiting.commandStarts host c
    then
      Some (Awaiting.counting earlier others tm
              [Awaiting.performAwaited (Controller.powerAction sh)]
              p keys st b sh mc nh,
            [Controller.gateway (Controller.perform (Controller.powerAction sh));
             Controller.outside
               (Observing.commandOf (Controller.powerAction sh))])
    else
      Some (Awaiting.counting earlier others tm []
              (fst (Power.setArmed false p)) keys
              Controller.ActionState.idle b sh mc nh,
            Controller.gateway (Controller.perform (Controller.powerAction sh))
            :: map Controller.outside
                   (fst (Power.perform host p (Controller.powerAction sh)))
            ++ Awaiting.disarmCalls c).
Proof.
  unfold Awaiting.counting, Awaiting.commandStarts, Awaiting.disarmCalls, Awaiting.armCalls,
    Awaiting.performAwaited, step.
  cbn [pool power]. rewrite nth_error_last.
  destruct p as [lg ar]. unfold Power.perform. cbn [Power.armed].
  destruct ar, (String.eqb (Power.platform host) "win32") eqn:Ew;
    cbn [andb negb].
  all: newest; rewrite ?Ew; newest.
  all: destruct (Controller.powerAction sh); newest.
  all: try reflexivity.
  all: destruct lg; reflexivity.
Qed.

(** The command of the power action has ended: the state becomes idle
    and the gateway is disarmed. *)
Lemma command_ended (earlier : list Timer.CountdownTimer)
  (others : list Task) (tm : Timer.CountdownTimer)
  (p : Power.SystemPower) (keys : list (string * Controller.ActionContext))
  (st : Controller.ActionState.t) (b : bool)
  (sh : Controller.NormalizedSettings) (mc : option string)
  (nh : Timer.Handle) (action : Power.PowerAction) :
  let c := Awaiting.counting earlier others tm [] p keys st b sh mc nh in
  step host (wakes (List.length others))
       (Awaiting.counting earlier others tm
          [Awaiting.performAwaited action] p keys st b sh mc nh)
  = Some (Awaiting.counting earlier others tm []
            (fst (Power.setArmed false p)) keys
            Controller.ActionState.idle b sh mc nh,
          Awaiting.performLogged host action c ++ Awaiting.disarmCalls c).
Proof.
  unfold Awaiting.counting, Awaiting.disarmCalls, Awaiting.armCalls, Awaiting.performAwaited,
    Awaiting.performLogged, Awaiting.commandLogged, step.
  cbn [pool power]. destruct p as [lg ar].
  destruct action; cbn [Observing.commandOf];
    rewrite nth_error_last; newest.
  all: match goal with
       | |- context [Power.execOutcome host ?c ?a] =>
           destruct (Power.execOutcome host c a)
       end.
  all: destruct lg; newest; reflexivity.
Qed.

Lemma told_app (a b : list Controller.Effect) :
  Awaiting.told (a ++ b)
  = (fst (fst (Awaiting.told a)) ++ fst (fst (Awaiting.told b)),
     snd (fst (Awaiting.told a)) ++ snd (fst (Awaiting.told b)),
     snd (Awaiting.told a) ++ snd (Awaiting.told b)).
Proof.
  unfold Awaiting.told. cbn [fst snd].
  now rewrite countdownValues_app, performed_app, execCommands_app.
Qed.

Lemma told_titles (c : Plugin) : Awaiting.told (Awaiting.titleCalls c) = ([], [], []).
Proof.
  unfold Awaiting.told, Awaiting.titleCalls.
  rewrite countdownValues_flat_map, performed_flat_map, execCommands_flat_map;
    try reflexivity; intros keys;
    [apply execCommands_map | apply performed_map | apply countdownValues_map];
    reflexivity.
Qed.

Lemma told_frame (r total : Z) (sh : Controller.NormalizedSettings)
  (toggle : bool) (keys : list (string * Controller.ActionContext)) :
  Awaiting.told (Awaiting.frameCalls r total sh toggle keys)
  = (repeat r (List.length (keysPerDevice keys)), [], []).
Proof.
  unfold Awaiting.told, Awaiting.frameCalls.
  rewrite countdownValues_renders, performed_map, execCommands_map;
    reflexivity.
Qed.

Lemma told_outside (l : list Power.Effect) :
  Awaiting.told (map Controller.outside l) = ([], [], Power.commands l).
Proof.
  unfold Awaiting.told.
  rewrite countdownValues_map, performed_map, execCommands_outside;
    reflexivity.
Qed.

Lemma told_arm (value : bool) (c : Plugin) :
  Awaiting.told (Awaiting.armCalls value c) = ([], [], []).
Proof.
  unfold Awaiting.armCalls.
  change (Awaiting.told (?e :: ?l)) with (Awaiting.told ([e] ++ l)).
  rewrite told_app, told_outside. cbn.
  unfold Power.setArmed. cbn [snd]. now rewrite say_commands.
Qed.

Lemma told_logged (action : Power.PowerAction) (c : Plugin) :
  Awaiting.told (Awaiting.performLogged host action c) = ([], [], []).
Proof.
  unfold Awaiting.performLogged, Awaiting.commandLogged.
  destruct action; cbn [Observing.commandOf]; rewrite told_outside;
    match goal with
    | |- context [Power.execOutcome host ?c ?a] =>
        destruct (Power.execOutcome host c a)
    end; now rewrite say_commands.
Qed.

(** The commands [perform] starts. *)
Lemma perform_commands (p : Power.SystemPower) (a : Power.PowerAction) :
  Power.commands (fst (Power.perform host p a))
  = if Power.armed p && String.eqb (Power.platform host) "win32"
    then [Observing.commandOf a] else [].
Proof.
  unfold Power.perform.
  destruct (Power.armed p); cbn [negb andb]; [|apply say_commands].
  destruct (String.eqb (Power.platform host) "win32"); cbn [negb];
    [|apply say_commands].
  destruct a; rewrite runCommand_effects; destruct (Power.logger p);
    try reflexivity;
    destruct (Power.execOutcome host _ _); reflexivity.
Qed.

Lemma told_map_settings {A : Type} (f : A -> string)
  (sh : Controller.NormalizedSettings) (l : list A) :
  Awaiting.told (map (fun x => Controller.setSettings (f x) sh) l) = ([], [], []).
Proof.
  unfold Awaiting.told.
  rewrite countdownValues_map, performed_map, execCommands_map; reflexivity.
Qed.

(** Taking the settings of a press shows no frame and performs
    nothing. *)
Lemma told_settings (key : KeyAction)
  (s : option Controller.ShutdownSettings) (r : Controller.Role)
  (c : Plugin) :
  Awaiting.told (snd (Awaiting.takeSettings key s r c)) = ([], [], []).
Proof.
  unfold Awaiting.takeSettings.
  destruct c as [tr p keys st b sh0 mc tms pl nh].
  destruct r; [|reflexivity].
  destruct (Controller.map_get (id key) keys) eqn:Eg;
    run_loop; rewrite ?Eg; run_loop; rewrite ?app_nil_r.
  - change (Awaiting.told (?e :: ?l)) with (Awaiting.told ([e] ++ l)).
    rewrite told_app.
    rewrite (told_map_settings
               (fun ctx => id (Controller.ctx_action ctx))).
    reflexivity.
  - apply (told_map_settings (fun ctx => id (Controller.ctx_action ctx))).
Qed.

Lemma repeat_three {A : Type} (x : A) (n k : nat) :
  repeat x (3 * S n + 4 + k) = x :: x :: x :: repeat x (3 * n + 4 + k).
Proof.
  replace (3 * S n + 4 + k)%nat with (S (S (S (3 * n + 4 + k)))) by lia.
  reflexivity.
Qed.

(** A countdown left to itself from the frame of [n] on. *)
Lemma runs_down (earlier : list Timer.CountdownTimer) (others : list Task)
  (d : Z) (p : Power.SystemPower)
  (keys : list (string * Controller.ActionContext))
  (sh : Controller.NormalizedSettings) (mc : option string) (n : nat) :
  keys <> [] ->
  forall (to : option Timer.Handle) (st : Controller.ActionState.t)
         (b : bool) (nh : Timer.Handle),
  let t := List.length earlier in
  let command :=
    Power.armed p && String.eqb (Power.platform host) "win32" in
  exists c' out,
    exec host (Awaiting.countdownWakes (List.length others) n command)
         (Awaiting.counting earlier others
            (Timer.mkTimer d Timer.running (Z.of_nat n) to)
            [mkTask tiles [onTick_render; runTick_onTick t]]
            p keys st b sh mc nh)
    = Some (c', out) /\
    state c' = Controller.ActionState.idle /\
    Power.armed (power c') = false /\
    activeKeys c' = keys /\ sharedSettings c' = sh /\ masterContext c' = mc /\
    timer c' = t /\
    timers c' = earlier ++ [Timer.mkTimer d Timer.idle 0 None] /\
    pool c' = others /\
    Awaiting.told out
    = (flat_map (fun v => repeat v (List.length (keysPerDevice keys)))
                (Observing.framesAfter n),
       [Controller.powerAction sh],
       if command then [Observing.commandOf (Controller.powerAction sh)]
       else []).
Proof.
  intros Hkeys. induction n as [|n IH]; intros to st b nh t command.
  - unfold Awaiting.countdownWakes. cbn [Nat.mul Nat.add repeat exec].
    cbn [Z.of_nat].
    rewrite (frame_shown earlier others _ p keys st b sh mc nh Hkeys).
    cbv zeta.
    rewrite (titles_cleared_at_zero earlier others d to p keys st b sh mc nh
               Hkeys).
    cbv zeta.
    rewrite (completion_shown earlier others _ p keys st (negb b) sh mc nh
               Hkeys).
    pose proof (completion_cleared earlier others
                  (Timer.mkTimer d Timer.idle 0 None) p keys st (negb b) sh
                  mc nh) as Hc.
    cbv zeta in Hc. unfold Awaiting.commandStarts in Hc.
    unfold Awaiting.counting at 2 in Hc. cbn [power] in Hc.
    fold command in Hc.
    destruct command eqn:Ecmd.
    + cbn [repeat exec]. rewrite Hc.
      pose proof (command_ended earlier others
                    (Timer.mkTimer d Timer.idle 0 None) p keys st (negb b) sh
                    mc nh (Controller.powerAction sh)) as He.
      cbv zeta in He. rewrite He.
      eexists _, _. split; [reflexivity|].
      unfold Awaiting.counting. cbn [state power activeKeys sharedSettings
        masterContext timer timers pool Power.setArmed fst Power.armed].
      rewrite app_nil_r.
      repeat (split; [reflexivity|]).
      rewrite !told_app, !told_titles, !told_frame.
      change (Awaiting.told (?e :: ?l)) with (Awaiting.told ([e] ++ l)).
      rewrite !told_app, told_logged.
      unfold Awaiting.disarmCalls. rewrite told_arm.
      cbn [fst snd app Observing.framesAfter flat_map Awaiting.told
           Observing.countdownValues Observing.performed
           Observing.execCommands].
      rewrite !app_nil_r. destruct (Controller.powerAction sh); reflexivity.
    + cbn [repeat exec]. rewrite Hc.
      eexists _, _. split; [reflexivity|].
      unfold Awaiting.counting. cbn [state power activeKeys sharedSettings
        masterContext timer timers pool Power.setArmed fst Power.armed].
      rewrite app_nil_r.
      repeat (split; [reflexivity|]).
      rewrite !told_app, !told_titles, !told_frame.
      change (Awaiting.told (?e :: ?l)) with (Awaiting.told ([e] ++ l)).
      rewrite !told_app, told_outside.
      unfold Awaiting.disarmCalls. rewrite told_arm.
      rewrite perform_commands. fold command. rewrite Ecmd.
      cbn [fst snd app Observing.framesAfter flat_map Awaiting.told
           Observing.countdownValues Observing.performed
           Observing.execCommands].
      rewrite !app_nil_r. reflexivity.
  - subst t command.
    unfold Awaiting.countdownWakes. rewrite repeat_three.
    cbn [exec].
    rewrite (frame_shown earlier others _ p keys st b sh mc nh Hkeys).
    cbv zeta.
    assert (N : Z.of_nat (S n) <> 0) by lia.
    rewrite (titles_cleared earlier others d (Z.of_nat (S n)) to p keys st b
               sh mc nh N).
    cbv zeta.
    rewrite (second_passed earlier others d (Z.of_nat (S n)) (Some nh) nh p
               keys st b sh mc (S nh) Hkeys).
    cbv zeta.
    replace (Z.of_nat (S n) - 1) with (Z.of_nat n) by lia.
    destruct (IH (Some nh) st (negb b) (S nh))
      as (c' & out & E & H1 & H2 & H3 & H4 & H5 & H6 & H7 & H8 & H9).
    unfold Awaiting.countdownWakes in E. rewrite E.
    eexists _, _. split; [reflexivity|].
    repeat (split; [assumption|]).
    rewrite !told_app, told_titles, told_frame, H9.
    cbn [fst snd app Observing.framesAfter flat_map]. reflexivity.
Qed.

(** A key press while no countdown is shown: a timer of its own. *)
Lemma press_starts (c : Plugin) (key : KeyAction)
  (s : option Controller.ShutdownSettings) (r : Controller.Role) :
  Controller.ActionState.is_running (state c) = false ->
  activeKeys c <> [] ->
  let sh := match r with
            | Controller.master => Controller.normalizeSettings s
            | Controller.child => sharedSettings c
            end in
  let d := Controller.countdownSeconds sh in
  step host (keyDown (Some key) s r) c
  = Some (Awaiting.counting (timers c) (pool c)
            (Timer.mkTimer d Timer.running d None)
            [mkTask tiles
               [onTick_render; runTick_onTick (List.length (timers c))]]
            (Power.mkPower (Power.logger (power c)) (Controller.armed sh))
            (activeKeys c) Controller.ActionState.running
            (negb (blinkToggle c)) sh
            (match r with
             | Controller.master => Some (id key)
             | Controller.child => masterContext c
             end)
            (nextHandle c),
          snd (Awaiting.takeSettings key s r c)
          ++ Awaiting.armCalls (Controller.armed sh) c
          ++ Awaiting.armCalls (Controller.armed sh) c
          ++ Awaiting.frameCalls d d sh (negb (blinkToggle c)) (activeKeys c)).
Proof.
  intros Hidle Hkeys.
  destruct c as [tr p keys st b sh0 mc tms pl nh].
  cbn [state activeKeys] in Hidle, Hkeys.
  unfold Awaiting.takeSettings, Awaiting.armCalls, Awaiting.frameCalls,
    Awaiting.counting.
  cbn [timers pool power activeKeys blinkToggle sharedSettings masterContext
       nextHandle].
  devices keys Hkeys.
  destruct keys as [|k0 keys0]; [congruence|].
  destruct p as [lg ar].
  destruct (Controller.map_get (id key) (k0 :: keys0)) eqn:Eg.
  all: destruct r, st; try discriminate Hidle.
  all: run_loop; rewrite ?Eg; run_loop.
  all: do 2 (rewrite ?nth_last; run_loop; rewrite ?update_last; run_loop).
  all: rewrite ?G; run_loop.
  all: rewrite ?app_nil_r; rewrite <- ?app_assoc; cbn [app].
  all: reflexivity.
Qed.

End CountdownFacts.

(** X19. Every countdown has a timer of its own. Whatever the plugin
    holds and whatever is pending: a key pressed while the state is not
    running, with a key on the deck, makes a new timer for the seconds of
    the shared settings (those of the press when the master is pressed)
    and starts it; the timers made before and the work pending for them
    are left as they were; the gateway is set to the armed flag of the
    settings, the state is running, and the first frame, for the full
    duration, is rendered on every device. *)
Theorem press_makes_a_fresh_timer (host : Power.Host)
  (c : EventLoop.Plugin) (key : SDK.KeyAction)
  (s : option Controller.ShutdownSettings) (r : Controller.Role)
  (Hidle : Controller.ActionState.is_running (EventLoop.state c) = false)
  (Hkeys : EventLoop.activeKeys c <> []) :
  let sh := match r with
            | Controller.master => Controller.normalizeSettings s
            | Controller.child => EventLoop.sharedSettings c
            end in
  let d := Controller.countdownSeconds sh in
  exists c' out,
    EventLoop.step host (EventLoop.keyDown (Some key) s r) c = Some (c', out) /\
    EventLoop.timer c' = List.length (EventLoop.timers c) /\
    EventLoop.timers c'
    = EventLoop.timers c ++ [Timer.mkTimer d Timer.running d None] /\
    EventLoop.pool c'
    = EventLoop.pool c
      ++ [EventLoop.mkTask EventLoop.tiles
            [EventLoop.onTick_render;
             EventLoop.runTick_onTick (List.length (EventLoop.timers c))]] /\
    EventLoop.state c' = Controller.ActionState.running /\
    Power.armed (EventLoop.power c') = Controller.armed sh /\
    EventLoop.activeKeys c' = EventLoop.activeKeys c /\
    EventLoop.sharedSettings c' = sh /\
    Observing.countdownValues out
    = repeat d (List.length (EventLoop.getKeysPerDevice c)) /\
    Observing.performed out = [] /\
    Observing.execCommands out = [].
Proof.
  intros sh d.
  pose proof (press_starts host c key s r Hidle Hkeys) as E.
  cbv zeta in E. fold sh in E. fold d in E.
  eexists _, _. split; [exact E|].
  unfold Awaiting.counting.
  cbn [EventLoop.timer EventLoop.timers EventLoop.pool EventLoop.state
       EventLoop.power EventLoop.activeKeys EventLoop.sharedSettings
       Power.armed].
  do 7 (split; [reflexivity|]).
  assert (T : Awaiting.told (snd (Awaiting.takeSettings key s r c)
                    ++ Awaiting.armCalls (Controller.armed sh) c
                    ++ Awaiting.armCalls (Controller.armed sh) c
                    ++ Awaiting.frameCalls d d sh
                         (negb (EventLoop.blinkToggle c))
                         (EventLoop.activeKeys c))
              = (repeat d (List.length (EventLoop.getKeysPerDevice c)), [], [])).
  { set (e0 := snd (Awaiting.takeSettings key s r c)).
    set (e1 := Awaiting.armCalls (Controller.armed sh) c).
    set (e2 := Awaiting.frameCalls d d sh (negb (EventLoop.blinkToggle c))
                                   (EventLoop.activeKeys c)).
    rewrite (told_app e0), (told_app e1), (told_app e1).
    unfold e1, e2. rewrite told_arm, told_frame. unfold e0.
    rewrite told_settings. reflexivity. }
  split; [exact (f_equal (fun t => fst (fst t)) T)|].
  split; [exact (f_equal (fun t => snd (fst t)) T)|exact (f_equal snd T)].
Qed.

Lemma press_makes_a_fresh_timer_witness :
  exists c' out,
    EventLoop.step Notions.demoHost
      (EventLoop.keyDown (Some Notions.demoKey)
                         (Some Observing.liveSettings) Controller.master)
      Awaiting.demoAppeared
    = Some (c', out) /\
    EventLoop.timer c' = 1%nat /\
    EventLoop.timers c'
    = [Timer.mkTimer 10 Timer.idle 0 None;
       Timer.mkTimer 5 Timer.running 5 None] /\
    Observing.countdownValues out = [5].
Proof.
  destruct (press_makes_a_fresh_timer Notions.demoHost Awaiting.demoAppeared
              Notions.demoKey (Some Observing.liveSettings)
              Controller.master eq_refl ltac:(discriminate))
    as (c' & out & E & H1 & H2 & _ & _ & _ & _ & _ & H3 & _).
  exists c', out. split; [exact E|]. split; [exact H1|].
  split; [exact H2 | exact H3].
Defined.

(** X20. A key pressed while no countdown is shown, with a key on the
    deck, runs the whole countdown when it is left to itself. Whatever
    the plugin holds and whatever is pending, with the seconds of the
    shared settings within 5 and 30 as [normalizeSettings] leaves them:
    the press makes a timer for the seconds [d] of the shared settings
    (those of the press when the master is pressed), and when the event
    loop then comes back to the pending work of this countdown alone,
    each time its calls are answered, its timeout fires or its command
    has ended, each group of keys is handed the frames d, d - 1, ..., 0
    and the frame 0 once more on completion; the action of the settings
    is performed exactly once; one command is started when the settings
    are armed and the platform is win32 and none otherwise; the plugin
    ends idle and disarmed with the same keys, its timer idle at 0, and
    the work that was pending before is still pending. *)
Theorem pressed_key_runs_the_countdown (host : Power.Host)
  (c : EventLoop.Plugin) (key : SDK.KeyAction)
  (s : option Controller.ShutdownSettings) (r : Controller.Role)
  (Hidle : Controller.ActionState.is_running (EventLoop.state c) = false)
  (Hkeys : EventLoop.activeKeys c <> [])
  (Hsec : 5 <= Controller.countdownSeconds (EventLoop.sharedSettings c)
          <= 30) :
  let sh := match r with
            | Controller.master => Controller.normalizeSettings s
            | Controller.child => EventLoop.sharedSettings c
            end in
  let d := Controller.countdownSeconds sh in
  let n := Z.to_nat d in
  let command :=
    Controller.armed sh && String.eqb (Power.platform host) "win32" in
  exists c' out,
    EventLoop.exec host
      (EventLoop.keyDown (Some key) s r
       :: Awaiting.countdownWakes (List.length (EventLoop.pool c)) n command)
      c
    = Some (c', out) /\
    Observing.countdownValues out
    = flat_map
        (fun v => repeat v (List.length (EventLoop.getKeysPerDevice c)))
        (Timer.countdown n ++ [0]) /\
    Observing.performed out = [Controller.powerAction sh] /\
    Observing.execCommands out
    = (if command then [Observing.commandOf (Controller.powerAction sh)]
       else []) /\
    EventLoop.state c' = Controller.ActionState.idle /\
    Power.armed (EventLoop.power c') = false /\
    EventLoop.activeKeys c' = EventLoop.activeKeys c /\
    EventLoop.sharedSettings c' = sh /\
    EventLoop.timers c'
    = EventLoop.timers c ++ [Timer.mkTimer d Timer.idle 0 None] /\
    EventLoop.pool c' = EventLoop.pool c.
Proof.
  intros sh d n command.
  assert (Hd : 5 <= d <= 30).
  { unfold d, sh. destruct r; [apply clampSeconds_range | exact Hsec]. }
  pose proof (press_starts host c key s r Hidle Hkeys) as E.
  cbv zeta in E. fold sh in E. fold d in E.
  destruct (runs_down host (EventLoop.timers c) (EventLoop.pool c) d
              (Power.mkPower (Power.logger (EventLoop.power c))
                             (Controller.armed sh))
              (EventLoop.activeKeys c) sh
              (match r with
               | Controller.master => Some (SDK.id key)
               | Controller.child => EventLoop.masterContext c
               end)
              n Hkeys None Controller.ActionState.running
              (negb (EventLoop.blinkToggle c)) (EventLoop.nextHandle c))
    as (c' & out & R & H1 & H2 & H3 & H4 & _ & _ & H7 & H8 & H9).
  cbn [Power.armed] in R, H9. fold command in R, H9.
  replace (Z.of_nat n) with d in R by (unfold n; lia).
  cbn [EventLoop.exec]. rewrite E, R.
  eexists _, _. split; [reflexivity|].
  assert (T : Awaiting.told (snd (Awaiting.takeSettings key s r c)
                    ++ Awaiting.armCalls (Controller.armed sh) c
                    ++ Awaiting.armCalls (Controller.armed sh) c
                    ++ Awaiting.frameCalls d d sh
                         (negb (EventLoop.blinkToggle c))
                         (EventLoop.activeKeys c))
              = (repeat d (List.length (EventLoop.getKeysPerDevice c)), [], [])).
  { set (e0 := snd (Awaiting.takeSettings key s r c)).
    set (e1 := Awaiting.armCalls (Controller.armed sh) c).
    set (e2 := Awaiting.frameCalls d d sh (negb (EventLoop.blinkToggle c))
                                   (EventLoop.activeKeys c)).
    rewrite (told_app e0), (told_app e1), (told_app e1).
    unfold e1, e2. rewrite told_arm, told_frame. unfold e0.
    rewrite told_settings. reflexivity. }
  assert (W : Awaiting.told (( snd (Awaiting.takeSettings key s r c)
                    ++ Awaiting.armCalls (Controller.armed sh) c
                    ++ Awaiting.armCalls (Controller.armed sh) c
                    ++ Awaiting.frameCalls d d sh
                         (negb (EventLoop.blinkToggle c))
                         (EventLoop.activeKeys c)) ++ out)
              = (flat_map
                   (fun v =>
                      repeat v (List.length (EventLoop.getKeysPerDevice c)))
                   (Timer.countdown n ++ [0]),
                 [Controller.powerAction sh],
                 if command
                 then [Observing.commandOf (Controller.powerAction sh)]
                 else [])).
  { rewrite told_app, T, H9. cbn [fst snd app].
    rewrite <- framesAfter_countdown.
    replace (Z.of_nat n) with d by (unfold n; lia).
    cbn [flat_map]. reflexivity. }
  split; [exact (f_equal (fun t => fst (fst t)) W)|].
  split; [exact (f_equal (fun t => snd (fst t)) W)|].
  split; [exact (f_equal snd W)|].
  auto 10.
Qed.

Lemma pressed_key_runs_the_countdown_witness :
  exists c' out,
    EventLoop.exec Notions.demoHost
      (EventLoop.keyDown (Some Notions.demoKey)
                         (Some Observing.liveSettings) Controller.master
       :: Awaiting.countdownWakes 0 5 true)
      Awaiting.demoAppeared
    = Some (c', out) /\
    Observing.countdownValues out = [5; 4; 3; 2; 1; 0; 0] /\
    Observing.performed out = [Power.shutdown] /\
    Observing.execCommands out
    = [Power.execFile "shutdown" ["/s"; "/t"; "0"]%string] /\
    EventLoop.state c' = Controller.ActionState.idle.
Proof.
  destruct (pressed_key_runs_the_countdown Notions.demoHost
              Awaiting.demoAppeared Notions.demoKey
              (Some Observing.liveSettings) Controller.master eq_refl
              ltac:(discriminate) ltac:(vm_compute; split; discriminate))
    as (c' & out & E & H1 & H2 & H3 & H4 & _).
  exists c', out. split; [exact E|]. split; [exact H1|].
  split; [exact H2|]. split; [exact H3 | exact H4].
Defined.



Create HintDb range discriminated.

Section RangeFacts.

Import JS SDK EventLoop.
Import Awaiting.

Variable host : Power.Host.

(** The rules of the monad. *)
Lemma range_ret {A : Type} (a : A) (c : Plugin) :
  inRange c -> keepsRange (ret a) c.
Proof. intros H. split; [exact H | constructor]. Qed.

Lemma range_bind {A B : Type} (m : M A) (k : A -> M B) (c : Plugin) :
  keepsRange m c ->
  (forall a c1 e1, m c = (returned a, c1, e1) -> inRange c1 ->
                   keepsRange (k a) c1) ->
  keepsRange (bind m k) c.
Proof.
  intros [H1 H2] Hk. unfold keepsRange, bind.
  destruct (m c) as [[[a|w frames] c1] e1] eqn:E; cbn [fst snd] in *.
  - destruct (Hk a c1 e1 eq_refl H1) as [K1 K2].
    destruct (k a c1) as [[r c2] e2]. cbn [fst snd] in *.
    split; [exact K1 | apply Forall_app; split; assumption].
  - split; assumption.
Qed.

Lemma range_await (m : M Value) (frame : Frame) (k : Value -> M Value)
  (c : Plugin) :
  keepsRange m c ->
  (forall a c1 e1, m c = (returned a, c1, e1) -> inRange c1 ->
                   keepsRange (k a) c1) ->
  keepsRange (await m frame k) c.
Proof.
  intros [H1 H2] Hk. unfold keepsRange, await.
  destruct (m c) as [[[a|w frames] c1] e1] eqn:E; cbn [fst snd] in *.
  - destruct (Hk a c1 e1 eq_refl H1) as [K1 K2].
    destruct (k a c1) as [[r c2] e2]. cbn [fst snd] in *.
    split; [exact K1 | apply Forall_app; split; assumption].
  - split; assumption.
Qed.

Lemma range_get {B : Type} (k : Plugin -> M B) (c : Plugin) :
  keepsRange (k c) c -> keepsRange (bind get k) c.
Proof.
  intros [H1 H2]. unfold keepsRange, bind, get.
  destruct (k c c) as [[r c2] e2]. cbn [fst snd app] in *.
  split; assumption.
Qed.

Lemma inRange_pool (p : list Task) (c : Plugin) :
  inRange (with_pool p c) <-> inRange c.
Proof. destruct c. reflexivity. Qed.

Lemma inRange_keep (w : Wait) (frames : list Frame) (c : Plugin) :
  inRange (keep w frames c) <-> inRange c.
Proof. destruct frames; [reflexivity | apply inRange_pool]. Qed.

Lemma range_fork {A : Type} (m : M A) (c : Plugin) :
  keepsRange m c -> keepsRange (fork m) c.
Proof.
  intros [H1 H2]. unfold keepsRange, fork.
  destruct (m c) as [[[a|w frames] c1] e1]; cbn [fst snd] in *.
  - split; assumption.
  - split; [now apply inRange_keep | assumption].
Qed.

Lemma range_emit (es : list Controller.Effect) (c : Plugin) :
  inRange c -> Forall totalFits es -> keepsRange (emit es) c.
Proof. intros H He. split; assumption. Qed.

Lemma range_pending {A : Type} (w : Wait) (c : Plugin) :
  inRange c -> keepsRange (@pending A w) c.
Proof. intros H. split; [exact H | constructor]. Qed.

Lemma range_when (b : bool) (m : M unit) (c : Plugin) :
  inRange c -> (b = true -> keepsRange m c) -> keepsRange (when b m) c.
Proof.
  intros H Hm. destruct b; [now apply Hm | now apply range_ret].
Qed.

(** Effects that are no frame. *)
Lemma fits_outside (l : list Power.Effect) :
  Forall totalFits (map Controller.outside l).
Proof. apply Forall_map, Forall_forall. intros x _. exact I. Qed.

Lemma fits_map {A : Type} (f : A -> Controller.Effect) (l : list A) :
  (forall x, totalFits (f x)) -> Forall totalFits (map f l).
Proof. intros H. apply Forall_map, Forall_forall. intros x _. apply H. Qed.

Lemma fits_flat_map {A : Type} (f : A -> list Controller.Effect) (l : list A) :
  (forall x, Forall totalFits (f x)) -> Forall totalFits (flat_map f l).
Proof.
  intros H. induction l as [|x l IH]; cbn; [constructor|].
  apply Forall_app. split; [apply H | exact IH].
Qed.

(** The fields outside the seconds. *)
Lemma range_set_power (p : Power.SystemPower) (c : Plugin) :
  inRange c -> keepsRange (set_power p) c.
Proof. intros H. split; [exact H | constructor]. Qed.

Lemma range_set_activeKeys (k : list (string * Controller.ActionContext))
  (c : Plugin) :
  inRange c -> keepsRange (set_activeKeys k) c.
Proof. intros H. split; [exact H | constructor]. Qed.

Lemma range_set_state (s : Controller.ActionState.t) (c : Plugin) :
  inRange c -> keepsRange (set_state s) c.
Proof. intros H. split; [exact H | constructor]. Qed.

Lemma range_set_blinkToggle (b : bool) (c : Plugin) :
  inRange c -> keepsRange (set_blinkToggle b) c.
Proof. intros H. split; [exact H | constructor]. Qed.

Lemma range_set_masterContext (m : option string) (c : Plugin) :
  inRange c -> keepsRange (set_masterContext m) c.
Proof. intros H. split; [exact H | constructor]. Qed.

Lemma range_set_sharedSettings (s : Controller.NormalizedSettings)
  (c : Plugin) :
  inRange c -> 5 <= Controller.countdownSeconds s <= 30 ->
  keepsRange (set_sharedSettings s) c.
Proof.
  intros (_ & H2 & H3) Hs. split; [|constructor].
  split; [exact Hs | split; assumption].
Qed.

Lemma range_clearTimeout (h : Timer.Handle) (c : Plugin) :
  inRange c -> keepsRange (clearTimeout h) c.
Proof. intros H. split; [now apply inRange_pool | constructor]. Qed.

Lemma range_setTimeout (t : Ref) (c : Plugin) :
  inRange c -> keepsRange (setTimeout t) c.
Proof. intros H. split; [exact H | constructor]. Qed.

(** The timers: a field of a timer is assigned, its duration stays. *)
Lemma kept_by_update {A : Type} (P : A -> Prop) (l : list A) :
  forall i x, Forall P l -> ((i < List.length l)%nat -> P x) ->
              Forall P (update i x l).
Proof.
  induction l as [|y l IH]; intros i x Hl Hx; [destruct i; constructor|].
  inversion Hl; subst.
  destruct i as [|i]; cbn.
  - constructor; [apply Hx; cbn; lia | assumption].
  - constructor; [assumption|]. apply IH; [assumption|].
    intros Hi. apply Hx. cbn. lia.
Qed.

Lemma kept_at {A : Type} (P : A -> Prop) (l : list A) :
  forall i d, Forall P l -> (i < List.length l)%nat -> P (nth i l d).
Proof.
  induction l as [|y l IH]; intros i d Hl Hi; [cbn in Hi; lia|].
  inversion Hl; subst. destruct i as [|i]; [assumption|].
  cbn. apply IH; [assumption | cbn in Hi; lia].
Qed.

Lemma range_set_timerAt (t : Ref) (tm : Timer.CountdownTimer) (c : Plugin) :
  inRange c ->
  Timer.durationSeconds tm = Timer.durationSeconds (timerAt t c) ->
  keepsRange (set_timerAt t tm) c.
Proof.
  intros (H1 & H2 & H3) Hd. split; [|constructor].
  unfold set_timerAt, bind, get, set_timers, inRange.
  cbn [fst snd timers timer sharedSettings].
  split; [exact H1|]. split.
  - apply kept_by_update; [exact H2|]. intros Hi. rewrite Hd.
    unfold timerAt.
    now apply (kept_at (fun tm => 5 <= Timer.durationSeconds tm <= 30)).
  - now rewrite update_length.
Qed.

Lemma range_timer_set_state (t : Ref) (s : Timer.CountdownState)
  (c : Plugin) :
  inRange c -> keepsRange (timer_set_state t s) c.
Proof.
  intros H. unfold timer_set_state. apply range_get.
  now apply range_set_timerAt.
Qed.

Lemma range_timer_set_remaining (t : Ref) (r : Z) (c : Plugin) :
  inRange c -> keepsRange (timer_set_remaining t r) c.
Proof.
  intros H. unfold timer_set_remaining. apply range_get.
  now apply range_set_timerAt.
Qed.

Lemma range_timer_set_timeout (t : Ref) (h : option Timer.Handle)
  (c : Plugin) :
  inRange c -> keepsRange (timer_set_timeout t h) c.
Proof.
  intros H. unfold timer_set_timeout. apply range_get.
  now apply range_set_timerAt.
Qed.

(** [this.timer = new CountdownTimer(seconds)]. *)
Lemma range_new_timer (d : Z) (c : Plugin) :
  inRange c -> 5 <= d <= 30 ->
  keepsRange (t <- new_CountdownTimer d ;; set_timer t) c.
Proof.
  intros (H1 & H2 & H3) Hd. split; [|constructor].
  unfold new_CountdownTimer, bind, get, set_timers, set_timer, ret, inRange.
  cbn [fst snd timers timer sharedSettings].
  split; [exact H1|]. split.
  - apply Forall_app. split; [exact H2|]. constructor; [exact Hd|constructor].
  - rewrite length_app. cbn. lia.
Qed.

#[local] Hint Resolve range_ret range_pending range_set_power
  range_set_activeKeys range_set_state range_set_blinkToggle
  range_set_masterContext range_clearTimeout range_setTimeout
  range_timer_set_state range_timer_set_remaining range_timer_set_timeout
  fits_outside : range.

(** Takes the code apart along its sequencing, its branches and the
    functions already dealt with. *)
Ltac keeping :=
  repeat first
    [ assumption
    | solve [auto 3 with range]
    | apply range_get
    | apply range_bind; [|intros ? ? ? _ ?]
    | apply range_await; [|intros ? ? ? _ ?]
    | apply range_fork
    | apply range_when; [assumption | intros _]
    | apply range_emit; [assumption|]
    | match goal with
      | |- keepsRange (if ?b then _ else _) _ => destruct b
      | |- keepsRange (match ?x with _ => _ end) _ => destruct x
      | |- keepsRange (let (_, _) := ?x in _) _ => destruct x
      | |- Forall totalFits (_ :: _) => constructor; [exact I|]
      | |- Forall totalFits [] => constructor
      end ].

Lemma range_log (message : string) (error : option string) (c : Plugin) :
  inRange c -> keepsRange (log message error) c.
Proof. intros H. unfold log. keeping. Qed.

Lemma range_say (message : string) (error : option string) (c : Plugin) :
  inRange c -> keepsRange (say message error) c.
Proof. intros H. unfold say. keeping. Qed.

#[local] Hint Resolve range_log range_say : range.

Lemma range_power_setArmed (value : bool) (c : Plugin) :
  inRange c -> keepsRange (power_setArmed value) c.
Proof. intros H. unfold power_setArmed. keeping. Qed.

Lemma range_trackKey (action : KeyAction) (r : Controller.Role)
  (c : Plugin) :
  inRange c -> keepsRange (trackKey action r) c.
Proof. intros H. unfold trackKey. keeping. Qed.

Lemma range_untrackKey (action : KeyAction) (c : Plugin) :
  inRange c -> keepsRange (untrackKey action) c.
Proof. intros H. unfold untrackKey. keeping. Qed.

Lemma range_allSettled (groups : list (list KeyAction)) (c : Plugin) :
  inRange c -> keepsRange (allSettled groups) c.
Proof. intros H. unfold allSettled. keeping. Qed.

#[local] Hint Resolve range_power_setArmed range_trackKey range_untrackKey
  range_allSettled : range.

(** The gateway. *)
Lemma range_execFileAsync (command : string) (args : list string)
  (c : Plugin) :
  inRange c -> keepsRange (execFileAsync command args) c.
Proof. intros H. unfold execFileAsync. keeping. Qed.

Lemma range_runCommand_then (command : string) (args : list string)
  (label : string) (c : Plugin) :
  inRange c -> keepsRange (runCommand_execFile_then host command args label) c.
Proof. intros H. unfold runCommand_execFile_then. keeping. Qed.

#[local] Hint Resolve range_execFileAsync range_runCommand_then : range.

Lemma range_runCommand (command : string) (args : list string)
  (label : string) (c : Plugin) :
  inRange c -> keepsRange (runCommand host command args label) c.
Proof. intros H. unfold runCommand. keeping. Qed.

#[local] Hint Resolve range_runCommand : range.

Lemma range_perform (action : Power.PowerAction) (c : Plugin) :
  inRange c -> keepsRange (perform host action) c.
Proof. intros H. unfold perform. keeping. Qed.

Lemma range_abortScheduled (c : Plugin) :
  inRange c -> keepsRange (abortScheduled host) c.
Proof. intros H. unfold abortScheduled. keeping. Qed.

#[local] Hint Resolve range_perform range_abortScheduled : range.

(** The renders: a countdown frame takes its total from [this.timer]. *)
Lemma range_renderCountdown (remaining : Z)
  (settings : Controller.NormalizedSettings) (c : Plugin) :
  inRange c -> keepsRange (renderCountdownAcrossDevices remaining settings) c.
Proof.
  intros H. unfold renderCountdownAcrossDevices. apply range_get.
  assert (Ht : 5 <= Timer.getDurationSeconds (timerAt (timer c) c) <= 30).
  { destruct H as (_ & H2 & H3). unfold timerAt, Timer.getDurationSeconds.
    now apply (kept_at (fun tm => 5 <= Timer.durationSeconds tm <= 30)). }
  cbv zeta. keeping.
  apply fits_map. intros keys. exact Ht.
Qed.

Lemma range_renderMessage (message : string)
  (settings : Controller.NormalizedSettings) (blink : bool) (c : Plugin) :
  inRange c ->
  keepsRange (renderMessageAcrossDevices message settings blink) c.
Proof.
  intros H. unfold renderMessageAcrossDevices. keeping.
  apply fits_map. intros keys. exact I.
Qed.

Lemma range_clearTitles (c : Plugin) :
  inRange c -> keepsRange clearTitlesAcrossDevices c.
Proof.
  intros H. unfold clearTitlesAcrossDevices. keeping.
  apply fits_flat_map. intros keys. apply fits_map. intros key. exact I.
Qed.

#[local] Hint Resolve range_renderCountdown range_renderMessage
  range_clearTitles : range.

Lemma range_renderByState (c : Plugin) :
  inRange c -> keepsRange renderByState c.
Proof. intros H. unfold renderByState. keeping. Qed.

Lemma range_persistMasterSettings (contextId : string)
  (settings : Controller.NormalizedSettings) (c : Plugin) :
  inRange c -> keepsRange (persistMasterSettings contextId settings) c.
Proof. intros H. unfold persistMasterSettings. keeping. Qed.

Lemma range_propagateSettings (c : Plugin) :
  inRange c -> keepsRange propagateSettings c.
Proof.
  intros H. unfold propagateSettings. keeping.
  apply fits_map. intros ctx. exact I.
Qed.

#[local] Hint Resolve range_renderByState range_persistMasterSettings
  range_propagateSettings : range.

Lemma range_setMaster (contextId : string)
  (settings : Controller.NormalizedSettings) (c : Plugin) :
  inRange c -> 5 <= Controller.countdownSeconds settings <= 30 ->
  keepsRange (setMaster contextId settings) c.
Proof.
  intros H Hs. unfold setMaster. keeping.
  now apply range_set_sharedSettings.
Qed.

Lemma range_setMaster_normalized (contextId : string)
  (settings : option Controller.ShutdownSettings) (c : Plugin) :
  inRange c ->
  keepsRange (setMaster contextId (Controller.normalizeSettings settings)) c.
Proof. intros H. apply range_setMaster; [exact H | apply clampSeconds_range]. Qed.

#[local] Hint Resolve range_setMaster_normalized : range.

(** The closures given to the timer. *)
Lemma range_onTick (remaining : Z) (c : Plugin) :
  inRange c -> keepsRange (onTick remaining) c.
Proof. intros H. unfold onTick. keeping. Qed.

Lemma range_onComplete_perform_then (c : Plugin) :
  inRange c -> keepsRange onComplete_perform_then c.
Proof. intros H. unfold onComplete_perform_then. keeping. Qed.

#[local] Hint Resolve range_onTick range_onComplete_perform_then : range.

Lemma range_onComplete_clearTitles_then (c : Plugin) :
  inRange c -> keepsRange (onComplete_clearTitles_then host) c.
Proof. intros H. unfold onComplete_clearTitles_then. keeping. Qed.

#[local] Hint Resolve range_onComplete_clearTitles_then : range.

Lemma range_onComplete_render_then (c : Plugin) :
  inRange c -> keepsRange (onComplete_render_then host) c.
Proof. intros H. unfold onComplete_render_then. keeping. Qed.

#[local] Hint Resolve range_onComplete_render_then : range.

Lemma range_onComplete (c : Plugin) :
  inRange c -> keepsRange (onComplete host) c.
Proof. intros H. unfold onComplete. keeping. Qed.

#[local] Hint Resolve range_onComplete : range.

(** The timer. *)
Lemma range_runTick_onTick_then (t : Ref) (c : Plugin) :
  inRange c -> keepsRange (runTick_onTick_then host t) c.
Proof. intros H. unfold runTick_onTick_then. keeping. Qed.

#[local] Hint Resolve range_runTick_onTick_then : range.

Lemma range_runTick (t : Ref) (c : Plugin) :
  inRange c -> keepsRange (runTick host t) c.
Proof. intros H. unfold runTick. keeping. Qed.

#[local] Hint Resolve range_runTick : range.

Lemma range_scheduleTick (t : Ref) (c : Plugin) :
  inRange c -> keepsRange (scheduleTick host t) c.
Proof. intros H. unfold scheduleTick. keeping. Qed.

#[local] Hint Resolve range_scheduleTick : range.

Lemma range_start (t : Ref) (c : Plugin) :
  inRange c -> keepsRange (start host t) c.
Proof. intros H. unfold start. keeping. Qed.

Lemma range_timeout_callback (t : Ref) (c : Plugin) :
  inRange c -> keepsRange (timeout_callback_run host t) c.
Proof. intros H. unfold timeout_callback_run. keeping. Qed.

Lemma range_cancel_onCancel_then (t : Ref) (c : Plugin) :
  inRange c -> keepsRange (cancel_onCancel_then t) c.
Proof. intros H. unfold cancel_onCancel_then. keeping. Qed.

#[local] Hint Resolve range_start range_timeout_callback
  range_cancel_onCancel_then : range.

Lemma range_cancel (t : Ref) (c : Plugin) :
  inRange c -> keepsRange (cancel host t) c.
Proof. intros H. unfold cancel, onCancel. keeping. Qed.

#[local] Hint Resolve range_cancel : range.

(** The controller. *)
Lemma range_seconds (c : Plugin) :
  inRange c -> 5 <= Controller.countdownSeconds (sharedSettings c) <= 30.
Proof. now intros [H _]. Qed.

#[local] Hint Resolve range_seconds range_new_timer : range.

Lemma range_startCountdown (c : Plugin) :
  inRange c -> keepsRange (startCountdown host) c.
Proof. intros H. unfold startCountdown. keeping. Qed.

Lemma range_cancelCountdown_shutdown_then (c : Plugin) :
  inRange c -> keepsRange cancelCountdown_shutdown_then c.
Proof. intros H. unfold cancelCountdown_shutdown_then. keeping. Qed.

#[local] Hint Resolve range_startCountdown
  range_cancelCountdown_shutdown_then : range.

Lemma range_cancelCountdown_clearTitles_then (c : Plugin) :
  inRange c -> keepsRange cancelCountdown_clearTitles_then c.
Proof. intros H. unfold cancelCountdown_clearTitles_then. keeping. Qed.

#[local] Hint Resolve range_cancelCountdown_clearTitles_then : range.

Lemma range_cancelCountdown_cancelled_then (c : Plugin) :
  inRange c -> keepsRange cancelCountdown_cancelled_then c.
Proof. intros H. unfold cancelCountdown_cancelled_then. keeping. Qed.

#[local] Hint Resolve range_cancelCountdown_cancelled_then : range.

Lemma range_cancelCountdown_cancel_then (v : Value) (c : Plugin) :
  inRange c -> keepsRange (cancelCountdown_cancel_then v) c.
Proof. intros H. unfold cancelCountdown_cancel_then. keeping. Qed.

#[local] Hint Resolve range_cancelCountdown_cancel_then : range.

Lemma range_cancelCountdown (c : Plugin) :
  inRange c -> keepsRange (cancelCountdown host) c.
Proof. intros H. unfold cancelCountdown. keeping. Qed.

#[local] Hint Resolve range_cancelCountdown : range.

Lemma range_register (action : option KeyAction)
  (settings : option Controller.ShutdownSettings) (r : Controller.Role)
  (c : Plugin) :
  inRange c -> keepsRange (register action settings r) c.
Proof.
  intros H. unfold register, Controller.getKeyAction. cbv zeta. keeping.
Qed.

Lemma range_unregister (action : option KeyAction) (r : Controller.Role)
  (c : Plugin) :
  inRange c -> keepsRange (unregister host action r) c.
Proof. intros H. unfold unregister, Controller.getKeyAction. keeping. Qed.

Lemma range_handleSettings (action : option KeyAction)
  (settings : option Controller.ShutdownSettings) (r : Controller.Role)
  (c : Plugin) :
  inRange c -> keepsRange (handleSettings action settings r) c.
Proof.
  intros H. unfold handleSettings, Controller.getKeyAction. cbv zeta. keeping.
Qed.

Lemma range_handleKeyDown (action : option KeyAction)
  (settings : option Controller.ShutdownSettings) (r : Controller.Role)
  (c : Plugin) :
  inRange c -> keepsRange (handleKeyDown host action settings r) c.
Proof. intros H. unfold handleKeyDown, Controller.getKeyAction. keeping. Qed.

(** The event loop. *)
Lemma range_resume (frame : Frame) (v : Value) (c : Plugin) :
  inRange c -> keepsRange (resume host frame v) c.
Proof. intros H. destruct frame; cbn [resume]; keeping. Qed.

Lemma range_resumeStack (frames : list Frame) :
  forall v c, inRange c -> keepsRange (resumeStack host frames v) c.
Proof.
  induction frames as [|frame rest IH]; intros v c H; cbn [resumeStack].
  - now apply range_ret.
  - destruct (range_resume frame v c H) as [H1 H2].
    unfold keepsRange.
    destruct (resume host frame v c) as [[[v'|w inner] c1] e1];
      cbn [fst snd] in *.
    + destruct (IH v' c1 H1) as [K1 K2].
      destruct (resumeStack host rest v' c1) as [[r c2] e2].
      cbn [fst snd] in *.
      split; [exact K1 | apply Forall_app; split; assumption].
    + split; assumption.
Qed.

Lemma range_run {A : Type} (m : M A) (c : Plugin) :
  keepsRange m c ->
  inRange (fst (run m c)) /\ Forall totalFits (snd (run m c)).
Proof.
  intros [H1 H2]. unfold run.
  destruct (m c) as [[[a|w frames] c1] e1]; cbn [fst snd] in *.
  - split; assumption.
  - split; [now apply inRange_keep | assumption].
Qed.

Lemma range_step (e : Event) (c c' : Plugin) (out : list Controller.Effect) :
  inRange c -> step host e c = Some (c', out) ->
  inRange c' /\ Forall totalFits out.
Proof.
  intros H E.
  assert (R : forall (A : Type) (m : M A) c0,
            inRange c0 -> keepsRange m c0 -> Some (run m c0) = Some (c', out) ->
            inRange c' /\ Forall totalFits out).
  { intros A m c0 _ Hm Er. apply range_run in Hm.
    inversion Er as [Eq]. rewrite Eq in Hm. exact Hm. }
  destruct e as [a s r|a r|a s r|a s r|i]; cbn [step] in E.
  - apply (R _ _ _ H (range_register a s r c H) E).
  - apply (R _ _ _ H (range_unregister a r c H) E).
  - apply (R _ _ _ H (range_handleSettings a s r c H) E).
  - apply (R _ _ _ H (range_handleKeyDown a s r c H) E).
  - destruct (nth_error (pool c) i) as [task|]; [|discriminate E].
    assert (Hp : inRange (with_pool (removeAt i (pool c)) c))
      by now apply inRange_pool.
    apply (R _ _ _ Hp (range_resumeStack (stack task) undefined _ Hp) E).
Qed.

Lemma range_exec (es : list Event) :
  forall c c' out,
    inRange c -> exec host es c = Some (c', out) ->
    inRange c' /\ Forall totalFits out.
Proof.
  induction es as [|e es IH]; intros c c' out H E; cbn [exec] in E.
  - inversion E; subst. split; [exact H | constructor].
  - destruct (step host e c) as [[c1 o1]|] eqn:E1; [|discriminate E].
    destruct (exec host es c1) as [[c2 o2]|] eqn:E2; [|discriminate E].
    inversion E; subst.
    destruct (range_step e c c1 o1 H E1) as [H1 F1].
    destruct (IH c1 c' o2 H1 E2) as [H2 F2].
    split; [exact H2 | apply Forall_app; split; assumption].
Qed.

Lemma create_inRange : inRange create.
Proof.
  unfold inRange, create.
  cbn [sharedSettings timers timer Datatypes.length].
  split; [vm_compute; split; discriminate|].
  split; [|lia].
  constructor; [vm_compute; split; discriminate | constructor].
Qed.

End RangeFacts.

(** X18. Every countdown frame has a total the settings allow. Whatever
    events reach the plugin, whatever is pending and in whatever order
    the event loop comes back to it: from a plugin whose seconds are in
    range, as the new plugin is, each call of [renderCountdown] has a
    total between 5 and 30, and the seconds of the shared settings and
    the duration of every timer made stay within 5 and 30, with
    [this.timer] one of the timers. *)
Theorem countdown_totals_stay_in_range (host : Power.Host)
  (events : list EventLoop.Event) (c c' : EventLoop.Plugin)
  (out : list Controller.Effect)
  (Hrange : Awaiting.inRange c)
  (Hrun : EventLoop.exec host events c = Some (c', out)) :
  Forall Awaiting.totalFits out /\ Awaiting.inRange c'.
Proof.
  destruct (range_exec host events c c' out Hrange Hrun) as [H F].
  split; assumption.
Qed.

Lemma countdown_totals_stay_in_range_witness :
  Awaiting.inRange EventLoop.create /\
  exists c' out,
    EventLoop.exec Notions.demoHost
      (Awaiting.pressed ++ repeat (EventLoop.wakes 0%nat) 19)
      EventLoop.create
    = Some (c', out) /\
    Forall Awaiting.totalFits out /\ Awaiting.inRange c'.
Proof.
  split; [exact create_inRange|].
  destruct (EventLoop.exec Notions.demoHost
              (Awaiting.pressed ++ repeat (EventLoop.wakes 0%nat) 19)
              EventLoop.create) as [[c' out]|] eqn:E;
    [|vm_compute in E; discriminate E].
  exists c', out. split; [reflexivity|].
  exact (countdown_totals_stay_in_range Notions.demoHost
           (Awaiting.pressed ++ repeat (EventLoop.wakes 0%nat) 19)
           EventLoop.create c' out create_inRange E).
Defined.

Section Propagation.

Import JS SDK Controller Observing.

Variable host : Power.Host.

Lemma bind_effects {A B : Type} (m : M A) (k : A -> M B)
  (c : ShutdownController) :
  snd (bind m k c)
  = snd (m c) ++ snd (k (fst (fst (m c))) (snd (fst (m c)))).
Proof.
  unfold bind. destruct (m c) as [[a c1] e1]. cbn.
  destruct (k a c1) as [[b c2] e2]. reflexivity.
Qed.

Lemma bind_state {A B : Type} (m : M A) (k : A -> M B)
  (c : ShutdownController) :
  snd (fst (bind m k c))
  = snd (fst (k (fst (fst (m c))) (snd (fst (m c))))).
Proof.
  unfold bind. destruct (m c) as [[a c1] e1]. cbn.
  destruct (k a c1) as [[b c2] e2]. reflexivity.
Qed.

(** What [setMaster] does: the settings are shared, the key is the
    master, and the settings are handed to the key and to every child. *)
Lemma setMaster_effects (contextId : string) (settings : NormalizedSettings)
  (c : ShutdownController) :
  holds (settingsKept settings (Some contextId))
        (snd (fst (setMaster contextId settings c))) /\
  activeKeys (snd (fst (setMaster contextId settings c))) = activeKeys c /\
  (forall ctx,
     In ctx (map_values (activeKeys c)) -> role ctx = child ->
     In (setSettings (id (ctx_action ctx)) settings)
        (snd (setMaster contextId settings c))) /\
  (forall ctx,
     map_get contextId (activeKeys c) = Some ctx ->
     In (setSettings (id (ctx_action ctx)) settings)
        (snd (setMaster contextId settings c))).
Proof.
  destruct c as [t p keys st b sh mc].
  unfold setMaster, persistMasterSettings, propagateSettings, bind, get, emit,
    ret, set_masterContext, set_sharedSettings.
  cbn [activeKeys sharedSettings masterContext timer power state blinkToggle
       fst snd].
  destruct (map_get contextId keys) as [found|] eqn:Eg;
    cbn [fst snd app holds settingsKept sharedSettings masterContext
         activeKeys].
  all: split; [split; reflexivity|]; split; [reflexivity|]; split.
  - intros ctx I R. right. apply in_map_iff. exists ctx. split; [reflexivity|].
    apply filter_In. split; [exact I | now rewrite R].
  - intros ctx E. inversion E; subst. now left.
  - intros ctx I R. apply in_map_iff. exists ctx. split; [reflexivity|].
    apply filter_In. split; [exact I | now rewrite R].
  - intros ctx E. discriminate E.
Qed.

(** What follows [setMaster] in a handler keeps the settings and the
    registry. *)
Lemma after_setMaster {B : Type} (contextId : string)
  (settings : NormalizedSettings) (rest : M B) (c : ShutdownController) :
  (forall c1, holds (settingsKept settings (Some contextId)) c1 ->
              keeps_at (settingsKept settings (Some contextId)) c1 rest) ->
  (forall c1, holds (keysKept (activeKeys c)) c1 ->
              keeps_at (keysKept (activeKeys c)) c1 rest) ->
  let r := bind (setMaster contextId settings) (fun _ => rest) c in
  sharedSettings (snd (fst r)) = settings /\
  masterContext (snd (fst r)) = Some contextId /\
  (forall ctx,
     In ctx (map_values (activeKeys (snd (fst r)))) -> role ctx = child ->
     In (setSettings (id (ctx_action ctx)) settings) (snd r)) /\
  (forall ctx,
     map_get contextId (activeKeys (snd (fst r))) = Some ctx ->
     In (setSettings (id (ctx_action ctx)) settings) (snd r)).
Proof.
  intros Hrest Hkeys. cbv zeta.
  destruct (setMaster_effects contextId settings c) as (Hs & Hk & Hc & Hm).
  rewrite bind_state, bind_effects.
  destruct (Hrest _ Hs) as [[K1 K2] _].
  destruct (Hkeys _ Hk) as [K3 _]. cbn [holds keysKept] in K3. rewrite K3.
  split; [exact K1|]. split; [exact K2|].
  split; intros ctx; intros; apply in_or_app; left; auto.
Qed.

Lemma master_event_propagates (ev : Actions.SdkEvent) (key : KeyAction)
  (s : option ShutdownSettings) (c c' : ShutdownController)
  (out : list Effect) :
  carries ev = Some (key, s) ->
  step host (Actions.ShutdownMasterAction ev) c = Some (c', out) ->
  sharedSettings c' = normalizeSettings s /\
  masterContext c' = Some (id key) /\
  (forall ctx,
     In ctx (map_values (activeKeys c')) -> role ctx = child ->
     In (setSettings (id (ctx_action ctx)) (normalizeSettings s)) out) /\
  (forall ctx,
     map_get (id key) (activeKeys c') = Some ctx ->
     In (setSettings (id (ctx_action ctx)) (normalizeSettings s)) out).
Proof.
  intros Hev H.
  destruct ev as [[k|] s'|[k|] s'|[k|]|[k|] s']; try discriminate Hev;
    cbn in Hev; inversion Hev; subst k s'; clear Hev;
    cbn [Actions.ShutdownMasterAction Actions.forward step] in H;
    apply handler_result in H; destruct H as [-> ->].
  - (* onWillAppear *)
    unfold register, getKeyAction. cbv beta iota zeta.
    rewrite bind_state, bind_effects.
    assert (E0 : snd (trackKey key master c) = [])
      by (destruct c; reflexivity).
    rewrite E0. cbn [app].
    apply after_setMaster; intros c1 Hc1; open_handlers;
      [walk kept_setter kept_leaf | walk keys_setter keys_leaf].
  - (* onDidReceiveSettings *)
    unfold handleSettings, getKeyAction. cbv beta iota zeta.
    apply after_setMaster; intros c1 Hc1; open_handlers;
      [walk kept_setter kept_leaf | walk keys_setter keys_leaf].
  - (* onKeyDown *)
    unfold handleKeyDown, getKeyAction. cbv beta iota zeta.
    apply after_setMaster; intros c1 Hc1; open_handlers;
      [walk kept_setter kept_leaf | walk keys_setter keys_leaf].
Qed.

End Propagation.

(** X21. The settings of the master reach every key. When the master
    action forwards an event that carries a key and settings (the key
    appears, its settings arrive, or it is pressed), then whatever the
    state: the normalized settings become the shared settings, the key
    becomes the master, and in that same step the settings are handed by
    [setSettings] to every key tracked as a child and to the key itself
    when it is tracked. *)
Theorem master_settings_reach_every_child (host : Power.Host)
  (ev : Actions.SdkEvent) (key : SDK.KeyAction)
  (s : option Controller.ShutdownSettings)
  (c c' : Controller.ShutdownController) (out : list Controller.Effect)
  (Hev : Observing.carries ev = Some (key, s))
  (Hstep : Controller.step host (Actions.ShutdownMasterAction ev) c
           = Some (c', out)) :
  Controller.sharedSettings c' = Controller.normalizeSettings s /\
  Controller.masterContext c' = Some (SDK.id key) /\
  (forall ctx,
     In ctx (Controller.map_values (Controller.activeKeys c')) ->
     Controller.role ctx = Controller.child ->
     In (Controller.setSettings (SDK.id (Controller.ctx_action ctx))
                                (Controller.normalizeSettings s)) out) /\
  (forall ctx,
     Controller.map_get (SDK.id key) (Controller.activeKeys c') = Some ctx ->
     In (Controller.setSettings (SDK.id (Controller.ctx_action ctx))
                                (Controller.normalizeSettings s)) out).
Proof. exact (master_event_propagates host ev key s c c' out Hev Hstep). Qed.

Lemma master_settings_reach_every_child_witness :
  exists c' out,
    Controller.step Notions.demoHost
      (Actions.ShutdownMasterAction
         (Actions.onWillAppear (Some Notions.demoKey)
                               (Some Observing.liveSettings)))
      Observing.withChild
    = Some (c', out) /\
    Controller.countdownSeconds (Controller.sharedSettings c') = 5 /\
    In (Controller.setSettings "key-2"%string
          (Controller.normalizeSettings (Some Observing.liveSettings))) out.
Proof.
  destruct (Controller.step Notions.demoHost
              (Actions.ShutdownMasterAction
                 (Actions.onWillAppear (Some Notions.demoKey)
                                       (Some Observing.liveSettings)))
              Observing.withChild) as [[c' out]|] eqn:E;
    [|vm_compute in E; discriminate E].
  exists c', out. split; [reflexivity|].
  destruct (master_settings_reach_every_child Notions.demoHost
              (Actions.onWillAppear (Some Notions.demoKey)
                                    (Some Observing.liveSettings))
              Notions.demoKey (Some Observing.liveSettings)
              Observing.withChild c' out eq_refl E) as (Hs & _ & Hc & _).
  split; [rewrite Hs; vm_compute; reflexivity|].
  apply (Hc (Controller.mkContext "key-2"%string Observing.childKey
                                  Controller.child "deck-1"%string));
    [|reflexivity].
  vm_compute in E. inversion E. cbn. left. reflexivity.
Defined.

Section SegmentFacts.

Import JS Renderer.

Lemma parseDigit_range (char : ascii) : 0 <= parseDigit char <= 9.
Proof.
  unfold parseDigit.
  destruct ((48 <=? Z.of_nat (nat_of_ascii char))
            && (Z.of_nat (nat_of_ascii char) <=? 57)) eqn:E; [|lia].
  apply andb_true_iff in E as [E1 E2].
  apply Z.leb_le in E1, E2. lia.
Qed.

Lemma segments_apart (a b : Z) :
  0 <= a <= 9 -> 0 <= b <= 9 ->
  segmentsForDigit a = segmentsForDigit b -> a = b.
Proof.
  intros Ha Hb.
  assert (Da : a = 0 \/ a = 1 \/ a = 2 \/ a = 3 \/ a = 4 \/ a = 5 \/ a = 6
               \/ a = 7 \/ a = 8 \/ a = 9) by lia.
  assert (Db : b = 0 \/ b = 1 \/ b = 2 \/ b = 3 \/ b = 4 \/ b = 5 \/ b = 6
               \/ b = 7 \/ b = 8 \/ b = 9) by lia.
  clear Ha Hb.
  repeat (destruct Da as [->|Da]); try subst a;
    repeat (destruct Db as [->|Db]); try subst b;
    cbn; intros H; first [reflexivity | discriminate H].
Qed.

Lemma segments_seven (d : Z) : List.length (segmentsForDigit d) = 7%nat.
Proof.
  unfold segmentsForDigit.
  repeat match goal with
         | |- context [match ?x with _ => _ end] => destruct x
         end; reflexivity.
Qed.

End SegmentFacts.

(** X24. The digits are told apart. Every character of a countdown value
    is drawn with seven segment flags; two characters get the same
    segments exactly when they stand for the same digit, so no two
    digits look alike; and a character that is no decimal digit is drawn
    as the digit 0. *)
Theorem digits_are_told_apart :
  (forall c1 c2 : ascii,
     Renderer.segmentsForDigit (Renderer.parseDigit c1)
     = Renderer.segmentsForDigit (Renderer.parseDigit c2)
     <-> Renderer.parseDigit c1 = Renderer.parseDigit c2) /\
  (forall c : ascii,
     List.length (Renderer.segmentsForDigit (Renderer.parseDigit c)) = 7%nat)
  /\
  (forall c : ascii,
     (nat_of_ascii c < 48 \/ 57 < nat_of_ascii c)%nat ->
     Renderer.segmentsForDigit (Renderer.parseDigit c)
     = Renderer.segmentsForDigit 0).
Proof.
  split; [|split].
  - intros c1 c2. split.
    + apply segments_apart; apply parseDigit_range.
    + intros ->. reflexivity.
  - intros c. apply segments_seven.
  - intros c H. unfold Renderer.parseDigit.
    destruct ((48 <=? Z.of_nat (nat_of_ascii c))
              && (Z.of_nat (nat_of_ascii c) <=? 57)) eqn:E; [|reflexivity].
    apply andb_true_iff in E as [E1 E2].
    apply Z.leb_le in E1, E2. lia.
Qed.

Section ScreenFacts.

Import JS SDK Controller Notions Observing.

Variable host : Power.Host.

Lemma messages_app (a b : list Effect) :
  messages (a ++ b) = messages a ++ messages b.
Proof. apply flat_map_app. Qed.

Lemma messages_cons (e : Effect) (l : list Effect) :
  messages (e :: l) = messages [e] ++ messages l.
Proof. apply (messages_app [e] l). Qed.

Lemma messages_map {A : Type} (f : A -> Effect) (l : list A) :
  (forall x, messages [f x] = []) -> messages (map f l) = [].
Proof.
  intros H. induction l as [|x l IH]; [reflexivity|].
  cbn [map]. now rewrite messages_cons, H, IH.
Qed.

Lemma messages_flat_map {A : Type} (f : A -> list Effect) (l : list A) :
  (forall x, messages (f x) = []) -> messages (flat_map f l) = [].
Proof.
  intros H. induction l as [|x l IH]; [reflexivity|].
  cbn [flat_map]. now rewrite messages_app, H, IH.
Qed.

Lemma messages_renders (m : string)
  (o : list KeyAction -> Renderer.RenderOptions)
  (groups : list (list KeyAction)) :
  messages (map (fun keys => renderer (renderMessage m keys (o keys))) groups)
  = repeat m (List.length groups).
Proof.
  induction groups as [|g groups IH]; [reflexivity|].
  cbn [map List.length repeat]. rewrite messages_cons, IH. reflexivity.
Qed.

(** Works out the messages and the countdown values among some
    effects. *)
Ltac screened :=
  repeat first
    [ rewrite messages_app | rewrite countdownValues_app
    | match goal with
      | |- context [messages (?e :: ?l)] =>
          lazymatch l with
          | [] => fail
          | _ => rewrite (messages_cons e l)
          end
      | |- context [countdownValues (?e :: ?l)] =>
          lazymatch l with
          | [] => fail
          | _ => rewrite (countdownValues_cons e l)
          end
      end ];
  rewrite ?countdownValues_renders, ?messages_renders;
  repeat first
    [ rewrite countdownValues_map by reflexivity
    | rewrite messages_map by reflexivity
    | rewrite countdownValues_flat_map
        by (intros ?; apply countdownValues_map; reflexivity)
    | rewrite messages_flat_map
        by (intros ?; apply messages_map; reflexivity) ];
  cbn [countdownValues messages flat_map app];
  rewrite ?app_nil_r.

Lemma screen_after_settings (ev : Actions.SdkEvent) (r : Role)
  (key : KeyAction) (s : option ShutdownSettings)
  (c c' : ShutdownController) (out : list Effect) :
  ev = Actions.onWillAppear (Some key) s \/
  ev = Actions.onDidReceiveSettings (Some key) s ->
  step host (Actions.forward r ev) c = Some (c', out) ->
  if ActionState.is_running (state c) then
    messages out = [] /\
    countdownValues out
    = repeat (Timer.remainingSeconds (Timer.self (timer c)))
             (List.length (getKeysPerDevice c'))
  else
    countdownValues out = [] /\
    messages out
    = repeat (if armed (sharedSettings c')
              then "Live mode - press to start"%string
              else "Preview mode - press to start"%string)
             (List.length (getKeysPerDevice c')).
Proof.
  intros Hev H.
  destruct c as [[[d ts rem to] tms nh ta ca] p keys st b sh mc].
  revert H.
  destruct Hev as [-> | ->]; cbn [Actions.forward].
  - destruct (map_get (id key)
                (map_set (id key)
                   (mkContext (id key) key master
                      (orElse (device key) "unknown-device"%string))
                   keys)) eqn:Eg.
    all: destruct r, st;
      unfold_controller; try rewrite Eg; unfold_controller;
      intros H; inversion H; subst; clear H;
      rewrite ?groups_of; cbn [activeKeys sharedSettings];
      split; screened; reflexivity.
  - destruct (map_get (id key) keys) eqn:Eg.
    all: destruct r, st;
      unfold_controller; try rewrite Eg; unfold_controller;
      intros H; inversion H; subst; clear H;
      rewrite ?groups_of; cbn [activeKeys sharedSettings];
      split; screened; reflexivity.
Qed.

End ScreenFacts.

(** X23. The screen follows the settings. When a key appears or its
    settings arrive, for the master and for a child alike: while no
    countdown runs, every group of keys is shown the message of the mode
    of the settings then in force, Live mode when they are armed and
    Preview mode when not, and no countdown frame; while a countdown
    runs, every group is shown the frame of the value the timer is at,
    and no message. *)
Theorem screen_follows_settings (host : Power.Host)
  (ev : Actions.SdkEvent) (r : Controller.Role) (key : SDK.KeyAction)
  (s : option Controller.ShutdownSettings)
  (c c' : Controller.ShutdownController) (out : list Controller.Effect)
  (Hev : ev = Actions.onWillAppear (Some key) s \/
         ev = Actions.onDidReceiveSettings (Some key) s)
  (Hstep : Controller.step host (Actions.forward r ev) c = Some (c', out)) :
  if Controller.ActionState.is_running (Controller.state c) then
    Notions.messages out = [] /\
    Observing.countdownValues out
    = repeat (Timer.remainingSeconds (Timer.self (Controller.timer c)))
             (List.length (Controller.getKeysPerDevice c'))
  else
    Observing.countdownValues out = [] /\
    Notions.messages out
    = repeat (if Controller.armed (Controller.sharedSettings c')
              then "Live mode - press to start"%string
              else "Preview mode - press to start"%string)
             (List.length (Controller.getKeysPerDevice c')).
Proof. exact (screen_after_settings host ev r key s c c' out Hev Hstep). Qed.

Lemma screen_follows_settings_witness :
  exists c' out,
    Controller.step Notions.demoHost
      (Actions.forward Controller.master
         (Actions.onDidReceiveSettings (Some Notions.demoKey)
                                       (Some Observing.liveSettings)))
      (fst Observing.appeared)
    = Some (c', out) /\
    Notions.messages out = ["Live mode - press to start"%string].
Proof.
  destruct (Controller.step Notions.demoHost
              (Actions.forward Controller.master
                 (Actions.onDidReceiveSettings (Some Notions.demoKey)
                                               (Some Observing.liveSettings)))
              (fst Observing.appeared)) as [[c' out]|] eqn:E;
    [|vm_compute in E; discriminate E].
  exists c', out. split; [reflexivity|].
  pose proof (screen_follows_settings Notions.demoHost
                (Actions.onDidReceiveSettings (Some Notions.demoKey)
                                              (Some Observing.liveSettings))
                Controller.master Notions.demoKey
                (Some Observing.liveSettings) (fst Observing.appeared) c' out
                (or_intror eq_refl) E) as H.
  change (Controller.ActionState.is_running
            (Controller.state (fst Observing.appeared))) with false in H.
  cbv iota in H. destruct H as [_ H]. rewrite H.
  vm_compute in E. inversion E. reflexivity.
Defined.
